(** * nxdumptool: the NSP dump routine of [code_templates/nsp_dumper_usb.c]

    A shallow embedding of [nspDump], the routine that assembles a
    Nintendo Submission Package out of the content archives (NCAs) of a
    title and streams it over USB, together with the properties of the
    package layout, of the streamed bytes and of the transport dialogue
    that the design document states.

    [nspDump] is written against the collaborators of the other
    translation units of the program (nca.c, cnmt.c, pfs.c, tik.c, cert.c,
    usb.c, ...).  What those compute from data that lives on the console is
    gathered in the record [Collaborators]; what the routine itself decides
    (control flow, order of calls, which buffer is hashed and sent, which
    entry is renamed) is translated statement by statement. *)

From Stdlib Require Import ZArith String Ascii List Lia Bool.
From Stdlib.Strings Require Import Byte.
From stdpp Require Import base tactics option list strings.
Import ListNotations.

Local Open Scope string_scope.
Local Open Scope list_scope.

(** ** Machine integers *)

(** [u64] and [u32] values are kept in [Z]; the wrap-around of the C
    arithmetic is written where the source computes. *)
Definition u64 (z : Z) : Z := (z mod 2 ^ 64)%Z.
Definition u32 (z : Z) : Z := (z mod 2 ^ 32)%Z.

(** [#define BLOCK_SIZE 0x800000] *)
Definition BLOCK_SIZE : Z := 0x800000%Z.

(** [SHA256_HASH_SIZE] of libnx. *)
Definition SHA256_HASH_SIZE : nat := 32.

(** A C array of [n] bytes read out of a byte sequence: short sequences
    read as zero-filled, as a zero-initialised array does. *)
Definition byte_array (n : nat) (l : list byte) : list byte :=
  take n (l ++ replicate n x00).

(** ** Strings *)

Fixpoint string_drop (n : nat) (s : string) : string :=
  match n, s with
  | S n', String _ s' => string_drop n' s'
  | _, _ => s
  end.

Definition hex_digit (n : N) : ascii :=
  match n with
  | 0%N => "0" | 1%N => "1" | 2%N => "2" | 3%N => "3"
  | 4%N => "4" | 5%N => "5" | 6%N => "6" | 7%N => "7"
  | 8%N => "8" | 9%N => "9" | 10%N => "a" | 11%N => "b"
  | 12%N => "c" | 13%N => "d" | 14%N => "e" | _ => "f"
  end%char.

(** Modelled from the spec: utils.c is not part of the sources.
    Identifiers are printed as constant-width lowercase hexadecimal, two
    digits per byte. *)
Fixpoint utilsGenerateHexStringFromData (src : list byte) : string :=
  match src with
  | [] => EmptyString
  | b :: src' =>
      String (hex_digit (Byte.to_N b / 16))
        (String (hex_digit (Byte.to_N b mod 16))
           (utilsGenerateHexStringFromData src'))
  end.

(** ** libnx enumerations used by the routine *)

Inductive NcmContentType :=
| NcmContentType_Meta
| NcmContentType_Program
| NcmContentType_Data
| NcmContentType_Control
| NcmContentType_HtmlDocument
| NcmContentType_LegalInformation
| NcmContentType_DeltaFragment.

Inductive NcmStorageId :=
| NcmStorageId_None
| NcmStorageId_Host
| NcmStorageId_GameCard
| NcmStorageId_BuiltInSystem
| NcmStorageId_BuiltInUser
| NcmStorageId_SdCard
| NcmStorageId_Any.

Inductive TikTitleKeyType :=
| TikTitleKeyType_Common
| TikTitleKeyType_Personalized.

Inductive GameCardHashFileSystemPartitionType :=
| GameCardHashFileSystemPartitionType_Root
| GameCardHashFileSystemPartitionType_Secure.

Global Instance NcmContentType_eq_dec : EqDecision NcmContentType.
Proof. solve_decision. Defined.

Global Instance NcmStorageId_eq_dec : EqDecision NcmStorageId.
Proof. solve_decision. Defined.

Global Instance TikTitleKeyType_eq_dec : EqDecision TikTitleKeyType.
Proof. solve_decision. Defined.

(** ** Title records *)

Record NcmContentInfo := {
  ci_content_id : list byte;      (* NcmContentId, 0x10 bytes *)
  ci_size : Z;
  ci_content_type : NcmContentType;
  ci_id_offset : Z
}.

Record TitleInfo := {
  storage_id : NcmStorageId;
  version_value : Z;
  content_infos : list NcmContentInfo
}.

(** [title_info->content_count]: the number of records behind
    [content_infos]. *)
Definition content_count (t : TitleInfo) : nat := length (content_infos t).

(** [options[]], read once at the top of [nspDump]. *)
Record options_t := {
  set_download_type : bool;
  remove_console_data : bool;
  remove_titlekey_crypto : bool;
  change_acid_rsa : bool
}.

(** The initialiser of [options]: every switch off. *)
Definition default_options : options_t :=
  {| set_download_type := false; remove_console_data := false;
     remove_titlekey_crypto := false; change_acid_rsa := false |}.

(** ** Contexts of the collaborating modules *)

Record Ticket := {
  tik_size : Z;
  tik_data : list byte;
  tik_rights_id : list byte       (* FsRightsId, 0x10 bytes *)
}.

(** Modelled from the spec: tik.c is not part of the sources.  The ticket
    names its files by its rights identifier, a constant-width hex
    identifier like that of a content. *)
Definition rights_id_str (tik : Ticket) : string :=
  utilsGenerateHexStringFromData (byte_array 16 (tik_rights_id tik)).

Record TikCommonBlock := {
  titlekey_type : TikTitleKeyType;
  tcb_rights_id : list byte;
  issuer : string
}.

Record ProgramInfoContext := {
  pi_authoring_tool_xml : list byte;
  pi_authoring_tool_xml_size : Z;
  pi_data : list byte
}.

Record NacpIconContext := {
  icon_language : nat;
  icon_size : Z;
  icon_data : list byte
}.

Record NacpContext := {
  icon_ctx : list NacpIconContext;
  nacp_authoring_tool_xml : list byte;
  nacp_authoring_tool_xml_size : Z;
  nacp_data : list byte
}.

(** [icon_count] counts the elements of [icon_ctx]. *)
Definition icon_count (n : NacpContext) : nat := length (icon_ctx n).

Record LegalInfoContext := {
  li_authoring_tool_xml : list byte;
  li_authoring_tool_xml_size : Z
}.

Record ContentMetaContext := {
  authoring_tool_xml : list byte;
  authoring_tool_xml_size : Z;
  cnmt_data : list byte
}.

(** What [content_type_ctx] points to.  The C code keeps one array per
    kind and a [void *] into it; every slot of those arrays is reached
    through exactly one NCA context, so the pointee is kept in place. *)
Inductive ContentTypeCtx :=
| ProgramCtx (p : ProgramInfoContext)
| ControlCtx (n : NacpContext)
| LegalCtx (l : LegalInfoContext).

Record NcaContext := {
  content_id : list byte;
  content_id_str : string;
  content_size : Z;
  content_type : NcmContentType;
  rights_id_available : bool;
  titlekey_retrieved : bool;
  header_written : bool;
  content_type_ctx : option ContentTypeCtx;
  content_type_ctx_patch : bool;
  content_type_ctx_data_idx : nat;
  nca_header : list byte          (* header and key area, as the nca module keeps them *)
}.

(** A slot of [calloc(content_count, sizeof(NcaContext))]:
    [NcmContentType_Meta] is the zero of its enumeration. *)
Definition nca_zero : NcaContext :=
  {| content_id := []; content_id_str := ""; content_size := 0;
     content_type := NcmContentType_Meta;
     rights_id_available := false; titlekey_retrieved := false;
     header_written := false; content_type_ctx := None;
     content_type_ctx_patch := false; content_type_ctx_data_idx := 0;
     nca_header := [] |}.

Global Instance NcaContext_inhabited : Inhabited NcaContext := populate nca_zero.

Definition tik_zero : Ticket :=
  {| tik_size := 0; tik_data := []; tik_rights_id := [] |}.

Definition cnmt_zero : ContentMetaContext :=
  {| authoring_tool_xml := []; authoring_tool_xml_size := 0; cnmt_data := [] |}.

(** Field updates of an NCA context. *)
Definition nca_set_header (h : list byte) (c : NcaContext) : NcaContext :=
  {| content_id := content_id c; content_id_str := content_id_str c;
     content_size := content_size c; content_type := content_type c;
     rights_id_available := rights_id_available c;
     titlekey_retrieved := titlekey_retrieved c;
     header_written := header_written c;
     content_type_ctx := content_type_ctx c;
     content_type_ctx_patch := content_type_ctx_patch c;
     content_type_ctx_data_idx := content_type_ctx_data_idx c;
     nca_header := h |}.

Definition nca_set_header_written (b : bool) (c : NcaContext) : NcaContext :=
  {| content_id := content_id c; content_id_str := content_id_str c;
     content_size := content_size c; content_type := content_type c;
     rights_id_available := rights_id_available c;
     titlekey_retrieved := titlekey_retrieved c;
     header_written := b;
     content_type_ctx := content_type_ctx c;
     content_type_ctx_patch := content_type_ctx_patch c;
     content_type_ctx_data_idx := content_type_ctx_data_idx c;
     nca_header := nca_header c |}.

Definition nca_set_ctx (x : option ContentTypeCtx) (c : NcaContext) : NcaContext :=
  {| content_id := content_id c; content_id_str := content_id_str c;
     content_size := content_size c; content_type := content_type c;
     rights_id_available := rights_id_available c;
     titlekey_retrieved := titlekey_retrieved c;
     header_written := header_written c;
     content_type_ctx := x;
     content_type_ctx_patch := content_type_ctx_patch c;
     content_type_ctx_data_idx := content_type_ctx_data_idx c;
     nca_header := nca_header c |}.

Definition nca_set_patch (b : bool) (c : NcaContext) : NcaContext :=
  {| content_id := content_id c; content_id_str := content_id_str c;
     content_size := content_size c; content_type := content_type c;
     rights_id_available := rights_id_available c;
     titlekey_retrieved := titlekey_retrieved c;
     header_written := header_written c;
     content_type_ctx := content_type_ctx c;
     content_type_ctx_patch := b;
     content_type_ctx_data_idx := content_type_ctx_data_idx c;
     nca_header := nca_header c |}.

Definition nca_set_data_idx (i : nat) (c : NcaContext) : NcaContext :=
  {| content_id := content_id c; content_id_str := content_id_str c;
     content_size := content_size c; content_type := content_type c;
     rights_id_available := rights_id_available c;
     titlekey_retrieved := titlekey_retrieved c;
     header_written := header_written c;
     content_type_ctx := content_type_ctx c;
     content_type_ctx_patch := content_type_ctx_patch c;
     content_type_ctx_data_idx := i;
     nca_header := nca_header c |}.

Definition nca_set_content_id (id : list byte) (s : string) (c : NcaContext) : NcaContext :=
  {| content_id := id; content_id_str := s;
     content_size := content_size c; content_type := content_type c;
     rights_id_available := rights_id_available c;
     titlekey_retrieved := titlekey_retrieved c;
     header_written := header_written c;
     content_type_ctx := content_type_ctx c;
     content_type_ctx_patch := content_type_ctx_patch c;
     content_type_ctx_data_idx := content_type_ctx_data_idx c;
     nca_header := nca_header c |}.

(** ** The world outside the routine *)

(** Calls that leave [nspDump] for a collaborator, in the order they are
    made.  A call records the arguments the properties below speak about. *)
Inductive Call :=
| Call_ncaInitializeContext (info : option NcmContentInfo)
| Call_cnmtInitializeContext (id : string)
| Call_ncaSetDownloadDistributionType (id : string)
| Call_ncaRemoveTitlekeyCrypto (id : string)
| Call_programInfoInitializeContext (id : string)
| Call_programInfoGenerateNcaPatch (id : string)
| Call_programInfoGenerateAuthoringToolXml (id : string)
| Call_nacpInitializeContext (id : string)
| Call_nacpGenerateAuthoringToolXml (id : string)
| Call_legalInfoInitializeContext (id : string)
| Call_ncaEncryptHeader (id : string)
| Call_cnmtGenerateAuthoringToolXml (ids : list string)
| Call_tikGetCommonBlock
| Call_tikConvertPersonalizedTicketToCommonTicket
| Call_certRetrieveRawCertificateChainFromGameCardByRightsId (rights_id : list byte)
| Call_certGenerateRawCertificateChainBySignatureIssuer (iss : string)
| Call_usbIsReady (now : Z)
| Call_utilsSleep (seconds : Z)
| Call_usbSendFileProperties (file_size : Z) (path : string) (nsp_header_size : Z)
| Call_usbSendFilePropertiesCommon (file_size : Z) (name : string)
| Call_usbSendFileData (data : list byte) (data_size : Z)
| Call_usbSendNspHeader (data : list byte) (data_size : Z)
| Call_cnmtGenerateNcaPatch
| Call_ncaReadContentFile (id : string) (read_size offset : Z)
| Call_ncaWriteEncryptedHeaderDataToMemoryBuffer (id : string) (offset : Z)
| Call_cnmtWriteNcaPatch (offset : Z)
| Call_programInfoWriteNcaPatch (id : string) (offset : Z)
| Call_ncaUpdateContentIdAndHash (id : string) (hash : list byte)
| Call_cnmtUpdateContentInfo (id : string).

Record World := {
  calls : list Call;   (* oldest first *)
  clock : Z            (* seconds, as [time(NULL)] reads them *)
}.

(** ** A state and error monad for the routine

    [Ok] carries on, [Abort] is [goto end] after the given console message,
    [Stuck] marks what no run of the C program does: a loop out of fuel or
    a [void *] read at another type than it was stored at. *)
Inductive outcome (A : Type) :=
| Ok (a : A)
| Abort (msg : string)
| Stuck.
Arguments Ok {A} a.
Arguments Abort {A} msg.
Arguments Stuck {A}.

Definition M (A : Type) : Type := World -> outcome A * World.

Definition ret {A} (a : A) : M A := fun w => (Ok a, w).

Definition bind {A B} (m : M A) (k : A -> M B) : M B :=
  fun w =>
    match m w with
    | (Ok a, w') => k a w'
    | (Abort msg, w') => (Abort msg, w')
    | (Stuck, w') => (Stuck, w')
    end.

Definition abort {A} (msg : string) : M A := fun w => (Abort msg, w).
Definition stuck {A} : M A := fun w => (Stuck, w).

(** Records a call. *)
Definition call (c : Call) : M unit :=
  fun w => (Ok tt, {| calls := calls w ++ [c]; clock := clock w |}).

(** [time(NULL)] *)
Definition time : M Z := fun w => (Ok (clock w), w).

(** The calls made so far, for collaborators that answer by history. *)
Definition history : M (list Call) := fun w => (Ok (calls w), w).

Declare Scope dump_scope.
Delimit Scope dump_scope with dump.
Notation "x <- m ;; k" := (bind m (fun x => k))
  (at level 100, m at next level, right associativity) : dump_scope.
Notation "m ;;; k" := (bind m (fun _ => k))
  (at level 100, right associativity) : dump_scope.
Local Open Scope dump_scope.

(** [if (!f(...)) { consolePrint(msg); goto end; }] *)
Definition or_abort {A} (msg : string) (o : option A) : M A :=
  match o with
  | Some a => ret a
  | None => abort msg
  end.

Definition check (msg : string) (b : bool) : M unit :=
  if b then ret tt else abort msg.

(** [for (i = start; i < start + n; i++) body] with [continue] as an
    early [ret] of the body and [goto end] as its [abort]. *)
Fixpoint for_loop {St} (n : nat) (i : nat) (body : nat -> St -> M St) (s : St) : M St :=
  match n with
  | O => ret s
  | S n' => s' <- body i s ;; for_loop n' (S i) body s'
  end.

(** [for (j = start; j < count; j++) { x = &array[j]; body }] over the
    elements of [array] from [start] on. *)
Fixpoint for_each_from {A St} (l : list A) (j : nat) (body : nat -> A -> St -> M St)
    (s : St) : M St :=
  match l with
  | [] => ret s
  | x :: l' => s' <- body j x s ;; for_each_from l' (S j) body s'
  end.

(** ** The partition file system context (pfs.c) *)

Record PartitionFileSystemEntry := {
  entry_name : string;
  entry_size : Z
}.

Record PartitionFileSystemFileContext := {
  entries : list PartitionFileSystemEntry;
  fs_size : Z
}.

(** [header.entry_count] *)
Definition entry_count (ctx : PartitionFileSystemFileContext) : nat :=
  length (entries ctx).

Definition pfsInitializeFileContext : PartitionFileSystemFileContext :=
  {| entries := []; fs_size := 0 |}.

(** Modelled from the spec: pfs.c is not part of the sources.  [add_entry]
    appends a named, sized entry, accounts its size in the payload size and
    reports the table index of the new entry. *)
Definition pfsAddEntryInformationToFileContext
    (ctx : PartitionFileSystemFileContext) (name : string) (size : Z)
  : option (PartitionFileSystemFileContext * nat) :=
  Some ({| entries := entries ctx ++ [{| entry_name := name; entry_size := size |}];
           fs_size := u64 (fs_size ctx + size) |},
        entry_count ctx).

(** Modelled from the spec: the name of an entry, [NULL] past the table. *)
Definition pfsGetEntryNameByIndexFromFileContext
    (ctx : PartitionFileSystemFileContext) (idx : nat) : option string :=
  entry_name <$> entries ctx !! idx.

(** The characters of [new_name] written over the start of [old_name]. *)
Definition overwrite_name (new_name old_name : string) : string :=
  new_name +:+ string_drop (String.length new_name) old_name.

(** Modelled from the spec: pfs.c is not part of the sources.
    [rename_entry] replaces only the name string of an existing entry and
    fails if the index is out of bounds.  [nspDump] passes the bare
    identifier of a content and expects the entry to keep its extension
    ([<32-hex-identifier>.<extension>]): the identifier is written over the
    identifier the name starts with. *)
Definition pfsUpdateEntryNameFromFileContext
    (ctx : PartitionFileSystemFileContext) (idx : nat) (new_name : string)
  : option PartitionFileSystemFileContext :=
  match entries ctx !! idx with
  | None => None
  | Some e =>
      Some {| entries :=
                <[idx := {| entry_name := overwrite_name new_name (entry_name e);
                            entry_size := entry_size e |}]> (entries ctx);
              fs_size := fs_size ctx |}
  end.

(** The constants of the container format, which the sources at hand do
    not fix, and its serialisation. *)
Record PartitionFileSystemFormat := {
  fixed_header_size : Z;
  entry_record_size : Z;
  header_alignment : Z;
  serialize_header : list PartitionFileSystemEntry -> list byte
}.

Definition align_up (x a : Z) : Z := ((x + a - 1) / a * a)%Z.

Definition name_table_size (es : list PartitionFileSystemEntry) : Z :=
  fold_right (fun e acc => (Z.of_nat (String.length (entry_name e)) + 1 + acc)%Z) 0%Z es.

(** Modelled from the spec: [fixed_header_size + entry_count *
    entry_record_size + sum(len(name)+1 for each name)], padded to the
    alignment of the format. *)
Definition pfs_header_size (fmt : PartitionFileSystemFormat)
    (es : list PartitionFileSystemEntry) : Z :=
  align_up (fixed_header_size fmt + Z.of_nat (length es) * entry_record_size fmt
            + name_table_size es) (header_alignment fmt).

(** Modelled from the spec: pfs.c is not part of the sources.
    [materialize_header] serialises the table into the buffer and reports
    the header size; it fails if the header exceeds the capacity. *)
Definition pfsWriteFileContextHeaderToMemoryBuffer (fmt : PartitionFileSystemFormat)
    (ctx : PartitionFileSystemFileContext) (buf_size : Z)
  : option (list byte * Z) :=
  let header_size := pfs_header_size fmt (entries ctx) in
  if (buf_size <? header_size)%Z then None
  else Some (serialize_header fmt (entries ctx), header_size).

(** ** Collaborators

    What the other modules answer.  Every answer is a function of the
    arguments the C call passes (for the transport: of the dialogue so
    far), [None] standing for [false] or [NULL]. *)

Record NcaAccess := {
  na_rights_id_available : bool;
  na_titlekey_retrieved : bool;
  na_header : list byte
}.

Record Collaborators := {
  (* utils.c, title.c, libc *)
  usbAllocatePageAlignedBuffer : Z -> option (list byte);
  titleGenerateFileName : TitleInfo -> option string;
  utilsGeneratePath : string -> string -> option string;
  calloc_succeeds : nat -> bool;
  (* nca.c *)
  nca_open : NcmStorageId -> GameCardHashFileSystemPartitionType ->
             NcmContentInfo -> Ticket -> option (NcaAccess * Ticket);
  nca_set_download_distribution_type : NcaContext -> list byte;
  nca_remove_titlekey_crypto : NcaContext -> option (list byte);
  nca_encrypt_header : NcaContext -> option (list byte);
  nca_is_header_dirty : NcaContext -> bool;
  nca_read_content_file : NcaContext -> list byte -> Z -> Z -> option (list byte);
  nca_write_encrypted_header : NcaContext -> list byte -> Z -> Z -> bool * list byte;
  (* cnmt.c *)
  cnmt_initialize : NcaContext -> option ContentMetaContext;
  cnmt_required_title_version : ContentMetaContext -> Z;
  cnmt_generate_authoring_tool_xml :
    ContentMetaContext -> list NcaContext -> nat -> option (list byte * Z);
  cnmt_generate_nca_patch : ContentMetaContext -> NcaContext -> option (ContentMetaContext * list byte);
  cnmt_write_nca_patch :
    ContentMetaContext -> NcaContext -> list byte -> Z -> Z -> bool * list byte;
  cnmt_update_content_info : ContentMetaContext -> NcaContext -> option ContentMetaContext;
  (* program_info.c *)
  program_info_initialize : NcaContext -> option ProgramInfoContext;
  program_info_generate_nca_patch :
    ProgramInfoContext -> NcaContext -> option (ProgramInfoContext * list byte);
  program_info_generate_authoring_tool_xml : ProgramInfoContext -> option (list byte * Z);
  program_info_write_nca_patch :
    ProgramInfoContext -> NcaContext -> list byte -> Z -> Z -> bool * list byte;
  (* nacp.c, legal_info.c *)
  nacp_initialize : NcaContext -> option NacpContext;
  nacp_generate_authoring_tool_xml : NacpContext -> Z -> Z -> option (list byte * Z);
  nacpGetLanguageString : nat -> string;
  legal_info_initialize : NcaContext -> option LegalInfoContext;
  (* tik.c, cert.c *)
  tik_get_common_block : list byte -> option TikCommonBlock;
  tik_convert_personalized_to_common : Ticket -> option (Ticket * list byte * Z);
  cert_from_gamecard_by_rights_id : list byte -> option (list byte * Z);
  cert_by_signature_issuer : string -> option (list byte * Z);
  (* usb.c: the answer to the last call of the dialogue *)
  usb_is_ready : Z -> bool;
  usb_accepts : list Call -> bool;
  (* libnx *)
  sha256 : list byte -> list byte;
  (* pfs.c *)
  pfs_format : PartitionFileSystemFormat
}.

(** Modelled from the spec: nca.c is not part of the sources.  A content
    unit takes identifier, size and kind from its content record; whether
    its rights material is at hand is the answer of the nca module.  The
    identifier is printed as 32 hex characters. *)
Definition nca_context_of (ci : NcmContentInfo) (a : NcaAccess) : NcaContext :=
  {| content_id := byte_array 16 (ci_content_id ci);
     content_id_str := utilsGenerateHexStringFromData (byte_array 16 (ci_content_id ci));
     content_size := u64 (ci_size ci);
     content_type := ci_content_type ci;
     rights_id_available := na_rights_id_available a;
     titlekey_retrieved := na_titlekey_retrieved a;
     header_written := false;
     content_type_ctx := None;
     content_type_ctx_patch := false;
     content_type_ctx_data_idx := 0;
     nca_header := na_header a |}.

(** ** title.c *)

(** Modelled from the spec: title.c is not part of the sources.  The
    number of content records of a kind. *)
Definition titleGetContentCountByType (t : TitleInfo) (ty : NcmContentType) : nat :=
  length (filter (fun ci => ci_content_type ci = ty) (content_infos t)).

(** Modelled from the spec: title.c is not part of the sources.  The first
    content record of a kind with the given id offset, [NULL] if none. *)
Definition titleGetContentInfoByTypeAndIdOffset
    (t : TitleInfo) (ty : NcmContentType) (id_offset : Z) : option NcmContentInfo :=
  snd <$> list_find (fun ci => ci_content_type ci = ty /\ ci_id_offset ci = id_offset)
                    (content_infos t).

(** ** The routine *)

Section Dump.

Context (E : Collaborators).

(** *** Collaborator calls *)

(** A [NULL] content record is turned down. *)
Definition ncaInitializeContext (storage : NcmStorageId)
    (hfs : GameCardHashFileSystemPartitionType)
    (info : option NcmContentInfo) (tik : Ticket) : M (option (NcaContext * Ticket)) :=
  call (Call_ncaInitializeContext info) ;;;
  ret (match info with
       | None => None
       | Some ci =>
           match nca_open E storage hfs ci tik with
           | None => None
           | Some (a, tik') => Some (nca_context_of ci a, tik')
           end
       end).

Definition ncaSetDownloadDistributionType (c : NcaContext) : M NcaContext :=
  call (Call_ncaSetDownloadDistributionType (content_id_str c)) ;;;
  ret (nca_set_header (nca_set_download_distribution_type E c) c).

Definition ncaRemoveTitlekeyCrypto (c : NcaContext) : M (option NcaContext) :=
  call (Call_ncaRemoveTitlekeyCrypto (content_id_str c)) ;;;
  ret ((fun h => nca_set_header h c) <$> nca_remove_titlekey_crypto E c).

Definition ncaEncryptHeader (c : NcaContext) : M (option NcaContext) :=
  call (Call_ncaEncryptHeader (content_id_str c)) ;;;
  ret ((fun h => nca_set_header h c) <$> nca_encrypt_header E c).

Definition cnmtInitializeContext (meta : NcaContext) : M (option ContentMetaContext) :=
  call (Call_cnmtInitializeContext (content_id_str meta)) ;;;
  ret (cnmt_initialize E meta).

(** Modelled from the spec: a metadata context is owned by its content
    unit; initialising it leaves the unit pointing to it.  The calls below
    answer the context together with the unit that points to it. *)
Definition programInfoInitializeContext (c : NcaContext)
  : M (option (ProgramInfoContext * NcaContext)) :=
  call (Call_programInfoInitializeContext (content_id_str c)) ;;;
  ret ((fun p => (p, nca_set_ctx (Some (ProgramCtx p)) c)) <$> program_info_initialize E c).

(** Modelled from the spec: a generated patch is pending on the unit. *)
Definition programInfoGenerateNcaPatch (p : ProgramInfoContext) (c : NcaContext)
  : M (option (ProgramInfoContext * NcaContext)) :=
  call (Call_programInfoGenerateNcaPatch (content_id_str c)) ;;;
  ret ((fun r => (fst r,
                  nca_set_patch true
                    (nca_set_header (snd r) (nca_set_ctx (Some (ProgramCtx (fst r))) c))))
         <$> program_info_generate_nca_patch E p c).

Definition program_info_with_xml (p : ProgramInfoContext) (r : list byte * Z)
  : ProgramInfoContext :=
  {| pi_authoring_tool_xml := fst r; pi_authoring_tool_xml_size := snd r;
     pi_data := pi_data p |}.

Definition programInfoGenerateAuthoringToolXml (p : ProgramInfoContext) (c : NcaContext)
  : M (option (ProgramInfoContext * NcaContext)) :=
  call (Call_programInfoGenerateAuthoringToolXml (content_id_str c)) ;;;
  ret ((fun r => (program_info_with_xml p r,
                  nca_set_ctx (Some (ProgramCtx (program_info_with_xml p r))) c))
         <$> program_info_generate_authoring_tool_xml E p).

Definition nacpInitializeContext (c : NcaContext) : M (option (NacpContext * NcaContext)) :=
  call (Call_nacpInitializeContext (content_id_str c)) ;;;
  ret ((fun n => (n, nca_set_ctx (Some (ControlCtx n)) c)) <$> nacp_initialize E c).

Definition nacp_with_xml (n : NacpContext) (r : list byte * Z) : NacpContext :=
  {| icon_ctx := icon_ctx n; nacp_authoring_tool_xml := fst r;
     nacp_authoring_tool_xml_size := snd r; nacp_data := nacp_data n |}.

Definition nacpGenerateAuthoringToolXml (n : NacpContext) (c : NcaContext)
    (version required_version : Z) : M (option (NacpContext * NcaContext)) :=
  call (Call_nacpGenerateAuthoringToolXml (content_id_str c)) ;;;
  ret ((fun r => (nacp_with_xml n r, nca_set_ctx (Some (ControlCtx (nacp_with_xml n r))) c))
         <$> nacp_generate_authoring_tool_xml E n version required_version).

Definition legalInfoInitializeContext (c : NcaContext) : M (option NcaContext) :=
  call (Call_legalInfoInitializeContext (content_id_str c)) ;;;
  ret ((fun l => nca_set_ctx (Some (LegalCtx l)) c) <$> legal_info_initialize E c).

Definition cnmtGenerateAuthoringToolXml (cnmt : ContentMetaContext)
    (nca_ctx : list NcaContext) (count : nat) : M (option ContentMetaContext) :=
  call (Call_cnmtGenerateAuthoringToolXml (content_id_str <$> nca_ctx)) ;;;
  ret ((fun r => {| authoring_tool_xml := fst r; authoring_tool_xml_size := snd r;
                    cnmt_data := cnmt_data cnmt |})
         <$> cnmt_generate_authoring_tool_xml E cnmt nca_ctx count).

Definition tikGetCommonBlock (data : list byte) : M (option TikCommonBlock) :=
  call Call_tikGetCommonBlock ;;; ret (tik_get_common_block E data).

Definition tikConvertPersonalizedTicketToCommonTicket (tik : Ticket)
  : M (option (Ticket * list byte * Z)) :=
  call Call_tikConvertPersonalizedTicketToCommonTicket ;;;
  ret (tik_convert_personalized_to_common E tik).

Definition certRetrieveRawCertificateChainFromGameCardByRightsId (rights_id : list byte)
  : M (option (list byte * Z)) :=
  call (Call_certRetrieveRawCertificateChainFromGameCardByRightsId rights_id) ;;;
  ret (cert_from_gamecard_by_rights_id E rights_id).

Definition certGenerateRawCertificateChainBySignatureIssuer (iss : string)
  : M (option (list byte * Z)) :=
  call (Call_certGenerateRawCertificateChainBySignatureIssuer iss) ;;;
  ret (cert_by_signature_issuer E iss).

(** A call to the transport: it joins the dialogue, and the transport
    answers. *)
Definition usb_call (c : Call) : M bool :=
  call c ;;; h <- history ;; ret (usb_accepts E h).

Definition usbSendFileProperties (file_size : Z) (path : string) (header_size : Z) : M bool :=
  usb_call (Call_usbSendFileProperties file_size path header_size).

(** A [NULL] file name is turned down before anything is sent. *)
Definition usbSendFilePropertiesCommon (file_size : Z) (name : option string) : M bool :=
  match name with
  | None => ret false
  | Some n => usb_call (Call_usbSendFilePropertiesCommon file_size n)
  end.

(** The first [data_size] bytes of [data] go out. *)
Definition usbSendFileData (data : list byte) (data_size : Z) : M bool :=
  usb_call (Call_usbSendFileData (take (Z.to_nat data_size) data) data_size).

Definition usbSendNspHeader (data : list byte) (data_size : Z) : M bool :=
  usb_call (Call_usbSendNspHeader (take (Z.to_nat data_size) data) data_size).

Definition usbIsReady : M bool :=
  now <- time ;; call (Call_usbIsReady now) ;;; ret (usb_is_ready E now).

Definition utilsSleep (seconds : Z) : M unit :=
  fun w => (Ok tt, {| calls := calls w ++ [Call_utilsSleep seconds];
                      clock := (clock w + seconds)%Z |}).

(** [sha256ContextUpdate]: the context has seen its input so far. *)
Definition sha256ContextUpdate (ctx : list byte) (src : list byte) (size : Z) : list byte :=
  ctx ++ take (Z.to_nat size) src.

Definition sha256ContextGetHash (ctx : list byte) : list byte :=
  byte_array SHA256_HASH_SIZE (sha256 E ctx).

(** Modelled from the spec: nca.c is not part of the sources.  The final
    identifier is derived from the hash and printed as 32 hex characters:
    the first 0x10 bytes of the hash. *)
Definition ncaUpdateContentIdAndHash (c : NcaContext) (hash : list byte) : M NcaContext :=
  call (Call_ncaUpdateContentIdAndHash (content_id_str c) hash) ;;;
  ret (nca_set_content_id (byte_array 16 hash)
         (utilsGenerateHexStringFromData (byte_array 16 hash)) c).

Definition cnmtUpdateContentInfo (cnmt : ContentMetaContext) (c : NcaContext)
  : M (option ContentMetaContext) :=
  call (Call_cnmtUpdateContentInfo (content_id_str c)) ;;;
  ret (cnmt_update_content_info E cnmt c).

(** Modelled from the spec: the patch of the title-meta unit is pending on
    that unit, the one [cnmt_ctx] was initialised from. *)
Definition cnmtGenerateNcaPatch (cnmt : ContentMetaContext) (meta : NcaContext)
  : M (option (ContentMetaContext * NcaContext)) :=
  call Call_cnmtGenerateNcaPatch ;;;
  ret ((fun r => (fst r, nca_set_patch true (nca_set_header (snd r) meta)))
         <$> cnmt_generate_nca_patch E cnmt meta).

Definition ncaReadContentFile (c : NcaContext) (buf : list byte) (read_size offset : Z)
  : M (option (list byte)) :=
  call (Call_ncaReadContentFile (content_id_str c) read_size offset) ;;;
  ret (nca_read_content_file E c buf read_size offset).

Definition ncaWriteEncryptedHeaderDataToMemoryBuffer (c : NcaContext) (buf : list byte)
    (buf_size offset : Z) : M (NcaContext * list byte) :=
  call (Call_ncaWriteEncryptedHeaderDataToMemoryBuffer (content_id_str c) offset) ;;;
  let r := nca_write_encrypted_header E c buf buf_size offset in
  ret (nca_set_header_written (fst r) c, snd r).

Definition cnmtWriteNcaPatch (cnmt : ContentMetaContext) (meta : NcaContext)
    (buf : list byte) (buf_size offset : Z) : M (NcaContext * list byte) :=
  call (Call_cnmtWriteNcaPatch offset) ;;;
  let r := cnmt_write_nca_patch E cnmt meta buf buf_size offset in
  ret (nca_set_patch (fst r) meta, snd r).

Definition programInfoWriteNcaPatch (p : ProgramInfoContext) (c : NcaContext)
    (buf : list byte) (buf_size offset : Z) : M (NcaContext * list byte) :=
  call (Call_programInfoWriteNcaPatch (content_id_str c) offset) ;;;
  let r := program_info_write_nca_patch E p c buf buf_size offset in
  ret (nca_set_patch (fst r) c, snd r).


(** *** Lines 122-314: buffers and contexts *)

Record Contexts := {
  cx_buf : list byte;
  cx_path : string;
  cx_nca_ctx : list NcaContext;
  cx_cnmt_ctx : ContentMetaContext;
  cx_tik : Ticket
}.

(** [(storage_id == NcmStorageId_GameCard ? GameCardHashFileSystemPartitionType_Secure : 0)] *)
Definition hfs_partition_type (t : TitleInfo) : GameCardHashFileSystemPartitionType :=
  if decide (storage_id t = NcmStorageId_GameCard)
  then GameCardHashFileSystemPartitionType_Secure
  else GameCardHashFileSystemPartitionType_Root.

(** Lines 225-297: the [switch] on the content type. *)
Definition init_content_type_ctx (t : TitleInfo) (o : options_t)
    (cnmt_ctx : ContentMetaContext) (content_info : NcmContentInfo) (cur : NcaContext)
  : M NcaContext :=
  match ci_content_type content_info with
  | NcmContentType_Program =>
      r <- programInfoInitializeContext cur ;;
      pc <- or_abort "initialize program info ctx failed" r ;;
      pc <- (if change_acid_rsa o
             then r <- programInfoGenerateNcaPatch (fst pc) (snd pc) ;;
                  or_abort "program info nca patch failed" r
             else ret pc) ;;
      r <- programInfoGenerateAuthoringToolXml (fst pc) (snd pc) ;;
      pc <- or_abort "program info xml failed" r ;;
      ret (snd pc)
  | NcmContentType_Control =>
      r <- nacpInitializeContext cur ;;
      nc <- or_abort "initialize nacp ctx failed" r ;;
      r <- nacpGenerateAuthoringToolXml (fst nc) (snd nc) (version_value t)
             (cnmt_required_title_version E cnmt_ctx) ;;
      nc <- or_abort "nacp xml failed" r ;;
      ret (snd nc)
  | NcmContentType_LegalInformation =>
      r <- legalInfoInitializeContext cur ;;
      or_abort "initialize legal info ctx failed" r
  | _ => ret cur
  end.

(** Lines 190-306: the body of the loop over the content records; [j] is
    the slot of [nca_ctx] the record goes to. *)
Definition init_content (t : TitleInfo) (o : options_t) (cnmt_ctx : ContentMetaContext)
    (content_info : NcmContentInfo) (st : list NcaContext * nat * Ticket)
  : M (list NcaContext * nat * Ticket) :=
  let '(nca_ctx, j, tik) := st in
  if decide (ci_content_type content_info = NcmContentType_Meta) then ret st
  else
    r <- ncaInitializeContext (storage_id t) (hfs_partition_type t) (Some content_info) tik ;;
    ct <- or_abort "initialize nca ctx failed" r ;;
    let cur := fst ct in
    let tik := snd ct in
    if rights_id_available cur && negb (titlekey_retrieved cur)
    then ret (<[j := cur]> nca_ctx, S j, tik)
    else
      cur <- (if set_download_type o then ncaSetDownloadDistributionType cur else ret cur) ;;
      cur <- (if remove_titlekey_crypto o
              then r <- ncaRemoveTitlekeyCrypto cur ;;
                   or_abort "nca remove titlekey crypto failed" r
              else ret cur) ;;
      cur <- init_content_type_ctx t o cnmt_ctx content_info cur ;;
      r <- ncaEncryptHeader cur ;;
      cur <- or_abort "encrypt nca header failed" r ;;
      ret (<[j := cur]> nca_ctx, S j, tik).

Definition nspDump_contexts (t : TitleInfo) (o : options_t) : M Contexts :=
  let program_count := titleGetContentCountByType t NcmContentType_Program in
  let control_count := titleGetContentCountByType t NcmContentType_Control in
  let legal_info_count := titleGetContentCountByType t NcmContentType_LegalInformation in
  buf <- or_abort "buf alloc failed" (usbAllocatePageAlignedBuffer E BLOCK_SIZE) ;;
  dump_name <- or_abort "title generate file name failed" (titleGenerateFileName E t) ;;
  path <- or_abort "generate path failed" (utilsGeneratePath E dump_name ".nsp") ;;
  check "nca ctx calloc failed" (calloc_succeeds E (content_count t)) ;;;
  let nca_ctx := replicate (content_count t) nca_zero in
  check "program info ctx calloc failed"
    (negb (0 <? program_count)%nat || calloc_succeeds E program_count) ;;;
  check "nacp ctx calloc failed"
    (negb (0 <? control_count)%nat || calloc_succeeds E control_count) ;;;
  check "legal info ctx calloc failed"
    (negb (0 <? legal_info_count)%nat || calloc_succeeds E legal_info_count) ;;;
  (* set meta nca as the last nca *)
  let meta_idx := content_count t - 1 in
  r <- ncaInitializeContext (storage_id t) (hfs_partition_type t)
         (titleGetContentInfoByTypeAndIdOffset t NcmContentType_Meta 0) tik_zero ;;
  mt <- or_abort "Meta nca initialize ctx failed" r ;;
  let nca_ctx := <[meta_idx := fst mt]> nca_ctx in
  r <- cnmtInitializeContext (nca_ctx !!! meta_idx) ;;
  cnmt_ctx <- or_abort "cnmt initialize ctx failed" r ;;
  st <- for_each_from (content_infos t) 0
          (fun _ => init_content t o cnmt_ctx) (nca_ctx, 0, snd mt) ;;
  let nca_ctx := fst (fst st) in
  (* generate cnmt xml right away even though we don't yet have all the data we need *)
  r <- cnmtGenerateAuthoringToolXml cnmt_ctx nca_ctx (content_count t) ;;
  cnmt_ctx <- or_abort "cnmt xml #1 failed" r ;;
  ret {| cx_buf := buf; cx_path := path; cx_nca_ctx := nca_ctx;
         cx_cnmt_ctx := cnmt_ctx; cx_tik := snd st |}.

(** *** Lines 316-341: ticket and certificate chain *)

Record Credentials := {
  retrieve_tik_cert : bool;
  cr_tik : Ticket;
  raw_cert_chain : list byte;          (* [NULL] is the empty chain *)
  raw_cert_chain_size : Z
}.

Definition nspDump_credentials (t : TitleInfo) (o : options_t) (tik : Ticket)
  : M Credentials :=
  let retrieve := negb (remove_titlekey_crypto o) && (0 <? tik_size tik)%Z in
  if retrieve then
    r <- tikGetCommonBlock (tik_data tik) ;;
    tik_common_block <- or_abort "tik common block failed" r ;;
    if remove_console_data o
       && bool_decide (titlekey_type tik_common_block = TikTitleKeyType_Personalized)
    then
      r <- tikConvertPersonalizedTicketToCommonTicket tik ;;
      x <- or_abort "tik convert failed" r ;;
      ret {| retrieve_tik_cert := retrieve; cr_tik := fst (fst x);
             raw_cert_chain := snd (fst x); raw_cert_chain_size := snd x |}
    else
      r <- (if decide (storage_id t = NcmStorageId_GameCard)
            then certRetrieveRawCertificateChainFromGameCardByRightsId
                   (tcb_rights_id tik_common_block)
            else certGenerateRawCertificateChainBySignatureIssuer
                   (issuer tik_common_block)) ;;
      x <- or_abort "cert failed" r ;;
      ret {| retrieve_tik_cert := retrieve; cr_tik := tik;
             raw_cert_chain := fst x; raw_cert_chain_size := snd x |}
  else
    ret {| retrieve_tik_cert := retrieve; cr_tik := tik;
           raw_cert_chain := []; raw_cert_chain_size := 0 |}.

(** *** Lines 343-433: the entry table *)

Definition Layout : Type := list NcaContext * PartitionFileSystemFileContext.

(** Lines 344-354. *)
Definition add_nca_info (i : nat) (st : Layout) : M Layout :=
  let '(nca_ctx, pfs_file_ctx) := st in
  let cur_nca_ctx := nca_ctx !!! i in
  let name := content_id_str cur_nca_ctx +:+ "."
              +:+ (if decide (content_type cur_nca_ctx = NcmContentType_Meta)
                  then "cnmt.nca" else "nca") in
  r <- or_abort "pfs add entry failed"
         (pfsAddEntryInformationToFileContext pfs_file_ctx name (content_size cur_nca_ctx)) ;;
  ret (nca_ctx, fst r).

(** Lines 357-362; the index of the entry goes to the meta NCA. *)
Definition add_cnmt_xml_info (meta_idx : nat) (cnmt_ctx : ContentMetaContext) (st : Layout)
  : M Layout :=
  let '(nca_ctx, pfs_file_ctx) := st in
  let meta_nca_ctx := nca_ctx !!! meta_idx in
  r <- or_abort "pfs add entry failed"
         (pfsAddEntryInformationToFileContext pfs_file_ctx
            (content_id_str meta_nca_ctx +:+ ".cnmt.xml")
            (authoring_tool_xml_size cnmt_ctx)) ;;
  ret (<[meta_idx := nca_set_data_idx (snd r) meta_nca_ctx]> nca_ctx, fst r).

(** Lines 384-393: one icon; the index of the first icon goes to the NCA. *)
Definition add_icon_info (i : nat) (j : nat) (icon : NacpIconContext) (st : Layout)
  : M Layout :=
  let '(nca_ctx, pfs_file_ctx) := st in
  let cur_nca_ctx := nca_ctx !!! i in
  r <- or_abort "pfs add entry failed"
         (pfsAddEntryInformationToFileContext pfs_file_ctx
            (content_id_str cur_nca_ctx +:+ ".nx."
             +:+ nacpGetLanguageString E (icon_language icon) +:+ ".jpg")
            (icon_size icon)) ;;
  ret (if decide (j = 0)
       then <[i := nca_set_data_idx (snd r) cur_nca_ctx]> nca_ctx
       else nca_ctx, fst r).

(** Lines 365-415. *)
Definition add_content_type_ctx_info (i : nat) (st : Layout) : M Layout :=
  let '(nca_ctx, pfs_file_ctx) := st in
  let cur_nca_ctx := nca_ctx !!! i in
  match content_type_ctx cur_nca_ctx with
  | None => ret st
  | Some ctx =>
      match content_type cur_nca_ctx, ctx with
      | NcmContentType_Program, ProgramCtx cur_program_info_ctx =>
          r <- or_abort "pfs add entry failed"
                 (pfsAddEntryInformationToFileContext pfs_file_ctx
                    (content_id_str cur_nca_ctx +:+ ".programinfo.xml")
                    (pi_authoring_tool_xml_size cur_program_info_ctx)) ;;
          ret (<[i := nca_set_data_idx (snd r) cur_nca_ctx]> nca_ctx, fst r)
      | NcmContentType_Control, ControlCtx cur_nacp_ctx =>
          st <- for_each_from (icon_ctx cur_nacp_ctx) 0 (add_icon_info i) st ;;
          r <- or_abort "pfs add entry failed"
                 (pfsAddEntryInformationToFileContext (snd st)
                    (content_id_str cur_nca_ctx +:+ ".nacp.xml")
                    (nacp_authoring_tool_xml_size cur_nacp_ctx)) ;;
          ret (fst st, fst r)
      | NcmContentType_LegalInformation, LegalCtx cur_legal_info_ctx =>
          r <- or_abort "pfs add entry failed"
                 (pfsAddEntryInformationToFileContext pfs_file_ctx
                    (content_id_str cur_nca_ctx +:+ ".legalinfo.xml")
                    (li_authoring_tool_xml_size cur_legal_info_ctx)) ;;
          ret (<[i := nca_set_data_idx (snd r) cur_nca_ctx]> nca_ctx, fst r)
      | NcmContentType_Program, _
      | NcmContentType_Control, _
      | NcmContentType_LegalInformation, _ => stuck
      | _, _ => abort "pfs add entry failed"     (* [ret] is still [false] *)
      end
  end.

(** Lines 418-433. *)
Definition add_tik_cert_info (cr : Credentials) (st : Layout) : M Layout :=
  let '(nca_ctx, pfs_file_ctx) := st in
  if retrieve_tik_cert cr then
    r <- or_abort "pfs add entry failed"
           (pfsAddEntryInformationToFileContext pfs_file_ctx
              (rights_id_str (cr_tik cr) +:+ ".tik") (tik_size (cr_tik cr))) ;;
    r <- or_abort "pfs add entry failed"
           (pfsAddEntryInformationToFileContext (fst r)
              (rights_id_str (cr_tik cr) +:+ ".cert") (raw_cert_chain_size cr)) ;;
    ret (nca_ctx, fst r)
  else ret st.

Definition nspDump_layout (t : TitleInfo) (cx : Contexts) (cr : Credentials) : M Layout :=
  st <- for_loop (content_count t) 0 add_nca_info (cx_nca_ctx cx, pfsInitializeFileContext) ;;
  st <- add_cnmt_xml_info (content_count t - 1) (cx_cnmt_ctx cx) st ;;
  st <- for_loop (content_count t - 1) 0 add_content_type_ctx_info st ;;
  add_tik_cert_info cr st.

(** *** Lines 435-466: provisional header, USB connection *)

Definition write_header (msg : string) (pfs_file_ctx : PartitionFileSystemFileContext)
  : M (list byte * Z) :=
  or_abort msg
    (pfsWriteFileContextHeaderToMemoryBuffer (pfs_format E) pfs_file_ctx BLOCK_SIZE).

(** Lines 450-458; [fuel] bounds the turns of [while(true)]. *)
Fixpoint wait_usb (fuel : nat) (start : Z) : M bool :=
  match fuel with
  | O => stuck
  | S fuel' =>
      now <- time ;;
      if (10 <=? now - start)%Z then ret false
      else
        usb_conn <- usbIsReady ;;
        if usb_conn then ret true
        else utilsSleep 1 ;;; wait_usb fuel' start
  end.

(** The clock moves by the second slept in every turn that goes on, so
    eleven turns see the timeout. *)
Definition nspDump_wait_usb : M bool :=
  start <- time ;; wait_usb 11 start.

(** *** Lines 480-578: the content archives *)

(** A file goes out: its properties, then its data
    ([!usbSendFilePropertiesCommon(...) || !usbSendFileData(...)]). *)
Definition send_file (size : Z) (name : option string) (data : list byte) : M bool :=
  ok <- usbSendFilePropertiesCommon size name ;;
  if ok then usbSendFileData data size else ret false.

(** What a turn of the block loop changes. *)
Record Blocks := {
  bk_buf : list byte;
  bk_nca_ctx : list NcaContext;
  bk_dirty_header : bool;
  bk_sha256_ctx : list byte
}.

(** Lines 515-546: re-encrypted header and content type patch go into the
    block that has just been read.  [cnmt_ctx] patches the NCA it was
    initialised from, the one at [meta_idx]. *)
Definition patch_nca_block (i meta_idx : nat) (cnmt_ctx : ContentMetaContext)
    (offset blksize : Z) (nca_ctx : list NcaContext) (buf : list byte)
  : M (list NcaContext * list byte * bool) :=
  let cur_nca_ctx := nca_ctx !!! i in
  st <- (if negb (header_written cur_nca_ctx)
         then r <- ncaWriteEncryptedHeaderDataToMemoryBuffer cur_nca_ctx buf blksize offset ;;
              ret (<[i := fst r]> nca_ctx, snd r)
         else ret (nca_ctx, buf)) ;;
  let nca_ctx := fst st in
  let buf := snd st in
  let cur_nca_ctx := nca_ctx !!! i in
  st <- (if content_type_ctx_patch cur_nca_ctx
         then match content_type cur_nca_ctx with
              | NcmContentType_Meta =>
                  r <- cnmtWriteNcaPatch cnmt_ctx (nca_ctx !!! meta_idx) buf blksize offset ;;
                  ret (<[meta_idx := fst r]> nca_ctx, snd r)
              | NcmContentType_Program =>
                  match content_type_ctx cur_nca_ctx with
                  | Some (ProgramCtx cur_program_info_ctx) =>
                      r <- programInfoWriteNcaPatch cur_program_info_ctx cur_nca_ctx
                             buf blksize offset ;;
                      ret (<[i := fst r]> nca_ctx, snd r)
                  | _ => stuck
                  end
              | _ => ret (nca_ctx, buf)
              end
         else ret (nca_ctx, buf)) ;;
  let cur_nca_ctx := fst st !!! i in
  (* update flag to avoid entering this code block if it's not needed anymore *)
  ret (fst st, snd st,
       negb (header_written cur_nca_ctx) || content_type_ctx_patch cur_nca_ctx).

(** Lines 506-556: one block is read, patched, hashed and sent. *)
Definition write_nca_block (i meta_idx : nat) (cnmt_ctx : ContentMetaContext)
    (offset blksize : Z) (bk : Blocks) : M Blocks :=
  (* read nca chunk *)
  r <- ncaReadContentFile (bk_nca_ctx bk !!! i) (bk_buf bk) blksize offset ;;
  buf <- or_abort "nca read failed" r ;;
  st <- (if bk_dirty_header bk
         then patch_nca_block i meta_idx cnmt_ctx offset blksize (bk_nca_ctx bk) buf
         else ret (bk_nca_ctx bk, buf, bk_dirty_header bk)) ;;
  let nca_ctx := fst (fst st) in
  let buf := snd (fst st) in
  (* update hash calculation *)
  let sha256_ctx := sha256ContextUpdate (bk_sha256_ctx bk) buf blksize in
  (* write nca chunk *)
  ok <- usbSendFileData buf blksize ;;
  check "send file data failed" ok ;;;
  ret {| bk_buf := buf; bk_nca_ctx := nca_ctx; bk_dirty_header := snd st;
         bk_sha256_ctx := sha256_ctx |}.

(** Lines 504-557:
    [for (offset = 0; offset < content_size; offset += blksize)];
    [fuel] bounds the number of turns. *)
Fixpoint write_nca_blocks (fuel : nat) (i meta_idx : nat) (cnmt_ctx : ContentMetaContext)
    (offset blksize : Z) (bk : Blocks) : M Blocks :=
  let content_size := content_size (bk_nca_ctx bk !!! i) in
  if (offset <? content_size)%Z then
    match fuel with
    | O => stuck
    | S fuel' =>
        let blksize := if (u64 (content_size - offset) <? blksize)%Z
                       then u64 (content_size - offset) else blksize in
        bk <- write_nca_block i meta_idx cnmt_ctx offset blksize bk ;;
        write_nca_blocks fuel' i meta_idx cnmt_ctx (u64 (offset + blksize)) blksize bk
    end
  else ret bk.

(** The number of blocks of a content of [size] bytes. *)
Definition block_count (size : Z) : nat :=
  Z.to_nat ((size + BLOCK_SIZE - 1) / BLOCK_SIZE).

Record Stream := {
  st_buf : list byte;
  st_nca_ctx : list NcaContext;
  st_cnmt_ctx : ContentMetaContext;
  st_pfs_file_ctx : PartitionFileSystemFileContext
}.

(** Lines 481-578: the body of the loop over the NCAs. *)
Definition write_nca (meta_idx : nat) (i : nat) (st : Stream) : M Stream :=
  let nca_ctx := st_nca_ctx st in
  (* sha256ContextCreate *)
  let sha256_ctx : list byte := [] in
  cn <- (if decide (content_type (nca_ctx !!! i) = NcmContentType_Meta)
         then r <- cnmtGenerateNcaPatch (st_cnmt_ctx st) (nca_ctx !!! meta_idx) ;;
              x <- or_abort "cnmt generate patch failed" r ;;
              let nca_ctx := <[meta_idx := snd x]> nca_ctx in
              r <- ncaEncryptHeader (nca_ctx !!! i) ;;
              c <- or_abort "cnmt generate patch failed" r ;;
              ret (fst x, <[i := c]> nca_ctx)
         else ret (st_cnmt_ctx st, nca_ctx)) ;;
  let cnmt_ctx := fst cn in
  let nca_ctx := snd cn in
  let dirty_header := nca_is_header_dirty E (nca_ctx !!! i) in
  let tmp_name := pfsGetEntryNameByIndexFromFileContext (st_pfs_file_ctx st) i in
  ok <- usbSendFilePropertiesCommon (content_size (nca_ctx !!! i)) tmp_name ;;
  check "usb send file properties failed" ok ;;;
  bk <- write_nca_blocks (block_count (content_size (nca_ctx !!! i))) i meta_idx cnmt_ctx
          0 BLOCK_SIZE
          {| bk_buf := st_buf st; bk_nca_ctx := nca_ctx; bk_dirty_header := dirty_header;
             bk_sha256_ctx := sha256_ctx |} ;;
  (* get hash *)
  let sha256_hash := sha256ContextGetHash (bk_sha256_ctx bk) in
  (* update content id and hash *)
  cur_nca_ctx <- ncaUpdateContentIdAndHash (bk_nca_ctx bk !!! i) sha256_hash ;;
  let nca_ctx := <[i := cur_nca_ctx]> (bk_nca_ctx bk) in
  (* update cnmt *)
  r <- cnmtUpdateContentInfo cnmt_ctx cur_nca_ctx ;;
  cnmt_ctx <- or_abort "cnmt update content info failed" r ;;
  (* update pfs entry name *)
  pfs_file_ctx <- or_abort "pfs update entry name failed"
                    (pfsUpdateEntryNameFromFileContext (st_pfs_file_ctx st) i
                       (content_id_str cur_nca_ctx)) ;;
  ret {| st_buf := bk_buf bk; st_nca_ctx := nca_ctx; st_cnmt_ctx := cnmt_ctx;
         st_pfs_file_ctx := pfs_file_ctx |}.

(** *** Lines 580-704: generated files, ticket and certificate chain *)

(** Lines 580-602. *)
Definition write_cnmt_xml (t : TitleInfo) (st : Stream) : M Stream :=
  let meta_nca_ctx := st_nca_ctx st !!! (content_count t - 1) in
  (* regenerate cnmt xml *)
  r <- cnmtGenerateAuthoringToolXml (st_cnmt_ctx st) (st_nca_ctx st) (content_count t) ;;
  cnmt_ctx <- or_abort "cnmt xml #2 failed" r ;;
  (* write cnmt xml *)
  let tmp_name := pfsGetEntryNameByIndexFromFileContext (st_pfs_file_ctx st)
                    (content_type_ctx_data_idx meta_nca_ctx) in
  ok <- send_file (authoring_tool_xml_size cnmt_ctx) tmp_name (authoring_tool_xml cnmt_ctx) ;;
  check "send failed" ok ;;;
  (* update cnmt xml pfs entry name *)
  pfs_file_ctx <- or_abort "pfs update entry name cnmt xml failed"
                    (pfsUpdateEntryNameFromFileContext (st_pfs_file_ctx st)
                       (content_type_ctx_data_idx meta_nca_ctx)
                       (content_id_str meta_nca_ctx)) ;;
  ret {| st_buf := st_buf st; st_nca_ctx := st_nca_ctx st; st_cnmt_ctx := cnmt_ctx;
         st_pfs_file_ctx := pfs_file_ctx |}.

(** Lines 630-650: one icon; [data_idx] moves on to the next entry. *)
Definition write_icon (cur_nca_ctx : NcaContext) (j : nat) (icon : NacpIconContext)
    (st : nat * PartitionFileSystemFileContext) : M (nat * PartitionFileSystemFileContext) :=
  let '(data_idx, pfs_file_ctx) := st in
  let tmp_name := pfsGetEntryNameByIndexFromFileContext pfs_file_ctx data_idx in
  ok <- send_file (icon_size icon) tmp_name (icon_data icon) ;;
  check "send failed" ok ;;;
  pfs_file_ctx <- or_abort "pfs update entry name failed"
                    (pfsUpdateEntryNameFromFileContext pfs_file_ctx data_idx
                       (content_id_str cur_nca_ctx)) ;;
  ret (S data_idx, pfs_file_ctx).

(** Lines 605-681: the body of the loop over the content type contexts. *)
Definition write_content_type_ctx_data (nca_ctx : list NcaContext) (i : nat)
    (pfs_file_ctx : PartitionFileSystemFileContext) : M PartitionFileSystemFileContext :=
  let cur_nca_ctx := nca_ctx !!! i in
  match content_type_ctx cur_nca_ctx with
  | None => ret pfs_file_ctx
  | Some ctx =>
      let data_idx := content_type_ctx_data_idx cur_nca_ctx in
      r <- match content_type cur_nca_ctx, ctx with
           | NcmContentType_Program, ProgramCtx p =>
               ret (pi_authoring_tool_xml p, pi_authoring_tool_xml_size p,
                    (data_idx, pfs_file_ctx))
           | NcmContentType_Control, ControlCtx n =>
               st <- for_each_from (icon_ctx n) 0 (write_icon cur_nca_ctx)
                       (data_idx, pfs_file_ctx) ;;
               ret (nacp_authoring_tool_xml n, nacp_authoring_tool_xml_size n, st)
           | NcmContentType_LegalInformation, LegalCtx l =>
               ret (li_authoring_tool_xml l, li_authoring_tool_xml_size l,
                    (data_idx, pfs_file_ctx))
           | NcmContentType_Program, _
           | NcmContentType_Control, _
           | NcmContentType_LegalInformation, _ => stuck
           | _, _ => ret ([], 0%Z, (data_idx, pfs_file_ctx))
           end ;;
      let authoring_tool_xml := fst (fst r) in
      let authoring_tool_xml_size := snd (fst r) in
      let data_idx := fst (snd r) in
      let pfs_file_ctx := snd (snd r) in
      (* write xml *)
      let tmp_name := pfsGetEntryNameByIndexFromFileContext pfs_file_ctx data_idx in
      ok <- send_file authoring_tool_xml_size tmp_name authoring_tool_xml ;;
      check "send failed" ok ;;;
      (* update pfs entry name *)
      or_abort "pfs update entry name failed"
        (pfsUpdateEntryNameFromFileContext pfs_file_ctx data_idx
           (content_id_str cur_nca_ctx))
  end.

(** Lines 683-704. *)
Definition write_tik_cert (cr : Credentials) (pfs_file_ctx : PartitionFileSystemFileContext)
  : M unit :=
  if retrieve_tik_cert cr then
    (* write ticket *)
    ok <- send_file (tik_size (cr_tik cr))
            (pfsGetEntryNameByIndexFromFileContext pfs_file_ctx (entry_count pfs_file_ctx - 2))
            (tik_data (cr_tik cr)) ;;
    check "send failed" ok ;;;
    (* write cert *)
    ok <- send_file (raw_cert_chain_size cr)
            (pfsGetEntryNameByIndexFromFileContext pfs_file_ctx (entry_count pfs_file_ctx - 1))
            (raw_cert_chain cr) ;;
    check "send failed" ok
  else ret tt.

(** *** The whole of [nspDump] *)

(** What a finished run leaves behind: the values of the locals the
    properties speak about, the provisional ones among them. *)
Record Dump := {
  d_contexts : Contexts;
  d_credentials : Credentials;
  d_layout : Layout;                  (* at the first header *)
  d_provisional_header_size : Z;
  nsp_size : Z;
  d_stream : Stream;                  (* after the last entry went out *)
  nsp_header_size : Z                 (* of the second header *)
}.

(** [nsp_offset] is only ever added to and is left out; so are the console
    output and the release of the buffers at [end:].  With the console
    output of lines 68-85 the read of [app_metadata] in lines 74-75 is
    left out: the pointer is [NULL] for a title that has no application
    metadata, neither of its own nor of its parent, and the model is one
    of the runs on titles that have it.  The [return] of the guard in
    line 66 is an [abort] without message. *)
Definition nspDump (t : TitleInfo) (o : options_t) : M Dump :=
  if bool_decide (content_count t = 0) then abort ""
  else
    cx <- nspDump_contexts t o ;;
    cr <- nspDump_credentials t o (cx_tik cx) ;;
    ly <- nspDump_layout t cx cr ;;
    (* write buffer to memory buffer *)
    h1 <- write_header "pfs write header to mem #1 failed" (snd ly) ;;
    let nsp_size := u64 (snd h1 + fs_size (snd ly)) in
    usb_conn <- nspDump_wait_usb ;;
    check "usb connection failed" usb_conn ;;;
    ok <- usbSendFileProperties nsp_size (cx_path cx) (u32 (snd h1)) ;;
    check "usb send file properties (header) failed" ok ;;;
    (* write ncas *)
    st <- for_loop (content_count t) 0 (write_nca (content_count t - 1))
            {| st_buf := fst h1; st_nca_ctx := fst ly; st_cnmt_ctx := cx_cnmt_ctx cx;
               st_pfs_file_ctx := snd ly |} ;;
    st <- write_cnmt_xml t st ;;
    (* write content type ctx data *)
    pfs_file_ctx <- for_loop (content_count t - 1) 0
                      (write_content_type_ctx_data (st_nca_ctx st)) (st_pfs_file_ctx st) ;;
    write_tik_cert cr pfs_file_ctx ;;;
    (* write new pfs0 header *)
    h2 <- write_header "pfs write header to mem #2 failed" pfs_file_ctx ;;
    ok <- usbSendNspHeader (fst h2) (u32 (snd h2)) ;;
    check "send nsp header failed" ok ;;;
    ret {| d_contexts := cx; d_credentials := cr; d_layout := ly;
           d_provisional_header_size := snd h1; nsp_size := nsp_size;
           d_stream := {| st_buf := fst h2; st_nca_ctx := st_nca_ctx st;
                          st_cnmt_ctx := st_cnmt_ctx st; st_pfs_file_ctx := pfs_file_ctx |};
           nsp_header_size := snd h2 |}.

End Dump.

(** * The menu of [main] (lines 756-1043)

    [main] draws a three level menu (the title, the kind of dump, the
    options and the start of the dump) and reacts to the buttons of the
    controller.  Its locals are the fields of [Menu]; what it calls is
    written to a log.  The text of the [printf] calls is kept as data
    ([Screen]), not as characters; the release of [app_metadata] is left
    out. *)

(** ** Titles as the menu sees them *)

Record TitleApplicationMetadata := {
  title_id : Z;
  lang_entry_name : string;
  lang_entry_author : string
}.

(** A [TitleInfo *] into a list linked by [previous] and [next]: the
    record pointed to, the records [previous] leads to (nearest first)
    and the records [next] leads to. *)
Record TitleInfoPtr := {
  ptr_previous : list TitleInfo;
  ptr_info : TitleInfo;
  ptr_next : list TitleInfo
}.

(** [title_info->previous], [NULL] at the head of the list. *)
Definition previous (p : TitleInfoPtr) : option TitleInfoPtr :=
  match ptr_previous p with
  | [] => None
  | t :: l => Some {| ptr_previous := l; ptr_info := t;
                      ptr_next := ptr_info p :: ptr_next p |}
  end.

(** [title_info->next], [NULL] at the end of the list. *)
Definition next (p : TitleInfoPtr) : option TitleInfoPtr :=
  match ptr_next p with
  | [] => None
  | t :: l => Some {| ptr_previous := ptr_info p :: ptr_previous p; ptr_info := t;
                      ptr_next := l |}
  end.

Record TitleUserApplicationData := {
  app_info : option TitleInfoPtr;
  patch_info : option TitleInfoPtr;
  aoc_info : option TitleInfoPtr
}.

(** ** The static tables (lines 33-53) *)

Definition dump_type_strings : list string :=
  ["dump base application"; "dump update"; "dump dlc"].

Definition dump_type_strings_count : Z := Z.of_nat (length dump_type_strings).

(** The [str] fields of [options[]]. *)
Definition options_str : list string :=
  ["set download distribution type";
   "remove console specific data";
   "remove titlekey crypto (implies previous option)";
   "change acid rsa key/sig"].

Definition options_count : Z := Z.of_nat (length options_str).

(** The [val] fields of [options[]] as [nspDump] reads them in line 87. *)
Definition options_read (vals : list bool) : options_t :=
  {| set_download_type := vals !!! 0;
     remove_console_data := vals !!! 1;
     remove_titlekey_crypto := vals !!! 2;
     change_acid_rsa := vals !!! 3 |}.

Definition UINT32_MAX : Z := (2 ^ 32 - 1)%Z.

Definition page_size : Z := 30.

(** ** What is drawn *)

(** A line of the list of lines 837-860, after its arrow. *)
Inductive Line :=
| Line_title (id : Z) (name : string)
| Line_type (text : string)
| Line_start
| Line_option (text : string) (val : bool)
| Line_empty.

(** What stands above the list (lines 802-832). *)
Inductive Head :=
| Head_select (position count : Z) (selected : TitleApplicationMetadata)
| Head_title (chosen : TitleApplicationMetadata)
| Head_info (chosen : TitleApplicationMetadata) (siblings : bool)
    (list_idx list_count : Z) (info : TitleInfo).

Record Screen := {
  scr_menu : Z;
  scr_head : Head;
  scr_lines : list (bool * Line)   (* the arrow and the line *)
}.

(** ** What [main] calls *)

Inductive UiCall :=
| Ui_consoleInit
| Ui_consoleExit
| Ui_consolePrint (text : string)
| Ui_draw (s : Screen)            (* [consoleClear] ... [consoleUpdate] *)
| Ui_consoleClear
| Ui_utilsInitializeResources
| Ui_utilsCloseResources
| Ui_titleGetApplicationMetadataEntries
| Ui_titleGetUserApplicationData (id : Z)
| Ui_titleGetCountFromInfoBlock
| Ui_utilsSleep (seconds : Z)
| Ui_utilsChangeHomeButtonBlockStatus (block : bool)
| Ui_nspDump (title_info : option TitleInfo) (o : options_t)
| Ui_utilsWaitForButtonPress
| Ui_svcSleepThread (nanoseconds : Z).

(** The bits of [HidControllerKeys] that [main] tests; libnx gives them
    their values. *)
Record HidControllerKeys := {
  KEY_A : Z;
  KEY_B : Z;
  KEY_L : Z;
  KEY_R : Z;
  KEY_ZL : Z;
  KEY_ZR : Z;
  KEY_DLEFT : Z;
  KEY_DUP : Z;
  KEY_DRIGHT : Z;
  KEY_DDOWN : Z;
  KEY_LSTICK_UP : Z;
  KEY_LSTICK_DOWN : Z;
  KEY_RSTICK_UP : Z;
  KEY_RSTICK_DOWN : Z
}.

(** What the title module answers: [title.c] is not part of the sources,
    its answers are taken as they come.  [titleGetUserApplicationData]
    answers by what was called before, for the title and over the block
    it is handed; the block is what it leaves there, also when it
    fails. *)
Record Console := {
  utils_initialize_resources : bool;
  title_get_application_metadata_entries : option (list TitleApplicationMetadata);
  title_get_user_application_data :
    list UiCall -> Z -> TitleUserApplicationData -> bool * TitleUserApplicationData;
  title_get_count_from_info_block : option TitleInfoPtr -> Z
}.

(** A turn of the loop of lines 869-897: the buttons down and held, and,
    had no button been pressed, what [titleIsGameCardInfoUpdated] and
    after it [titleGetApplicationMetadataEntries] would answer. *)
Record Poll := {
  btn_down : Z;
  btn_held : Z;
  gamecard_info_updated : bool;
  refreshed_entries : option (list TitleApplicationMetadata)
}.

(** ** The locals of [main] *)

Record Menu := {
  app_metadata : list TitleApplicationMetadata;
  user_app_data : TitleUserApplicationData;
  title_info : option TitleInfoPtr;
  menu : Z;
  selected_idx : Z;
  scroll : Z;
  title_idx : Z;
  title_scroll : Z;
  type_idx : Z;
  type_scroll : Z;
  list_count : Z;
  list_idx : Z;
  options : list bool             (* [options[].val] *)
}.

(** [app_count]: the number of entries behind [app_metadata]. *)
Definition app_count (m : Menu) : Z := Z.of_nat (length (app_metadata m)).

Definition set_menu (v : Z) (m : Menu) : Menu :=
  {| app_metadata := app_metadata m; user_app_data := user_app_data m;
     title_info := title_info m; menu := v; selected_idx := selected_idx m;
     scroll := scroll m; title_idx := title_idx m; title_scroll := title_scroll m;
     type_idx := type_idx m; type_scroll := type_scroll m; list_count := list_count m;
     list_idx := list_idx m; options := options m |}.

Definition set_selected_idx (v : Z) (m : Menu) : Menu :=
  {| app_metadata := app_metadata m; user_app_data := user_app_data m;
     title_info := title_info m; menu := menu m; selected_idx := v;
     scroll := scroll m; title_idx := title_idx m; title_scroll := title_scroll m;
     type_idx := type_idx m; type_scroll := type_scroll m; list_count := list_count m;
     list_idx := list_idx m; options := options m |}.

Definition set_scroll (v : Z) (m : Menu) : Menu :=
  {| app_metadata := app_metadata m; user_app_data := user_app_data m;
     title_info := title_info m; menu := menu m; selected_idx := selected_idx m;
     scroll := v; title_idx := title_idx m; title_scroll := title_scroll m;
     type_idx := type_idx m; type_scroll := type_scroll m; list_count := list_count m;
     list_idx := list_idx m; options := options m |}.

(** [title_idx = selected_idx; title_scroll = scroll;] *)
Definition set_title (idx scr : Z) (m : Menu) : Menu :=
  {| app_metadata := app_metadata m; user_app_data := user_app_data m;
     title_info := title_info m; menu := menu m; selected_idx := selected_idx m;
     scroll := scroll m; title_idx := idx; title_scroll := scr;
     type_idx := type_idx m; type_scroll := type_scroll m; list_count := list_count m;
     list_idx := list_idx m; options := options m |}.

(** [type_idx = selected_idx; type_scroll = scroll;] *)
Definition set_type (idx scr : Z) (m : Menu) : Menu :=
  {| app_metadata := app_metadata m; user_app_data := user_app_data m;
     title_info := title_info m; menu := menu m; selected_idx := selected_idx m;
     scroll := scroll m; title_idx := title_idx m; title_scroll := title_scroll m;
     type_idx := idx; type_scroll := scr; list_count := list_count m;
     list_idx := list_idx m; options := options m |}.

Definition set_user_app_data (d : TitleUserApplicationData) (m : Menu) : Menu :=
  {| app_metadata := app_metadata m; user_app_data := d;
     title_info := title_info m; menu := menu m; selected_idx := selected_idx m;
     scroll := scroll m; title_idx := title_idx m; title_scroll := title_scroll m;
     type_idx := type_idx m; type_scroll := type_scroll m; list_count := list_count m;
     list_idx := list_idx m; options := options m |}.

Definition set_title_info (p : option TitleInfoPtr) (m : Menu) : Menu :=
  {| app_metadata := app_metadata m; user_app_data := user_app_data m;
     title_info := p; menu := menu m; selected_idx := selected_idx m;
     scroll := scroll m; title_idx := title_idx m; title_scroll := title_scroll m;
     type_idx := type_idx m; type_scroll := type_scroll m; list_count := list_count m;
     list_idx := list_idx m; options := options m |}.

Definition set_list (count idx : Z) (m : Menu) : Menu :=
  {| app_metadata := app_metadata m; user_app_data := user_app_data m;
     title_info := title_info m; menu := menu m; selected_idx := selected_idx m;
     scroll := scroll m; title_idx := title_idx m; title_scroll := title_scroll m;
     type_idx := type_idx m; type_scroll := type_scroll m; list_count := count;
     list_idx := idx; options := options m |}.

Definition set_options (vals : list bool) (m : Menu) : Menu :=
  {| app_metadata := app_metadata m; user_app_data := user_app_data m;
     title_info := title_info m; menu := menu m; selected_idx := selected_idx m;
     scroll := scroll m; title_idx := title_idx m; title_scroll := title_scroll m;
     type_idx := type_idx m; type_scroll := type_scroll m; list_count := list_count m;
     list_idx := list_idx m; options := vals |}.

(** Lines 773-782 with the table of line 784 and the initialiser of
    [options]. *)
Definition menu_init (entries : list TitleApplicationMetadata) : Menu :=
  {| app_metadata := entries;
     user_app_data := {| app_info := None; patch_info := None; aoc_info := None |};
     title_info := None; menu := 0; selected_idx := 0; scroll := 0;
     title_idx := 0; title_scroll := 0; type_idx := 0; type_scroll := 0;
     list_count := 0; list_idx := 0;
     options := [false; false; false; false] |}.

(** Lines 878-891: the table is read again and the menu starts over;
    [user_app_data], [title_info] and [options] stay. *)
Definition menu_refresh (entries : list TitleApplicationMetadata) (m : Menu) : Menu :=
  {| app_metadata := entries; user_app_data := user_app_data m;
     title_info := title_info m; menu := 0; selected_idx := 0; scroll := 0;
     title_idx := 0; title_scroll := 0; type_idx := 0; type_scroll := 0;
     list_count := 0; list_idx := 0; options := options m |}.

(** Line 836. *)
Definition max_val (m : Menu) : Z :=
  if (menu m =? 0)%Z then app_count m
  else if (menu m =? 1)%Z then dump_type_strings_count
  else u32 (1 + options_count).

(** ** The screen (lines 797-864)

    A read past the end of [app_metadata], [dump_type_strings] or
    [options], and a read through a [title_info] that is [NULL], give no
    screen. *)

(** Lines 802-832. *)
Definition draw_head (m : Menu) : option Head :=
  if (menu m =? 0)%Z then
    match app_metadata m !! Z.to_nat (selected_idx m) with
    | Some selected => Some (Head_select (u32 (selected_idx m + 1)) (app_count m) selected)
    | None => None
    end
  else
    match app_metadata m !! Z.to_nat (title_idx m) with
    | Some chosen =>
        if (menu m =? 2)%Z then
          match title_info m with
          | Some p =>
              Some (Head_info chosen
                      (bool_decide (previous p <> None) || bool_decide (next p <> None))
                      (list_idx m) (list_count m) (ptr_info p))
          | None => None
          end
        else Some (Head_title chosen)
    | None => None
    end.

(** Lines 843-859: the line of index [i]. *)
Definition draw_line (m : Menu) (i : Z) : option Line :=
  if (menu m =? 0)%Z then
    match app_metadata m !! Z.to_nat i with
    | Some a => Some (Line_title (title_id a) (lang_entry_name a))
    | None => None
    end
  else if (menu m =? 1)%Z then
    match dump_type_strings !! Z.to_nat i with
    | Some s => Some (Line_type s)
    | None => None
    end
  else if (menu m =? 2)%Z then
    if (i =? 0)%Z then Some Line_start
    else
      match options_str !! Z.to_nat (u32 (i - 1)), options m !! Z.to_nat (u32 (i - 1)) with
      | Some s, Some v => Some (Line_option s v)
      | _, _ => None
      end
  else Some Line_empty.

(** Lines 837-860: [for (i = scroll; i < max_val; i++)] over the values
    [i] takes, with the [break] of line 839. *)
Fixpoint draw_lines (m : Menu) (indices : list Z) : option (list (bool * Line)) :=
  match indices with
  | [] => Some []
  | i :: indices' =>
      if (u32 (scroll m + page_size) <=? i)%Z then Some []
      else
        match draw_line m i, draw_lines m indices' with
        | Some l, Some ls => Some ((i =? selected_idx m, l)%Z :: ls)
        | _, _ => None
        end
  end.

(** The values of [i] from [scroll] up to [max_val]. *)
Definition line_indices (m : Menu) : list Z :=
  (fun k : nat => (scroll m + Z.of_nat k)%Z) <$> seq 0 (Z.to_nat (max_val m - scroll m)).

Definition draw (m : Menu) : option Screen :=
  match draw_head m, draw_lines m (line_indices m) with
  | Some h, Some ls => Some {| scr_menu := menu m; scr_head := h; scr_lines := ls |}
  | _, _ => None
  end.

(** ** The buttons (lines 901-1025) *)

Section Main.

Context (K : HidControllerKeys) (C : Console).

(** [mask & key] as a condition. *)
Definition pressed (mask key : Z) : bool := negb (Z.land mask key =? 0)%Z.

(** How a turn of the outer loop ends: at the foot of the loop body, by
    [continue], by [break], or in a read that has no value. *)
Inductive Turn :=
| Turn_next (m : Menu) (log : list UiCall)
| Turn_continue (m : Menu) (log : list UiCall)
| Turn_break (m : Menu) (log : list UiCall)
| Turn_fault (log : list UiCall).

(** Lines 924-950: what entering the menu [menu m] does; the flag is
    [error]. *)
Definition enter_menu (m : Menu) (log : list UiCall)
  : option (Menu * list UiCall * bool) :=
  if (menu m =? 1)%Z then
    match app_metadata m !! Z.to_nat (title_idx m) with
    | Some chosen =>
        let r := title_get_user_application_data C log (title_id chosen)
                   (user_app_data m) in
        let log := log ++ [Ui_titleGetUserApplicationData (title_id chosen)] in
        let m := set_user_app_data (snd r) m in
        if fst r then Some (m, log, false)
        else Some (m, log ++ [Ui_consolePrint "get user application data failed!"], true)
    | None => None
    end
  else if (menu m =? 2)%Z then
    let d := user_app_data m in
    if ((type_idx m =? 0)%Z && bool_decide (app_info d = None))
       || ((type_idx m =? 1)%Z && bool_decide (patch_info d = None))
       || ((type_idx m =? 2)%Z && bool_decide (aoc_info d = None))
    then Some (m, log ++ [Ui_consolePrint
                            "the selected title doesn't have available %s data"], true)
    else
      let p := if (type_idx m =? 0)%Z then app_info d
               else if (type_idx m =? 1)%Z then patch_info d
               else aoc_info d in
      Some (set_list (title_get_count_from_info_block C p) 1 (set_title_info p m),
            log ++ [Ui_titleGetCountFromInfoBlock], false)
  else if (menu m =? 3)%Z then
    Some (m, log ++ [Ui_consoleClear;
                     Ui_utilsChangeHomeButtonBlockStatus true;
                     Ui_nspDump (ptr_info <$> title_info m) (options_read (options m));
                     Ui_utilsChangeHomeButtonBlockStatus false], false)
  else Some (m, log, false).

(** Lines 901-960: [KEY_A]. *)
Definition press_a (m : Menu) (log : list UiCall) : Turn :=
  let m := if (menu m =? 0)%Z then set_title (selected_idx m) (scroll m) m
           else if (menu m =? 1)%Z then set_type (selected_idx m) (scroll m) m
           else m in
  let m := set_menu (u32 (menu m + 1)) m in
  if (menu m =? 3)%Z && negb (selected_idx m =? 0)%Z
  then Turn_continue (set_menu (u32 (menu m - 1)) m) log
  else
    match enter_menu m log with
    | Some (m, log, error) =>
        if error || (3 <=? menu m)%Z
        then Turn_next (set_menu (u32 (menu m - 1)) m)
               (log ++ [Ui_consolePrint "press any button to continue";
                        Ui_utilsWaitForButtonPress])
        else Turn_next (set_scroll 0 (set_selected_idx 0 m)) log
    | None => Turn_fault log
    end.

(** Lines 961-977: down; [dpad] is [btn_down & KEY_DDOWN]. *)
Definition press_down (dpad : bool) (m : Menu) : Menu :=
  let m := set_selected_idx (u32 (selected_idx m + 1)) m in
  if (max_val m <=? selected_idx m)%Z then
    if dpad then set_scroll 0 (set_selected_idx 0 m)
    else set_selected_idx (u32 (max_val m - 1)) m
  else if (u32 (scroll m + page_size / 2) <=? selected_idx m)%Z
          && (u32 (scroll m + page_size) <? max_val m)%Z
       then set_scroll (u32 (scroll m + 1)) m
       else m.

(** Lines 979-996: up; [dpad] is [btn_down & KEY_DUP]. *)
Definition press_up (dpad : bool) (m : Menu) : Menu :=
  let m := set_selected_idx (u32 (selected_idx m - 1)) m in
  if (selected_idx m =? UINT32_MAX)%Z then
    if dpad then
      set_scroll (if (page_size <=? max_val m)%Z then u32 (max_val m - page_size) else 0)
        (set_selected_idx (u32 (max_val m - 1)) m)
    else set_selected_idx 0 m
  else if (selected_idx m <? u32 (scroll m + page_size / 2))%Z && (0 <? scroll m)%Z
       then set_scroll (u32 (scroll m - 1)) m
       else m.

(** Lines 998-1008: [KEY_B]. *)
Definition press_b (m : Menu) (log : list UiCall) : Turn :=
  let m := set_menu (u32 (menu m - 1)) m in
  if (menu m =? UINT32_MAX)%Z then Turn_break m log
  else
    Turn_next
      (set_scroll (if (menu m =? 0)%Z then title_scroll m else type_scroll m)
         (set_selected_idx (if (menu m =? 0)%Z then title_idx m else type_idx m) m))
      log.

(** Lines 1019-1023: the last link of the chain, [KEY_R] and [KEY_ZR]. *)
Definition press_r (p : Poll) (m : Menu) (log : list UiCall) : Turn :=
  let down := pressed (btn_down p) in
  if (down (KEY_R K) || down (KEY_ZR K)) && (menu m =? 2)%Z
  then
    match title_info m with
    | Some t =>
        match next t with
        | Some q => Turn_next (set_list (list_count m) (u32 (list_idx m + 1))
                                 (set_title_info (Some q) m)) log
        | None => Turn_next m log
        end
    | None => Turn_fault log
    end
  else Turn_next m log.

(** Lines 901-1023: the chain of [if ... else if] over the buttons. *)
Definition handle (p : Poll) (m : Menu) (log : list UiCall) : Turn :=
  let down := pressed (btn_down p) in
  let held := pressed (btn_held p) in
  if down (KEY_A K) then press_a m log
  else if down (KEY_DDOWN K) || held (Z.lor (KEY_LSTICK_DOWN K) (KEY_RSTICK_DOWN K))
  then Turn_next (press_down (down (KEY_DDOWN K)) m) log
  else if down (KEY_DUP K) || held (Z.lor (KEY_LSTICK_UP K) (KEY_RSTICK_UP K))
  then Turn_next (press_up (down (KEY_DUP K)) m) log
  else if down (KEY_B K) then press_b m log
  else if (down (KEY_DLEFT K) || down (KEY_DRIGHT K))
          && (menu m =? 2)%Z && negb (selected_idx m =? 0)%Z
  then
    (* options[selected_idx - 1].val ^= 1; *)
    match options m !! Z.to_nat (u32 (selected_idx m - 1)) with
    | Some v =>
        Turn_next
          (set_options (<[Z.to_nat (u32 (selected_idx m - 1)) := xorb v true]> (options m)) m)
          log
    | None => Turn_fault log
    end
  else if (down (KEY_L K) || down (KEY_ZL K)) && (menu m =? 2)%Z
  then
    match title_info m with
    | Some t =>
        match previous t with
        | Some q => Turn_next (set_list (list_count m) (u32 (list_idx m - 1))
                                 (set_title_info (Some q) m)) log
        | None => press_r p m log
        end
    | None => Turn_fault log
    end
  else press_r p m log.

(** Line 1025. *)
Definition sleep_if_held (p : Poll) (log : list UiCall) : list UiCall :=
  if pressed (btn_held p)
       (Z.lor (Z.lor (KEY_LSTICK_DOWN K) (KEY_RSTICK_DOWN K))
          (Z.lor (KEY_LSTICK_UP K) (KEY_RSTICK_UP K)))
  then log ++ [Ui_svcSleepThread 50000000]
  else log.

(** ** The loop *)

(** How far a script of polls takes [main]: to its [return], to a screen
    where it waits for the next poll, or into a read that has no value. *)
Inductive Run :=
| Returned (ret : Z) (log : list UiCall)
| Waiting (m : Menu) (log : list UiCall)
| Fault (log : list UiCall).

(** Lines 1037-1042. *)
Definition out (ret : Z) (log : list UiCall) : Run :=
  Returned ret (log ++ [Ui_utilsCloseResources; Ui_consoleExit]).

(** Lines 1028-1035. *)
Definition out2 (menu : Z) (log : list UiCall) : Run :=
  out 0 (if (menu =? UINT32_MAX)%Z then log
         else log ++ [Ui_consolePrint "press any button to exit";
                      Ui_utilsWaitForButtonPress]).

(** The top of the loop body: the screen of [m] goes out and the polls
    begin. *)
Definition draw_screen (m : Menu) (log : list UiCall) : option (list UiCall) :=
  match draw m with
  | Some s => Some (log ++ [Ui_draw s])
  | None => None
  end.

(** The loop of lines 795-1026 from the polls of line 869 on, the screen
    of [m] being drawn: a poll without button and without news of the
    gamecard is followed by the next poll; any other ends the turn, and
    the next turn begins with its screen. *)
Fixpoint poll_loop (script : list Poll) (m : Menu) (log : list UiCall) : Run :=
  match script with
  | [] => Waiting m log
  | p :: script' =>
      if negb (btn_down p =? 0)%Z || negb (btn_held p =? 0)%Z then
        match handle p m log with
        | Turn_next m' log' =>
            match draw_screen m' (sleep_if_held p log') with
            | Some log'' => poll_loop script' m' log''
            | None => Fault (sleep_if_held p log')
            end
        | Turn_continue m' log' =>
            match draw_screen m' log' with
            | Some log'' => poll_loop script' m' log''
            | None => Fault log'
            end
        | Turn_break m' log' => out2 (menu m') log'
        | Turn_fault log' => Fault log'
        end
      else if gamecard_info_updated p then
        let log := log ++ [Ui_titleGetApplicationMetadataEntries] in
        match refreshed_entries p with
        | Some entries =>
            let m' := menu_refresh entries m in
            match draw_screen m' log with
            | Some log' => poll_loop script' m' log'
            | None => Fault log
            end
        | None => out2 (menu m) (log ++ [Ui_consolePrint "app metadata failed"])
        end
      else poll_loop script' m log
  end.

Definition main_loop (script : list Poll) (m : Menu) (log : list UiCall) : Run :=
  match draw_screen m log with
  | Some log' => poll_loop script m log'
  | None => Fault log
  end.

(** [main] over the polls of [script]. *)
Definition main (script : list Poll) : Run :=
  let log := [Ui_consoleInit; Ui_consolePrint "initializing...";
              Ui_utilsInitializeResources] in
  if utils_initialize_resources C then
    let log := log ++ [Ui_titleGetApplicationMetadataEntries] in
    match title_get_application_metadata_entries C with
    | Some (a :: entries) =>
        main_loop script (menu_init (a :: entries))
          (log ++ [Ui_consolePrint "app metadata succeeded"; Ui_utilsSleep 1])
    | _ => out2 0 (log ++ [Ui_consolePrint "app metadata failed"])
    end
  else out (-1) log.

End Main.

(** * Specification vocabulary *)

(** ** Classes of calls *)

(** Announcements and data handed to the transport. *)
Definition is_usb_transfer (c : Call) : bool :=
  match c with
  | Call_usbSendFileProperties _ _ _
  | Call_usbSendFilePropertiesCommon _ _
  | Call_usbSendFileData _ _
  | Call_usbSendNspHeader _ _ => true
  | _ => false
  end.

Definition is_cnmt_xml_generation (c : Call) : bool :=
  match c with
  | Call_cnmtGenerateAuthoringToolXml _ => true
  | _ => false
  end.

(** Calls that resolve the ticket and its certificate chain. *)
Definition is_credential_call (c : Call) : bool :=
  match c with
  | Call_tikGetCommonBlock
  | Call_tikConvertPersonalizedTicketToCommonTicket
  | Call_certRetrieveRawCertificateChainFromGameCardByRightsId _
  | Call_certGenerateRawCertificateChainBySignatureIssuer _ => true
  | _ => false
  end.

Definition is_usb_poll (c : Call) : bool :=
  match c with
  | Call_usbIsReady _ => true
  | _ => false
  end.

Definition is_sleep (c : Call) : bool :=
  match c with
  | Call_utilsSleep _ => true
  | _ => false
  end.

(** The bytes of the [usbSendFileData] calls of a stretch of calls. *)
Definition sent_bytes (evs : list Call) : list byte :=
  flat_map (fun c => match c with
                     | Call_usbSendFileData data _ => data
                     | _ => []
                     end) evs.

(** The seconds slept in a stretch of calls. *)
Definition slept (evs : list Call) : Z :=
  fold_right (fun c acc => match c with
                           | Call_utilsSleep s => (s + acc)%Z
                           | _ => acc
                           end) 0%Z evs.

(** [m] only makes calls of class [P], whatever its outcome, and the clock
    moves by what it sleeps. *)
Definition emits {A} (P : Call -> bool) (m : M A) : Prop :=
  forall w r w', m w = (r, w') ->
    exists evs, calls w' = calls w ++ evs /\ forallb P evs = true
                /\ clock w' = (clock w + slept evs)%Z.

Definition is_file_data (c : Call) : bool :=
  match c with
  | Call_usbSendFileData _ _ => true
  | _ => false
  end.

(** The calls a phase of the routine can make. *)
Definition contexts_call (c : Call) : bool :=
  match c with
  | Call_ncaInitializeContext _
  | Call_cnmtInitializeContext _
  | Call_ncaSetDownloadDistributionType _
  | Call_ncaRemoveTitlekeyCrypto _
  | Call_programInfoInitializeContext _
  | Call_programInfoGenerateNcaPatch _
  | Call_programInfoGenerateAuthoringToolXml _
  | Call_nacpInitializeContext _
  | Call_nacpGenerateAuthoringToolXml _
  | Call_legalInfoInitializeContext _
  | Call_ncaEncryptHeader _
  | Call_cnmtGenerateAuthoringToolXml _ => true
  | _ => false
  end.

Definition no_call (c : Call) : bool := false.

Definition wait_call (c : Call) : bool := is_usb_poll c || is_sleep c.

Definition patch_call (c : Call) : bool :=
  match c with
  | Call_ncaWriteEncryptedHeaderDataToMemoryBuffer _ _
  | Call_cnmtWriteNcaPatch _
  | Call_programInfoWriteNcaPatch _ _ => true
  | _ => false
  end.

Definition stream_call (c : Call) : bool :=
  match c with
  | Call_usbSendFilePropertiesCommon _ _
  | Call_usbSendFileData _ _
  | Call_cnmtGenerateNcaPatch
  | Call_ncaEncryptHeader _
  | Call_ncaReadContentFile _ _ _
  | Call_ncaUpdateContentIdAndHash _ _
  | Call_cnmtUpdateContentInfo _ => true
  | _ => patch_call c
  end.

Definition send_call (c : Call) : bool :=
  match c with
  | Call_usbSendFilePropertiesCommon _ _
  | Call_usbSendFileData _ _ => true
  | _ => false
  end.

(** The calls of a turn of the block loop. *)
Definition block_call (c : Call) : bool :=
  match c with
  | Call_ncaReadContentFile _ _ _
  | Call_usbSendFileData _ _ => true
  | _ => patch_call c
  end.

(** The calls before the blocks of the title-meta unit (line 489). *)
Definition meta_patch_call (c : Call) : bool :=
  match c with
  | Call_cnmtGenerateNcaPatch
  | Call_ncaEncryptHeader _ => true
  | _ => false
  end.

(** The calls of lines 580-704. *)
Definition cnmt_xml_call (c : Call) : bool := is_cnmt_xml_generation c || send_call c.

(** What reaches the transport, in order. *)
Definition transfers (evs : list Call) : list Call := List.filter is_usb_transfer evs.

(** What the block loop and the patch calls leave alone in an NCA
    context: everything but header, header flag and patch flag. *)
Definition nca_static (c : NcaContext) :=
  (content_id c, content_id_str c, content_size c, content_type c,
   content_type_ctx c, content_type_ctx_data_idx c).

(** The identifier [ncaUpdateContentIdAndHash] prints for the hash of the
    bytes sent in a stretch of calls. *)
Definition hash_of_sent (E : Collaborators) (evs : list Call) : list byte :=
  sha256ContextGetHash E (sent_bytes evs).

Definition hash_id (E : Collaborators) (evs : list Call) : string :=
  utilsGenerateHexStringFromData (byte_array 16 (hash_of_sent E evs)).

(** The calls of lines 481-578 for one content archive: the patch of the
    title-meta unit if it is the one, the announcement of the file, the
    blocks, the new identifier. *)
Definition nca_calls (E : Collaborators) (prep : list Call) (size : Z) (name : string)
    (blocks : list Call) (old_id : string) : list Call :=
  prep
  ++ [Call_usbSendFilePropertiesCommon size name]
  ++ blocks
  ++ [Call_ncaUpdateContentIdAndHash old_id (hash_of_sent E blocks);
      Call_cnmtUpdateContentInfo (hash_id E blocks)].

(** A finished run of [nspDump], phase by phase: the worlds between the
    phases and what each phase hands to the next. *)
Inductive nspDump_phases (E : Collaborators) (t : TitleInfo) (o : options_t)
    (w : World) (d : Dump) (w' : World) : Prop :=
| nspDump_phases_intro
    (ph_w1 ph_w2 ph_w3 ph_w4 ph_w5 ph_w6 ph_w7 ph_w8 ph_w9 : World)
    (ph_buf1 ph_buf2 : list byte)
    (ph_st1 ph_st2 : Stream)
    (ph_count : content_count t <> 0)
    (ph_contexts : nspDump_contexts E t o w = (Ok (d_contexts d), ph_w1))
    (ph_credentials :
       nspDump_credentials E t o (cx_tik (d_contexts d)) ph_w1
       = (Ok (d_credentials d), ph_w2))
    (ph_layout :
       nspDump_layout E t (d_contexts d) (d_credentials d) ph_w2
       = (Ok (d_layout d), ph_w3))
    (ph_header1 :
       pfsWriteFileContextHeaderToMemoryBuffer (pfs_format E) (snd (d_layout d)) BLOCK_SIZE
       = Some (ph_buf1, d_provisional_header_size d))
    (ph_nsp_size :
       nsp_size d = u64 (d_provisional_header_size d + fs_size (snd (d_layout d))))
    (ph_wait : nspDump_wait_usb E ph_w3 = (Ok true, ph_w4))
    (ph_announce :
       ph_w5 = Build_World
                 (calls ph_w4
                  ++ [Call_usbSendFileProperties (nsp_size d) (cx_path (d_contexts d))
                        (u32 (d_provisional_header_size d))])
                 (clock ph_w4))
    (ph_announce_ok : usb_accepts E (calls ph_w5) = true)
    (ph_ncas :
       for_loop (content_count t) 0 (write_nca E (content_count t - 1))
         (Build_Stream ph_buf1 (fst (d_layout d)) (cx_cnmt_ctx (d_contexts d))
            (snd (d_layout d))) ph_w5
       = (Ok ph_st1, ph_w6))
    (ph_cnmt_xml : write_cnmt_xml E t ph_st1 ph_w6 = (Ok ph_st2, ph_w7))
    (ph_ctx_data :
       for_loop (content_count t - 1) 0
         (write_content_type_ctx_data E (st_nca_ctx ph_st2))
         (st_pfs_file_ctx ph_st2) ph_w7
       = (Ok (st_pfs_file_ctx (d_stream d)), ph_w8))
    (ph_tik_cert :
       write_tik_cert E (d_credentials d) (st_pfs_file_ctx (d_stream d)) ph_w8
       = (Ok tt, ph_w9))
    (ph_header2 :
       pfsWriteFileContextHeaderToMemoryBuffer (pfs_format E)
         (st_pfs_file_ctx (d_stream d)) BLOCK_SIZE
       = Some (ph_buf2, nsp_header_size d))
    (ph_resend :
       w' = Build_World
              (calls ph_w9
               ++ [Call_usbSendNspHeader
                     (take (Z.to_nat (u32 (nsp_header_size d))) ph_buf2)
                     (u32 (nsp_header_size d))])
              (clock ph_w9))
    (ph_resend_ok : usb_accepts E (calls w') = true)
    (ph_stream_buf : st_buf (d_stream d) = ph_buf2)
    (ph_stream_nca_ctx : st_nca_ctx (d_stream d) = st_nca_ctx ph_st2)
    (ph_stream_cnmt_ctx : st_cnmt_ctx (d_stream d) = st_cnmt_ctx ph_st2).

(** ** Entry names *)

(** What follows the 32-hex identifier of an entry name. *)
Definition entry_extension (name : string) : string := string_drop 32 name.

Definition is_ticket_entry (e : PartitionFileSystemEntry) : bool :=
  String.eqb (entry_extension (entry_name e)) ".tik".

Definition is_certificate_entry (e : PartitionFileSystemEntry) : bool :=
  String.eqb (entry_extension (entry_name e)) ".cert".

(** What a rename by a 32-hex identifier leaves alone in an entry. *)
Definition entry_shape (e : PartitionFileSystemEntry) :=
  (String.length (entry_name e), entry_extension (entry_name e), entry_size e).


Definition pfs_shape (ctx : PartitionFileSystemFileContext) :=
  (entry_shape <$> entries ctx, fs_size ctx).

Definition long_name (e : PartitionFileSystemEntry) : Prop :=
  32 <= String.length (entry_name e).

(** The sum of the declared sizes of the entries. *)
Definition payload_size (es : list PartitionFileSystemEntry) : Z :=
  fold_right (fun e acc => (entry_size e + acc)%Z) 0%Z es.

(** ** NCA contexts *)

(** The test of line 207: the rights material of the unit is missing. *)
Definition nca_skipped (c : NcaContext) : bool :=
  rights_id_available c && negb (titlekey_retrieved c).

(** The context behind [content_type_ctx] is of the kind the content type
    calls for. *)
Definition ctx_matches (c : NcaContext) : Prop :=
  match content_type_ctx c with
  | None => True
  | Some (ProgramCtx _) => content_type c = NcmContentType_Program
  | Some (ControlCtx _) => content_type c = NcmContentType_Control
  | Some (LegalCtx _) => content_type c = NcmContentType_LegalInformation
  end.

(** A pending program patch has its program context. *)
Definition patch_has_ctx (c : NcaContext) : Prop :=
  content_type_ctx_patch c = true -> content_type c = NcmContentType_Program ->
  exists p, content_type_ctx c = Some (ProgramCtx p).

(** What the preparation of a unit (lines 213-303) leaves as it was
    opened. *)
Definition nca_core (c : NcaContext) :=
  (content_id c, content_id_str c, content_size c, content_type c,
   rights_id_available c, titlekey_retrieved c, content_type_ctx_data_idx c,
   header_written c).

Definition nca_named (c : NcaContext) : Prop := String.length (content_id_str c) = 32.

(** A slot of [nca_ctx] after the contexts are set up. *)
Definition nca_prepared (c : NcaContext) : Prop :=
  ctx_matches c /\ patch_has_ctx c
  /\ content_type_ctx_data_idx c = 0
  /\ (0 <= content_size c < 2 ^ 64)%Z
  /\ (nca_skipped c = true -> exists ci a, c = nca_context_of ci a).

(** The number of records that are not title-meta records. *)
Definition nonmeta (l : list NcmContentInfo) : nat :=
  length (filter (fun ci => ci_content_type ci <> NcmContentType_Meta) l).

(** A slot the loop of lines 190-306 has filled. *)
Definition nca_loop_slot (c : NcaContext) : Prop :=
  nca_prepared c /\ nca_named c /\ content_type c <> NcmContentType_Meta.

(** ** The layout *)

(** The entry of a content archive (line 347). *)
Definition nca_entry (c : NcaContext) : PartitionFileSystemEntry :=
  {| entry_name := content_id_str c +:+ "."
                   +:+ (if decide (content_type c = NcmContentType_Meta)
                        then "cnmt.nca" else "nca");
     entry_size := content_size c |}.

Definition cnmt_xml_entry (meta : NcaContext) (cnmt_ctx : ContentMetaContext)
  : PartitionFileSystemEntry :=
  {| entry_name := content_id_str meta +:+ ".cnmt.xml";
     entry_size := authoring_tool_xml_size cnmt_ctx |}.

Definition icon_entry (E : Collaborators) (c : NcaContext) (icon : NacpIconContext)
  : PartitionFileSystemEntry :=
  {| entry_name := content_id_str c +:+ ".nx."
                   +:+ nacpGetLanguageString E (icon_language icon) +:+ ".jpg";
     entry_size := icon_size icon |}.

(** The entries of the content type context of a unit (lines 371-408). *)
Definition ctx_entries (E : Collaborators) (c : NcaContext)
  : list PartitionFileSystemEntry :=
  match content_type_ctx c with
  | Some (ProgramCtx p) =>
      [{| entry_name := content_id_str c +:+ ".programinfo.xml";
          entry_size := pi_authoring_tool_xml_size p |}]
  | Some (ControlCtx n) =>
      (icon_entry E c <$> icon_ctx n)
      ++ [{| entry_name := content_id_str c +:+ ".nacp.xml";
             entry_size := nacp_authoring_tool_xml_size n |}]
  | Some (LegalCtx l) =>
      [{| entry_name := content_id_str c +:+ ".legalinfo.xml";
          entry_size := li_authoring_tool_xml_size l |}]
  | None => []
  end.

Definition tik_cert_entries (cr : Credentials) : list PartitionFileSystemEntry :=
  if retrieve_tik_cert cr
  then [{| entry_name := rights_id_str (cr_tik cr) +:+ ".tik";
           entry_size := tik_size (cr_tik cr) |};
        {| entry_name := rights_id_str (cr_tik cr) +:+ ".cert";
           entry_size := raw_cert_chain_size cr |}]
  else [].

(** The entry table [nspDump] lays out for the contexts [nca_ctx]. *)
Definition layout_entries (E : Collaborators) (nca_ctx : list NcaContext)
    (cnmt_ctx : ContentMetaContext) (cr : Credentials)
  : list PartitionFileSystemEntry :=
  (nca_entry <$> nca_ctx)
  ++ [cnmt_xml_entry (nca_ctx !!! (length nca_ctx - 1)) cnmt_ctx]
  ++ flat_map (ctx_entries E) (take (length nca_ctx - 1) nca_ctx)
  ++ tik_cert_entries cr.

(** An NCA context without the index the layout records in it. *)
Definition forget_data_idx (c : NcaContext) : NcaContext := nca_set_data_idx 0 c.

(** The payload size of a context follows its entries. *)
Definition pfs_consistent (ctx : PartitionFileSystemFileContext) : Prop :=
  fs_size ctx = u64 (payload_size (entries ctx)).

(** ** The stream *)

(** One content archive going out: what [write_nca] calls with. *)
Record NcaUnit := {
  u_prep : list Call;
  u_size : Z;
  u_name : string;
  u_blocks : list Call;
  u_old_id : string
}.

Definition unit_calls (E : Collaborators) (u : NcaUnit) : list Call :=
  nca_calls E (u_prep u) (u_size u) (u_name u) (u_blocks u) (u_old_id u).

(** The sizes [usbSendFileData] is called with in a stretch of calls,
    summed. *)
Definition declared_bytes (evs : list Call) : Z :=
  fold_right (fun c acc => match c with
                           | Call_usbSendFileData _ data_size => (data_size + acc)%Z
                           | _ => acc
                           end) 0%Z evs.

(** The calls of a unit are of the right classes, and the blocks sent add
    up to the size announced. *)
Definition unit_ok (u : NcaUnit) : Prop :=
  forallb meta_patch_call (u_prep u) = true
  /\ forallb block_call (u_blocks u) = true
  /\ ((0 <= u_size u < 2 ^ 64)%Z -> declared_bytes (u_blocks u) = u_size u).

(** ** The blocks of a content archive *)

(** A block under way: the contexts, the block buffer, and the calls that
    have written into the buffer since it was read. *)
Record Block := {
  blk_nca_ctx : list NcaContext;
  blk_buf : list byte;
  blk_calls : list Call
}.

(** The re-encrypted header is written into the block of unit [i],
    unless it has been written (line 518). *)
Definition header_into_block (E : Collaborators) (i : nat) (offset blksize : Z)
    (b : Block) : Block :=
  let c := blk_nca_ctx b !!! i in
  if header_written c then b
  else
    let r := nca_write_encrypted_header E c (blk_buf b) blksize offset in
    {| blk_nca_ctx := <[i := nca_set_header_written (fst r) c]> (blk_nca_ctx b);
       blk_buf := snd r;
       blk_calls := blk_calls b
                    ++ [Call_ncaWriteEncryptedHeaderDataToMemoryBuffer
                          (content_id_str c) offset] |}.

(** The patch of the content type is written into the block of unit [i],
    if one is pending (lines 520-542): the patch of the title-meta unit
    out of [cnmt_ctx], the patch of a program unit out of its program
    info context; the other content types have none. *)
Definition patch_into_block (E : Collaborators) (i meta_idx : nat)
    (cnmt_ctx : ContentMetaContext) (offset blksize : Z) (b : Block) : Block :=
  let c := blk_nca_ctx b !!! i in
  if content_type_ctx_patch c then
    match content_type c, content_type_ctx c with
    | NcmContentType_Meta, _ =>
        let meta := blk_nca_ctx b !!! meta_idx in
        let r := cnmt_write_nca_patch E cnmt_ctx meta (blk_buf b) blksize offset in
        {| blk_nca_ctx := <[meta_idx := nca_set_patch (fst r) meta]> (blk_nca_ctx b);
           blk_buf := snd r;
           blk_calls := blk_calls b ++ [Call_cnmtWriteNcaPatch offset] |}
    | NcmContentType_Program, Some (ProgramCtx p) =>
        let r := program_info_write_nca_patch E p c (blk_buf b) blksize offset in
        {| blk_nca_ctx := <[i := nca_set_patch (fst r) c]> (blk_nca_ctx b);
           blk_buf := snd r;
           blk_calls := blk_calls b
                        ++ [Call_programInfoWriteNcaPatch (content_id_str c) offset] |}
    | _, _ => b
    end
  else b.

(** The block [read] of unit [i] as it is when it is hashed and sent:
    with the header and then the patch written into it if the header is
    dirty (lines 515-546), as it was read if it is not. *)
Definition block_as_sent (E : Collaborators) (i meta_idx : nat)
    (cnmt_ctx : ContentMetaContext) (offset blksize : Z) (dirty_header : bool)
    (nca_ctx : list NcaContext) (read : list byte) : Block :=
  let b := {| blk_nca_ctx := nca_ctx; blk_buf := read; blk_calls := [] |} in
  if dirty_header
  then patch_into_block E i meta_idx cnmt_ctx offset blksize
         (header_into_block E i offset blksize b)
  else b.

(** One turn of the block loop (lines 506-556) for unit [i], from [bk] to
    [bk'] in the calls [evs]: [blksize] bytes are read at [offset]; header
    and patch are written into the block; the hash is updated with the
    block as it then is, and that block is sent. *)
Definition block_turn (E : Collaborators) (i meta_idx : nat)
    (cnmt_ctx : ContentMetaContext) (offset blksize : Z) (bk : Blocks)
    (evs : list Call) (bk' : Blocks) : Prop :=
  exists read,
    nca_read_content_file E (bk_nca_ctx bk !!! i) (bk_buf bk) blksize offset = Some read
    /\ let b := block_as_sent E i meta_idx cnmt_ctx offset blksize (bk_dirty_header bk)
                  (bk_nca_ctx bk) read in
       let sent := take (Z.to_nat blksize) (blk_buf b) in
       evs = [Call_ncaReadContentFile (content_id_str (bk_nca_ctx bk !!! i)) blksize offset]
             ++ blk_calls b
             ++ [Call_usbSendFileData sent blksize]
       /\ bk_sha256_ctx bk' = bk_sha256_ctx bk ++ sent
       /\ bk_buf bk' = blk_buf b
       /\ bk_nca_ctx bk' = blk_nca_ctx b
       /\ bk_dirty_header bk'
          = bk_dirty_header bk
            && (negb (header_written (blk_nca_ctx b !!! i))
                || content_type_ctx_patch (blk_nca_ctx b !!! i)).

(** The size of the block at [offset] (line 506): what is left of the
    content, if that is less than a block. *)
Definition block_size (content_size offset blksize : Z) : Z :=
  if (u64 (content_size - offset) <? blksize)%Z then u64 (content_size - offset)
  else blksize.

(** The turns of the block loop (lines 504-557) for unit [i], from
    [offset] to the end of the content. *)
Inductive block_turns (E : Collaborators) (i meta_idx : nat)
    (cnmt_ctx : ContentMetaContext)
  : Z -> Z -> Blocks -> list Call -> Blocks -> Prop :=
| block_turns_end offset blksize bk :
    (content_size (bk_nca_ctx bk !!! i) <= offset)%Z ->
    block_turns E i meta_idx cnmt_ctx offset blksize bk [] bk
| block_turns_next offset blksize bk evs bk1 evs' bk' :
    (offset < content_size (bk_nca_ctx bk !!! i))%Z ->
    block_turn E i meta_idx cnmt_ctx offset
      (block_size (content_size (bk_nca_ctx bk !!! i)) offset blksize) bk evs bk1 ->
    block_turns E i meta_idx cnmt_ctx
      (u64 (offset + block_size (content_size (bk_nca_ctx bk !!! i)) offset blksize))
      (block_size (content_size (bk_nca_ctx bk !!! i)) offset blksize) bk1 evs' bk' ->
    block_turns E i meta_idx cnmt_ctx offset blksize bk (evs ++ evs') bk'.

(** The calls [blocks] are the blocks of unit [i] (lines 486-557), read
    into [buf] with the contexts [nca_ctx]: the hash starts empty, the
    header is dirty if [ncaIsHeaderDirty] says so, and the bytes hashed in
    the end are [hashed]. *)
Definition unit_blocks (E : Collaborators) (i meta_idx : nat)
    (cnmt_ctx : ContentMetaContext) (nca_ctx : list NcaContext) (buf : list byte)
    (blocks : list Call) (hashed : list byte) : Prop :=
  exists bk',
    block_turns E i meta_idx cnmt_ctx 0 BLOCK_SIZE
      {| bk_buf := buf; bk_nca_ctx := nca_ctx;
         bk_dirty_header := nca_is_header_dirty E (nca_ctx !!! i);
         bk_sha256_ctx := [] |}
      blocks bk'
    /\ bk_sha256_ctx bk' = hashed.

(** What the stream never changes in an NCA context. *)
Definition nca_fixed (c : NcaContext) :=
  (content_size c, content_type c, content_type_ctx c, content_type_ctx_data_idx c).

(** An entry under the identifier [id]. *)
Definition rename_entry (id : string) (e : PartitionFileSystemEntry)
  : PartitionFileSystemEntry :=
  {| entry_name := overwrite_name id (entry_name e); entry_size := entry_size e |}.

(** A title with one title-meta record, as every installed title has. *)
Definition one_meta (t : TitleInfo) : Prop :=
  titleGetContentCountByType t NcmContentType_Meta = 1.

(** ** Ticket and certificate chain *)

(** The test of line 316. *)
Definition wants_tik_cert (o : options_t) (tik : Ticket) : bool :=
  negb (remove_titlekey_crypto o) && (0 <? tik_size tik)%Z.

(** The test of line 325. *)
Definition converts_ticket (o : options_t) (cb : TikCommonBlock) : bool :=
  remove_console_data o && bool_decide (titlekey_type cb = TikTitleKeyType_Personalized).

(** The calls that resolve ticket and certificate chain for the common
    block [cb] of the ticket. *)
Definition credential_calls (t : TitleInfo) (o : options_t) (cb : TikCommonBlock)
  : list Call :=
  [Call_tikGetCommonBlock;
   if converts_ticket o cb then Call_tikConvertPersonalizedTicketToCommonTicket
   else if decide (storage_id t = NcmStorageId_GameCard)
        then Call_certRetrieveRawCertificateChainFromGameCardByRightsId (tcb_rights_id cb)
        else Call_certGenerateRawCertificateChainBySignatureIssuer (issuer cb)].

(** Where ticket and certificate chain of [cr] come from. *)
Definition credentials_from (E : Collaborators) (t : TitleInfo) (o : options_t)
    (tik : Ticket) (cb : TikCommonBlock) (cr : Credentials) : Prop :=
  if converts_ticket o cb
  then tik_convert_personalized_to_common E tik
       = Some (cr_tik cr, raw_cert_chain cr, raw_cert_chain_size cr)
  else cr_tik cr = tik
       /\ (if decide (storage_id t = NcmStorageId_GameCard)
           then cert_from_gamecard_by_rights_id E (tcb_rights_id cb)
           else cert_by_signature_issuer E (issuer cb))
          = Some (raw_cert_chain cr, raw_cert_chain_size cr).

(** ** Pieces of the trace *)

(** [n] polls a second apart that found no host, from the time [start]
    on, and the poll that found it, if one did. *)
Definition poll_calls (start : Z) (n : nat) (found : bool) : list Call :=
  flat_map (fun j : nat => [Call_usbIsReady (start + Z.of_nat j); Call_utilsSleep 1])
    (seq 0 n)
  ++ (if found then [Call_usbIsReady (start + Z.of_nat n)] else []).

(** The calls that set up the contexts, but for the generation of the
    title-meta XML. *)
Definition prepare_call (c : Call) : bool :=
  contexts_call c && negb (is_cnmt_xml_generation c).

(** The calls that send ticket and certificate chain of [cr], under the
    names of the last two entries of [table] (lines 683-704). *)
Definition tik_cert_calls (table : list PartitionFileSystemEntry) (cr : Credentials)
    (evs : list Call) : Prop :=
  if retrieve_tik_cert cr
  then exists e_tik e_cert,
      table !! (length table - 2) = Some e_tik
      /\ table !! (length table - 1) = Some e_cert
      /\ evs = [Call_usbSendFilePropertiesCommon (tik_size (cr_tik cr)) (entry_name e_tik);
                Call_usbSendFileData
                  (take (Z.to_nat (tik_size (cr_tik cr))) (tik_data (cr_tik cr)))
                  (tik_size (cr_tik cr));
                Call_usbSendFilePropertiesCommon (raw_cert_chain_size cr)
                  (entry_name e_cert);
                Call_usbSendFileData
                  (take (Z.to_nat (raw_cert_chain_size cr)) (raw_cert_chain cr))
                  (raw_cert_chain_size cr)]
  else evs = [].

(** The calls of a finished run of [nspDump], in order, by phase. *)
Inductive nspDump_trace (E : Collaborators) (t : TitleInfo) (o : options_t)
    (w : World) (d : Dump) (w' : World) : Prop :=
| nspDump_trace_intro
    (tr_contexts tr_credentials tr_wait tr_ctx_data tr_tik_cert : list Call)
    (tr_units : list NcaUnit)
    (tr_cnmt_ctx : ContentMetaContext)
    (tr_xml_name : string)
    (tr_header : list byte)
    (tr_calls :
       calls w'
       = calls w ++ tr_contexts ++ tr_credentials ++ tr_wait
         ++ [Call_usbSendFileProperties (nsp_size d) (cx_path (d_contexts d))
               (u32 (d_provisional_header_size d))]
         ++ flat_map (unit_calls E) tr_units
         ++ [Call_cnmtGenerateAuthoringToolXml
               (content_id_str <$> st_nca_ctx (d_stream d));
             Call_usbSendFilePropertiesCommon
               (authoring_tool_xml_size (st_cnmt_ctx (d_stream d))) tr_xml_name;
             Call_usbSendFileData
               (take (Z.to_nat (authoring_tool_xml_size (st_cnmt_ctx (d_stream d))))
                  (authoring_tool_xml (st_cnmt_ctx (d_stream d))))
               (authoring_tool_xml_size (st_cnmt_ctx (d_stream d)))]
         ++ tr_ctx_data ++ tr_tik_cert
         ++ [Call_usbSendNspHeader
               (take (Z.to_nat (u32 (nsp_header_size d))) tr_header)
               (u32 (nsp_header_size d))])
    (tr_contexts_class : forallb contexts_call tr_contexts = true)
    (tr_credentials_class : forallb is_credential_call tr_credentials = true)
    (tr_wait_class : forallb wait_call tr_wait = true)
    (tr_ctx_data_class : forallb send_call tr_ctx_data = true)
    (tr_tik_cert_class : forallb send_call tr_tik_cert = true)
    (tr_units_length : length tr_units = content_count t)
    (tr_units_ok : Forall unit_ok tr_units)
    (tr_units_spec :
       forall k u, tr_units !! k = Some u ->
         u_size u = content_size (fst (d_layout d) !!! k)
         /\ u_old_id u = content_id_str (fst (d_layout d) !!! k)
         /\ (exists e, entries (snd (d_layout d)) !! k = Some e
                       /\ entry_name e = u_name u)
         /\ content_id_str (st_nca_ctx (d_stream d) !!! k) = hash_id E (u_blocks u)
         /\ content_id (st_nca_ctx (d_stream d) !!! k)
            = byte_array 16 (hash_of_sent E (u_blocks u)))
    (tr_xml :
       cnmt_generate_authoring_tool_xml E tr_cnmt_ctx (st_nca_ctx (d_stream d))
         (content_count t)
       = Some (authoring_tool_xml (st_cnmt_ctx (d_stream d)),
               authoring_tool_xml_size (st_cnmt_ctx (d_stream d))))
    (tr_header_bytes :
       pfsWriteFileContextHeaderToMemoryBuffer (pfs_format E)
         (st_pfs_file_ctx (d_stream d)) BLOCK_SIZE
       = Some (tr_header, nsp_header_size d))
    (tr_prepare : list Call)
    (tr_first_cnmt_ctx : ContentMetaContext)
    (tr_polls : nat)
    (tr_contexts_calls :
       tr_contexts
       = tr_prepare
         ++ [Call_cnmtGenerateAuthoringToolXml
               (content_id_str <$> cx_nca_ctx (d_contexts d))])
    (tr_prepare_class : forallb prepare_call tr_prepare = true)
    (tr_first_xml :
       cnmt_generate_authoring_tool_xml E tr_first_cnmt_ctx (cx_nca_ctx (d_contexts d))
         (content_count t)
       = Some (authoring_tool_xml (cx_cnmt_ctx (d_contexts d)),
               authoring_tool_xml_size (cx_cnmt_ctx (d_contexts d))))
    (tr_retrieve :
       retrieve_tik_cert (d_credentials d) = wants_tik_cert o (cx_tik (d_contexts d)))
    (tr_credentials_calls :
       if wants_tik_cert o (cx_tik (d_contexts d))
       then exists cb,
           tik_get_common_block E (tik_data (cx_tik (d_contexts d))) = Some cb
           /\ credentials_from E t o (cx_tik (d_contexts d)) cb (d_credentials d)
           /\ tr_credentials = credential_calls t o cb
       else tr_credentials = [])
    (tr_wait_calls : tr_polls < 10 /\ tr_wait = poll_calls (clock w) tr_polls true)
    (tr_tik_cert_calls :
       tik_cert_calls (entries (st_pfs_file_ctx (d_stream d))) (d_credentials d)
         tr_tik_cert)
    (tr_units_blocks :
       forall k u, tr_units !! k = Some u ->
         exists cnmt_ctx nca_ctx buf,
           nca_static (nca_ctx !!! k) = nca_static (fst (d_layout d) !!! k)
           /\ (content_type (fst (d_layout d) !!! k) <> NcmContentType_Meta ->
               nca_ctx !!! k = fst (d_layout d) !!! k)
           /\ unit_blocks E k (content_count t - 1) cnmt_ctx nca_ctx buf (u_blocks u)
                (sent_bytes (u_blocks u))).


(** The table of the final header against the table of the provisional
    one: same count, order and declared sizes, names that differ in the 32
    characters of the identifier at most, and headers of the same size. *)
Definition header_size_survives (E : Collaborators) (d : Dump) : Prop :=
  let provisional := entries (snd (d_layout d)) in
  let final := entries (st_pfs_file_ctx (d_stream d)) in
  length final = length provisional
  /\ (forall i e, provisional !! i = Some e ->
        exists e', final !! i = Some e'
          /\ entry_size e' = entry_size e
          /\ String.length (entry_name e') = String.length (entry_name e)
          /\ 32 <= String.length (entry_name e)
          /\ entry_extension (entry_name e') = entry_extension (entry_name e))
  /\ d_provisional_header_size d = pfs_header_size (pfs_format E) provisional
  /\ nsp_header_size d = pfs_header_size (pfs_format E) final
  /\ nsp_header_size d = d_provisional_header_size d.

(** The size announced for the package is header plus payload for the
    table [pfs] under a header of [header_size] bytes: in the 64-bit
    arithmetic of the routine, and exactly when the sum fits 64 bits. *)
Definition size_is_header_plus_payload (d : Dump) (header_size : Z)
    (pfs : PartitionFileSystemFileContext) : Prop :=
  nsp_size d = u64 (header_size + fs_size pfs)
  /\ fs_size pfs = u64 (payload_size (entries pfs))
  /\ ((0 <= header_size + payload_size (entries pfs) < 2 ^ 64)%Z ->
      nsp_size d = (header_size + payload_size (entries pfs))%Z).






(** ** The USB connection *)

(** The wait for the host: at most ten polls, one second apart; it gives
    up ten seconds after it began. *)
Definition bounded_poll (E : Collaborators) (w : World) (found : bool) (w' : World) : Prop :=
  exists n,
    n <= 10
    /\ calls w' = calls w ++ poll_calls (clock w) n found
    /\ clock w' = (clock w + Z.of_nat n)%Z
    /\ (forall j, j < n -> usb_is_ready E (clock w + Z.of_nat j) = false)
    /\ (if found then n < 10 /\ usb_is_ready E (clock w + Z.of_nat n) = true
        else n = 10).

(** The run ended at [goto end] without a call to the transport. *)
Definition fails_closed (E : Collaborators) (t : TitleInfo) (o : options_t) (w : World)
  : Prop :=
  exists msg w' evs,
    nspDump E t o w = (Abort msg, w')
    /\ calls w' = calls w ++ evs
    /\ forallb (fun c => negb (is_usb_transfer c)) evs = true
    /\ (List.filter is_usb_poll evs = []
        \/ msg = "usb connection failed"
           /\ clock w' = (clock w + 10)%Z
           /\ List.filter is_usb_poll evs
              = (fun j : nat => Call_usbIsReady (clock w + Z.of_nat j)) <$> seq 0 10).

(** The calls before the transport is spoken to. *)
Definition quiet_call (c : Call) : bool :=
  negb (is_usb_transfer c) && negb (is_usb_poll c) && negb (is_sleep c).

(** [m] never runs out of fuel and never reads a context of the wrong
    kind: it returns or it goes to [end]. *)
Definition settles {A} (m : M A) : Prop := forall w w', m w <> (Stuck, w').

(** The wait for the host always returns, after a bounded poll. *)
Definition wait_is_bounded (E : Collaborators) : Prop :=
  forall w, exists found w',
    nspDump_wait_usb E w = (Ok found, w') /\ bounded_poll E w found w'.

(** No host for the ten seconds after the clock of [w]. *)
Definition no_host (E : Collaborators) (w : World) : Prop :=
  forall j, j < 10 -> usb_is_ready E (clock w + Z.of_nat j) = false.

(** ** The place of the title-meta unit *)

(** An entry that carries a content archive. *)
Definition is_archive_entry (e : PartitionFileSystemEntry) : bool :=
  String.eqb (entry_extension (entry_name e)) ".nca"
  || String.eqb (entry_extension (entry_name e)) ".cnmt.nca".

(** In the table [table] the first [n] entries are the content archives,
    the last of them is the one of the title-meta unit, of [size] bytes,
    and the entry after it is the title-meta XML, of [xml_size] bytes. *)
Definition meta_archive_is_last (table : list PartitionFileSystemEntry) (n : nat)
    (size xml_size : Z) : Prop :=
  (forall i e, table !! i = Some e -> is_archive_entry e = true <-> i < n)
  /\ (exists e, table !! (n - 1) = Some e
                /\ entry_extension (entry_name e) = ".cnmt.nca" /\ entry_size e = size)
  /\ (exists e, table !! n = Some e
                /\ entry_extension (entry_name e) = ".cnmt.xml" /\ entry_size e = xml_size).

(** The title-meta unit of a finished run sits in the last slot of
    [nca_ctx], whichever record of the title it comes from, and the entry
    table is laid out after that. *)
Definition meta_unit_is_last (E : Collaborators) (t : TitleInfo) (d : Dump) : Prop :=
  let nca_ctx := cx_nca_ctx (d_contexts d) in
  let n := content_count t in
  exists k ci a,
    content_infos t !! k = Some ci
    /\ titleGetContentInfoByTypeAndIdOffset t NcmContentType_Meta 0 = Some ci
    /\ ci_content_type ci = NcmContentType_Meta
    /\ length nca_ctx = n
    /\ nca_ctx !!! (n - 1) = nca_context_of ci a
    /\ content_type (st_nca_ctx (d_stream d) !!! (n - 1)) = NcmContentType_Meta
    /\ entries (snd (d_layout d)) !! (n - 1)
       = Some {| entry_name := content_id_str (nca_context_of ci a) +:+ ".cnmt.nca";
                 entry_size := u64 (ci_size ci) |}
    /\ entries (snd (d_layout d)) !! n
       = Some {| entry_name := content_id_str (nca_context_of ci a) +:+ ".cnmt.xml";
                 entry_size := authoring_tool_xml_size (cx_cnmt_ctx (d_contexts d)) |}
    /\ (one_meta t ->
        meta_archive_is_last (entries (snd (d_layout d))) n (u64 (ci_size ci))
          (authoring_tool_xml_size (cx_cnmt_ctx (d_contexts d)))
        /\ meta_archive_is_last (entries (st_pfs_file_ctx (d_stream d))) n
             (u64 (ci_size ci)) (authoring_tool_xml_size (cx_cnmt_ctx (d_contexts d)))).

(** ** Ticket and certificate chain in the table *)

(** The table [table] ends with the entries of ticket and certificate
    chain of [cr], and has no other entry of the kind. *)
Definition ends_with_tik_cert (table : list PartitionFileSystemEntry) (cr : Credentials)
  : Prop :=
  exists rest e_tik e_cert,
    table = rest ++ [e_tik; e_cert]
    /\ entry_extension (entry_name e_tik) = ".tik"
    /\ entry_size e_tik = tik_size (cr_tik cr)
    /\ entry_extension (entry_name e_cert) = ".cert"
    /\ entry_size e_cert = raw_cert_chain_size cr
    /\ Forall (fun e => is_ticket_entry e = false /\ is_certificate_entry e = false) rest.

(** Ticket and certificate chain go out as the last two files, under the
    names of the last two entries of [table]. *)
Definition sends_tik_cert_last (table : list PartitionFileSystemEntry) (cr : Credentials)
    (evs : list Call) : Prop :=
  exists before e_tik e_cert header header_size,
    table !! (length table - 2) = Some e_tik
    /\ table !! (length table - 1) = Some e_cert
    /\ evs = before
             ++ [Call_usbSendFilePropertiesCommon (tik_size (cr_tik cr)) (entry_name e_tik);
                 Call_usbSendFileData
                   (take (Z.to_nat (tik_size (cr_tik cr))) (tik_data (cr_tik cr)))
                   (tik_size (cr_tik cr));
                 Call_usbSendFilePropertiesCommon (raw_cert_chain_size cr)
                   (entry_name e_cert);
                 Call_usbSendFileData
                   (take (Z.to_nat (raw_cert_chain_size cr)) (raw_cert_chain cr))
                   (raw_cert_chain_size cr);
                 Call_usbSendNspHeader header header_size].

(** What a finished run made of the ticket [tik] its contexts came with. *)
Definition credentials_law (E : Collaborators) (t : TitleInfo) (o : options_t)
    (w : World) (d : Dump) (w' : World) : Prop :=
  let tik := cx_tik (d_contexts d) in
  let cr := d_credentials d in
  retrieve_tik_cert cr = wants_tik_cert o tik
  /\ (retrieve_tik_cert cr = true ->
      exists cb before after,
        tik_get_common_block E (tik_data tik) = Some cb
        /\ credentials_from E t o tik cb cr
        /\ calls w' = calls w ++ before ++ credential_calls t o cb ++ after
        /\ forallb (fun c => negb (is_credential_call c)) (before ++ after) = true
        /\ (exists rest,
              entries (snd (d_layout d))
              = rest ++ [{| entry_name := rights_id_str (cr_tik cr) +:+ ".tik";
                            entry_size := tik_size (cr_tik cr) |};
                         {| entry_name := rights_id_str (cr_tik cr) +:+ ".cert";
                            entry_size := raw_cert_chain_size cr |}])
        /\ sends_tik_cert_last (entries (st_pfs_file_ctx (d_stream d))) cr
             (credential_calls t o cb ++ after)
        /\ (one_meta t ->
            ends_with_tik_cert (entries (snd (d_layout d))) cr
            /\ ends_with_tik_cert (entries (st_pfs_file_ctx (d_stream d))) cr)).

(** The shape of an entry that carries neither ticket nor certificate
    chain. *)
Definition plain_shape (s : nat * string * Z) : Prop :=
  String.eqb (snd (fst s)) ".tik" = false /\ String.eqb (snd (fst s)) ".cert" = false.

(** ** The two generations of the title-meta XML *)

(** The calls of a finished run: the title-meta XML is generated when the
    contexts are set up, for the contexts as they are then, and once more
    after the last content archive has gone out and has its identifier;
    what is sent is what the second generation made. *)
Definition cnmt_xml_twice (E : Collaborators) (t : TitleInfo) (w : World) (d : Dump)
    (w' : World) : Prop :=
  let xml1 := authoring_tool_xml (cx_cnmt_ctx (d_contexts d)) in
  let size1 := authoring_tool_xml_size (cx_cnmt_ctx (d_contexts d)) in
  let xml2 := authoring_tool_xml (st_cnmt_ctx (d_stream d)) in
  let size2 := authoring_tool_xml_size (st_cnmt_ctx (d_stream d)) in
  exists before middle units name after cnmt1 cnmt2,
    calls w'
    = calls w ++ before
      ++ [Call_cnmtGenerateAuthoringToolXml (content_id_str <$> cx_nca_ctx (d_contexts d))]
      ++ middle ++ flat_map (unit_calls E) units
      ++ [Call_cnmtGenerateAuthoringToolXml (content_id_str <$> st_nca_ctx (d_stream d));
          Call_usbSendFilePropertiesCommon size2 name;
          Call_usbSendFileData (take (Z.to_nat size2) xml2) size2]
      ++ after
    /\ forallb (fun c => negb (is_cnmt_xml_generation c))
         (before ++ middle ++ flat_map (unit_calls E) units ++ after) = true
    /\ forallb (fun c => negb (is_usb_transfer c)) before = true
    /\ cnmt_generate_authoring_tool_xml E cnmt1 (cx_nca_ctx (d_contexts d)) (content_count t)
       = Some (xml1, size1)
    /\ (exists e, entries (snd (d_layout d)) !! content_count t = Some e
                  /\ entry_size e = size1)
    /\ fs_size (snd (d_layout d)) = u64 (payload_size (entries (snd (d_layout d))))
    /\ nsp_size d = u64 (d_provisional_header_size d + fs_size (snd (d_layout d)))
    /\ length units = content_count t
    /\ (forall k u, units !! k = Some u ->
          content_id_str (st_nca_ctx (d_stream d) !!! k) = hash_id E (u_blocks u))
    /\ cnmt_generate_authoring_tool_xml E cnmt2 (st_nca_ctx (d_stream d)) (content_count t)
       = Some (xml2, size2).

(** ** The units as they are opened *)

(** The content records the loop of lines 190-306 opens, in order, each
    with the answer of [ncaInitializeContext], and the ticket after the
    last of them.  The ticket goes from one call to the next. *)
Fixpoint opened (E : Collaborators) (t : TitleInfo) (l : list NcmContentInfo)
    (tik : Ticket) : list (NcmContentInfo * NcaAccess) * Ticket :=
  match l with
  | [] => ([], tik)
  | ci :: l' =>
      if decide (ci_content_type ci = NcmContentType_Meta) then opened E t l' tik
      else match nca_open E (storage_id t) (hfs_partition_type t) ci tik with
           | Some (a, tik') =>
               ((ci, a) :: fst (opened E t l' tik'), snd (opened E t l' tik'))
           | None => ([], tik)
           end
  end.

(** The slot [c] of [nca_ctx] was prepared from the record [ci], opened
    with the answer [a]: left as opened if the rights material is
    missing; otherwise given the context its type calls for, the NACP
    being read from the unit under some rewritten header. *)
Definition prepared_from (E : Collaborators) (ci : NcmContentInfo) (a : NcaAccess)
    (c : NcaContext) : Prop :=
  nca_core c = nca_core (nca_context_of ci a)
  /\ if nca_skipped (nca_context_of ci a) then c = nca_context_of ci a
     else match ci_content_type ci with
          | NcmContentType_Program => exists p, content_type_ctx c = Some (ProgramCtx p)
          | NcmContentType_Control =>
              exists h n n',
                nacp_initialize E (nca_set_header h (nca_context_of ci a)) = Some n
                /\ content_type_ctx c = Some (ControlCtx n')
                /\ icon_ctx n' = icon_ctx n
          | NcmContentType_LegalInformation =>
              exists l, content_type_ctx c = Some (LegalCtx l)
          | _ => content_type_ctx c = None
          end.

(** The contexts of a run, record by record. *)
Definition contexts_from (E : Collaborators) (t : TitleInfo) (cx : Contexts) : Prop :=
  exists ci a tik1,
    titleGetContentInfoByTypeAndIdOffset t NcmContentType_Meta 0 = Some ci
    /\ nca_open E (storage_id t) (hfs_partition_type t) ci tik_zero = Some (a, tik1)
    /\ cx_tik cx = snd (opened E t (content_infos t) tik1)
    /\ length (fst (opened E t (content_infos t) tik1)) = nonmeta (content_infos t)
    /\ forall k ci a,
         fst (opened E t (content_infos t) tik1) !! k = Some (ci, a) ->
         prepared_from E ci a (cx_nca_ctx cx !!! k).

(** ** A unit without its rights material *)

(** The blocks of the content of [c] from [offset] on, as they go out
    when nothing is written into them: each is read from the content file
    of [c] and the bytes read are the bytes sent. *)
Inductive sent_as_read (E : Collaborators) (c : NcaContext)
  : Z -> Z -> list byte -> list Call -> Prop :=
| sent_as_read_end offset blksize buf :
    (content_size c <= offset)%Z ->
    sent_as_read E c offset blksize buf []
| sent_as_read_next offset blksize buf read evs :
    (offset < content_size c)%Z ->
    nca_read_content_file E c buf (block_size (content_size c) offset blksize) offset
    = Some read ->
    sent_as_read E c (u64 (offset + block_size (content_size c) offset blksize))
      (block_size (content_size c) offset blksize) read evs ->
    sent_as_read E c offset blksize buf
      ([Call_ncaReadContentFile (content_id_str c)
          (block_size (content_size c) offset blksize) offset;
        Call_usbSendFileData
          (take (Z.to_nat (block_size (content_size c) offset blksize)) read)
          (block_size (content_size c) offset blksize)]
       ++ evs).

(** Unit [k] of a finished run is left as it was opened, from a record
    [ci] of the title that is not the title-meta record: preparing it is
    the one call that opens it; it has no entries of its own besides its
    archive, which is in the table under the identifier and the size of
    the record; and the archive goes out in the second pass, announced
    under that name and size, in blocks that add up to that size.  The
    blocks are those of the block loop run on the context as it was
    opened: read from the content file of the unit, hashed and sent; they
    go out as they are read, unless [ncaIsHeaderDirty] finds the header
    of the untouched context dirty. *)
Definition skipped_unit (E : Collaborators) (t : TitleInfo) (o : options_t) (w : World)
    (d : Dump) (w' : World) (k : nat) : Prop :=
  exists ci a u before after,
    In ci (content_infos t)
    /\ ci_content_type ci <> NcmContentType_Meta
    /\ na_rights_id_available a = true
    /\ na_titlekey_retrieved a = false
    /\ (forall cnmt_ctx nca_ctx j tik tik' w0,
          nca_open E (storage_id t) (hfs_partition_type t) ci tik = Some (a, tik') ->
          init_content E t o cnmt_ctx ci (nca_ctx, j, tik) w0
          = (Ok (<[j := nca_context_of ci a]> nca_ctx, S j, tik'),
             Build_World (calls w0 ++ [Call_ncaInitializeContext (Some ci)]) (clock w0)))
    /\ cx_nca_ctx (d_contexts d) !!! k = nca_context_of ci a
    /\ ctx_entries E (cx_nca_ctx (d_contexts d) !!! k) = []
    /\ entries (snd (d_layout d)) !! k
       = Some {| entry_name := content_id_str (nca_context_of ci a) +:+ ".nca";
                 entry_size := u64 (ci_size ci) |}
    /\ calls w' = calls w ++ before ++ unit_calls E u ++ after
    /\ unit_ok u
    /\ u_size u = u64 (ci_size ci)
    /\ u_name u = content_id_str (nca_context_of ci a) +:+ ".nca"
    /\ u_old_id u = content_id_str (nca_context_of ci a)
    /\ declared_bytes (u_blocks u) = u64 (ci_size ci)
    /\ (exists cnmt_ctx nca_ctx buf,
          nca_ctx !!! k = nca_context_of ci a
          /\ unit_blocks E k (content_count t - 1) cnmt_ctx nca_ctx buf (u_blocks u)
               (sent_bytes (u_blocks u))
          /\ (nca_is_header_dirty E (nca_context_of ci a) = false ->
              sent_as_read E (nca_context_of ci a) 0 BLOCK_SIZE buf (u_blocks u))).

(** ** Without the title key crypto *)





(** ** A program unit and the title-meta unit *)

(** The package of a finished run on a title of one program unit and the
    title-meta unit, no ticket: four entries, the archives under their
    final identifiers and the two XML files under the identifier of their
    unit; the size announced; and what reaches the transport, each file
    announced under the name its entry has before it is renamed. *)
Definition lone_program_package (E : Collaborators) (t : TitleInfo) (w : World) (d : Dump)
    (w' : World) : Prop :=
  let program := st_nca_ctx (d_stream d) !!! 0 in
  let meta := st_nca_ctx (d_stream d) !!! 1 in
  let program0 := cx_nca_ctx (d_contexts d) !!! 0 in
  let meta0 := cx_nca_ctx (d_contexts d) !!! 1 in
  let xml_size1 := authoring_tool_xml_size (cx_cnmt_ctx (d_contexts d)) in
  let xml2 := authoring_tool_xml (st_cnmt_ctx (d_stream d)) in
  let xml_size2 := authoring_tool_xml_size (st_cnmt_ctx (d_stream d)) in
  exists prog blocks_p blocks_m header evs,
    content_type_ctx program = Some (ProgramCtx prog)
    /\ entries (st_pfs_file_ctx (d_stream d))
       = [{| entry_name := content_id_str program +:+ ".nca";
             entry_size := content_size program |};
          {| entry_name := content_id_str meta +:+ ".cnmt.nca";
             entry_size := content_size meta |};
          {| entry_name := content_id_str meta +:+ ".cnmt.xml";
             entry_size := xml_size1 |};
          {| entry_name := content_id_str program +:+ ".programinfo.xml";
             entry_size := pi_authoring_tool_xml_size prog |}]
    /\ size_is_header_plus_payload d (nsp_header_size d) (st_pfs_file_ctx (d_stream d))
    /\ calls w' = calls w ++ evs
    /\ transfers evs
       = [Call_usbSendFileProperties (nsp_size d) (cx_path (d_contexts d))
            (u32 (d_provisional_header_size d));
          Call_usbSendFilePropertiesCommon (content_size program)
            (content_id_str program0 +:+ ".nca")]
         ++ blocks_p
         ++ [Call_usbSendFilePropertiesCommon (content_size meta)
               (content_id_str meta0 +:+ ".cnmt.nca")]
         ++ blocks_m
         ++ [Call_usbSendFilePropertiesCommon xml_size2
               (content_id_str meta0 +:+ ".cnmt.xml");
             Call_usbSendFileData (take (Z.to_nat xml_size2) xml2) xml_size2;
             Call_usbSendFilePropertiesCommon (pi_authoring_tool_xml_size prog)
               (content_id_str program0 +:+ ".programinfo.xml");
             Call_usbSendFileData
               (take (Z.to_nat (pi_authoring_tool_xml_size prog))
                  (pi_authoring_tool_xml prog))
               (pi_authoring_tool_xml_size prog);
             Call_usbSendNspHeader (take (Z.to_nat (u32 (nsp_header_size d))) header)
               (u32 (nsp_header_size d))]
    /\ forallb is_file_data blocks_p = true
    /\ declared_bytes blocks_p = content_size program
    /\ forallb is_file_data blocks_m = true
    /\ declared_bytes blocks_m = content_size meta.

(** ** What the second pass relies on *)

(** Every pending program patch has its program context. *)
Definition patches_typed (nca_ctx : list NcaContext) : Prop :=
  forall k, patch_has_ctx (nca_ctx !!! k).

(** The contexts the second pass can run on: patches and contexts are of
    the right kind, sizes are 64-bit, and the slot of the title-meta unit
    holds a title-meta unit. *)
Definition stream_ready (meta_idx : nat) (nca_ctx : list NcaContext) : Prop :=
  patches_typed nca_ctx
  /\ content_type (nca_ctx !!! meta_idx) = NcmContentType_Meta
  /\ forall k, (0 <= content_size (nca_ctx !!! k) < 2 ^ 64)%Z /\ ctx_matches (nca_ctx !!! k).

(** * Vocabulary for [main] *)

Definition run_log (r : Run) : list UiCall :=
  match r with
  | Returned _ log | Waiting _ log | Fault log => log
  end.

(** A table of application metadata that a [u32] can count. *)
Definition table_fits (l : list TitleApplicationMetadata) : bool :=
  (Z.of_nat (length l) <? 2 ^ 32)%Z.

(** The first table [main] loads can be counted. *)
Definition console_fits (C : Console) : bool :=
  match title_get_application_metadata_entries C with
  | Some l => table_fits l
  | None => true
  end.

(** The poll is one that reads the table again (lines 876-896). *)
Definition poll_refreshes (p : Poll) : bool :=
  (btn_down p =? 0)%Z && (btn_held p =? 0)%Z && gamecard_info_updated p.

(** If the poll reads the table again, the new table is [NULL] or has
    entries. *)
Definition poll_fits (p : Poll) : bool :=
  negb (poll_refreshes p)
  || match refreshed_entries p with
     | Some l => (0 <? Z.of_nat (length l))%Z && table_fits l
     | None => true
     end.

Definition script_fits (script : list Poll) : bool := forallb poll_fits script.

(** The block of [user_app_data] that [type_idx] stands for (line 939). *)
Definition info_block (m : Menu) : option TitleInfoPtr :=
  if (type_idx m =? 0)%Z then app_info (user_app_data m)
  else if (type_idx m =? 1)%Z then patch_info (user_app_data m)
  else aoc_info (user_app_data m).

(** The list a [TitleInfo *] points into, from its head. *)
Definition title_list (p : TitleInfoPtr) : list TitleInfo :=
  rev (ptr_previous p) ++ ptr_info p :: ptr_next p.

(** What holds of the locals of [main] at the top of the loop: the
    cursor is on a line of the list and inside the window of [page_size]
    lines that [scroll] opens, the window does not run past the end of
    the list, the saved cursors are as good, and on the options screen
    [title_info] points into the list of the block chosen. *)
Record menu_ok (m : Menu) : Prop := {
  ok_table : (0 < app_count m < 2 ^ 32)%Z;
  ok_menu : menu m = 0%Z \/ menu m = 1%Z \/ menu m = 2%Z;
  ok_cursor : (0 <= scroll m <= selected_idx m)%Z
              /\ (selected_idx m < max_val m)%Z
              /\ (selected_idx m < scroll m + page_size)%Z;
  ok_window : scroll m = 0%Z \/ (scroll m + page_size <= max_val m)%Z;
  ok_title : (0 <= title_scroll m <= title_idx m)%Z
             /\ (title_idx m < app_count m)%Z
             /\ (title_idx m < title_scroll m + page_size)%Z
             /\ (title_scroll m = 0%Z \/ (title_scroll m + page_size <= app_count m)%Z);
  ok_type : (0 <= type_idx m < dump_type_strings_count)%Z /\ type_scroll m = 0%Z;
  ok_options : length (options m) = 4;
  ok_title_info :
    menu m = 2%Z ->
    exists chosen p,
      info_block m = Some chosen /\ title_info m = Some p
      /\ title_list p = title_list chosen
      /\ list_idx m
         = u32 (1 + Z.of_nat (length (ptr_previous p))
                - Z.of_nat (length (ptr_previous chosen)))
}.

(** ** Screens *)

(** The screen has one line with the arrow, and no more lines than a
    page. *)
Definition screen_ok (s : Screen) : Prop :=
  length (filter (fun l => fst l = true) (scr_lines s)) = 1
  /\ (Z.of_nat (length (scr_lines s)) <= page_size)%Z.

(** The options screen with the arrow on the start of the dump, for the
    title [t] and the switches [o]. *)
Definition shows_dump (s : Screen) (t : option TitleInfo) (o : options_t) : Prop :=
  scr_menu s = 2%Z
  /\ (exists chosen siblings idx count info,
        scr_head s = Head_info chosen siblings idx count info /\ t = Some info)
  /\ scr_lines s
     = [(true, Line_start);
        (false, Line_option "set download distribution type" (set_download_type o));
        (false, Line_option "remove console specific data" (remove_console_data o));
        (false, Line_option "remove titlekey crypto (implies previous option)"
                  (remove_titlekey_crypto o));
        (false, Line_option "change acid rsa key/sig" (change_acid_rsa o))].

(** Every call of [nspDump] in [log] comes right after the screen that
    shows its title and its switches, with the home button blocked for
    the time of the call and the wait for a button after it. *)
Definition dumps_as_shown (log : list UiCall) : Prop :=
  forall i t o, log !! i = Some (Ui_nspDump t o) ->
    exists s,
      3 <= i
      /\ log !! (i - 3) = Some (Ui_draw s)
      /\ shows_dump s t o
      /\ log !! (i - 2) = Some Ui_consoleClear
      /\ log !! (i - 1) = Some (Ui_utilsChangeHomeButtonBlockStatus true)
      /\ log !! (i + 1) = Some (Ui_utilsChangeHomeButtonBlockStatus false)
      /\ log !! (i + 2) = Some (Ui_consolePrint "press any button to continue")
      /\ log !! (i + 3) = Some Ui_utilsWaitForButtonPress.

(** ** Buttons *)

(** The poll has none of the buttons that the chain of line 901 tests
    before [KEY_B]. *)
Definition no_a_up_down (K : HidControllerKeys) (p : Poll) : bool :=
  negb (pressed (btn_down p) (KEY_A K))
  && negb (pressed (btn_down p) (KEY_DDOWN K))
  && negb (pressed (btn_held p) (Z.lor (KEY_LSTICK_DOWN K) (KEY_RSTICK_DOWN K)))
  && negb (pressed (btn_down p) (KEY_DUP K))
  && negb (pressed (btn_held p) (Z.lor (KEY_LSTICK_UP K) (KEY_RSTICK_UP K))).

(** Moves of the cursor: down or up, by the D-pad or by a stick. *)
Inductive Move :=
| Move_down (dpad : bool)
| Move_up (dpad : bool).

Definition move (mv : Move) (m : Menu) : Menu :=
  match mv with
  | Move_down dpad => press_down dpad m
  | Move_up dpad => press_up dpad m
  end.

Definition moves (mvs : list Move) (m : Menu) : Menu :=
  fold_left (fun m mv => move mv m) mvs m.

(** The cursor of the menu and the window it is shown in. *)
Definition cursor (m : Menu) : Z * Z * Z := (menu m, selected_idx m, scroll m).

(** ** Turns of the loop *)

(** The calls of a dump started from the menu (lines 946-955). *)
Definition dump_calls (m : Menu) : list UiCall :=
  [Ui_consoleClear;
   Ui_utilsChangeHomeButtonBlockStatus true;
   Ui_nspDump (ptr_info <$> title_info m) (options_read (options m));
   Ui_utilsChangeHomeButtonBlockStatus false;
   Ui_consolePrint "press any button to continue";
   Ui_utilsWaitForButtonPress].

(** The calls of a turn that starts no dump. *)
Definition is_menu_call (c : UiCall) : bool :=
  match c with
  | Ui_consolePrint text =>
      String.eqb text "get user application data failed!"
      || String.eqb text "the selected title doesn't have available %s data"
      || String.eqb text "press any button to continue"
  | Ui_titleGetUserApplicationData _
  | Ui_titleGetCountFromInfoBlock
  | Ui_utilsWaitForButtonPress
  | Ui_svcSleepThread _ => true
  | _ => false
  end.

(** The calls of a turn from the menu [m]: those of a dump, made with
    the cursor on the first line of the options screen, or calls that
    belong to the menu. *)
Definition turn_calls (m : Menu) (evs : list UiCall) : Prop :=
  (evs = dump_calls m /\ menu m = 2%Z /\ selected_idx m = 0%Z)
  \/ forallb is_menu_call evs = true.

(** A turn from [m] and [log] that goes well. *)
Inductive turn_ok (m : Menu) (log : list UiCall) : Turn -> Prop :=
| turn_ok_next m' evs :
    menu_ok m' -> turn_calls m evs -> turn_ok m log (Turn_next m' (log ++ evs))
| turn_ok_continue m' :
    menu_ok m' -> turn_ok m log (Turn_continue m' log)
| turn_ok_break m' :
    menu m = 0%Z -> menu m' = UINT32_MAX -> turn_ok m log (Turn_break m' log).

(** ** Logs *)

(** [log] ends with the screen of [m]. *)
Definition at_screen (m : Menu) (log : list UiCall) : Prop :=
  exists s log0, draw m = Some s /\ log = log0 ++ [Ui_draw s].

(** Every screen in [log] has its arrow. *)
Definition screens_ok (log : list UiCall) : Prop :=
  forall s, In (Ui_draw s) log -> screen_ok s.

Definition log_ok (log : list UiCall) : Prop := screens_ok log /\ dumps_as_shown log.

Definition is_dump_call (c : UiCall) : bool :=
  match c with
  | Ui_nspDump _ _ => true
  | _ => false
  end.

Definition is_draw_call (c : UiCall) : bool :=
  match c with
  | Ui_draw _ => true
  | _ => false
  end.

(** On the options screen, [title_info] points into the list of the
    block of [user_app_data] that was chosen, and [list_idx] counts its
    place from the place of that block, which has the number 1. *)
Definition list_position_ok (m : Menu) : Prop :=
  menu m = 2%Z ->
  exists chosen p,
    info_block m = Some chosen /\ title_info m = Some p
    /\ title_list p = title_list chosen
    /\ list_idx m
       = u32 (1 + Z.of_nat (length (ptr_previous p))
              - Z.of_nat (length (ptr_previous chosen))).

(** Calls that are neither a screen nor a dump. *)
Definition is_plain_call (c : UiCall) : bool := negb (is_draw_call c) && negb (is_dump_call c).

(** ** The ways out of [main] *)

Definition is_exit_call (c : UiCall) : bool :=
  match c with
  | Ui_utilsCloseResources | Ui_consoleExit => true
  | _ => false
  end.

Definition is_exit_prompt (c : UiCall) : bool :=
  match c with
  | Ui_consolePrint text => String.eqb text "press any button to exit"
  | _ => false
  end.

Definition is_metadata_failure (c : UiCall) : bool :=
  match c with
  | Ui_consolePrint text => String.eqb text "app metadata failed"
  | _ => false
  end.

(** Calls of the loop of [main] that are not on its ways out. *)
Definition is_loop_call (c : UiCall) : bool :=
  negb (is_exit_call c) && negb (is_exit_prompt c) && negb (is_metadata_failure c).

(** [main] has returned [ret] with the log [log]: the resources are
    closed and the console is left, once and as the last calls; [ret] is
    -1 if the resources could not be set up and 0 otherwise; the user is
    asked for a button before the exit if and only if the table of
    application metadata could not be read. *)
Definition exits_cleanly (C : Console) (ret : Z) (log : list UiCall) : Prop :=
  (exists log0,
      log = log0 ++ [Ui_utilsCloseResources; Ui_consoleExit]
      /\ forallb (fun c => negb (is_exit_call c)) log0 = true)
  /\ ret = (if utils_initialize_resources C then 0 else -1)%Z
  /\ existsb is_exit_prompt log = existsb is_metadata_failure log.
(** What the loop adds to [log] on its way to the [return]. *)
Definition leaves (log : list UiCall) (ret : Z) (log' : list UiCall) : Prop :=
  ret = 0%Z
  /\ exists mid,
      log' = log ++ mid ++ [Ui_utilsCloseResources; Ui_consoleExit]
      /\ forallb (fun c => negb (is_exit_call c)) mid = true
      /\ existsb is_exit_prompt mid = existsb is_metadata_failure mid.


(** * More vocabulary for [nspDump] *)

(** ** The switches *)

(** Each switch of [options] stands before the calls it is there for:
    the download distribution type is set, the title key crypto removed
    and the ACID patch generated only with their switches on; ticket and
    certificate chain are resolved only with the title key crypto left
    in place, and the ticket is converted only when the console data are
    to go as well. *)
Definition obeys_options (o : options_t) (c : Call) : bool :=
  match c with
  | Call_ncaSetDownloadDistributionType _ => set_download_type o
  | Call_ncaRemoveTitlekeyCrypto _ => remove_titlekey_crypto o
  | Call_programInfoGenerateNcaPatch _ => change_acid_rsa o
  | Call_tikGetCommonBlock
  | Call_certRetrieveRawCertificateChainFromGameCardByRightsId _
  | Call_certGenerateRawCertificateChainBySignatureIssuer _ =>
      negb (remove_titlekey_crypto o)
  | Call_tikConvertPersonalizedTicketToCommonTicket =>
      negb (remove_titlekey_crypto o) && remove_console_data o
  | _ => true
  end.

(** ** The dialogue with the transport *)

(** The calls between the announcement of the package and the header
    that ends it: files are announced and sent, contents read, patched
    and hashed; the transport is neither polled nor told of another
    package. *)
Definition body_call (c : Call) : bool := stream_call c || cnmt_xml_call c.

(** What follows the announcement of the package in a run that ended in
    [r]: calls of the body, and then the header, once and as the last
    call, in a run that finished or that the transport turned down at
    this very call; a run without it did not finish. *)
Definition after_announce (evs : list Call) (r : outcome Dump) : Prop :=
  exists files tail,
    evs = files ++ tail
    /\ forallb body_call files = true
    /\ ((tail = [] /\ forall d, r <> Ok d)
        \/ (exists data size,
              tail = [Call_usbSendNspHeader data size]
              /\ (r = Abort "send nsp header failed" \/ exists d, r = Ok d))).

(** The calls of a run of [nspDump] that ended in [r]: nothing is handed
    to the transport before the package is announced, and a run in which
    the package was not announced did not finish. *)
Definition dialogue (evs : list Call) (r : outcome Dump) : Prop :=
  exists pre rest,
    evs = pre ++ rest
    /\ forallb (fun c => negb (is_usb_transfer c)) pre = true
    /\ ((rest = [] /\ forall d, r <> Ok d)
        \/ (exists size path header_size rest',
              rest = Call_usbSendFileProperties size path header_size :: rest'
              /\ after_announce rest' r)).

(** ** The bytes of the package *)

(** The calls from [w] to [w'] hand [v] bytes to [usbSendFileData], by
    the sizes they pass. *)
Definition adds (w w' : World) (v : Z) : Prop :=
  exists evs, calls w' = calls w ++ evs /\ declared_bytes evs = v.

(** The sizes of the units of a stretch of the stream, summed. *)
Definition units_size (units : list NcaUnit) : Z :=
  fold_right (fun u acc => (u_size u + acc)%Z) 0%Z units.

(** The bytes sent in a finished run are the bytes the entry table
    declares, but for the title-meta XML, which is declared with the size
    of its first generation and sent with the size of its second; if the
    two are the same, the size announced for the package is the size of
    the header and of what was sent. *)
Definition bytes_as_declared (w : World) (d : Dump) (w' : World) : Prop :=
  let xml1 := authoring_tool_xml_size (cx_cnmt_ctx (d_contexts d)) in
  let xml2 := authoring_tool_xml_size (st_cnmt_ctx (d_stream d)) in
  let payload := payload_size (entries (snd (d_layout d))) in
  exists evs,
    calls w' = calls w ++ evs
    /\ declared_bytes evs = (payload - xml1 + xml2)%Z
    /\ (xml2 = xml1 ->
        (0 <= d_provisional_header_size d + payload < 2 ^ 64)%Z ->
        nsp_size d = (d_provisional_header_size d + declared_bytes evs)%Z).

(** ** A control unit without icons *)

(** [w'] is [w] and the calls made since. *)
Definition extends (w w' : World) : Prop := exists evs, calls w' = calls w ++ evs.

(** The XML of the NACP [nacp] went out in the run from [w] to [w'], and
    the name it was announced under is the name of an entry that carries
    a content archive. *)
Definition nacp_xml_under_archive_name (w : World) (nacp : NacpContext) (w' : World)
  : Prop :=
  exists before e after,
    calls w' = calls w ++ before
               ++ [Call_usbSendFilePropertiesCommon (nacp_authoring_tool_xml_size nacp)
                     (entry_name e);
                   Call_usbSendFileData
                     (take (Z.to_nat (nacp_authoring_tool_xml_size nacp))
                        (nacp_authoring_tool_xml nacp))
                     (nacp_authoring_tool_xml_size nacp)]
               ++ after
    /\ is_archive_entry e = true.

(** * A console to run the routine on

    Small collaborators, enough to run [nspDump] from end to end: contents
    of a few bytes, a hash that pads its input, a transport that accepts
    everything. *)

Definition toy_format : PartitionFileSystemFormat :=
  {| fixed_header_size := 0x10; entry_record_size := 0x18; header_alignment := 0x20;
     serialize_header :=
       fun es => flat_map (fun e => list_byte_of_string (entry_name e) ++ [x00]) es |}.

Definition toy_program_info : ProgramInfoContext :=
  {| pi_authoring_tool_xml := []; pi_authoring_tool_xml_size := 0; pi_data := [] |}.

Definition toy_icon (language : nat) : NacpIconContext :=
  {| icon_language := language; icon_size := 2; icon_data := [xff; xd8] |}.

Definition toy_nacp : NacpContext :=
  {| icon_ctx := [toy_icon 0; toy_icon 1]; nacp_authoring_tool_xml := [];
     nacp_authoring_tool_xml_size := 0; nacp_data := [] |}.

Definition toy_common_block (kind : TikTitleKeyType) : TikCommonBlock :=
  {| titlekey_type := kind; tcb_rights_id := replicate 16 x77;
     issuer := "Root-CA00000003-XS00000020" |}.

(** [ticket] is the ticket the titles of the console come with, [kind] its
    title key type, [locked] tells the contents whose title key cannot be
    had, [ready] when the USB host is there. *)
Definition toy (ticket : Ticket) (kind : TikTitleKeyType) (locked : NcmContentType -> bool)
    (ready : Z -> bool) : Collaborators :=
  {| usbAllocatePageAlignedBuffer := fun _ => Some [];
     titleGenerateFileName := fun _ => Some "title";
     utilsGeneratePath := fun name ext => Some (name +:+ ext);
     calloc_succeeds := fun _ => true;
     nca_open := fun _ _ ci _ =>
       Some ({| na_rights_id_available := locked (ci_content_type ci);
                na_titlekey_retrieved := false; na_header := [] |}, ticket);
     nca_set_download_distribution_type := fun c => x01 :: nca_header c;
     nca_remove_titlekey_crypto := fun c => Some (x02 :: nca_header c);
     nca_encrypt_header := fun c => Some (x03 :: nca_header c);
     nca_is_header_dirty := fun c => bool_decide (nca_header c <> []);
     nca_read_content_file := fun _ _ size _ => Some (replicate (Z.to_nat size) x41);
     nca_write_encrypted_header := fun _ buf _ _ => (true, x48 :: drop 1 buf);
     cnmt_initialize := fun _ => Some cnmt_zero;
     cnmt_required_title_version := fun _ => 0%Z;
     cnmt_generate_authoring_tool_xml :=
       fun _ nca_ctx _ =>
         Some (flat_map (fun c => take 1 (content_id c)) nca_ctx,
               Z.of_nat (length nca_ctx));
     cnmt_generate_nca_patch := fun cnmt meta => Some (cnmt, x04 :: nca_header meta);
     cnmt_write_nca_patch := fun _ _ buf _ _ => (false, take 1 buf ++ [x43] ++ drop 2 buf);
     cnmt_update_content_info := fun cnmt _ => Some cnmt;
     program_info_initialize := fun _ => Some toy_program_info;
     program_info_generate_nca_patch := fun p c => Some (p, x05 :: nca_header c);
     program_info_generate_authoring_tool_xml := fun _ => Some ([x3c; x70; x3e], 3%Z);
     program_info_write_nca_patch :=
       fun _ _ buf _ _ => (false, take 1 buf ++ [x50] ++ drop 2 buf);
     nacp_initialize := fun _ => Some toy_nacp;
     nacp_generate_authoring_tool_xml := fun _ _ _ => Some ([x3c; x6e; x3e], 3%Z);
     nacpGetLanguageString :=
       fun language => if decide (language = 0) then "AmericanEnglish" else "Japanese";
     legal_info_initialize :=
       fun _ => Some {| li_authoring_tool_xml := [x3c; x6c; x3e];
                        li_authoring_tool_xml_size := 3 |};
     tik_get_common_block := fun _ => Some (toy_common_block kind);
     tik_convert_personalized_to_common :=
       fun tik => Some ({| tik_size := 2; tik_data := [xc0; xc0];
                           tik_rights_id := tik_rights_id tik |}, [xcc; xcc; xcc], 3%Z);
     cert_from_gamecard_by_rights_id := fun _ => Some ([x9c], 1%Z);
     cert_by_signature_issuer := fun _ => Some ([x51; x51], 2%Z);
     usb_is_ready := ready;
     usb_accepts := fun _ => true;
     sha256 := fun l => l;
     pfs_format := toy_format |}.

Definition toy_ticket : Ticket :=
  {| tik_size := 4; tik_data := [x70; x70; x70; x70]; tik_rights_id := replicate 16 x77 |}.

Definition nothing_locked (ty : NcmContentType) : bool := false.

Definition always_ready (now : Z) : bool := true.

Definition never_ready (now : Z) : bool := false.

Definition program_locked (ty : NcmContentType) : bool :=
  bool_decide (ty = NcmContentType_Program).

Definition toy_content (ty : NcmContentType) (tag : byte) (size : Z) : NcmContentInfo :=
  {| ci_content_id := replicate 16 tag; ci_size := size; ci_content_type := ty;
     ci_id_offset := 0 |}.

(** One program unit and the title-meta unit. *)
Definition small_title : TitleInfo :=
  {| storage_id := NcmStorageId_SdCard; version_value := 0;
     content_infos := [toy_content NcmContentType_Program x11 3;
                       toy_content NcmContentType_Meta x22 2] |}.

(** The title-meta record first, then program, control and legal
    information units. *)
Definition full_title : TitleInfo :=
  {| storage_id := NcmStorageId_BuiltInUser; version_value := 0;
     content_infos := [toy_content NcmContentType_Meta x22 2;
                       toy_content NcmContentType_Program x11 3;
                       toy_content NcmContentType_Control x33 1;
                       toy_content NcmContentType_LegalInformation x44 1] |}.


Definition world0 : World := {| calls := []; clock := 0 |}.

Definition options_with (download console crypto acid : bool) : options_t :=
  {| set_download_type := download; remove_console_data := console;
     remove_titlekey_crypto := crypto; change_acid_rsa := acid |}.

(** Consoles: with a common ticket, with a personalized one, with no
    ticket, with the title key of the program unit missing, and with no
    host on the USB cable. *)
Definition retail_console : Collaborators :=
  toy toy_ticket TikTitleKeyType_Common nothing_locked always_ready.

Definition personal_console : Collaborators :=
  toy toy_ticket TikTitleKeyType_Personalized nothing_locked always_ready.

Definition bare_console : Collaborators :=
  toy tik_zero TikTitleKeyType_Common nothing_locked always_ready.

Definition locked_console : Collaborators :=
  toy toy_ticket TikTitleKeyType_Common program_locked always_ready.

Definition offline_console : Collaborators :=
  toy toy_ticket TikTitleKeyType_Common nothing_locked never_ready.

(** A control unit that comes without any icon. *)
Definition iconless_nacp : NacpContext :=
  {| icon_ctx := []; nacp_authoring_tool_xml := [];
     nacp_authoring_tool_xml_size := 0; nacp_data := [] |}.

(** The console [c] with another [nacpInitializeContext]. *)
Definition with_nacp (nacp : NcaContext -> option NacpContext) (c : Collaborators)
  : Collaborators :=
  {| usbAllocatePageAlignedBuffer := usbAllocatePageAlignedBuffer c;
     titleGenerateFileName := titleGenerateFileName c;
     utilsGeneratePath := utilsGeneratePath c;
     calloc_succeeds := calloc_succeeds c;
     nca_open := nca_open c;
     nca_set_download_distribution_type := nca_set_download_distribution_type c;
     nca_remove_titlekey_crypto := nca_remove_titlekey_crypto c;
     nca_encrypt_header := nca_encrypt_header c;
     nca_is_header_dirty := nca_is_header_dirty c;
     nca_read_content_file := nca_read_content_file c;
     nca_write_encrypted_header := nca_write_encrypted_header c;
     cnmt_initialize := cnmt_initialize c;
     cnmt_required_title_version := cnmt_required_title_version c;
     cnmt_generate_authoring_tool_xml := cnmt_generate_authoring_tool_xml c;
     cnmt_generate_nca_patch := cnmt_generate_nca_patch c;
     cnmt_write_nca_patch := cnmt_write_nca_patch c;
     cnmt_update_content_info := cnmt_update_content_info c;
     program_info_initialize := program_info_initialize c;
     program_info_generate_nca_patch := program_info_generate_nca_patch c;
     program_info_generate_authoring_tool_xml := program_info_generate_authoring_tool_xml c;
     program_info_write_nca_patch := program_info_write_nca_patch c;
     nacp_initialize := nacp;
     nacp_generate_authoring_tool_xml := nacp_generate_authoring_tool_xml c;
     nacpGetLanguageString := nacpGetLanguageString c;
     legal_info_initialize := legal_info_initialize c;
     tik_get_common_block := tik_get_common_block c;
     tik_convert_personalized_to_common := tik_convert_personalized_to_common c;
     cert_from_gamecard_by_rights_id := cert_from_gamecard_by_rights_id c;
     cert_by_signature_issuer := cert_by_signature_issuer c;
     usb_is_ready := usb_is_ready c;
     usb_accepts := usb_accepts c;
     sha256 := sha256 c;
     pfs_format := pfs_format c |}.


(** The table the scenario of one program unit and the title-meta unit
    is said to end with: the two archives and the title-meta XML. *)
Definition three_entry_table (d : Dump) : Prop :=
  (fun e => entry_extension (entry_name e)) <$> entries (st_pfs_file_ctx (d_stream d))
  = [".nca"; ".cnmt.nca"; ".cnmt.xml"].

(** * A controller and a title list to run [main] on *)

(** One bit for each button. *)
Definition toy_keys : HidControllerKeys :=
  {| KEY_A := 0x1; KEY_B := 0x2; KEY_L := 0x40; KEY_R := 0x80;
     KEY_ZL := 0x100; KEY_ZR := 0x200;
     KEY_DLEFT := 0x1000; KEY_DUP := 0x2000; KEY_DRIGHT := 0x4000; KEY_DDOWN := 0x8000;
     KEY_LSTICK_UP := 0x20000; KEY_LSTICK_DOWN := 0x80000;
     KEY_RSTICK_UP := 0x200000; KEY_RSTICK_DOWN := 0x800000 |}.

Definition toy_metadata (id : Z) (name : string) : TitleApplicationMetadata :=
  {| title_id := id; lang_entry_name := name; lang_entry_author := "nobody" |}.

Definition toy_table : list TitleApplicationMetadata :=
  [toy_metadata 0x0100000000001000 "first"; toy_metadata 0x0100000000002000 "second"].

(** The base application comes in two versions: [full_title], and after
    it [small_title]. *)
Definition toy_app_info : TitleInfoPtr :=
  {| ptr_previous := []; ptr_info := full_title; ptr_next := [small_title] |}.

(** A console whose titles all have a base application, and neither
    update nor DLC. *)
Definition toy_menu_console : Console :=
  {| utils_initialize_resources := true;
     title_get_application_metadata_entries := Some toy_table;
     title_get_user_application_data :=
       fun _ _ _ => (true, {| app_info := Some toy_app_info; patch_info := None;
                              aoc_info := None |});
     title_get_count_from_info_block :=
       fun p => match p with
                | Some q => Z.of_nat (length (title_list q))
                | None => 0%Z
                end |}.

(** Polls: the buttons of [mask] go down, nothing happens, the gamecard
    is changed and the table read again is [entries]. *)
Definition press (mask : Z) : Poll :=
  {| btn_down := mask; btn_held := 0; gamecard_info_updated := false;
     refreshed_entries := None |}.

Definition hold (mask : Z) : Poll :=
  {| btn_down := 0; btn_held := mask; gamecard_info_updated := false;
     refreshed_entries := None |}.

Definition nothing : Poll :=
  {| btn_down := 0; btn_held := 0; gamecard_info_updated := false;
     refreshed_entries := None |}.

Definition gamecard (entries : option (list TitleApplicationMetadata)) : Poll :=
  {| btn_down := 0; btn_held := 0; gamecard_info_updated := true;
     refreshed_entries := entries |}.

(** The first title, its base application; the switch of the title key
    crypto is set; the dump is started, and after it the dump of the
    version that follows in the list. *)
Definition to_the_options : list Poll :=
  [press (KEY_A toy_keys); nothing; press (KEY_A toy_keys);
   press (KEY_DDOWN toy_keys); press (KEY_DDOWN toy_keys); press (KEY_DDOWN toy_keys);
   press (KEY_DRIGHT toy_keys);
   press (KEY_DDOWN toy_keys); press (KEY_DDOWN toy_keys)].

Definition two_dumps : list Poll :=
  to_the_options
  ++ [press (KEY_A toy_keys); press (KEY_R toy_keys); press (KEY_A toy_keys)].

(** The same, and out of the menu by the B button. *)
Definition two_dumps_and_out : list Poll :=
  two_dumps ++ [press (KEY_B toy_keys); press (KEY_B toy_keys); press (KEY_B toy_keys)].

(** The gamecard is taken out while the options are shown. *)
Definition gamecard_taken_out : list Poll :=
  to_the_options ++ [gamecard (Some [toy_metadata 0x0100000000002000 "second"]);
                     hold (KEY_LSTICK_DOWN toy_keys)].

(** The options screen for the first title, the arrow on the switch of
    the title key crypto. *)
Definition options_menu : Menu :=
  {| app_metadata := toy_table;
     user_app_data := {| app_info := Some toy_app_info; patch_info := None;
                         aoc_info := None |};
     title_info := Some toy_app_info;
     menu := 2; selected_idx := 3; scroll := 0;
     title_idx := 0; title_scroll := 0; type_idx := 0; type_scroll := 0;
     list_count := 2; list_idx := 1;
     options := [false; false; false; false] |}.

(** The retail console, its control units without icons. *)
Definition iconless_console : Collaborators :=
  with_nacp (fun _ => Some iconless_nacp) retail_console.

(** * Proofs *)

(** ** The monad *)

Lemma bind_Ok {A B} (m : M A) (k : A -> M B) w b w' :
  bind m k w = (Ok b, w') <->
  exists a w1, m w = (Ok a, w1) /\ k a w1 = (Ok b, w').
Proof.
  unfold bind. split.
  - destruct (m w) as [[a|msg|] w1]; intros H; try discriminate. eauto.
  - intros (a & w1 & -> & H). exact H.
Qed.

Lemma bind_run {A B} (m : M A) (k : A -> M B) w r w' :
  bind m k w = (r, w') ->
  (exists a w1, m w = (Ok a, w1) /\ k a w1 = (r, w'))
  \/ (exists msg, m w = (Abort msg, w') /\ r = Abort msg)
  \/ (m w = (Stuck, w') /\ r = Stuck).
Proof.
  unfold bind. destruct (m w) as [[a|msg|] w1]; intros H.
  - left. eauto.
  - right. left. inversion H. eauto.
  - right. right. inversion H. eauto.
Qed.

Lemma ret_Ok {A} (a b : A) w w' : ret a w = (Ok b, w') <-> a = b /\ w = w'.
Proof. unfold ret. split; [intros H; inversion H; auto | intros [-> ->]; auto]. Qed.

Lemma or_abort_Ok {A} msg (o : option A) a w w' :
  or_abort msg o w = (Ok a, w') <-> o = Some a /\ w = w'.
Proof.
  destruct o; simpl; unfold ret, abort; split; intros H.
  - inversion H; subst; auto.
  - destruct H as [H ->]. inversion H; subst; auto.
  - discriminate.
  - destruct H; discriminate.
Qed.

Lemma check_Ok msg b u w w' : check msg b w = (Ok u, w') <-> b = true /\ w = w'.
Proof.
  destruct b, u; simpl; unfold ret, abort; split; intros H.
  - inversion H; subst; auto.
  - destruct H as [_ ->]. reflexivity.
  - discriminate.
  - destruct H; discriminate.
Qed.

Lemma call_Ok c u w w' :
  call c w = (Ok u, w') <-> w' = {| calls := calls w ++ [c]; clock := clock w |}.
Proof. destruct u. unfold call. split; intros H; [inversion H | subst]; auto. Qed.

Lemma abort_Ok {A} msg (a : A) w w' : abort msg w = (Ok a, w') <-> False.
Proof. unfold abort. split; [discriminate | tauto]. Qed.

Lemma stuck_Ok {A} (a : A) w w' : stuck w = (Ok a, w') <-> False.
Proof. unfold stuck. split; [discriminate | tauto]. Qed.

(** Takes a run that ended in [Ok] apart, statement by statement. *)
Ltac inv_ok H :=
  lazymatch type of H with
  | bind _ _ _ = (Ok _, _) =>
      let a := fresh "a" in
      let w := fresh "w" in
      let H1 := fresh "Hrun" in
      apply bind_Ok in H as (a & w & H1 & H); inv_ok H1
  | ret _ _ = (Ok _, _) => apply ret_Ok in H as [? ?]; subst
  | or_abort _ _ _ = (Ok _, _) => apply or_abort_Ok in H as [? ?]; subst
  | check _ _ _ = (Ok _, _) => apply check_Ok in H as [? ?]; subst
  | call _ _ = (Ok _, _) => apply call_Ok in H; subst
  | abort _ _ = (Ok _, _) => apply abort_Ok in H; destruct H
  | stuck _ = (Ok _, _) => apply stuck_Ok in H; destruct H
  | _ => idtac
  end.

(** ** Calls and clock of a run *)

Lemma slept_app evs1 evs2 : slept (evs1 ++ evs2) = (slept evs1 + slept evs2)%Z.
Proof.
  induction evs1 as [|c evs1 IH]; simpl; [lia|]. destruct c; rewrite ?IH; lia.
Qed.

Lemma sent_bytes_app evs1 evs2 :
  sent_bytes (evs1 ++ evs2) = sent_bytes evs1 ++ sent_bytes evs2.
Proof. unfold sent_bytes. apply flat_map_app. Qed.

Lemma emits_ret {A} P (a : A) : emits P (ret a).
Proof.
  intros w r w' H. inversion H; subst. exists []. rewrite app_nil_r. simpl.
  repeat split; auto; lia.
Qed.

Lemma emits_abort {A} P msg : emits P (@abort A msg).
Proof.
  intros w r w' H. inversion H; subst. exists []. rewrite app_nil_r. simpl.
  repeat split; auto; lia.
Qed.

Lemma emits_stuck {A} P : emits P (@stuck A).
Proof.
  intros w r w' H. inversion H; subst. exists []. rewrite app_nil_r. simpl.
  repeat split; auto; lia.
Qed.

Lemma emits_time P : emits P time.
Proof.
  intros w r w' H. inversion H; subst. exists []. rewrite app_nil_r. simpl.
  repeat split; auto; lia.
Qed.

Lemma emits_history P : emits P history.
Proof.
  intros w r w' H. inversion H; subst. exists []. rewrite app_nil_r. simpl.
  repeat split; auto; lia.
Qed.

Lemma emits_call (P : Call -> bool) c :
  P c = true -> is_sleep c = false -> emits P (call c).
Proof.
  intros HP Hs w r w' H. inversion H; subst. exists [c]. simpl. rewrite HP.
  repeat split; auto. destruct c; simpl in *; try lia; discriminate.
Qed.

Lemma emits_utilsSleep (P : Call -> bool) s :
  P (Call_utilsSleep s) = true -> emits P (utilsSleep s).
Proof.
  intros HP w r w' H. inversion H; subst. exists [Call_utilsSleep s]. simpl.
  rewrite HP. repeat split; auto. lia.
Qed.

Lemma emits_bind {A B} P (m : M A) (k : A -> M B) :
  emits P m -> (forall a, emits P (k a)) -> emits P (bind m k).
Proof.
  intros Hm Hk w r w' H. apply bind_run in H as [(a & w1 & H1 & H2)|[(msg & H1 & ->)|[H1 ->]]].
  - apply Hm in H1 as (e1 & Hc1 & HP1 & Ht1). apply Hk in H2 as (e2 & Hc2 & HP2 & Ht2).
    exists (e1 ++ e2). rewrite Hc2, Hc1, Ht2, Ht1, forallb_app, HP1, HP2, slept_app, app_assoc.
    repeat split; auto. lia.
  - apply Hm in H1 as (e1 & Hc1 & HP1 & Ht1). eauto.
  - apply Hm in H1 as (e1 & Hc1 & HP1 & Ht1). eauto.
Qed.

Lemma emits_or_abort {A} P msg (o : option A) : emits P (or_abort msg o).
Proof. destruct o; [apply emits_ret | apply emits_abort]. Qed.

Lemma emits_check P msg b : emits P (check msg b).
Proof. destruct b; [apply emits_ret | apply emits_abort]. Qed.

Lemma emits_for_loop {St} P (body : nat -> St -> M St) n :
  (forall i s, emits P (body i s)) -> forall i s, emits P (for_loop n i body s).
Proof.
  intros Hb. induction n as [|n IH]; intros i s; simpl.
  - apply emits_ret.
  - apply emits_bind; auto.
Qed.

Lemma emits_for_each_from {A St} P (body : nat -> A -> St -> M St) l :
  (forall j x s, emits P (body j x s)) -> forall j s, emits P (for_each_from l j body s).
Proof.
  intros Hb. induction l as [|x l IH]; intros j s; simpl.
  - apply emits_ret.
  - apply emits_bind; auto.
Qed.

Lemma emits_weaken {A} (P Q : Call -> bool) (m : M A) :
  (forall c, P c = true -> Q c = true) -> emits P m -> emits Q m.
Proof.
  intros HPQ Hm w r w' H. apply Hm in H as (evs & Hc & HP & Ht).
  exists evs. repeat split; auto.
  rewrite forallb_forall in *. auto.
Qed.

Lemma time_Ok a w w' : time w = (Ok a, w') <-> a = clock w /\ w' = w.
Proof. unfold time. split; [intros H; inversion H; auto | intros [-> ->]; auto]. Qed.

Lemma history_Ok a w w' : history w = (Ok a, w') <-> a = calls w /\ w' = w.
Proof. unfold history. split; [intros H; inversion H; auto | intros [-> ->]; auto]. Qed.

Create HintDb dump discriminated.

#[global] Hint Unfold ncaInitializeContext ncaSetDownloadDistributionType
  ncaRemoveTitlekeyCrypto ncaEncryptHeader cnmtInitializeContext
  programInfoInitializeContext programInfoGenerateNcaPatch
  programInfoGenerateAuthoringToolXml nacpInitializeContext
  nacpGenerateAuthoringToolXml legalInfoInitializeContext
  cnmtGenerateAuthoringToolXml tikGetCommonBlock
  tikConvertPersonalizedTicketToCommonTicket
  certRetrieveRawCertificateChainFromGameCardByRightsId
  certGenerateRawCertificateChainBySignatureIssuer usb_call
  usbSendFileProperties usbSendFileData usbSendNspHeader usbIsReady
  ncaUpdateContentIdAndHash cnmtUpdateContentInfo cnmtGenerateNcaPatch
  ncaReadContentFile ncaWriteEncryptedHeaderDataToMemoryBuffer
  cnmtWriteNcaPatch programInfoWriteNcaPatch write_header : dump.

(** Takes a run that ended in [Ok] apart, the collaborator calls too. *)
Ltac inv_run H :=
  lazymatch type of H with
  | bind _ _ _ = (Ok _, _) =>
      let a := fresh "res" in
      let w := fresh "wld" in
      let H1 := fresh "Hrun" in
      apply bind_Ok in H as (a & w & H1 & H); inv_run H1; inv_run H
  | ret _ _ = (Ok _, _) => apply ret_Ok in H as [? ?]; subst
  | or_abort _ _ _ = (Ok _, _) => apply or_abort_Ok in H as [? ?]; subst
  | check _ _ _ = (Ok _, _) => apply check_Ok in H as [? ?]; subst
  | call _ _ = (Ok _, _) => apply call_Ok in H; subst
  | time _ = (Ok _, _) => apply time_Ok in H as [? ?]; subst
  | history _ = (Ok _, _) => apply history_Ok in H as [? ?]; subst
  | abort _ _ = (Ok _, _) => apply abort_Ok in H; destruct H
  | stuck _ = (Ok _, _) => apply stuck_Ok in H; destruct H
  | _ => first [ progress autounfold with dump in H; inv_run H | idtac ]
  end.

Ltac inv_fmap :=
  repeat match goal with
         | H : _ <$> _ = Some _ |- _ =>
             let x := fresh "x" in
             let Hx := fresh "Hx" in
             apply fmap_Some in H as (x & Hx & ?); subst
         end.

Ltac inv_add :=
  repeat match goal with
         | H : pfsAddEntryInformationToFileContext _ _ _ = Some _ |- _ =>
             unfold pfsAddEntryInformationToFileContext in H;
             inversion H; subst; clear H
         end.

Ltac emits_step :=
  first
    [ apply emits_ret | apply emits_abort | apply emits_stuck
    | apply emits_time | apply emits_history
    | apply emits_or_abort | apply emits_check
    | apply emits_call; reflexivity
    | apply emits_utilsSleep; reflexivity
    | apply emits_bind; [| intros ?]
    | apply emits_for_loop; intros ? ?
    | apply emits_for_each_from; intros ? ? ?
    | match goal with
      | |- emits _ (if ?b then _ else _) => destruct b
      | |- emits _ (match ?x with _ => _ end) => destruct x
      end ].

Ltac solve_emits := autounfold with dump; repeat emits_step.

(** ** Strings and identifiers *)

Lemma length_append (a b : string) :
  String.length (a +:+ b) = String.length a + String.length b.
Proof. induction a as [|c a IH]; simpl; auto. Qed.

Lemma string_drop_append (a b : string) : string_drop (String.length a) (a +:+ b) = b.
Proof. induction a as [|c a IH]; simpl; auto. Qed.

Lemma string_drop_length n (s : string) :
  String.length (string_drop n s) = String.length s - n.
Proof.
  revert s. induction n as [|n IH]; intros [|c s]; simpl; auto; lia.
Qed.


Lemma length_byte_array n l : length (byte_array n l) = n.
Proof.
  unfold byte_array. rewrite length_take, length_app, length_replicate. lia.
Qed.

Lemma length_hex l : String.length (utilsGenerateHexStringFromData l) = 2 * length l.
Proof. induction l as [|b l IH]; simpl; auto. rewrite IH. lia. Qed.

Lemma length_hex_id l :
  String.length (utilsGenerateHexStringFromData (byte_array 16 l)) = 32.
Proof. rewrite length_hex, length_byte_array. reflexivity. Qed.

Lemma length_overwrite_name (new old : string) :
  String.length new <= String.length old ->
  String.length (overwrite_name new old) = String.length old.
Proof.
  intros H. unfold overwrite_name. rewrite length_append, string_drop_length. lia.
Qed.

Lemma extension_overwrite_name (new old : string) :
  String.length new = 32 ->
  entry_extension (overwrite_name new old) = entry_extension old.
Proof.
  intros H. unfold overwrite_name, entry_extension. rewrite <- H.
  apply string_drop_append.
Qed.

Lemma extension_append (id ext : string) :
  String.length id = 32 -> entry_extension (id +:+ ext) = ext.
Proof. intros H. unfold entry_extension. rewrite <- H. apply string_drop_append. Qed.

(** ** The entry table *)

Lemma name_table_size_shape (es es' : list PartitionFileSystemEntry) :
  (fun e => String.length (entry_name e)) <$> es
  = (fun e => String.length (entry_name e)) <$> es' ->
  name_table_size es = name_table_size es'.
Proof.
  revert es'. induction es as [|e es IH]; intros [|e' es'] H; simpl in *;
    try discriminate; auto.
  inversion H as [[Hlen Hrest]]. rewrite Hlen, (IH es' Hrest). reflexivity.
Qed.

Lemma shape_lengths (es es' : list PartitionFileSystemEntry) :
  entry_shape <$> es = entry_shape <$> es' ->
  (fun e => String.length (entry_name e)) <$> es
  = (fun e => String.length (entry_name e)) <$> es'.
Proof.
  revert es'. induction es as [|e es IH]; intros [|e' es'] H; simpl in *;
    try discriminate; auto.
  inversion H. f_equal; auto.
Qed.

Lemma shape_sizes (es es' : list PartitionFileSystemEntry) :
  entry_shape <$> es = entry_shape <$> es' -> payload_size es = payload_size es'.
Proof.
  revert es'. induction es as [|e es IH]; intros [|e' es'] H; simpl in *;
    try discriminate; auto.
  inversion H as [[Hlen Hext Hsize Hrest]]. rewrite Hsize, (IH es' Hrest). reflexivity.
Qed.

Lemma pfs_header_size_shape fmt (es es' : list PartitionFileSystemEntry) :
  entry_shape <$> es = entry_shape <$> es' ->
  pfs_header_size fmt es = pfs_header_size fmt es'.
Proof.
  intros H. unfold pfs_header_size.
  rewrite (name_table_size_shape es es' (shape_lengths _ _ H)).
  apply (f_equal length) in H. rewrite !length_fmap in H. rewrite H. reflexivity.
Qed.

(** A rename by a 32-character identifier keeps the shape of a table of
    long names. *)
Lemma pfsUpdateEntryName_shape ctx idx id ctx' :
  String.length id = 32 ->
  Forall long_name (entries ctx) ->
  pfsUpdateEntryNameFromFileContext ctx idx id = Some ctx' ->
  pfs_shape ctx' = pfs_shape ctx /\ Forall long_name (entries ctx').
Proof.
  intros Hid Hlong H. unfold pfsUpdateEntryNameFromFileContext in H.
  destruct (entries ctx !! idx) as [e|] eqn:He; [|discriminate].
  inversion H; subst; clear H. unfold pfs_shape. simpl.
  assert (Hle : long_name e).
  { rewrite Forall_forall in Hlong. apply Hlong, list_elem_of_lookup. eauto. }
  unfold long_name in Hle. split.
  - f_equal. rewrite list_fmap_insert. apply list_insert_id.
    rewrite list_lookup_fmap, He. simpl. f_equal. unfold entry_shape. simpl.
    rewrite length_overwrite_name, extension_overwrite_name by lia. reflexivity.
  - apply Forall_insert; auto. unfold long_name. simpl.
    rewrite length_overwrite_name; lia.
Qed.


Section Proofs.

Context (E : Collaborators).

(** ** The block loop: what is hashed is what is sent *)

Lemma sent_bytes_no_file_data evs :
  forallb (fun c => negb (is_file_data c)) evs = true -> sent_bytes evs = [].
Proof.
  induction evs as [|c evs IH]; simpl; [auto|].
  intros H. apply andb_prop in H as [Hc Hevs]. rewrite (IH Hevs).
  destruct c; simpl in *; auto; discriminate.
Qed.

Lemma emits_patch_nca_block i meta_idx cnmt_ctx offset blksize nca_ctx buf :
  emits patch_call (patch_nca_block E i meta_idx cnmt_ctx offset blksize nca_ctx buf).
Proof. unfold patch_nca_block. solve_emits. Qed.

Lemma write_nca_block_hash i meta_idx cnmt_ctx offset blksize bk w bk' w' :
  write_nca_block E i meta_idx cnmt_ctx offset blksize bk w = (Ok bk', w') ->
  exists evs, calls w' = calls w ++ evs
    /\ clock w' = clock w
    /\ forallb block_call evs = true
    /\ bk_sha256_ctx bk' = bk_sha256_ctx bk ++ sent_bytes evs.
Proof.
  unfold write_nca_block. intros H.
  apply bind_Ok in H as (r & w1 & Hread & H). inv_run Hread.
  apply bind_Ok in H as (buf & w2 & Hbuf & H). inv_run Hbuf.
  apply bind_Ok in H as (st & w3 & Hpatch & H).
  assert (Hp : emits patch_call
                 (if bk_dirty_header bk
                  then patch_nca_block E i meta_idx cnmt_ctx offset blksize (bk_nca_ctx bk) buf
                  else ret (bk_nca_ctx bk, buf, bk_dirty_header bk))).
  { destruct (bk_dirty_header bk); [apply emits_patch_nca_block | apply emits_ret]. }
  apply Hp in Hpatch as (evs & Hc & HP & Ht). simpl in Hc, Ht.
  inv_run H. simpl.
  exists ([Call_ncaReadContentFile (content_id_str (bk_nca_ctx bk !!! i)) blksize offset]
          ++ evs
          ++ [Call_usbSendFileData (take (Z.to_nat blksize) (snd (fst st))) blksize]).
  rewrite Hc, Ht. repeat split.
  - rewrite <- !app_assoc. reflexivity.
  - assert (slept evs = 0%Z) as ->; [|lia].
    clear -HP. induction evs as [|c evs IH]; simpl in *; auto.
    apply andb_prop in HP as [Hc HP]. destruct c; auto; discriminate.
  - simpl. rewrite forallb_app. simpl. rewrite andb_true_r.
    rewrite forallb_forall in *. intros c Hin. apply HP in Hin.
    destruct c; simpl in *; auto.
  - unfold sha256ContextUpdate. rewrite !sent_bytes_app. simpl.
    rewrite (sent_bytes_no_file_data evs), app_nil_r; [reflexivity|].
    rewrite forallb_forall in *. intros c Hin. apply HP in Hin.
    destruct c; simpl in *; auto; discriminate.
Qed.

Lemma write_nca_blocks_hash fuel i meta_idx cnmt_ctx :
  forall offset blksize bk w bk' w',
    write_nca_blocks E fuel i meta_idx cnmt_ctx offset blksize bk w = (Ok bk', w') ->
    exists evs, calls w' = calls w ++ evs
      /\ clock w' = clock w
      /\ forallb block_call evs = true
      /\ bk_sha256_ctx bk' = bk_sha256_ctx bk ++ sent_bytes evs.
Proof.
  induction fuel as [|fuel IH]; intros offset blksize bk w bk' w' H; simpl in H.
  - destruct (offset <? _)%Z; inv_run H.
    exists []. rewrite !app_nil_r. auto.
  - destruct (offset <? _)%Z; [|inv_run H; exists []; rewrite !app_nil_r; auto].
    apply bind_Ok in H as (bk1 & w1 & Hblock & H).
    apply write_nca_block_hash in Hblock as (e1 & Hc1 & Ht1 & HP1 & Hs1).
    apply IH in H as (e2 & Hc2 & Ht2 & HP2 & Hs2).
    exists (e1 ++ e2). rewrite Hc2, Hc1, Ht2, Ht1, Hs2, Hs1, forallb_app, HP1, HP2.
    rewrite sent_bytes_app, !app_assoc. auto.
Qed.


(** ** What the stream leaves alone in the NCA contexts *)

Lemma fmap_lookup_total {A B} `{!Inhabited A} (f : A -> B) (l l' : list A) i :
  f <$> l = f <$> l' -> f (l !!! i) = f (l' !!! i).
Proof.
  revert l' i. induction l as [|x l IH]; intros [|y l'] i H; simpl in *;
    try discriminate; auto.
  inversion H. destruct i as [|i]; simpl; auto.
Qed.

Lemma insert_fmap_id {B} (f : NcaContext -> B) (l : list NcaContext) i c :
  f c = f (l !!! i) -> f <$> <[i:=c]> l = f <$> l.
Proof.
  intros Hc. rewrite list_fmap_insert. apply list_insert_id'. intros Hlt.
  rewrite length_fmap in Hlt. rewrite list_lookup_fmap.
  rewrite (list_lookup_lookup_total_lt l i Hlt). simpl. congruence.
Qed.

Lemma fmap_length_eq {B} (f : NcaContext -> B) (l l' : list NcaContext) :
  f <$> l = f <$> l' -> length l = length l'.
Proof. intros H. apply (f_equal length) in H. rewrite !length_fmap in H. exact H. Qed.

Lemma insert_static (l : list NcaContext) i c :
  nca_static c = nca_static (l !!! i) ->
  nca_static <$> <[i:=c]> l = nca_static <$> l.
Proof.
  intros Hc. rewrite list_fmap_insert. apply list_insert_id'. intros Hlt.
  rewrite length_fmap in Hlt. rewrite list_lookup_fmap.
  rewrite (list_lookup_lookup_total_lt l i Hlt). simpl. congruence.
Qed.

Lemma static_length (l l' : list NcaContext) :
  nca_static <$> l = nca_static <$> l' -> length l = length l'.
Proof. intros H. apply (f_equal length) in H. rewrite !length_fmap in H. exact H. Qed.

Lemma patch_nca_block_static i meta_idx cnmt_ctx offset blksize nca_ctx buf r w w' :
  patch_nca_block E i meta_idx cnmt_ctx offset blksize nca_ctx buf w = (Ok r, w') ->
  nca_static <$> fst (fst r) = nca_static <$> nca_ctx.
Proof.
  unfold patch_nca_block. intros H.
  apply bind_Ok in H as (st1 & w1 & H1 & H).
  assert (Hst1 : nca_static <$> fst st1 = nca_static <$> nca_ctx).
  { destruct (negb _); inv_run H1; simpl; auto. apply insert_static. reflexivity. }
  apply bind_Ok in H as (st2 & w2 & H2 & H). inv_run H. simpl.
  rewrite <- Hst1.
  destruct (content_type_ctx_patch _); [|inv_run H2; auto].
  destruct (content_type (fst st1 !!! i)); inv_run H2; auto.
  - simpl. apply insert_static. reflexivity.
  - destruct (content_type_ctx _) as [[p|n|l]|]; inv_run H2.
    simpl. apply insert_static. reflexivity.
Qed.

Lemma write_nca_block_static i meta_idx cnmt_ctx offset blksize bk w bk' w' :
  write_nca_block E i meta_idx cnmt_ctx offset blksize bk w = (Ok bk', w') ->
  nca_static <$> bk_nca_ctx bk' = nca_static <$> bk_nca_ctx bk.
Proof.
  unfold write_nca_block. intros H.
  apply bind_Ok in H as (r & w1 & Hread & H).
  apply bind_Ok in H as (buf & w2 & Hbuf & H).
  apply bind_Ok in H as (st & w3 & Hpatch & H).
  inv_run H. simpl.
  destruct (bk_dirty_header bk).
  - eapply patch_nca_block_static; eauto.
  - inv_run Hpatch. reflexivity.
Qed.

Lemma write_nca_blocks_static fuel i meta_idx cnmt_ctx :
  forall offset blksize bk w bk' w',
    write_nca_blocks E fuel i meta_idx cnmt_ctx offset blksize bk w = (Ok bk', w') ->
    nca_static <$> bk_nca_ctx bk' = nca_static <$> bk_nca_ctx bk.
Proof.
  induction fuel as [|fuel IH]; intros offset blksize bk w bk' w' H; simpl in H.
  - destruct (offset <? _)%Z; inv_run H. reflexivity.
  - destruct (offset <? _)%Z; [|inv_run H; reflexivity].
    apply bind_Ok in H as (bk1 & w1 & Hblock & H).
    apply write_nca_block_static in Hblock. apply IH in H. congruence.
Qed.

(** ** The blocks add up to the size of the content *)

Lemma declared_bytes_app e1 e2 :
  declared_bytes (e1 ++ e2) = (declared_bytes e1 + declared_bytes e2)%Z.
Proof.
  induction e1 as [|c e1 IH]; simpl; [reflexivity|].
  destruct c; rewrite ?IH; lia.
Qed.

Lemma declared_bytes_no_file_data evs :
  forallb (fun c => negb (is_file_data c)) evs = true -> declared_bytes evs = 0%Z.
Proof.
  induction evs as [|c evs IH]; simpl; [auto|].
  intros H. apply andb_prop in H as [Hc Hevs]. rewrite (IH Hevs).
  destruct c; simpl in *; auto; discriminate.
Qed.

Lemma write_nca_block_declared i meta_idx cnmt_ctx offset blksize bk w bk' w' :
  write_nca_block E i meta_idx cnmt_ctx offset blksize bk w = (Ok bk', w') ->
  exists evs, calls w' = calls w ++ evs /\ declared_bytes evs = blksize.
Proof.
  unfold write_nca_block. intros H.
  apply bind_Ok in H as (r & w1 & Hread & H). inv_run Hread.
  apply bind_Ok in H as (buf & w2 & Hbuf & H). inv_run Hbuf.
  apply bind_Ok in H as (st & w3 & Hpatch & H).
  assert (Hp : emits patch_call
                 (if bk_dirty_header bk
                  then patch_nca_block E i meta_idx cnmt_ctx offset blksize (bk_nca_ctx bk) buf
                  else ret (bk_nca_ctx bk, buf, bk_dirty_header bk))).
  { destruct (bk_dirty_header bk); [apply emits_patch_nca_block | apply emits_ret]. }
  apply Hp in Hpatch as (evs & Hc & HP & Ht). simpl in Hc, Ht.
  inv_run H. simpl.
  exists ([Call_ncaReadContentFile (content_id_str (bk_nca_ctx bk !!! i)) blksize offset]
          ++ evs
          ++ [Call_usbSendFileData (take (Z.to_nat blksize) (snd (fst st))) blksize]).
  rewrite Hc. split; [rewrite <- !app_assoc; reflexivity|].
  rewrite !declared_bytes_app. simpl.
  rewrite (declared_bytes_no_file_data evs); [lia|].
  rewrite forallb_forall in *. intros c Hin. apply HP in Hin.
  destruct c; simpl in *; auto; discriminate.
Qed.

Lemma write_nca_blocks_declared fuel i meta_idx cnmt_ctx :
  forall offset blksize bk w bk' w',
    write_nca_blocks E fuel i meta_idx cnmt_ctx offset blksize bk w = (Ok bk', w') ->
    (0 <= offset)%Z -> (0 < blksize)%Z ->
    (content_size (bk_nca_ctx bk !!! i) < 2 ^ 64)%Z ->
    exists evs, calls w' = calls w ++ evs
      /\ declared_bytes evs = Z.max 0 (content_size (bk_nca_ctx bk !!! i) - offset).
Proof.
  induction fuel as [|fuel IH]; intros offset blksize bk w bk' w' H Hoff Hblk Hsize;
    simpl in H.
  - destruct (offset <? _)%Z eqn:Hlt; inv_run H.
    apply Z.ltb_ge in Hlt. exists []. rewrite app_nil_r. simpl. split; [reflexivity|lia].
  - destruct (offset <? _)%Z eqn:Hlt.
    2:{ inv_run H. apply Z.ltb_ge in Hlt. exists []. rewrite app_nil_r. simpl.
        split; [reflexivity|lia]. }
    apply Z.ltb_lt in Hlt.
    set (size := content_size (bk_nca_ctx bk !!! i)) in *.
    assert (Hrest : u64 (size - offset) = (size - offset)%Z)
      by (unfold u64; apply Z.mod_small; lia).
    rewrite Hrest in H.
    set (blk := if (size - offset <? blksize)%Z then (size - offset)%Z else blksize) in *.
    assert (Hblk' : (0 < blk <= size - offset)%Z).
    { unfold blk. destruct (size - offset <? blksize)%Z eqn:Hb; [lia|].
      apply Z.ltb_ge in Hb. lia. }
    apply bind_Ok in H as (bk1 & w1 & Hblock & H).
    pose proof (write_nca_block_static _ _ _ _ _ _ _ _ _ Hblock) as Hst.
    pose proof (fmap_lookup_total _ _ _ i Hst) as Hsti.
    assert (Hsize1 : content_size (bk_nca_ctx bk1 !!! i) = size)
      by (inversion Hsti; auto).
    apply write_nca_block_declared in Hblock as (e1 & Hc1 & Hd1).
    assert (Hnext : u64 (offset + blk) = (offset + blk)%Z)
      by (unfold u64; apply Z.mod_small; lia).
    rewrite Hnext in H.
    apply IH in H as (e2 & Hc2 & Hd2); [|lia|lia|rewrite Hsize1; lia].
    exists (e1 ++ e2). rewrite Hc2, Hc1, app_assoc. split; [reflexivity|].
    rewrite declared_bytes_app, Hd1, Hd2, Hsize1. lia.
Qed.

(** ** Header and patch go into the block before it is hashed *)

Lemma patch_nca_block_as_sent i meta_idx cnmt_ctx offset blksize nca_ctx buf r w w' :
  patch_nca_block E i meta_idx cnmt_ctx offset blksize nca_ctx buf w = (Ok r, w') ->
  let b := block_as_sent E i meta_idx cnmt_ctx offset blksize true nca_ctx buf in
  r = (blk_nca_ctx b, blk_buf b,
       negb (header_written (blk_nca_ctx b !!! i))
       || content_type_ctx_patch (blk_nca_ctx b !!! i))
  /\ calls w' = calls w ++ blk_calls b.
Proof.
  unfold patch_nca_block, block_as_sent, patch_into_block, header_into_block.
  intros H. cbn [blk_nca_ctx blk_buf blk_calls].
  apply bind_Ok in H as (st1 & w1 & H1 & H).
  apply bind_Ok in H as (st2 & w2 & H2 & H). inv_run H.
  destruct (header_written (nca_ctx !!! i)); cbn [negb] in H1; inv_run H1;
    cbn [fst snd blk_nca_ctx blk_buf blk_calls] in *.
  all: match type of H2 with
       | context [content_type_ctx_patch ?c] =>
           destruct (content_type_ctx_patch c);
           [|inv_run H2; split; [reflexivity|]; cbn; rewrite ?app_nil_r; reflexivity];
           destruct (content_type c); inv_run H2; cbn;
           try (split; [reflexivity|rewrite ?app_nil_r, <- ?app_assoc; reflexivity]);
           destruct (content_type_ctx c) as [[p|n|l]|]; inv_run H2; cbn;
           split; [reflexivity|rewrite ?app_nil_r, <- ?app_assoc; reflexivity]
       end.
Qed.

Lemma write_nca_block_turn i meta_idx cnmt_ctx offset blksize bk w bk' w' :
  write_nca_block E i meta_idx cnmt_ctx offset blksize bk w = (Ok bk', w') ->
  exists evs, calls w' = calls w ++ evs
              /\ block_turn E i meta_idx cnmt_ctx offset blksize bk evs bk'.
Proof.
  unfold write_nca_block, block_turn. intros H.
  apply bind_Ok in H as (r & w1 & Hread & H). inv_run Hread.
  apply bind_Ok in H as (buf & w2 & Hbuf & H). inv_run Hbuf.
  apply bind_Ok in H as (st & w3 & Hpatch & H).
  destruct (bk_dirty_header bk) eqn:Hdirty.
  - apply patch_nca_block_as_sent in Hpatch as [-> Hc]. cbn [fst snd] in *.
    inv_run H. cbn [calls] in *.
    eexists. split; [|exists buf; split; [eassumption|]; cbn zeta;
                      split; [reflexivity|]; cbn; auto].
    rewrite Hc. cbn. rewrite <- !app_assoc. reflexivity.
  - inv_run Hpatch. inv_run H. cbn [calls fst snd] in *.
    eexists. split; [|exists buf; split; [eassumption|]; cbn zeta;
                      split; [reflexivity|]; cbn; auto].
    cbn. rewrite <- !app_assoc. reflexivity.
Qed.

Lemma write_nca_blocks_turns fuel i meta_idx cnmt_ctx :
  forall offset blksize bk w bk' w',
    write_nca_blocks E fuel i meta_idx cnmt_ctx offset blksize bk w = (Ok bk', w') ->
    exists evs, calls w' = calls w ++ evs
                /\ block_turns E i meta_idx cnmt_ctx offset blksize bk evs bk'.
Proof.
  induction fuel as [|fuel IH]; intros offset blksize bk w bk' w' H; simpl in H.
  - destruct (offset <? _)%Z eqn:Hlt; inv_run H. apply Z.ltb_ge in Hlt.
    exists []. rewrite app_nil_r. split; [reflexivity|]. constructor. exact Hlt.
  - destruct (offset <? _)%Z eqn:Hlt.
    2:{ inv_run H. apply Z.ltb_ge in Hlt. exists []. rewrite app_nil_r.
        split; [reflexivity|]. constructor. exact Hlt. }
    apply Z.ltb_lt in Hlt.
    apply bind_Ok in H as (bk1 & w1 & Hblock & H).
    apply write_nca_block_turn in Hblock as (e1 & Hc1 & Ht1).
    apply IH in H as (e2 & Hc2 & Ht2).
    exists (e1 ++ e2). rewrite Hc2, Hc1, app_assoc. split; [reflexivity|].
    eapply block_turns_next; [exact Hlt|exact Ht1|exact Ht2].
Qed.

(** What the turns of unit [i] leave alone: the other contexts, but for
    the one of the title-meta unit. *)
Lemma block_as_sent_frame i meta_idx cnmt_ctx offset blksize dirty nca_ctx read j :
  j <> i -> j <> meta_idx ->
  blk_nca_ctx (block_as_sent E i meta_idx cnmt_ctx offset blksize dirty nca_ctx read) !!! j
  = nca_ctx !!! j.
Proof.
  intros Hi Hm. unfold block_as_sent, patch_into_block, header_into_block.
  destruct dirty; [|reflexivity]. cbn [blk_nca_ctx blk_buf blk_calls].
  destruct (header_written (nca_ctx !!! i)); cbn [blk_nca_ctx blk_buf blk_calls].
  all: match goal with
       | |- context [content_type_ctx_patch ?c] =>
           destruct (content_type_ctx_patch c); [|];
           try destruct (content_type c); try destruct (content_type_ctx c) as [[?|?|?]|];
           cbn [blk_nca_ctx];
           rewrite ?list_lookup_total_insert_ne by congruence; reflexivity
       end.
Qed.

Lemma block_turns_frame i meta_idx cnmt_ctx offset blksize bk evs bk' j :
  block_turns E i meta_idx cnmt_ctx offset blksize bk evs bk' ->
  j <> i -> j <> meta_idx ->
  bk_nca_ctx bk' !!! j = bk_nca_ctx bk !!! j.
Proof.
  intros H Hi Hm. induction H as [|offset blksize bk evs bk1 evs' bk' Hlt Hturn _ IH];
    [reflexivity|].
  rewrite IH. destruct Hturn as (rd & _ & _ & _ & _ & -> & _).
  apply block_as_sent_frame; assumption.
Qed.


(** ** One content archive goes out *)


(** What [write_nca] does when it succeeds: its calls, the blocks turn by
    turn, the new identifier of the unit, the renamed entry. *)
Lemma write_nca_turns meta_idx i st w st' w' :
  write_nca E meta_idx i st w = (Ok st', w') ->
  exists prep name blocks nca_ctx cnmt_ctx0 nca_ctx0,
    calls w' = calls w
               ++ nca_calls E prep (content_size (st_nca_ctx st !!! i)) name blocks
                    (content_id_str (st_nca_ctx st !!! i))
    /\ clock w' = clock w
    /\ forallb meta_patch_call prep = true
    /\ forallb block_call blocks = true
    /\ ((0 <= content_size (st_nca_ctx st !!! i) < 2 ^ 64)%Z ->
        declared_bytes blocks = content_size (st_nca_ctx st !!! i))
    /\ pfsGetEntryNameByIndexFromFileContext (st_pfs_file_ctx st) i = Some name
    /\ nca_static <$> nca_ctx = nca_static <$> st_nca_ctx st
    /\ st_nca_ctx st' =
         <[i := nca_set_content_id (byte_array 16 (hash_of_sent E blocks))
                  (hash_id E blocks) (nca_ctx !!! i)]> nca_ctx
    /\ pfsUpdateEntryNameFromFileContext (st_pfs_file_ctx st) i (hash_id E blocks)
       = Some (st_pfs_file_ctx st')
    /\ unit_blocks E i meta_idx cnmt_ctx0 nca_ctx0 (st_buf st) blocks (sent_bytes blocks)
    /\ nca_static <$> nca_ctx0 = nca_static <$> st_nca_ctx st
    /\ (content_type (st_nca_ctx st !!! i) <> NcmContentType_Meta ->
        nca_ctx0 = st_nca_ctx st)
    /\ (forall j, j <> i -> j <> meta_idx ->
          st_nca_ctx st' !!! j = st_nca_ctx st !!! j).
Proof.
  unfold write_nca. intros H.
  apply bind_Ok in H as (cn & w1 & Hcn & H).
  assert (Hpre : exists e1, calls w1 = calls w ++ e1 /\ clock w1 = clock w
                   /\ forallb meta_patch_call e1 = true
                   /\ nca_static <$> snd cn = nca_static <$> st_nca_ctx st
                   /\ (content_type (st_nca_ctx st !!! i) <> NcmContentType_Meta ->
                       snd cn = st_nca_ctx st)
                   /\ (forall j, j <> i -> j <> meta_idx ->
                         snd cn !!! j = st_nca_ctx st !!! j)).
  { destruct (decide _) as [Hty|Hty]; inv_run Hcn; inv_fmap; simpl.
    - eexists [_; _]. rewrite <- app_assoc. simpl. repeat split; auto.
      + rewrite !insert_static; reflexivity.
      + intros Hne. contradiction.
      + intros j Hi Hm. rewrite !list_lookup_total_insert_ne by congruence. reflexivity.
    - exists []. rewrite app_nil_r. repeat split; auto. }
  destruct Hpre as (e1 & Hc1 & Ht1 & HP1 & Hst1 & Hsame1 & Hframe1).
  pose proof (fmap_lookup_total _ _ _ i Hst1) as Hsti.
  apply bind_Ok in H as (ok & w2 & Hann & H).
  apply bind_Ok in H as (u & w3 & Hchk & H). inv_run Hchk.
  unfold usbSendFilePropertiesCommon in Hann.
  destruct (pfsGetEntryNameByIndexFromFileContext _ _) as [name|] eqn:Hname;
    inv_run Hann; [|discriminate].
  apply bind_Ok in H as (bk & w4 & Hblocks & H).
  pose proof (write_nca_blocks_static _ _ _ _ _ _ _ _ _ _ Hblocks) as Hst4.
  pose proof (fun Hsz => write_nca_blocks_declared _ _ _ _ _ _ _ _ _ _ Hblocks
                           (Z.le_refl 0) eq_refl Hsz) as Hdecl.
  pose proof (write_nca_blocks_turns _ _ _ _ _ _ _ _ _ _ Hblocks) as (e3t & Hc3t & Hturns).
  apply write_nca_blocks_hash in Hblocks as (e3 & Hc3 & Ht3 & HP3 & Hs3).
  rewrite Hc3 in Hc3t. apply app_inv_head in Hc3t. subst e3t.
  pose proof (fun j => block_turns_frame _ _ _ _ _ _ _ _ j Hturns) as Hframe3.
  simpl in Hs3, Hst4, Hc3, Ht3, Hdecl, Hframe3.
  pose proof (fmap_lookup_total _ _ _ i Hst4) as Hst4i.
  assert (Hsize : content_size (snd cn !!! i) = content_size (st_nca_ctx st !!! i))
    by (inversion Hsti; auto).
  assert (Hdeclared : (0 <= content_size (st_nca_ctx st !!! i) < 2 ^ 64)%Z ->
                      declared_bytes e3 = content_size (st_nca_ctx st !!! i)).
  { intros Hrange. rewrite Hsize in Hdecl.
    destruct Hdecl as (e3' & Hc3' & Hd3); [lia|].
    simpl in Hc3'. rewrite Hc3, Hsize in Hc3'. apply app_inv_head in Hc3'.
    subst e3'. lia. }
  inv_run H. simpl.
  exists e1, name, e3, (bk_nca_ctx bk), (fst cn), (snd cn).
  unfold hash_id, hash_of_sent. rewrite <- Hs3.
  split; [|split; [lia|]].
  { unfold nca_calls, hash_id, hash_of_sent. rewrite <- Hs3, Hc3, Hc1, <- !app_assoc.
    simpl. do 3 f_equal.
    + inversion Hsti. reflexivity.
    + do 3 f_equal. inversion Hst4i. inversion Hsti. congruence. }
  split; [exact HP1|]. split; [exact HP3|]. split; [exact Hdeclared|].
  split; [reflexivity|]. split; [congruence|]. split; [reflexivity|].
  split; [assumption|].
  split; [exists bk; split; [exact Hturns|reflexivity]|].
  split; [exact Hst1|]. split; [exact Hsame1|].
  intros j Hi Hm. rewrite list_lookup_total_insert_ne by congruence.
  rewrite Hframe3 by assumption. apply Hframe1; assumption.
Qed.

(** What [write_nca] does when it succeeds: its calls, the new identifier
    of the unit, the renamed entry. *)
Lemma write_nca_spec meta_idx i st w st' w' :
  write_nca E meta_idx i st w = (Ok st', w') ->
  exists prep name blocks nca_ctx,
    calls w' = calls w
               ++ nca_calls E prep (content_size (st_nca_ctx st !!! i)) name blocks
                    (content_id_str (st_nca_ctx st !!! i))
    /\ clock w' = clock w
    /\ forallb meta_patch_call prep = true
    /\ forallb block_call blocks = true
    /\ ((0 <= content_size (st_nca_ctx st !!! i) < 2 ^ 64)%Z ->
        declared_bytes blocks = content_size (st_nca_ctx st !!! i))
    /\ pfsGetEntryNameByIndexFromFileContext (st_pfs_file_ctx st) i = Some name
    /\ nca_static <$> nca_ctx = nca_static <$> st_nca_ctx st
    /\ st_nca_ctx st' =
         <[i := nca_set_content_id (byte_array 16 (hash_of_sent E blocks))
                  (hash_id E blocks) (nca_ctx !!! i)]> nca_ctx
    /\ pfsUpdateEntryNameFromFileContext (st_pfs_file_ctx st) i (hash_id E blocks)
       = Some (st_pfs_file_ctx st').
Proof.
  intros H. apply write_nca_turns in H
    as (prep & name & blocks & nca_ctx & _ & _ & H1 & H2 & H3 & H4 & H5 & H6 & H7 & H8
        & H9 & _).
  exists prep, name, blocks, nca_ctx. auto 10.
Qed.

Lemma static_fixed (l l' : list NcaContext) :
  nca_static <$> l = nca_static <$> l' -> nca_fixed <$> l = nca_fixed <$> l'.
Proof.
  revert l'. induction l as [|c l IH]; intros [|c' l'] H; simpl in *;
    try discriminate; auto.
  inversion H as [[Hid Hstr Hsz Hty Hctx Hidx Hrest]].
  f_equal; [|apply IH; exact Hrest]. unfold nca_fixed. congruence.
Qed.

Lemma pfsUpdateEntryName_entries ctx idx id ctx' :
  pfsUpdateEntryNameFromFileContext ctx idx id = Some ctx' ->
  exists e, entries ctx !! idx = Some e
            /\ entries ctx' = <[idx := rename_entry id e]> (entries ctx)
            /\ fs_size ctx' = fs_size ctx.
Proof.
  unfold pfsUpdateEntryNameFromFileContext. intros H.
  destruct (entries ctx !! idx) as [e|]; [|discriminate].
  inversion H; subst. simpl. eauto.
Qed.

(** The loop of lines 481-578 from unit [i] on, [n] units. *)
Lemma write_ncas_spec meta_idx n :
  forall i st w st' w',
    for_loop n i (write_nca E meta_idx) st w = (Ok st', w') ->
    i + n <= length (st_nca_ctx st) ->
    exists units,
      length units = n
      /\ calls w' = calls w ++ flat_map (unit_calls E) units
      /\ clock w' = clock w
      /\ Forall unit_ok units
      /\ (forall k u, units !! k = Some u ->
            u_size u = content_size (st_nca_ctx st !!! (i + k))
            /\ u_old_id u = content_id_str (st_nca_ctx st !!! (i + k))
            /\ (exists e, entries (st_pfs_file_ctx st) !! (i + k) = Some e
                          /\ entry_name e = u_name u
                          /\ entries (st_pfs_file_ctx st') !! (i + k)
                             = Some (rename_entry (hash_id E (u_blocks u)) e))
            /\ content_id_str (st_nca_ctx st' !!! (i + k)) = hash_id E (u_blocks u)
            /\ content_id (st_nca_ctx st' !!! (i + k))
               = byte_array 16 (hash_of_sent E (u_blocks u)))
      /\ nca_fixed <$> st_nca_ctx st' = nca_fixed <$> st_nca_ctx st
      /\ (forall k, k < i \/ i + n <= k ->
            content_id_str (st_nca_ctx st' !!! k) = content_id_str (st_nca_ctx st !!! k)
            /\ content_id (st_nca_ctx st' !!! k) = content_id (st_nca_ctx st !!! k)
            /\ entries (st_pfs_file_ctx st') !! k = entries (st_pfs_file_ctx st) !! k)
      /\ (Forall long_name (entries (st_pfs_file_ctx st)) ->
          pfs_shape (st_pfs_file_ctx st') = pfs_shape (st_pfs_file_ctx st)
          /\ Forall long_name (entries (st_pfs_file_ctx st')))
      /\ (forall k u, units !! k = Some u ->
            exists cnmt_ctx nca_ctx buf,
              nca_static (nca_ctx !!! (i + k)) = nca_static (st_nca_ctx st !!! (i + k))
              /\ (i + k <> meta_idx ->
                  content_type (st_nca_ctx st !!! (i + k)) <> NcmContentType_Meta ->
                  nca_ctx !!! (i + k) = st_nca_ctx st !!! (i + k))
              /\ unit_blocks E (i + k) meta_idx cnmt_ctx nca_ctx buf (u_blocks u)
                   (sent_bytes (u_blocks u))).
Proof.
  induction n as [|n IH]; intros i st w st' w' H Hlen; simpl in H.
  - inv_run H. exists []. simpl. rewrite app_nil_r.
    do 3 (split; [reflexivity|]). split; [constructor|].
    split; [intros k u Hk; discriminate|]. split; [reflexivity|].
    split; [auto|]. split; [auto|]. intros k u Hk; discriminate.
  - apply bind_Ok in H as (st1 & w1 & H1 & H).
    apply write_nca_turns in H1
      as (prep & name & blocks & nca1 & cnmt0 & nca0 & Hc1 & Ht1 & Hprep & Hblocks & Hdecl
          & Hname & Hst & Hnca & Hpfs & Hturns & Hst0 & Hsame0 & Hframe0).
    pose proof (static_length _ _ Hst) as Hlen1.
    pose proof (fun Hlong => pfsUpdateEntryName_shape _ _ _ _ (length_hex_id _) Hlong Hpfs)
      as Hshape1.
    apply pfsUpdateEntryName_entries in Hpfs as (e & He & Hentries1 & _).
    unfold pfsGetEntryNameByIndexFromFileContext in Hname. rewrite He in Hname.
    simpl in Hname. inversion Hname as [Hname']. clear Hname.
    apply IH in H
      as (units & Hlenu & Hc & Ht & Hok & Hunits & Hfixed & Hframe & Hshape & Hturned);
      [|rewrite Hnca, length_insert; lia].
    assert (Hfixed1 : nca_fixed <$> st_nca_ctx st1 = nca_fixed <$> st_nca_ctx st).
    { rewrite Hnca, insert_fmap_id by reflexivity. apply static_fixed. exact Hst. }
    assert (Hother : forall k, k <> i ->
              content_id_str (st_nca_ctx st1 !!! k) = content_id_str (st_nca_ctx st !!! k)
              /\ content_id (st_nca_ctx st1 !!! k) = content_id (st_nca_ctx st !!! k)
              /\ entries (st_pfs_file_ctx st1) !! k = entries (st_pfs_file_ctx st) !! k).
    { intros k Hk. rewrite Hnca, list_lookup_total_insert_ne by auto.
      pose proof (fmap_lookup_total _ _ _ k Hst) as Hk'. inversion Hk'.
      rewrite Hentries1, list_lookup_insert_ne by auto. auto. }
    exists ({| u_prep := prep; u_size := content_size (st_nca_ctx st !!! i);
               u_name := name; u_blocks := blocks;
               u_old_id := content_id_str (st_nca_ctx st !!! i) |} :: units).
    split; [simpl; lia|]. split.
    { rewrite Hc, Hc1. simpl. unfold unit_calls at 1. simpl.
      rewrite <- app_assoc. reflexivity. }
    split; [lia|]. split.
    { constructor; [split; [|split]; assumption | exact Hok]. }
    split.
    { intros [|k] u Hk; simpl in Hk.
      - inversion Hk; subst u; clear Hk. simpl. rewrite Nat.add_0_r.
        destruct (Hframe i) as (Hid & Hcid & Hent); [lia|].
        rewrite Hid, Hcid, Hent, Hnca, list_lookup_total_insert_eq by lia.
        simpl. repeat split; auto.
        exists e. rewrite Hentries1, list_lookup_insert_eq, Hname'; auto.
        apply lookup_lt_Some in He. exact He.
      - destruct (Hunits k u Hk) as (Hsz & Hold & (e' & He' & Hn' & Hr') & Hid & Hcid).
        replace (i + S k) with (S i + k) by lia.
        destruct (Hother (S i + k)) as (Ho1 & Ho2 & Ho3); [lia|].
        pose proof (fmap_lookup_total _ _ _ (S i + k) Hfixed1) as Hfx. inversion Hfx.
        change (S i + k) with (S (i + k)) in *.
        split; [congruence|]. split; [congruence|]. split; [|split; congruence].
        exists e'. rewrite <- Ho3. auto. }
    split; [congruence|]. split.
    { intros k Hk. destruct (Hframe k) as (Hid & Hcid & Hent); [lia|].
      destruct (Hother k) as (Ho1 & Ho2 & Ho3); [lia|].
      repeat split; congruence. }
    split.
    { intros Hlong. destruct (Hshape1 Hlong) as [Hs1 Hl1].
      destruct (Hshape Hl1) as [Hs Hl]. split; [congruence|exact Hl]. }
    intros [|k] u Hk; simpl in Hk.
    + inversion Hk; subst u; clear Hk. simpl. rewrite Nat.add_0_r.
      exists cnmt0, nca0, (st_buf st).
      split; [exact (fmap_lookup_total _ _ _ i Hst0)|].
      split; [intros _ Hty; rewrite (Hsame0 Hty); reflexivity|exact Hturns].
    + destruct (Hturned k u Hk) as (cnmt_k & nca_k & buf_k & Hstk & Hsamek & Hturnsk).
      replace (i + S k) with (S i + k) by lia.
      exists cnmt_k, nca_k, buf_k.
      assert (Hstatic1 : nca_static (st_nca_ctx st1 !!! (S i + k))
                         = nca_static (st_nca_ctx st !!! (S i + k))).
      { rewrite Hnca, list_lookup_total_insert_ne by lia.
        exact (fmap_lookup_total _ _ _ (S i + k) Hst). }
      split; [congruence|]. split; [|exact Hturnsk].
      intros Hm Hty. rewrite <- (Hframe0 (S i + k)) by lia.
      apply Hsamek; [exact Hm|].
      intros Hty1. apply Hty.
      assert (Hct : content_type (st_nca_ctx st1 !!! (S i + k))
                    = content_type (st_nca_ctx st !!! (S i + k)))
        by (unfold nca_static in Hstatic1; congruence).
      rewrite <- Hct. exact Hty1.
Qed.

(** ** A finished run, phase by phase *)

Lemma nspDump_Ok t o w d w' :
  nspDump E t o w = (Ok d, w') -> nspDump_phases E t o w d w'.
Proof.
  unfold nspDump. intros H.
  destruct (bool_decide (content_count t = 0)) eqn:Hcc; [inv_run H|].
  apply bool_decide_eq_false in Hcc.
  apply bind_Ok in H as (cx & w1 & Hcx & H).
  apply bind_Ok in H as (cr & w2 & Hcr & H).
  apply bind_Ok in H as (ly & w3 & Hly & H).
  apply bind_Ok in H as (h1 & w3' & Hh1 & H). inv_run Hh1.
  apply bind_Ok in H as (conn & w4 & Hwait & H).
  apply bind_Ok in H as (u & w4' & Hconn & H). inv_run Hconn.
  apply bind_Ok in H as (ok & w5 & Hann & H). inv_run Hann.
  apply bind_Ok in H as (u1 & w5' & Hok & H). inv_run Hok.
  apply bind_Ok in H as (st1 & w6 & Hncas & H).
  apply bind_Ok in H as (st2 & w7 & Hxml & H).
  apply bind_Ok in H as (pfs & w8 & Hdata & H).
  apply bind_Ok in H as (u2 & w9 & Htik & H). destruct u2.
  apply bind_Ok in H as (h2 & w9' & Hh2 & H). inv_run Hh2.
  inv_run H.
  destruct h1 as [buf1 hs1], h2 as [buf2 hs2]. simpl in *.
  econstructor; simpl; eauto.
Qed.


(** ** Setting up the contexts *)

Lemma nca_context_of_prepared ci a :
  nca_prepared (nca_context_of ci a) /\ nca_named (nca_context_of ci a).
Proof.
  unfold nca_prepared, nca_named, ctx_matches, patch_has_ctx. simpl.
  repeat split; auto; try discriminate.
  - apply Z.mod_pos_bound. lia.
  - apply Z.mod_pos_bound. lia.
  - eauto.
  - apply length_hex_id.
Qed.

Lemma nca_zero_prepared : nca_prepared nca_zero.
Proof.
  unfold nca_prepared, ctx_matches, patch_has_ctx. simpl.
  repeat split; auto; try discriminate; lia.
Qed.

Lemma init_content_type_ctx_spec t o cnmt_ctx ci c w c' w' :
  init_content_type_ctx E t o cnmt_ctx ci c w = (Ok c', w') ->
  content_type c = ci_content_type ci ->
  content_type_ctx c = None -> content_type_ctx_patch c = false ->
  nca_core c' = nca_core c /\ ctx_matches c' /\ patch_has_ctx c'.
Proof.
  unfold init_content_type_ctx. intros H Hty Hctx Hpatch.
  unfold ctx_matches, patch_has_ctx.
  destruct (ci_content_type ci) eqn:Hci.
  all: try (inv_run H; rewrite Hctx, Hpatch; repeat split; auto; discriminate).
  - apply bind_Ok in H as (r0 & w0 & H0 & H). inv_run H0.
    apply bind_Ok in H as (pc0 & w1 & H1 & H). inv_run H1. inv_fmap.
    apply bind_Ok in H as (pc1 & w2 & H2 & H).
    assert (Hpc1 : nca_core (snd pc1) = nca_core c
                   /\ exists p, content_type_ctx (snd pc1) = Some (ProgramCtx p)).
    { destruct (change_acid_rsa o); inv_run H2; inv_fmap; simpl; eauto. }
    destruct Hpc1 as [Hcore [p Hp]].
    inv_run H. inv_fmap. simpl. rewrite <- Hcore.
    repeat split; eauto.
    assert (content_type (snd pc1) = content_type c) as -> by (inversion Hcore; auto).
    congruence.
  - inv_run H. inv_fmap. simpl. repeat split; auto.
    intros _ Hp. congruence.
  - inv_run H. inv_fmap. simpl. repeat split; auto.
    intros Hp. rewrite Hpatch in Hp. discriminate.
Qed.

Lemma init_content_spec t o cnmt_ctx ci nca_ctx j tik w st w' :
  init_content E t o cnmt_ctx ci (nca_ctx, j, tik) w = (Ok st, w') ->
  if decide (ci_content_type ci = NcmContentType_Meta)
  then st = (nca_ctx, j, tik)
  else exists c a,
      st = (<[j := c]> nca_ctx, S j, snd st)
      /\ nca_core c = nca_core (nca_context_of ci a)
      /\ nca_prepared c.
Proof.
  unfold init_content. intros H.
  destruct (decide _) as [Hmeta|Hmeta]; [inv_run H; reflexivity|].
  apply bind_Ok in H as (r & w1 & H1 & H). inv_run H1.
  apply bind_Ok in H as (ct & w2 & H2 & H). inv_run H2.
  destruct (nca_open E _ _ ci tik) as [[acc tik']|] eqn:Hopen; try discriminate.
  match goal with Hs : Some _ = Some ct |- _ => inversion Hs; subst ct; clear Hs end.
  pose proof (nca_context_of_prepared ci acc) as [Hprep0 _].
  set (c0 := nca_context_of ci acc) in *.
  cbn [fst snd] in H.
  destruct (rights_id_available c0 && negb (titlekey_retrieved c0)) eqn:Hskip.
  { inv_run H. exists c0, acc. auto. }
  apply bind_Ok in H as (c1 & w2 & H1 & H).
  assert (Hc1 : nca_core c1 = nca_core c0 /\ content_type_ctx c1 = None
                /\ content_type_ctx_patch c1 = false).
  { destruct (set_download_type o); inv_run H1; auto. }
  destruct Hc1 as (Hcore1 & Hctx1 & Hpatch1).
  apply bind_Ok in H as (c2 & w3 & H2 & H).
  assert (Hc2 : nca_core c2 = nca_core c0 /\ content_type_ctx c2 = None
                /\ content_type_ctx_patch c2 = false).
  { destruct (remove_titlekey_crypto o); inv_run H2; inv_fmap; auto. }
  destruct Hc2 as (Hcore2 & Hctx2 & Hpatch2).
  apply bind_Ok in H as (c3 & w4 & H3 & H).
  apply init_content_type_ctx_spec in H3 as (Hcore3 & Hm3 & Hp3); auto;
    [|inversion Hcore2; auto].
  inv_run H. inv_fmap. simpl.
  eexists _, acc. split; [reflexivity|].
  rewrite Hcore2 in Hcore3.
  split; [exact Hcore3|].
  destruct Hprep0 as (_ & _ & Hidx0 & Hsize0 & _).
  unfold nca_prepared. unfold nca_core in Hcore3. inversion Hcore3.
  repeat split; simpl; auto; try congruence.
  - rewrite H4. apply Z.mod_pos_bound. lia.
  - rewrite H4. apply Z.mod_pos_bound. lia.
  - unfold nca_skipped. simpl. intros Hs. subst c0. simpl in Hskip. congruence.
Qed.


Lemma nonmeta_cons ci l :
  nonmeta (ci :: l)
  = if decide (ci_content_type ci = NcmContentType_Meta) then nonmeta l else S (nonmeta l).
Proof.
  unfold nonmeta. rewrite filter_cons.
  destruct (decide (ci_content_type ci = _)) as [Hm|Hm];
    destruct (decide (ci_content_type ci <> _)) as [Hn|Hn]; simpl; auto; tauto.
Qed.

Lemma init_contents_spec t o cnmt_ctx l :
  forall j0 nca_ctx j tik w st w',
    for_each_from l j0 (fun _ => init_content E t o cnmt_ctx) (nca_ctx, j, tik) w
    = (Ok st, w') ->
    snd (fst st) = j + nonmeta l
    /\ length (fst (fst st)) = length nca_ctx
    /\ (forall k, k < j \/ j + nonmeta l <= k -> fst (fst st) !!! k = nca_ctx !!! k)
    /\ (forall k, j <= k < j + nonmeta l -> k < length nca_ctx ->
          nca_loop_slot (fst (fst st) !!! k)).
Proof.
  induction l as [|ci l IH]; intros j0 nca_ctx j tik w st w' H; simpl in H.
  - inv_run H. simpl. unfold nonmeta. simpl.
    split; [|split; [|split]]; auto; intros; lia.
  - apply bind_Ok in H as (st1 & w1 & H1 & H).
    apply init_content_spec in H1. rewrite nonmeta_cons.
    destruct (decide (ci_content_type ci = NcmContentType_Meta)) as [Hm|Hm].
    + subst st1. apply IH in H. exact H.
    + destruct H1 as (c & a & Hst1 & Hcore & Hprep).
      destruct st1 as [[nca1 j1] tik1]. simpl in Hst1. inversion Hst1; subst nca1 j1.
      apply IH in H as (Hj & Hlen & Hframe & Hslots).
      rewrite length_insert in Hlen.
      split; [|split; [|split]].
      * lia.
      * exact Hlen.
      * intros k Hk. rewrite Hframe by lia.
        apply list_lookup_total_insert_ne. lia.
      * intros k Hk Hlt. destruct (decide (k = j)) as [->|Hne].
        -- rewrite Hframe by lia. rewrite list_lookup_total_insert_eq by lia.
           inversion Hcore as [[Hid Hstr Hsz Hty Hr Htk Hidx Hhw]].
           split; [exact Hprep|]. split.
           ++ unfold nca_named. rewrite Hstr, Hid. apply length_hex_id.
           ++ rewrite Hty. exact Hm.
        -- apply Hslots; [lia|]. rewrite length_insert. exact Hlt.
Qed.


Lemma nonmeta_count (l : list NcmContentInfo) :
  nonmeta l
  + length (filter (fun ci => ci_content_type ci = NcmContentType_Meta) l)
  = length l.
Proof.
  induction l as [|ci l IH]; [reflexivity|].
  rewrite nonmeta_cons, filter_cons.
  destruct (decide (ci_content_type ci = NcmContentType_Meta)); simpl; lia.
Qed.

Lemma nonmeta_lt_found t ci :
  titleGetContentInfoByTypeAndIdOffset t NcmContentType_Meta 0 = Some ci ->
  ci_content_type ci = NcmContentType_Meta
  /\ nonmeta (content_infos t) < content_count t.
Proof.
  unfold titleGetContentInfoByTypeAndIdOffset, content_count. intros H.
  apply fmap_Some in H as ([i x] & Hfind & ->). simpl.
  apply list_find_Some in Hfind as (Hi & [Hty _] & _).
  split; [exact Hty|].
  pose proof (nonmeta_count (content_infos t)) as Hcount.
  assert (0 < length (filter (fun ci => ci_content_type ci = NcmContentType_Meta)
                        (content_infos t))); [|lia].
  assert (Hin : x ∈ filter (fun ci => ci_content_type ci = NcmContentType_Meta)
                  (content_infos t)).
  { apply list_elem_of_filter. split; [exact Hty|]. apply list_elem_of_lookup. eauto. }
  destruct (filter _ _); [inversion Hin | simpl; lia].
Qed.

(** What the set-up of the contexts leaves in [nca_ctx]: the units other
    than the title-meta unit in the order of the content records, then
    whatever slots were never written, then the title-meta unit. *)
Lemma nspDump_contexts_spec t o w cx w' :
  nspDump_contexts E t o w = (Ok cx, w') ->
  exists ci a,
    titleGetContentInfoByTypeAndIdOffset t NcmContentType_Meta 0 = Some ci
    /\ ci_content_type ci = NcmContentType_Meta
    /\ length (cx_nca_ctx cx) = content_count t
    /\ nonmeta (content_infos t) < content_count t
    /\ cx_nca_ctx cx !!! (content_count t - 1) = nca_context_of ci a
    /\ (forall k, k < nonmeta (content_infos t) -> nca_loop_slot (cx_nca_ctx cx !!! k))
    /\ (forall k, nonmeta (content_infos t) <= k < content_count t - 1 ->
          cx_nca_ctx cx !!! k = nca_zero).
Proof.
  unfold nspDump_contexts. intros H.
  apply bind_Ok in H as (buf & w1 & H1 & H). inv_run H1.
  apply bind_Ok in H as (dump_name & w2 & H2 & H). inv_run H2.
  apply bind_Ok in H as (path & w3 & H3 & H). inv_run H3.
  apply bind_Ok in H as (u1 & w4 & H4 & H). inv_run H4.
  apply bind_Ok in H as (u2 & w5 & H5 & H). inv_run H5.
  apply bind_Ok in H as (u3 & w6 & H6 & H). inv_run H6.
  apply bind_Ok in H as (u4 & w7 & H7 & H). inv_run H7.
  apply bind_Ok in H as (r & w8 & H8 & H). inv_run H8.
  apply bind_Ok in H as (mt & w9 & H9 & H). inv_run H9.
  apply bind_Ok in H as (r2 & w10 & H10 & H). inv_run H10.
  apply bind_Ok in H as (cnmt_ctx & w11 & H11 & H). inv_run H11.
  apply bind_Ok in H as (st & w12 & Hloop & H).
  inv_run H. simpl.
  destruct (titleGetContentInfoByTypeAndIdOffset t NcmContentType_Meta 0)
    as [ci|] eqn:Hfind; [|discriminate].
  destruct (nca_open E _ _ ci tik_zero) as [[a tik']|] eqn:Hopen; [|discriminate].
  match goal with Hs : Some _ = Some mt |- _ => inversion Hs; subst mt; clear Hs end.
  cbn [fst snd] in *.
  apply nonmeta_lt_found in Hfind as [Hty Hlt].
  apply init_contents_spec in Hloop as (Hj & Hlen & Hframe & Hslots).
  rewrite length_insert, length_replicate in Hlen.
  exists ci, a. split; [reflexivity|]. do 3 (split; [assumption|]).
  split; [|split].
  - rewrite Hframe by lia.
    apply list_lookup_total_insert_eq. rewrite length_replicate. lia.
  - intros k Hk. apply Hslots; [lia|]. rewrite length_insert, length_replicate. lia.
  - intros k Hk. rewrite Hframe by lia.
    rewrite list_lookup_total_insert_ne by lia.
    apply list_lookup_total_correct, lookup_replicate. split; [reflexivity|lia].
Qed.


(** The calls of the set-up end with the first generation of the
    title-meta XML. *)
Lemma nspDump_contexts_calls t o w cx w' :
  nspDump_contexts E t o w = (Ok cx, w') ->
  exists pre cnmt0,
    calls w' = calls w ++ pre
               ++ [Call_cnmtGenerateAuthoringToolXml (content_id_str <$> cx_nca_ctx cx)]
    /\ clock w' = clock w
    /\ forallb prepare_call pre = true
    /\ cnmt_generate_authoring_tool_xml E cnmt0 (cx_nca_ctx cx) (content_count t)
       = Some (authoring_tool_xml (cx_cnmt_ctx cx), authoring_tool_xml_size (cx_cnmt_ctx cx)).
Proof.
  unfold nspDump_contexts. intros H.
  apply bind_Ok in H as (buf & w1 & H1 & H). inv_run H1.
  apply bind_Ok in H as (dump_name & w2 & H2 & H). inv_run H2.
  apply bind_Ok in H as (path & w3 & H3 & H). inv_run H3.
  apply bind_Ok in H as (u1 & w4 & H4 & H). inv_run H4.
  apply bind_Ok in H as (u2 & w5 & H5 & H). inv_run H5.
  apply bind_Ok in H as (u3 & w6 & H6 & H). inv_run H6.
  apply bind_Ok in H as (u4 & w7 & H7 & H). inv_run H7.
  apply bind_Ok in H as (r & w8 & H8 & H). inv_run H8.
  apply bind_Ok in H as (mt & w9 & H9 & H). inv_run H9.
  apply bind_Ok in H as (r2 & w10 & H10 & H). inv_run H10.
  apply bind_Ok in H as (cnmt_ctx & w11 & H11 & H). inv_run H11.
  apply bind_Ok in H as (st & w12 & Hloop & H).
  assert (Hemits : emits prepare_call
                     (for_each_from (content_infos t) 0
                        (fun _ => init_content E t o cnmt_ctx)
                        (<[content_count t - 1 := fst mt]>
                           (replicate (content_count t) nca_zero), 0, snd mt))).
  { apply emits_for_each_from. intros j ci s.
    unfold init_content, init_content_type_ctx. destruct s as [[? ?] ?]. solve_emits. }
  apply Hemits in Hloop as (evs & Hc & HP & Ht). simpl in Hc, Ht.
  inv_run H. inv_fmap. simpl.
  eexists (_ :: _ :: evs), cnmt_ctx.
  split; [rewrite Hc, <- !app_assoc; reflexivity|].
  split.
  { rewrite Ht. assert (slept evs = 0%Z) as ->; [|lia].
    clear -HP. induction evs as [|c evs IH]; simpl in *; auto.
    apply andb_prop in HP as [Hc HP]. destruct c; auto; discriminate. }
  split; [simpl; exact HP|].
  match goal with Hx : cnmt_generate_authoring_tool_xml _ _ _ _ = Some ?x |- _ =>
    rewrite Hx; destruct x; reflexivity end.
Qed.

(** ** Laying out the entry table *)

Lemma emits_no_call {A} (m : M A) w r w' :
  emits no_call m -> m w = (r, w') -> w' = w.
Proof.
  intros Hm H. apply Hm in H as (evs & Hc & HP & Ht).
  destruct evs as [|c evs]; [|discriminate].
  rewrite app_nil_r in Hc. simpl in Ht.
  destruct w, w'; simpl in *. f_equal; auto. lia.
Qed.

Lemma emits_nspDump_layout t cx cr : emits no_call (nspDump_layout E t cx cr).
Proof.
  unfold nspDump_layout, add_nca_info, add_cnmt_xml_info, add_content_type_ctx_info,
    add_icon_info, add_tik_cert_info.
  solve_emits.
Qed.

Lemma payload_size_app es es' :
  payload_size (es ++ es') = (payload_size es + payload_size es')%Z.
Proof. induction es as [|e es IH]; simpl; [lia|]. rewrite IH. lia. Qed.

Lemma u64_add_l a b : u64 (u64 a + b) = u64 (a + b).
Proof. unfold u64. apply Zplus_mod_idemp_l. Qed.


Lemma add_nca_infos n :
  forall i nca_ctx pfs w st w',
    for_loop n i add_nca_info (nca_ctx, pfs) w = (Ok st, w') ->
    i + n <= length nca_ctx ->
    fst st = nca_ctx
    /\ entries (snd st) = entries pfs ++ (nca_entry <$> take n (drop i nca_ctx))
    /\ (pfs_consistent pfs -> pfs_consistent (snd st)).
Proof.
  induction n as [|n IH]; intros i nca_ctx pfs w st w' H Hlen; simpl in H.
  - inv_run H. simpl. rewrite app_nil_r. auto.
  - apply bind_Ok in H as (st1 & w1 & H1 & H).
    unfold add_nca_info in H1. inv_run H1.
    cbn [fst snd] in H.
    apply IH in H as (Hfst & Hentries & Hc); [|lia].
    simpl in *. split; [exact Hfst|]. split.
    + rewrite Hentries, <- app_assoc. f_equal.
      assert (Hi : i < length nca_ctx) by lia.
      rewrite (drop_S nca_ctx (nca_ctx !!! i) i)
        by (apply list_lookup_lookup_total_lt; exact Hi).
      reflexivity.
    + intros Hcons. apply Hc. unfold pfs_consistent in *. simpl.
      rewrite payload_size_app, Hcons, u64_add_l. simpl. f_equal. lia.
Qed.


Lemma add_icon_infos i icons :
  forall j nca_ctx pfs w st w',
    for_each_from icons j (add_icon_info E i) (nca_ctx, pfs) w = (Ok st, w') ->
    forget_data_idx <$> fst st = forget_data_idx <$> nca_ctx
    /\ (forall k, k <> i -> fst st !!! k = nca_ctx !!! k)
    /\ entries (snd st) = entries pfs ++ (icon_entry E (nca_ctx !!! i) <$> icons)
    /\ (pfs_consistent pfs -> pfs_consistent (snd st)).
Proof.
  induction icons as [|icon icons IH]; intros j nca_ctx pfs w st w' H; simpl in H.
  - inv_run H. simpl. rewrite app_nil_r. auto.
  - apply bind_Ok in H as (st1 & w1 & H1 & H).
    unfold add_icon_info in H1. inv_run H1. cbn [fst snd] in H.
    apply IH in H as (Hforget & Hframe & Hentries & Hc).
    assert (Hf1 : forget_data_idx
                    <$> (if decide (j = 0)
                         then <[i:=nca_set_data_idx (entry_count pfs) (nca_ctx !!! i)]> nca_ctx
                         else nca_ctx)
                  = forget_data_idx <$> nca_ctx).
    { destruct (decide (j = 0)); [|reflexivity]. apply insert_fmap_id. reflexivity. }
    split; [congruence|]. split; [|split].
    + intros k Hk. rewrite Hframe by exact Hk.
      destruct (decide (j = 0)); [|reflexivity].
      apply list_lookup_total_insert_ne. auto.
    + pose proof (f_equal content_id_str (fmap_lookup_total _ _ _ i Hf1)) as Hid.
      simpl in Hid. rewrite Hentries. unfold icon_entry. rewrite Hid. simpl.
      rewrite <- app_assoc. reflexivity.
    + intros Hcons. apply Hc. unfold pfs_consistent in *. simpl.
      rewrite payload_size_app, Hcons, u64_add_l. simpl. f_equal. lia.
Qed.

Lemma add_content_type_ctx_info_spec i nca_ctx pfs w st w' :
  add_content_type_ctx_info E i (nca_ctx, pfs) w = (Ok st, w') ->
  forget_data_idx <$> fst st = forget_data_idx <$> nca_ctx
  /\ (forall k, k <> i -> fst st !!! k = nca_ctx !!! k)
  /\ entries (snd st) = entries pfs ++ ctx_entries E (nca_ctx !!! i)
  /\ (pfs_consistent pfs -> pfs_consistent (snd st)).
Proof.
  unfold add_content_type_ctx_info, ctx_entries. intros H.
  destruct (content_type_ctx (nca_ctx !!! i)) as [[p|n|l]|] eqn:Hctx.
  all: destruct (content_type (nca_ctx !!! i)) eqn:Hty; inv_run H; inv_add.
  all: cbn [fst snd].
  - split; [apply insert_fmap_id; reflexivity|]. split; [|split].
    + intros k Hk. apply list_lookup_total_insert_ne. auto.
    + reflexivity.
    + intros Hcons. unfold pfs_consistent in *. simpl.
      rewrite payload_size_app, Hcons, u64_add_l. simpl. f_equal. lia.
  - match goal with
    | Hicons : for_each_from _ _ _ _ _ = _ |- _ =>
        apply add_icon_infos in Hicons as (Hforget & Hframe & Hentries & Hc)
    end.
    split; [exact Hforget|]. split; [exact Hframe|]. split.
    + simpl. rewrite Hentries, <- app_assoc. reflexivity.
    + intros Hcons. specialize (Hc Hcons). unfold pfs_consistent in *. simpl.
      rewrite payload_size_app, Hc, u64_add_l. simpl. f_equal. lia.
  - split; [apply insert_fmap_id; reflexivity|]. split; [|split].
    + intros k Hk. apply list_lookup_total_insert_ne. auto.
    + reflexivity.
    + intros Hcons. unfold pfs_consistent in *. simpl.
      rewrite payload_size_app, Hcons, u64_add_l. simpl. f_equal. lia.
  - rewrite app_nil_r. auto.
  - rewrite app_nil_r. auto.
  - rewrite app_nil_r. auto.
  - rewrite app_nil_r. auto.
  - rewrite app_nil_r. auto.
  - rewrite app_nil_r. auto.
  - rewrite app_nil_r. auto.
Qed.


Lemma add_content_type_ctx_infos n :
  forall i nca_ctx pfs w st w',
    for_loop n i (add_content_type_ctx_info E) (nca_ctx, pfs) w = (Ok st, w') ->
    i + n <= length nca_ctx ->
    forget_data_idx <$> fst st = forget_data_idx <$> nca_ctx
    /\ (forall k, k < i \/ i + n <= k -> fst st !!! k = nca_ctx !!! k)
    /\ entries (snd st)
       = entries pfs ++ flat_map (ctx_entries E) (take n (drop i nca_ctx))
    /\ (pfs_consistent pfs -> pfs_consistent (snd st)).
Proof.
  induction n as [|n IH]; intros i nca_ctx pfs w st w' H Hlen; simpl in H.
  - inv_run H. simpl. rewrite app_nil_r. auto.
  - apply bind_Ok in H as ([nca1 pfs1] & w1 & H1 & H).
    apply add_content_type_ctx_info_spec in H1 as (Hf1 & Hfr1 & He1 & Hc1).
    simpl in Hf1, Hfr1, He1, Hc1.
    pose proof (fmap_length_eq _ _ _ Hf1) as Hlen1.
    apply IH in H as (Hf & Hfr & He & Hc); [|lia].
    split; [congruence|]. split; [|split].
    + intros k Hk. rewrite Hfr by lia. apply Hfr1. lia.
    + rewrite He, He1, <- app_assoc. f_equal.
      assert (Hi : i < length nca_ctx) by lia.
      rewrite (drop_S nca_ctx (nca_ctx !!! i) i)
        by (apply list_lookup_lookup_total_lt; exact Hi).
      simpl. f_equal.
      assert (Hdrop : drop (S i) nca1 = drop (S i) nca_ctx).
      { apply list_eq. intros k. rewrite !lookup_drop.
        destruct (decide (S i + k < length nca_ctx)) as [Hk|Hk].
        - rewrite !list_lookup_lookup_total_lt by lia. f_equal. apply Hfr1. lia.
        - rewrite !lookup_ge_None_2 by lia. reflexivity. }
      rewrite Hdrop. reflexivity.
    + auto.
Qed.

Lemma nspDump_layout_spec t cx cr w ly w' :
  nspDump_layout E t cx cr w = (Ok ly, w') ->
  length (cx_nca_ctx cx) = content_count t ->
  content_count t <> 0 ->
  w' = w
  /\ forget_data_idx <$> fst ly = forget_data_idx <$> cx_nca_ctx cx
  /\ content_type_ctx_data_idx (fst ly !!! (content_count t - 1)) = content_count t
  /\ entries (snd ly) = layout_entries E (cx_nca_ctx cx) (cx_cnmt_ctx cx) cr
  /\ pfs_consistent (snd ly).
Proof.
  intros H Hlen Hcc.
  split; [eapply emits_no_call; [apply emits_nspDump_layout | exact H]|].
  unfold nspDump_layout in H.
  apply bind_Ok in H as ([nca1 pfs1] & w1 & H1 & H).
  apply add_nca_infos in H1 as (Hn1 & He1 & Hc1); [|lia].
  simpl in Hn1, He1, Hc1. subst nca1.
  rewrite drop_0, <- Hlen, firstn_all in He1. simpl in He1.
  apply bind_Ok in H as (st2 & w2 & H2 & H).
  unfold add_cnmt_xml_info in H2. inv_run H2. inv_add. cbn [fst snd] in H.
  apply bind_Ok in H as ([nca3 pfs3] & w3 & H3 & H).
  apply add_content_type_ctx_infos in H3 as (Hf3 & Hfr3 & He3 & Hc3);
    [|rewrite length_insert; lia].
  simpl in Hf3, Hfr3, He3, Hc3.
  rewrite insert_fmap_id in Hf3 by reflexivity.
  assert (Hentries : entries ly.2 = entries pfs3 ++ tik_cert_entries cr
                     /\ (pfs_consistent pfs3 -> pfs_consistent ly.2)
                     /\ ly.1 = nca3).
  { unfold add_tik_cert_info, tik_cert_entries in *.
    destruct (retrieve_tik_cert cr); inv_run H; inv_add; simpl.
    - rewrite <- app_assoc. simpl. split; [reflexivity|]. split; [|reflexivity].
      unfold pfs_consistent. simpl. intros Hcons.
      rewrite u64_add_l, Hcons, <- Z.add_assoc, u64_add_l, payload_size_app.
      simpl. f_equal. lia.
    - rewrite app_nil_r. auto. }
  destruct Hentries as (He & Hc & Hn). rewrite Hn.
  split; [exact Hf3|]. split; [|split].
  - rewrite Hfr3 by lia. rewrite list_lookup_total_insert_eq by lia.
    simpl. unfold entry_count. rewrite He1, length_fmap. exact Hlen.
  - rewrite He, He3. simpl. unfold layout_entries. rewrite He1, Hlen, <- !app_assoc.
    simpl. do 3 f_equal.
    rewrite drop_0, take_insert_ge by lia. reflexivity.
  - apply Hc, Hc3. unfold pfs_consistent in *. simpl.
    rewrite payload_size_app, Hc1, u64_add_l; [|reflexivity]. simpl. f_equal. lia.
Qed.


(** ** The generated files *)


Lemma send_file_Ok size name data w w' :
  send_file E size name data w = (Ok true, w') ->
  exists n, name = Some n
    /\ w' = {| calls := calls w
                        ++ [Call_usbSendFilePropertiesCommon size n;
                            Call_usbSendFileData (take (Z.to_nat size) data) size];
               clock := clock w |}.
Proof.
  unfold send_file, usbSendFilePropertiesCommon. intros H.
  apply bind_Ok in H as (ok & w1 & H1 & H).
  destruct name as [n|]; inv_run H1.
  - destruct (usb_accepts E _); inv_run H; [|discriminate].
    exists n. split; [reflexivity|]. simpl. rewrite <- app_assoc. reflexivity.
  - inv_run H. discriminate.
Qed.

Lemma write_cnmt_xml_spec t st w st' w' :
  write_cnmt_xml E t st w = (Ok st', w') ->
  exists xml size name,
    cnmt_generate_authoring_tool_xml E (st_cnmt_ctx st) (st_nca_ctx st) (content_count t)
    = Some (xml, size)
    /\ pfsGetEntryNameByIndexFromFileContext (st_pfs_file_ctx st)
         (content_type_ctx_data_idx (st_nca_ctx st !!! (content_count t - 1)))
       = Some name
    /\ calls w' = calls w
                  ++ [Call_cnmtGenerateAuthoringToolXml (content_id_str <$> st_nca_ctx st);
                      Call_usbSendFilePropertiesCommon size name;
                      Call_usbSendFileData (take (Z.to_nat size) xml) size]
    /\ clock w' = clock w
    /\ st_buf st' = st_buf st
    /\ st_nca_ctx st' = st_nca_ctx st
    /\ authoring_tool_xml (st_cnmt_ctx st') = xml
    /\ authoring_tool_xml_size (st_cnmt_ctx st') = size
    /\ pfsUpdateEntryNameFromFileContext (st_pfs_file_ctx st)
         (content_type_ctx_data_idx (st_nca_ctx st !!! (content_count t - 1)))
         (content_id_str (st_nca_ctx st !!! (content_count t - 1)))
       = Some (st_pfs_file_ctx st').
Proof.
  unfold write_cnmt_xml. intros H.
  apply bind_Ok in H as (r & w1 & H1 & H). inv_run H1.
  apply bind_Ok in H as (cnmt_ctx & w2 & H2 & H). inv_run H2. inv_fmap.
  apply bind_Ok in H as (ok & w3 & H3 & H).
  apply bind_Ok in H as (u & w4 & H4 & H). inv_run H4.
  apply send_file_Ok in H3 as (name & Hname & ->).
  inv_run H. simpl in *.
  destruct x as [xml size]. exists xml, size, name. simpl.
  rewrite <- app_assoc. simpl. repeat split; auto.
Qed.

Lemma write_icons_shape cur icons :
  forall j idx pfs w st w',
    for_each_from icons j (write_icon E cur) (idx, pfs) w = (Ok st, w') ->
    nca_named cur -> Forall long_name (entries pfs) ->
    pfs_shape (snd st) = pfs_shape pfs /\ Forall long_name (entries (snd st)).
Proof.
  induction icons as [|icon icons IH]; intros j idx pfs w st w' H Hnamed Hlong; simpl in H.
  - inv_run H. auto.
  - apply bind_Ok in H as ([idx1 pfs1] & w1 & H1 & H).
    unfold write_icon in H1.
    apply bind_Ok in H1 as (ok & w2 & H2 & H1).
    apply bind_Ok in H1 as (u & w3 & H3 & H1).
    apply bind_Ok in H1 as (pfs2 & w4 & H4 & H1). inv_run H4. inv_run H1.
    match goal with
    | Hup : pfsUpdateEntryNameFromFileContext _ _ _ = Some _ |- _ =>
        apply pfsUpdateEntryName_shape in Hup as [Hs1 Hl1]; auto
    end.
    match goal with Heq : (_, _) = (_, _) |- _ => inversion Heq; subst; clear Heq end.
    apply IH in H as [Hs Hl]; auto. split; [congruence|exact Hl].
Qed.

Lemma write_content_type_ctx_data_shape nca_ctx i pfs w pfs' w' :
  write_content_type_ctx_data E nca_ctx i pfs w = (Ok pfs', w') ->
  nca_named (nca_ctx !!! i) -> Forall long_name (entries pfs) ->
  pfs_shape pfs' = pfs_shape pfs /\ Forall long_name (entries pfs').
Proof.
  unfold write_content_type_ctx_data. intros H Hnamed Hlong.
  destruct (content_type_ctx (nca_ctx !!! i)) as [ctx|]; [|inv_run H; auto].
  apply bind_Ok in H as (r & w1 & H1 & H).
  assert (Hr : pfs_shape (snd (snd r)) = pfs_shape pfs
               /\ Forall long_name (entries (snd (snd r)))).
  { destruct (content_type (nca_ctx !!! i)), ctx; inv_run H1; auto.
    match goal with
    | Hicons : for_each_from _ _ _ _ _ = _ |- _ =>
        apply write_icons_shape in Hicons; auto
    end. }
  destruct Hr as [Hs1 Hl1].
  apply bind_Ok in H as (ok & w2 & H2 & H).
  apply bind_Ok in H as (u & w3 & H3 & H). inv_run H.
  match goal with
  | Hup : pfsUpdateEntryNameFromFileContext _ _ _ = Some _ |- _ =>
      apply pfsUpdateEntryName_shape in Hup as [Hs2 Hl2]; auto
  end.
  split; [congruence|exact Hl2].
Qed.

Lemma write_content_type_ctx_datas_shape nca_ctx n :
  forall i pfs w pfs' w',
    for_loop n i (write_content_type_ctx_data E nca_ctx) pfs w = (Ok pfs', w') ->
    (forall k, i <= k < i + n -> nca_named (nca_ctx !!! k)) ->
    Forall long_name (entries pfs) ->
    pfs_shape pfs' = pfs_shape pfs /\ Forall long_name (entries pfs').
Proof.
  induction n as [|n IH]; intros i pfs w pfs' w' H Hnamed Hlong; simpl in H.
  - inv_run H. auto.
  - apply bind_Ok in H as (pfs1 & w1 & H1 & H).
    apply write_content_type_ctx_data_shape in H1 as [Hs1 Hl1]; auto;
      [|apply Hnamed; lia].
    apply IH in H as [Hs Hl]; auto; [|intros k Hk; apply Hnamed; lia].
    split; [congruence|exact Hl].
Qed.


(** ** The calls of the phases *)

Lemma emits_nspDump_contexts t o : emits contexts_call (nspDump_contexts E t o).
Proof.
  unfold nspDump_contexts, init_content, init_content_type_ctx. solve_emits.
Qed.

Lemma emits_nspDump_credentials t o tik :
  emits is_credential_call (nspDump_credentials E t o tik).
Proof. unfold nspDump_credentials. solve_emits. Qed.

Lemma emits_wait_usb fuel : forall start, emits wait_call (wait_usb E fuel start).
Proof.
  induction fuel as [|fuel IH]; intros start; simpl; solve_emits. apply IH.
Qed.

Lemma emits_nspDump_wait_usb : emits wait_call (nspDump_wait_usb E).
Proof. unfold nspDump_wait_usb. apply emits_bind; [apply emits_time|]. intros start. apply emits_wait_usb. Qed.

Lemma emits_write_nca_blocks fuel i meta_idx cnmt_ctx :
  forall offset blksize bk,
    emits block_call (write_nca_blocks E fuel i meta_idx cnmt_ctx offset blksize bk).
Proof.
  induction fuel as [|fuel IH]; intros offset blksize bk; simpl;
    unfold write_nca_block, patch_nca_block; solve_emits; apply IH.
Qed.

Lemma emits_write_nca meta_idx i st : emits stream_call (write_nca E meta_idx i st).
Proof.
  unfold write_nca, usbSendFilePropertiesCommon. solve_emits.
  eapply emits_weaken; [|apply emits_write_nca_blocks].
  intros []; simpl; auto.
Qed.

Lemma emits_write_cnmt_xml t st : emits cnmt_xml_call (write_cnmt_xml E t st).
Proof.
  unfold write_cnmt_xml, send_file, usbSendFilePropertiesCommon. solve_emits.
Qed.

Lemma emits_write_content_type_ctx_data nca_ctx i pfs :
  emits send_call (write_content_type_ctx_data E nca_ctx i pfs).
Proof.
  unfold write_content_type_ctx_data, write_icon, send_file, usbSendFilePropertiesCommon.
  solve_emits.
Qed.

Lemma emits_write_tik_cert cr pfs : emits send_call (write_tik_cert E cr pfs).
Proof.
  unfold write_tik_cert, send_file, usbSendFilePropertiesCommon. solve_emits.
Qed.

Lemma emits_calls {A} P (m : M A) w r w' :
  emits P m -> m w = (r, w') ->
  exists evs, calls w' = calls w ++ evs /\ forallb P evs = true.
Proof. intros Hm H. apply Hm in H as (evs & Hc & HP & _). eauto. Qed.

(** ** Names of constant width *)

Lemma Forall_lookup_total_named (l : list NcaContext) :
  (forall k, k < length l -> nca_named (l !!! k)) -> Forall nca_named l.
Proof.
  intros H. apply Forall_lookup. intros i x Hi.
  rewrite <- (list_lookup_total_correct l i x Hi). apply H.
  apply lookup_lt_Some in Hi. exact Hi.
Qed.

Lemma named_lookup_total (l : list NcaContext) k :
  Forall nca_named l -> k < length l -> nca_named (l !!! k).
Proof.
  intros H Hk. rewrite Forall_lookup in H. apply (H k).
  apply list_lookup_lookup_total_lt. exact Hk.
Qed.

Lemma contexts_named t o w cx w' :
  nspDump_contexts E t o w = (Ok cx, w') -> one_meta t ->
  Forall nca_named (cx_nca_ctx cx).
Proof.
  intros H Hone.
  apply nspDump_contexts_spec in H as (ci & a & _ & _ & Hlen & Hlt & Hmeta & Hslots & _).
  pose proof (nonmeta_count (content_infos t)) as Hcount.
  unfold one_meta, titleGetContentCountByType in Hone. rewrite Hone in Hcount.
  apply Forall_lookup_total_named. intros k Hk. rewrite Hlen in Hk.
  unfold content_count in *.
  destruct (decide (k < nonmeta (content_infos t))) as [Hk'|Hk'].
  - apply Hslots. exact Hk'.
  - replace k with (length (content_infos t) - 1) by lia.
    rewrite Hmeta. apply nca_context_of_prepared.
Qed.


Lemma ctx_entries_long c : nca_named c -> Forall long_name (ctx_entries E c).
Proof.
  unfold nca_named, ctx_entries, long_name. intros Hc.
  destruct (content_type_ctx c) as [[p|n|l]|]; repeat constructor; simpl;
    rewrite ?length_append; try lia.
  apply Forall_app. split.
  - apply Forall_fmap, Forall_forall. intros icon _. simpl.
    rewrite !length_append. lia.
  - repeat constructor. simpl. rewrite length_append. lia.
Qed.

Lemma layout_entries_long nca_ctx cnmt_ctx cr :
  nca_ctx <> [] -> Forall nca_named nca_ctx ->
  Forall long_name (layout_entries E nca_ctx cnmt_ctx cr).
Proof.
  intros Hne Hnamed. unfold layout_entries.
  repeat (apply Forall_app; split).
  - apply Forall_fmap. eapply Forall_impl; [exact Hnamed|].
    intros c Hc. unfold long_name, nca_named in *. simpl.
    rewrite length_append. lia.
  - repeat constructor. unfold long_name. simpl. rewrite length_append.
    assert (Hm : nca_named (nca_ctx !!! (length nca_ctx - 1))).
    { apply named_lookup_total; [exact Hnamed|]. destruct nca_ctx; simpl; [tauto|lia]. }
    unfold nca_named in Hm. lia.
  - apply (Forall_take _ (length nca_ctx - 1)) in Hnamed.
    induction Hnamed as [|c l Hc Hl IH]; simpl; [constructor|].
    apply Forall_app. split; [apply ctx_entries_long; exact Hc | exact IH].
  - unfold tik_cert_entries. destruct (retrieve_tik_cert cr); repeat constructor;
      unfold long_name, rights_id_str; simpl; rewrite length_append, length_hex_id; lia.
Qed.


(** ** The second pass keeps the shape of the table *)

Lemma stream_named meta_idx n st w st' w' :
  for_loop n 0 (write_nca E meta_idx) st w = (Ok st', w') ->
  n = length (st_nca_ctx st) ->
  Forall nca_named (st_nca_ctx st').
Proof.
  intros H Hn.
  apply write_ncas_spec in H
    as (units & Hlenu & _ & _ & _ & Hunits & Hfixed & _ & _); [|lia].
  apply Forall_lookup_total_named. intros k Hk.
  rewrite (fmap_length_eq _ _ _ Hfixed), <- Hn, <- Hlenu in Hk.
  destruct (lookup_lt_is_Some_2 units k Hk) as [u Hu].
  destruct (Hunits k u Hu) as (_ & _ & _ & Hid & _). simpl in Hid.
  unfold nca_named. rewrite Hid. apply length_hex_id.
Qed.

Lemma stream_shape t o w d w' :
  nspDump E t o w = (Ok d, w') -> one_meta t ->
  pfs_shape (st_pfs_file_ctx (d_stream d)) = pfs_shape (snd (d_layout d))
  /\ pfs_consistent (snd (d_layout d))
  /\ entries (snd (d_layout d))
     = layout_entries E (cx_nca_ctx (d_contexts d)) (cx_cnmt_ctx (d_contexts d))
         (d_credentials d)
  /\ Forall nca_named (st_nca_ctx (d_stream d)).
Proof.
  intros H Hone. apply nspDump_Ok in H.
  destruct H as [w1 w2 w3 w4 w5 w6 w7 w8 w9 buf1 buf2 st1 st2 Hcc Hcx Hcr Hly Hh1 Hsize
                   Hwait Hann Hannok Hncas Hxml Hdata Htik Hh2 Hresend Hresendok
                   Hbuf Hnca Hcnmt].
  pose proof (contexts_named _ _ _ _ _ Hcx Hone) as Hnamed.
  apply nspDump_contexts_spec in Hcx as (ci & a & _ & _ & Hlen & _).
  apply nspDump_layout_spec in Hly as (_ & Hforget & _ & Hentries & Hcons); auto.
  assert (Hlong : Forall long_name (entries (snd (d_layout d)))).
  { rewrite Hentries. apply layout_entries_long; [|exact Hnamed].
    intros Hnil. rewrite Hnil in Hlen. simpl in Hlen. auto. }
  pose proof (fmap_length_eq _ _ _ Hforget) as Hlen1.
  pose proof Hncas as Hnamed1.
  apply stream_named in Hnamed1; [|simpl; lia].
  apply write_ncas_spec in Hncas
    as (units & Hlenu & _ & _ & _ & _ & Hfixed & _ & Hshape1 & _); [|simpl; lia].
  destruct (Hshape1 Hlong) as [Hshape1' Hlong1]. clear Hshape1.
  rename Hshape1' into Hshape1.
  simpl in Hfixed, Hshape1.
  pose proof (fmap_length_eq _ _ _ Hfixed) as Hlen2.
  apply write_cnmt_xml_spec in Hxml
    as (xml & size & name & _ & _ & _ & _ & _ & Hnca2 & _ & _ & Hup).
  apply pfsUpdateEntryName_shape in Hup as [Hshape2 Hlong2]; auto;
    [|apply named_lookup_total; [exact Hnamed1|lia]].
  apply write_content_type_ctx_datas_shape in Hdata as [Hshape3 Hlong3]; auto;
    [|intros k Hk; rewrite Hnca2; apply named_lookup_total; [exact Hnamed1|lia]].
  split; [congruence|]. split; [exact Hcons|]. split; [exact Hentries|].
  rewrite Hnca, Hnca2. exact Hnamed1.
Qed.


(** ** Waiting for the USB host *)

Lemma flat_map_seq_succ {A} (f : nat -> list A) m :
  forall a, flat_map f (seq (S a) m) = flat_map (fun j => f (S j)) (seq a m).
Proof.
  induction m as [|m IH]; intros a; simpl; [reflexivity|].
  rewrite IH. reflexivity.
Qed.

Lemma poll_calls_succ start m found :
  poll_calls start (S m) found
  = Call_usbIsReady start :: Call_utilsSleep 1 :: poll_calls (start + 1) m found.
Proof.
  unfold poll_calls. simpl. rewrite Z.add_0_r. do 2 f_equal.
  rewrite flat_map_seq_succ. f_equal.
  - apply flat_map_ext. intros j. do 2 f_equal. lia.
  - destruct found; [|reflexivity]. do 2 f_equal. lia.
Qed.

Lemma wait_usb_spec n :
  forall fuel w start,
    n <= 10 -> n < fuel -> clock w = (start + 10 - Z.of_nat n)%Z ->
    exists found w',
      wait_usb E fuel start w = (Ok found, w')
      /\ exists m,
          m <= n
          /\ calls w' = calls w ++ poll_calls (clock w) m found
          /\ clock w' = (clock w + Z.of_nat m)%Z
          /\ (forall j, j < m -> usb_is_ready E (clock w + Z.of_nat j) = false)
          /\ (if found then m < n /\ usb_is_ready E (clock w + Z.of_nat m) = true
              else m = n).
Proof.
  induction n as [|n IH]; intros fuel w start Hn Hfuel Hclock.
  - destruct fuel as [|fuel]; [lia|]. simpl. unfold bind at 1, time at 1.
    replace (10 <=? clock w - start)%Z with true by (symmetry; apply Z.leb_le; lia).
    exists false, w. split; [reflexivity|]. exists 0.
    unfold poll_calls. simpl. rewrite app_nil_r.
    split; [lia|]. split; [reflexivity|]. split; [lia|]. split; [|reflexivity].
    intros j Hj. lia.
  - destruct fuel as [|fuel]; [lia|]. simpl. unfold bind at 1, time at 1.
    replace (10 <=? clock w - start)%Z with false by (symmetry; apply Z.leb_gt; lia).
    unfold usbIsReady, bind at 1, time at 1. unfold bind at 1, call at 1.
    unfold bind at 1, ret at 1.
    destruct (usb_is_ready E (clock w)) eqn:Hready.
    + eexists true, _. split; [reflexivity|]. exists 0.
      unfold poll_calls. simpl. rewrite Z.add_0_r.
      split; [lia|]. split; [reflexivity|]. split; [lia|]. split; [|split; [lia|exact Hready]].
      intros j Hj. lia.
    + unfold bind at 1, utilsSleep at 1.
      set (w1 := {| calls := (calls w ++ [Call_usbIsReady (clock w)])
                             ++ [Call_utilsSleep 1];
                    clock := (clock w + 1)%Z |}).
      destruct (IH fuel w1 start) as (found & w' & Hrun & m & Hm & Hc & Ht & Hnot & Hfound);
        [lia|lia|simpl; lia|].
      exists found, w'. split; [exact Hrun|]. exists (S m).
      split; [lia|]. split; [|split; [|split]].
      * rewrite Hc, poll_calls_succ. simpl. rewrite <- !app_assoc. reflexivity.
      * rewrite Ht. simpl. lia.
      * intros [|j] Hj.
        -- simpl. rewrite Z.add_0_r. exact Hready.
        -- specialize (Hnot j ltac:(lia)). simpl in Hnot.
           rewrite <- Hnot. f_equal. lia.
      * destruct found.
        -- destruct Hfound as [Hlt Hr]. split; [lia|]. simpl in Hr.
           rewrite <- Hr. f_equal. lia.
        -- lia.
Qed.

Lemma nspDump_wait_usb_spec w :
  exists found w', nspDump_wait_usb E w = (Ok found, w') /\ bounded_poll E w found w'.
Proof.
  unfold nspDump_wait_usb, bind at 1, time at 1.
  destruct (wait_usb_spec 10 11 w (clock w))
    as (found & w' & Hrun & m & Hm & Hc & Ht & Hnot & Hfound); [lia|lia|lia|].
  exists found, w'. split; [exact Hrun|]. exists m. repeat split; auto.
Qed.


(** ** Ticket and certificate chain *)

Lemma nspDump_credentials_spec t o tik w cr w' :
  nspDump_credentials E t o tik w = (Ok cr, w') ->
  retrieve_tik_cert cr = wants_tik_cert o tik
  /\ clock w' = clock w
  /\ if wants_tik_cert o tik
     then exists cb,
         tik_get_common_block E (tik_data tik) = Some cb
         /\ credentials_from E t o tik cb cr
         /\ calls w' = calls w ++ credential_calls t o cb
     else w' = w /\ cr_tik cr = tik.
Proof.
  unfold nspDump_credentials. fold (wants_tik_cert o tik). intros H.
  destruct (wants_tik_cert o tik) eqn:Hwants; [|inv_run H; auto].
  apply bind_Ok in H as (r & w1 & H1 & H). inv_run H1.
  apply bind_Ok in H as (cb & w2 & H2 & H). inv_run H2.
  fold (converts_ticket o cb) in H.
  split; [|split].
  - destruct (converts_ticket o cb); [|destruct (decide _)]; inv_run H; reflexivity.
  - destruct (converts_ticket o cb); [|destruct (decide _)]; inv_run H; reflexivity.
  - exists cb. split; [assumption|].
    unfold credentials_from, credential_calls.
    destruct (converts_ticket o cb).
    + inv_run H. simpl. split; [|rewrite <- app_assoc; reflexivity].
      match goal with Hx : tik_convert_personalized_to_common _ _ = Some ?x |- _ =>
        rewrite Hx; destruct x as [[? ?] ?]; reflexivity end.
    + destruct (decide (storage_id t = NcmStorageId_GameCard)); inv_run H; simpl.
      all: split; [|rewrite <- app_assoc; reflexivity].
      all: split; [reflexivity|].
      all: match goal with Hx : _ = Some ?x |- _ => rewrite Hx; destruct x; reflexivity end.
Qed.

Lemma write_tik_cert_spec cr pfs w w' :
  write_tik_cert E cr pfs w = (Ok tt, w') ->
  exists evs, calls w' = calls w ++ evs /\ tik_cert_calls (entries pfs) cr evs.
Proof.
  unfold write_tik_cert, tik_cert_calls. intros H.
  destruct (retrieve_tik_cert cr).
  2:{ inv_run H. exists []. rewrite app_nil_r. auto. }
  apply bind_Ok in H as (ok1 & w1 & H1 & H).
  apply bind_Ok in H as (u1 & w2 & Hchk1 & H). inv_run Hchk1.
  apply bind_Ok in H as (ok2 & w3 & H2 & H). inv_run H.
  apply send_file_Ok in H1 as (n1 & Hn1 & ->).
  apply send_file_Ok in H2 as (n2 & Hn2 & ->).
  unfold pfsGetEntryNameByIndexFromFileContext, entry_count in Hn1, Hn2.
  apply fmap_Some in Hn1 as (e1 & He1 & ->).
  apply fmap_Some in Hn2 as (e2 & He2 & ->).
  eexists. split; [simpl; rewrite <- app_assoc; reflexivity|].
  exists e1, e2. auto.
Qed.

(** ** The calls of a finished run *)

Lemma nspDump_calls t o w d w' :
  nspDump E t o w = (Ok d, w') -> nspDump_trace E t o w d w'.
Proof.
  intros H. pose proof (nspDump_Ok _ _ _ _ _ H) as Hph.
  destruct Hph as [w1 w2 w3 w4 w5 w6 w7 w8 w9 buf1 buf2 st1 st2 Hcc Hcx Hcr Hly Hh1 Hsize
                     Hwait Hann Hannok Hncas Hxml Hdata Htik Hh2 Hresend Hresendok
                     Hbuf Hnca Hcnmt].
  destruct (emits_calls _ _ _ _ _ (emits_nspDump_contexts t o) Hcx) as (e1 & He1 & HP1).
  destruct (emits_calls _ _ _ _ _ (emits_nspDump_credentials t o _) Hcr)
    as (e2 & He2 & HP2).
  pose proof (emits_no_call _ _ _ _ (emits_nspDump_layout t _ _) Hly) as Hw3.
  destruct (emits_calls _ _ _ _ _ emits_nspDump_wait_usb Hwait) as (e4 & He4 & HP4).
  destruct (emits_calls _ _ _ _ _
              (emits_for_loop send_call _ _ (emits_write_content_type_ctx_data _) _ _)
              Hdata) as (e8 & He8 & HP8).
  destruct (emits_calls _ _ _ _ _ (emits_write_tik_cert _ _) Htik) as (e9 & He9 & HP9).
  pose proof Hcx as Hcx'.
  apply nspDump_contexts_spec in Hcx' as (ci & a & _ & Hcity & Hlen & _ & Hmeta & _).
  pose proof Hly as Hly'.
  apply nspDump_layout_spec in Hly' as (_ & Hforget & _ & _ & _); auto.
  pose proof (fmap_length_eq _ _ _ Hforget) as Hlen1.
  apply write_ncas_spec in Hncas
    as (units & Hlenu & Hc6 & _ & Hok & Hunits & _ & _ & _ & Hturned); [|simpl; lia].
  apply write_cnmt_xml_spec in Hxml
    as (xml & size & name & Hgen & _ & Hc7 & _ & _ & Hnca2 & Hxml2 & Hsize2 & _).
  simpl in Hunits, Hturned.
  pose proof (nspDump_contexts_calls _ _ _ _ _ Hcx) as (pre & cnmt0 & Hpre & Htcx & HPpre & Hxml1).
  rewrite He1 in Hpre. apply app_inv_head in Hpre.
  pose proof (nspDump_credentials_spec _ _ _ _ _ _ Hcr) as (Hretrieve & Htcr & Hcred).
  destruct (nspDump_wait_usb_spec w3) as (found & w4' & Hwait' & n & Hn & Hcw & _ & _ & Hfound).
  rewrite Hwait in Hwait'. inversion Hwait'; subst found w4'; clear Hwait'.
  rewrite He4 in Hcw. apply app_inv_head in Hcw.
  assert (Hclock3 : clock w3 = clock w) by (rewrite Hw3; lia).
  rewrite Hclock3 in Hcw.
  pose proof (write_tik_cert_spec _ _ _ _ Htik) as (e9' & He9' & Htikcalls).
  rewrite He9 in He9'. apply app_inv_head in He9'. subst e9'.
  apply (nspDump_trace_intro E t o w d w' e1 e2 e4 e8 e9 units (st_cnmt_ctx st1)
           name buf2) with (tr_prepare := pre) (tr_first_cnmt_ctx := cnmt0) (tr_polls := n);
    auto.
  - rewrite Hresend. simpl. rewrite He9, He8, Hc7, Hc6, Hann. simpl.
    rewrite He4, Hw3, He2, He1, Hcnmt, Hnca, Hnca2, Hxml2, Hsize2, <- !app_assoc.
    reflexivity.
  - intros k u Hk. destruct (Hunits k u Hk) as (Hsz & Hold & (e & He & Hn' & _) & Hid & Hcid).
    rewrite Hnca, Hnca2. repeat split; auto. exists e. auto.
  - rewrite Hnca, Hnca2, Hcnmt, Hxml2, Hsize2. exact Hgen.
  - destruct (wants_tik_cert o (cx_tik (d_contexts d))).
    + destruct Hcred as (cb & Hcb & Hfrom & Hccr). exists cb.
      split; [exact Hcb|]. split; [exact Hfrom|].
      rewrite He2 in Hccr. apply app_inv_head in Hccr. exact Hccr.
    + destruct Hcred as [Hw2 _]. rewrite Hw2 in He2.
      rewrite <- (app_nil_r (calls w1)) in He2 at 1. apply app_inv_head in He2. auto.
  - split; [tauto|exact Hcw].
  - intros k u Hk. destruct (Hturned k u Hk) as (cnmt_k & nca_k & buf_k & Hst & Hsame & Ht).
    exists cnmt_k, nca_k, buf_k. split; [exact Hst|]. split; [|exact Ht].
    intros Hty. apply Hsame; [|exact Hty].
    intros ->. apply Hty.
    pose proof (fmap_lookup_total _ _ _ (content_count t - 1) Hforget) as Hx.
    apply (f_equal content_type) in Hx. cbn in Hx. rewrite Hx, Hmeta. exact Hcity.
Qed.

Lemma shape_lookup (es es' : list PartitionFileSystemEntry) i e :
  entry_shape <$> es' = entry_shape <$> es -> es !! i = Some e ->
  exists e', es' !! i = Some e' /\ entry_shape e' = entry_shape e.
Proof.
  intros Hs He. apply (f_equal (fun l => l !! i)) in Hs.
  rewrite !list_lookup_fmap, He in Hs.
  destruct (es' !! i) as [e'|]; simpl in Hs; [|discriminate].
  exists e'. split; [reflexivity|]. congruence.
Qed.

Lemma renames_keep_header_size t o w d w' :
  nspDump E t o w = (Ok d, w') ->
  one_meta t ->
  header_size_survives E d.
Proof.
  intros H Hone. unfold header_size_survives.
  set (provisional := entries (snd (d_layout d))).
  set (final := entries (st_pfs_file_ctx (d_stream d))).
  pose proof (stream_shape _ _ _ _ _ H Hone) as (Hshape & _ & Hentries & _).
  pose proof (nspDump_Ok _ _ _ _ _ H) as Hph.
  destruct Hph as [w1 w2 w3 w4 w5 w6 w7 w8 w9 buf1 buf2 st1 st2 Hcc Hcx Hcr Hly Hh1 Hsize
                     Hwait Hann Hannok Hncas Hxml Hdata Htik Hh2 Hresend Hresendok
                     Hbuf Hnca Hcnmt].
  unfold pfs_shape in Hshape. inversion Hshape as [[Hs Hfs]].
  fold final provisional in Hs.
  assert (Hlong : Forall long_name provisional).
  { unfold provisional. rewrite Hentries.
    pose proof (contexts_named _ _ _ _ _ Hcx Hone) as Hnamed.
    apply layout_entries_long; [|exact Hnamed].
    apply nspDump_contexts_spec in Hcx as (ci & a & _ & _ & Hlen & _).
    intros Hnil. rewrite Hnil in Hlen. simpl in Hlen. auto. }
  assert (Hh1' : d_provisional_header_size d = pfs_header_size (pfs_format E) provisional).
  { unfold pfsWriteFileContextHeaderToMemoryBuffer in Hh1.
    destruct (_ <? _)%Z; inversion Hh1. reflexivity. }
  assert (Hh2' : nsp_header_size d = pfs_header_size (pfs_format E) final).
  { unfold pfsWriteFileContextHeaderToMemoryBuffer in Hh2.
    destruct (_ <? _)%Z; inversion Hh2. reflexivity. }
  split; [|split; [|split; [|split]]].
  - apply (f_equal length) in Hs. rewrite !length_fmap in Hs. exact Hs.
  - intros i e He. destruct (shape_lookup _ _ _ _ Hs He) as (e' & He' & Hse).
    assert (Hle : long_name e).
    { rewrite Forall_forall in Hlong. apply (Hlong e), list_elem_of_lookup. eauto. }
    unfold long_name in Hle.
    exists e'. inversion Hse as [[Hl Hx Hz]]. repeat split; auto; lia.
  - exact Hh1'.
  - exact Hh2'.
  - rewrite Hh1', Hh2'. apply pfs_header_size_shape. exact Hs.
Qed.


Lemma final_size_law t o w d w' :
  nspDump E t o w = (Ok d, w') -> one_meta t ->
  size_is_header_plus_payload d (nsp_header_size d) (st_pfs_file_ctx (d_stream d)).
Proof.
  intros H Hone. unfold size_is_header_plus_payload.
  pose proof (nspDump_Ok _ _ _ _ _ H) as Hph.
  destruct Hph as [w1 w2 w3 w4 w5 w6 w7 w8 w9 buf1 buf2 st1 st2 Hcc Hcx Hcr Hly Hh1 Hsize
                     Hwait Hann Hannok Hncas Hxml Hdata Htik Hh2 Hresend Hresendok
                     Hbuf Hnca Hcnmt].
  pose proof (renames_keep_header_size _ _ _ _ _ H Hone)
    as (_ & _ & _ & _ & Hsame).
  pose proof (stream_shape _ _ _ _ _ H Hone) as (Hshape & Hcons & _).
  unfold pfs_shape in Hshape. inversion Hshape as [[Hs Hfs]].
  assert (Hcons' : fs_size (st_pfs_file_ctx (d_stream d))
                   = u64 (payload_size (entries (st_pfs_file_ctx (d_stream d))))).
  { rewrite Hfs, (shape_sizes _ _ Hs). exact Hcons. }
  split; [|split].
  - rewrite Hsame, Hfs. exact Hsize.
  - exact Hcons'.
  - intros Hrange. rewrite Hsize, <- Hsame, <- Hfs, Hcons'. unfold u64.
    rewrite Zplus_mod_idemp_r. apply Z.mod_small. exact Hrange.
Qed.







(** ** The identifier of a unit *)




(** ** The run settles before the connection *)

Lemma settles_ret {A} (a : A) : settles (ret a).
Proof. intros w w' H. discriminate. Qed.

Lemma settles_abort {A} msg : settles (@abort A msg).
Proof. intros w w' H. discriminate. Qed.

Lemma settles_call c : settles (call c).
Proof. intros w w' H. discriminate. Qed.

Lemma settles_time : settles time.
Proof. intros w w' H. discriminate. Qed.

Lemma settles_history : settles history.
Proof. intros w w' H. discriminate. Qed.

Lemma settles_utilsSleep s : settles (utilsSleep s).
Proof. intros w w' H. discriminate. Qed.

Lemma settles_or_abort {A} msg (o : option A) : settles (or_abort msg o).
Proof. destruct o; [apply settles_ret | apply settles_abort]. Qed.

Lemma settles_check msg b : settles (check msg b).
Proof. destruct b; [apply settles_ret | apply settles_abort]. Qed.

Lemma settles_bind_run {A B} (m : M A) (k : A -> M B) :
  settles m -> (forall a w w1, m w = (Ok a, w1) -> settles (k a)) -> settles (bind m k).
Proof.
  intros Hm Hk w w' H.
  apply bind_run in H as [(a & w1 & H1 & H2)|[(msg & H1 & Hr)|[H1 _]]].
  - exact (Hk a w w1 H1 w1 w' H2).
  - discriminate.
  - exact (Hm w w' H1).
Qed.

Lemma settles_bind {A B} (m : M A) (k : A -> M B) :
  settles m -> (forall a, settles (k a)) -> settles (bind m k).
Proof. intros Hm Hk. apply settles_bind_run; auto. Qed.

Lemma settles_for_loop {St} (body : nat -> St -> M St) n :
  (forall i s, settles (body i s)) -> forall i s, settles (for_loop n i body s).
Proof.
  intros Hb. induction n as [|n IH]; intros i s; simpl.
  - apply settles_ret.
  - apply settles_bind; auto.
Qed.

Lemma settles_for_each_from {A St} (body : nat -> A -> St -> M St) l :
  (forall j x s, settles (body j x s)) -> forall j s, settles (for_each_from l j body s).
Proof.
  intros Hb. induction l as [|x l IH]; intros j s; simpl.
  - apply settles_ret.
  - apply settles_bind; auto.
Qed.

Ltac settles_step :=
  first
    [ apply settles_ret | apply settles_abort
    | apply settles_time | apply settles_history
    | apply settles_or_abort | apply settles_check
    | apply settles_call | apply settles_utilsSleep
    | apply settles_bind; [| intros ?]
    | apply settles_for_loop; intros ? ?
    | apply settles_for_each_from; intros ? ? ?
    | match goal with
      | |- settles (if ?b then _ else _) => destruct b
      | |- settles (match ?x with _ => _ end) => destruct x
      end ].

Ltac solve_settles := autounfold with dump; repeat settles_step.

Lemma settles_nspDump_contexts t o : settles (nspDump_contexts E t o).
Proof.
  unfold nspDump_contexts, init_content, init_content_type_ctx. solve_settles.
Qed.

Lemma settles_nspDump_credentials t o tik : settles (nspDump_credentials E t o tik).
Proof. unfold nspDump_credentials. solve_settles. Qed.

Lemma ctx_matches_forget (l l' : list NcaContext) :
  forget_data_idx <$> l' = forget_data_idx <$> l ->
  (forall k, ctx_matches (l !!! k)) -> forall k, ctx_matches (l' !!! k).
Proof.
  intros Hf Hl k. specialize (Hl k).
  pose proof (fmap_lookup_total _ _ _ k Hf) as Hk.
  unfold ctx_matches in *.
  replace (content_type_ctx (l' !!! k)) with (content_type_ctx (l !!! k))
    by exact (eq_sym (f_equal content_type_ctx Hk)).
  replace (content_type (l' !!! k)) with (content_type (l !!! k))
    by exact (eq_sym (f_equal content_type Hk)).
  exact Hl.
Qed.

Lemma settles_add_content_type_ctx_info i nca_ctx pfs :
  ctx_matches (nca_ctx !!! i) -> settles (add_content_type_ctx_info E i (nca_ctx, pfs)).
Proof.
  unfold add_content_type_ctx_info, add_icon_info, ctx_matches. intros Hm.
  destruct (content_type_ctx (nca_ctx !!! i)) as [[p|n|l]|]; try rewrite Hm;
    solve_settles.
Qed.

Lemma settles_add_content_type_ctx_infos n :
  forall i nca_ctx pfs,
    (forall k, ctx_matches (nca_ctx !!! k)) ->
    settles (for_loop n i (add_content_type_ctx_info E) (nca_ctx, pfs)).
Proof.
  induction n as [|n IH]; intros i nca_ctx pfs Hm; simpl.
  - apply settles_ret.
  - apply settles_bind_run; [apply settles_add_content_type_ctx_info, Hm|].
    intros [nca1 pfs1] w w1 H1.
    apply add_content_type_ctx_info_spec in H1 as (Hf & _).
    apply IH. exact (ctx_matches_forget _ _ Hf Hm).
Qed.

Lemma settles_nspDump_layout t cx cr :
  length (cx_nca_ctx cx) = content_count t ->
  (forall k, ctx_matches (cx_nca_ctx cx !!! k)) ->
  settles (nspDump_layout E t cx cr).
Proof.
  intros Hlen Hm. unfold nspDump_layout.
  apply settles_bind_run; [unfold add_nca_info; solve_settles|].
  intros [nca1 pfs1] w w1 H1.
  apply add_nca_infos in H1 as (Hn1 & _); [|lia]. simpl in Hn1. subst nca1.
  apply settles_bind_run; [unfold add_cnmt_xml_info; solve_settles|].
  intros [nca2 pfs2] w2 w3 H2.
  unfold add_cnmt_xml_info in H2. inv_run H2.
  match goal with Heq : (_, _) = (nca2, pfs2) |- _ => inversion Heq; subst; clear Heq end.
  apply settles_bind_run; [|intros st w4 w5 _; unfold add_tik_cert_info; solve_settles].
  apply settles_add_content_type_ctx_infos.
  apply (ctx_matches_forget (cx_nca_ctx cx)); [|exact Hm].
  apply insert_fmap_id. reflexivity.
Qed.

Lemma contexts_match t o w cx w' :
  nspDump_contexts E t o w = (Ok cx, w') ->
  length (cx_nca_ctx cx) = content_count t
  /\ forall k, ctx_matches (cx_nca_ctx cx !!! k).
Proof.
  intros H.
  apply nspDump_contexts_spec in H as (ci & a & _ & _ & Hlen & Hlt & Hmeta & Hslots & Hzero).
  split; [exact Hlen|]. intros k.
  destruct (decide (k < nonmeta (content_infos t))) as [Hk|Hk].
  { apply Hslots. exact Hk. }
  destruct (decide (k < content_count t - 1)) as [Hk1|Hk1].
  { rewrite Hzero by lia. apply nca_zero_prepared. }
  destruct (decide (k = content_count t - 1)) as [->|Hk2].
  { rewrite Hmeta. apply nca_context_of_prepared. }
  rewrite list_lookup_total_alt, lookup_ge_None_2 by lia.
  apply nca_zero_prepared.
Qed.


Lemma quiet_calls evs :
  forallb quiet_call evs = true ->
  forallb (fun c => negb (is_usb_transfer c)) evs = true
  /\ List.filter is_usb_poll evs = []
  /\ slept evs = 0%Z.
Proof.
  induction evs as [|c evs IH]; simpl; [auto|].
  intros H. apply andb_true_iff in H as [Hc H]. destruct (IH H) as (H1 & H2 & H3).
  unfold quiet_call in Hc.
  destruct (is_usb_transfer c), (is_usb_poll c) eqn:Hp, (is_sleep c) eqn:Hs;
    try discriminate.
  simpl. rewrite H1, H2. repeat split; auto.
  destruct c; simpl in *; try discriminate; auto.
Qed.

(** A phase that stays away from the transport ends at [end] or goes on,
    the clock unmoved. *)
Lemma quiet_phase {A} (P : Call -> bool) (m : M A) w :
  emits P m -> (forall c, P c = true -> quiet_call c = true) -> settles m ->
  exists r w' evs,
    m w = (r, w') /\ r <> Stuck
    /\ calls w' = calls w ++ evs /\ forallb quiet_call evs = true
    /\ clock w' = clock w.
Proof.
  intros Hm HP Hs. destruct (m w) as [r w'] eqn:Hrun.
  apply (emits_weaken P quiet_call m HP Hm) in Hrun as Hev.
  destruct Hev as (evs & Hc & Hq & Ht).
  exists r, w', evs. split; [reflexivity|]. split.
  { intros ->. exact (Hs w w' Hrun). }
  split; [exact Hc|]. split; [exact Hq|].
  destruct (quiet_calls evs Hq) as (_ & _ & Hz). lia.
Qed.

Lemma no_host_fails_closed t o w : no_host E w -> fails_closed E t o w.
Proof.
  intros Hno. unfold fails_closed, nspDump.
  destruct (bool_decide (content_count t = 0)).
  { exists "", w, []. rewrite app_nil_r. auto. }
  (* contexts *)
  destruct (quiet_phase contexts_call (nspDump_contexts E t o) w)
    as (r1 & w1 & e1 & H1 & Hr1 & Hc1 & Hq1 & Ht1);
    [apply emits_nspDump_contexts
    |intros c; destruct c; simpl; auto; discriminate
    |apply settles_nspDump_contexts|].
  unfold bind at 1. rewrite H1.
  destruct r1 as [cx|msg|]; [| |congruence].
  2:{ exists msg, w1, e1. destruct (quiet_calls e1 Hq1) as (Hx & Hy & _). auto. }
  destruct (contexts_match _ _ _ _ _ H1) as [Hlen Hmatch].
  (* credentials *)
  destruct (quiet_phase is_credential_call (nspDump_credentials E t o (cx_tik cx)) w1)
    as (r2 & w2 & e2 & H2 & Hr2 & Hc2 & Hq2 & Ht2);
    [apply emits_nspDump_credentials
    |intros c; destruct c; simpl; auto; discriminate
    |apply settles_nspDump_credentials|].
  unfold bind at 1. rewrite H2.
  assert (Hq12 : forallb quiet_call (e1 ++ e2) = true)
    by (rewrite forallb_app, Hq1, Hq2; reflexivity).
  destruct r2 as [cr|msg|]; [| |congruence].
  2:{ exists msg, w2, (e1 ++ e2). destruct (quiet_calls _ Hq12) as (Hx & Hy & _).
      rewrite Hc2, Hc1, app_assoc. auto. }
  (* layout *)
  destruct (quiet_phase no_call (nspDump_layout E t cx cr) w2)
    as (r3 & w3 & e3 & H3 & Hr3 & Hc3 & Hq3 & Ht3);
    [apply emits_nspDump_layout
    |intros c; discriminate
    |apply settles_nspDump_layout; assumption|].
  unfold bind at 1. rewrite H3.
  assert (Hq123 : forallb quiet_call ((e1 ++ e2) ++ e3) = true)
    by (rewrite forallb_app, Hq12, Hq3; reflexivity).
  assert (Hc123 : calls w3 = calls w ++ (e1 ++ e2) ++ e3)
    by (rewrite Hc3, Hc2, Hc1, <- !app_assoc; reflexivity).
  destruct (quiet_calls _ Hq123) as (Hx & Hy & _).
  destruct r3 as [ly|msg|]; [| |congruence].
  2:{ exists msg, w3, ((e1 ++ e2) ++ e3). auto. }
  (* provisional header *)
  unfold bind at 1, write_header at 1.
  destruct (pfsWriteFileContextHeaderToMemoryBuffer (pfs_format E) (snd ly) BLOCK_SIZE)
    as [h1|]; simpl or_abort.
  2:{ unfold abort at 1. eexists _, w3, ((e1 ++ e2) ++ e3). split; [reflexivity|]. auto. }
  unfold ret at 1.
  (* the wait *)
  destruct (nspDump_wait_usb_spec w3) as (found & w4 & H4 & n & Hn & Hc4 & Ht4 & Hnot & Hf).
  unfold bind at 1. rewrite H4.
  assert (Hclock : clock w3 = clock w) by lia.
  destruct found.
  { destruct Hf as [Hlt Hready]. rewrite Hclock, (Hno n Hlt) in Hready. discriminate. }
  subst n. unfold bind at 1, check at 1, abort at 1.
  exists "usb connection failed", w4, (((e1 ++ e2) ++ e3) ++ poll_calls (clock w) 10 false).
  split; [reflexivity|]. split; [rewrite Hc4, Hc123, Hclock, <- !app_assoc; reflexivity|].
  split; [rewrite forallb_app, Hx; reflexivity|]. right.
  split; [reflexivity|]. split; [rewrite Ht4, Hclock; reflexivity|].
  rewrite List.filter_app, Hy. reflexivity.
Qed.

(** C9: the connection to the host is awaited in a loop that polls
    [usbIsReady] once a second: it always returns, after at most ten
    polls, either at the first poll that found the host or ten seconds
    after it began; and with no host for those ten seconds [nspDump] goes
    to [end] with the message of the connection check, having made no
    call that hands anything to the transport. *)
Theorem C9_connection_wait_is_bounded_and_fails_closed :
  wait_is_bounded E
  /\ forall t o w, no_host E w -> fails_closed E t o w.
Proof.
  split.
  - intros w. apply nspDump_wait_usb_spec.
  - intros t o w. apply no_host_fails_closed.
Qed.


(** ** The place of the title-meta unit *)

Lemma nca_entry_archive c : nca_named c -> is_archive_entry (nca_entry c) = true.
Proof.
  unfold nca_named, is_archive_entry, nca_entry. intros Hc. simpl.
  rewrite (extension_append _ _ Hc).
  destruct (decide (content_type c = NcmContentType_Meta)); reflexivity.
Qed.

Lemma ctx_entries_no_archive c :
  nca_named c -> Forall (fun e => is_archive_entry e = false) (ctx_entries E c).
Proof.
  unfold nca_named, ctx_entries, is_archive_entry. intros Hc.
  destruct (content_type_ctx c) as [[p|n|l]|]; repeat constructor; simpl;
    rewrite ?(extension_append _ _ Hc); try reflexivity.
  apply Forall_app. split.
  - apply Forall_fmap, Forall_forall. intros icon _. simpl.
    rewrite (extension_append _ _ Hc). reflexivity.
  - repeat constructor. simpl. rewrite (extension_append _ _ Hc). reflexivity.
Qed.

Lemma tik_cert_entries_no_archive cr :
  Forall (fun e => is_archive_entry e = false) (tik_cert_entries cr).
Proof.
  unfold tik_cert_entries, is_archive_entry, rights_id_str.
  destruct (retrieve_tik_cert cr); repeat constructor; simpl;
    rewrite (extension_append _ _ (length_hex_id _)); reflexivity.
Qed.

Lemma layout_archives nca_ctx cnmt_ctx cr :
  nca_ctx <> [] -> Forall nca_named nca_ctx ->
  content_type (nca_ctx !!! (length nca_ctx - 1)) = NcmContentType_Meta ->
  meta_archive_is_last (layout_entries E nca_ctx cnmt_ctx cr) (length nca_ctx)
    (content_size (nca_ctx !!! (length nca_ctx - 1))) (authoring_tool_xml_size cnmt_ctx).
Proof.
  intros Hne Hnamed Hmeta.
  assert (Hpos : 0 < length nca_ctx) by (destruct nca_ctx; simpl; [tauto|lia]).
  assert (Hlast : nca_named (nca_ctx !!! (length nca_ctx - 1)))
    by (apply named_lookup_total; [exact Hnamed|lia]).
  unfold meta_archive_is_last, layout_entries. split; [|split].
  - intros i e Hi. destruct (decide (i < length nca_ctx)) as [Hlt|Hge].
    + rewrite lookup_app_l in Hi by (rewrite length_fmap; exact Hlt).
      rewrite list_lookup_fmap in Hi.
      destruct (nca_ctx !! i) as [c|] eqn:Hc; simpl in Hi; [|discriminate].
      inversion Hi; subst e. split; [auto|]. intros _. apply nca_entry_archive.
      rewrite Forall_lookup in Hnamed. exact (Hnamed i c Hc).
    + rewrite lookup_app_r in Hi by (rewrite length_fmap; lia).
      assert (Hno : is_archive_entry e = false).
      { apply list_elem_of_lookup_2 in Hi. revert e Hi. apply Forall_forall.
        repeat (apply Forall_app; split).
        - repeat constructor. unfold is_archive_entry. simpl.
          rewrite (extension_append _ _ Hlast). reflexivity.
        - apply (Forall_take _ (length nca_ctx - 1)) in Hnamed.
          induction Hnamed as [|c l Hc Hl IH]; simpl; [constructor|].
          apply Forall_app. split; [apply ctx_entries_no_archive; exact Hc | exact IH].
        - apply tik_cert_entries_no_archive. }
      rewrite Hno. split; [discriminate|lia].
  - exists (nca_entry (nca_ctx !!! (length nca_ctx - 1))).
    split; [|split; [|reflexivity]].
    + rewrite lookup_app_l by (rewrite length_fmap; lia).
      rewrite list_lookup_fmap, (list_lookup_lookup_total_lt nca_ctx) by lia.
      reflexivity.
    + unfold nca_entry. simpl. rewrite (extension_append _ _ Hlast).
      destruct (decide _) as [_|Hn]; [reflexivity|contradiction].
  - exists (cnmt_xml_entry (nca_ctx !!! (length nca_ctx - 1)) cnmt_ctx).
    split; [|split; [|reflexivity]].
    + rewrite lookup_app_r by (rewrite length_fmap; lia).
      rewrite length_fmap, Nat.sub_diag. reflexivity.
    + unfold cnmt_xml_entry. simpl. apply (extension_append _ _ Hlast).
Qed.

Lemma archive_shape e e' :
  entry_shape e' = entry_shape e -> is_archive_entry e' = is_archive_entry e.
Proof.
  unfold entry_shape, is_archive_entry. intros H. inversion H as [[Hl Hx Hs]].
  rewrite Hx. reflexivity.
Qed.

Lemma meta_archive_is_last_shape (es es' : list PartitionFileSystemEntry) n size xml_size :
  entry_shape <$> es' = entry_shape <$> es ->
  meta_archive_is_last es n size xml_size -> meta_archive_is_last es' n size xml_size.
Proof.
  intros Hs (Harch & (e1 & He1 & Hx1 & Hs1) & (e2 & He2 & Hx2 & Hs2)).
  split; [|split].
  - intros i e' Hi.
    destruct (shape_lookup es' es i e' (eq_sym Hs) Hi) as (e & He & Hshape).
    rewrite <- (archive_shape _ _ Hshape). apply (Harch i e He).
  - destruct (shape_lookup es es' _ e1 Hs He1) as (e' & He' & Hshape).
    exists e'. split; [exact He'|]. unfold entry_shape in Hshape.
    inversion Hshape as [[Hl Hx Hz]]. split; congruence.
  - destruct (shape_lookup es es' _ e2 Hs He2) as (e' & He' & Hshape).
    exists e'. split; [exact He'|]. unfold entry_shape in Hshape.
    inversion Hshape as [[Hl Hx Hz]]. split; congruence.
Qed.


(** Size, type and type context of the units are those of the first pass. *)
Lemma stream_fixed t o w d w' k :
  nspDump E t o w = (Ok d, w') ->
  content_size (st_nca_ctx (d_stream d) !!! k)
  = content_size (cx_nca_ctx (d_contexts d) !!! k)
  /\ content_type (st_nca_ctx (d_stream d) !!! k)
     = content_type (cx_nca_ctx (d_contexts d) !!! k)
  /\ content_type_ctx (st_nca_ctx (d_stream d) !!! k)
     = content_type_ctx (cx_nca_ctx (d_contexts d) !!! k).
Proof.
  intros H. apply nspDump_Ok in H.
  destruct H as [w1 w2 w3 w4 w5 w6 w7 w8 w9 buf1 buf2 st1 st2 Hcc Hcx Hcr Hly Hh1 Hsize
                   Hwait Hann Hannok Hncas Hxml Hdata Htik Hh2 Hresend Hresendok
                   Hbuf Hnca Hcnmt].
  apply nspDump_contexts_spec in Hcx as (ci & a & _ & _ & Hlen & _).
  apply nspDump_layout_spec in Hly as (_ & Hforget & _ & _ & _); auto.
  pose proof (fmap_length_eq _ _ _ Hforget) as Hlen1.
  apply write_ncas_spec in Hncas
    as (units & _ & _ & _ & _ & _ & Hfixed & _ & _); [|simpl; lia].
  simpl in Hfixed.
  apply write_cnmt_xml_spec in Hxml
    as (xml & size & name & _ & _ & _ & _ & _ & Hnca2 & _ & _ & _).
  rewrite Hnca, Hnca2.
  pose proof (fmap_lookup_total _ _ _ k Hfixed) as Hk.
  pose proof (fmap_lookup_total _ _ _ k Hforget) as Hk'.
  unfold nca_fixed in Hk. inversion Hk as [[Hs Ht Hc Hi]].
  rewrite Hs, Ht, Hc.
  split; [exact (f_equal content_size Hk')|].
  split; [exact (f_equal content_type Hk')|exact (f_equal content_type_ctx Hk')].
Qed.

Lemma meta_record_found t ty ci :
  titleGetContentInfoByTypeAndIdOffset t ty 0 = Some ci ->
  exists k, content_infos t !! k = Some ci.
Proof.
  unfold titleGetContentInfoByTypeAndIdOffset. intros H.
  apply fmap_Some in H as ([k x] & Hfind & ->).
  apply list_find_Some in Hfind as (Hk & _). exists k. exact Hk.
Qed.

(** C10: the context of the title-meta unit of a finished run is stored
    at index [content_count - 1] of [nca_ctx], whichever record of the
    title it is opened from; its entry, [<id>.cnmt.nca], is at index
    [content_count - 1] of the entry table and the entry of the title-meta
    XML, [<id>.cnmt.xml], right after it; and for a title with one
    title-meta record the content-archive entries are the first
    [content_count] entries, in the table laid out and in the final one. *)
Theorem C10_meta_unit_is_in_the_last_slot t o w d w' :
  nspDump E t o w = (Ok d, w') -> meta_unit_is_last E t d.
Proof.
  intros H. unfold meta_unit_is_last.
  pose proof (nspDump_Ok _ _ _ _ _ H) as Hph.
  destruct Hph as [w1 w2 w3 w4 w5 w6 w7 w8 w9 buf1 buf2 st1 st2 Hcc Hcx Hcr Hly Hh1 Hsize
                     Hwait Hann Hannok Hncas Hxml Hdata Htik Hh2 Hresend Hresendok
                     Hbuf Hnca Hcnmt].
  pose proof Hcx as Hcx'.
  apply nspDump_contexts_spec in Hcx' as (ci & a & Hfind & Hty & Hlen & Hlt & Hmeta & _).
  destruct (meta_record_found _ _ _ Hfind) as [k Hk].
  apply nspDump_layout_spec in Hly as (_ & _ & _ & Hentries & _); auto.
  destruct (stream_fixed _ _ _ _ _ (content_count t - 1) H) as (_ & Hty' & _).
  assert (Hmeta_ty : content_type (cx_nca_ctx (d_contexts d) !!! (content_count t - 1))
                     = NcmContentType_Meta) by (rewrite Hmeta; exact Hty).
  exists k, ci, a.
  split; [exact Hk|]. split; [exact Hfind|]. split; [exact Hty|].
  split; [exact Hlen|]. split; [exact Hmeta|]. split; [congruence|].
  split; [|split].
  - rewrite Hentries. unfold layout_entries.
    rewrite lookup_app_l by (rewrite length_fmap; lia).
    rewrite list_lookup_fmap, (list_lookup_lookup_total_lt (cx_nca_ctx (d_contexts d)))
      by lia.
    rewrite Hmeta. unfold nca_entry. simpl. rewrite Hty.
    destruct (decide _) as [_|Hn]; [reflexivity|contradiction].
  - rewrite Hentries. unfold layout_entries.
    rewrite lookup_app_r by (rewrite length_fmap; lia).
    rewrite length_fmap, Hlen, Nat.sub_diag, Hmeta. reflexivity.
  - intros Hone.
    pose proof (contexts_named _ _ _ _ _ Hcx Hone) as Hnamed.
    pose proof (stream_shape _ _ _ _ _ H Hone) as (Hshape & _ & Hentries' & _).
    assert (Hlast : meta_archive_is_last
                      (layout_entries E (cx_nca_ctx (d_contexts d))
                         (cx_cnmt_ctx (d_contexts d)) (d_credentials d))
                      (content_count t) (u64 (ci_size ci))
                      (authoring_tool_xml_size (cx_cnmt_ctx (d_contexts d)))).
    { rewrite <- Hlen.
      replace (u64 (ci_size ci))
        with (content_size (cx_nca_ctx (d_contexts d)
                              !!! (length (cx_nca_ctx (d_contexts d)) - 1)))
        by (rewrite Hlen, Hmeta; reflexivity).
      apply layout_archives; [|exact Hnamed|rewrite Hlen; exact Hmeta_ty].
      intros Hnil. rewrite Hnil in Hlen. simpl in Hlen. auto. }
    rewrite <- Hentries in Hlast.
    split; [exact Hlast|].
    apply (meta_archive_is_last_shape (entries (snd (d_layout d)))); [|exact Hlast].
    unfold pfs_shape in Hshape. inversion Hshape. reflexivity.
Qed.


(** ** Ticket and certificate chain in the table *)

Lemma forallb_weaken (P Q : Call -> bool) evs :
  (forall c, P c = true -> Q c = true) -> forallb P evs = true -> forallb Q evs = true.
Proof.
  intros HPQ H. rewrite forallb_forall in *. auto.
Qed.

Lemma unit_calls_class u : unit_ok u -> forallb stream_call (unit_calls E u) = true.
Proof.
  intros (Hprep & Hblocks & _). unfold unit_calls, nca_calls.
  rewrite !forallb_app. simpl.
  rewrite (forallb_weaken meta_patch_call stream_call _ ltac:(intros []; simpl; auto) Hprep).
  rewrite (forallb_weaken block_call stream_call _ ltac:(intros []; simpl; auto) Hblocks).
  reflexivity.
Qed.

Lemma units_calls_class units :
  Forall unit_ok units -> forallb stream_call (flat_map (unit_calls E) units) = true.
Proof.
  induction 1 as [|u units Hu Hunits IH]; simpl; [reflexivity|].
  rewrite forallb_app, (unit_calls_class u Hu), IH. reflexivity.
Qed.

Lemma nca_entry_plain c : nca_named c -> plain_shape (entry_shape (nca_entry c)).
Proof.
  unfold nca_named, plain_shape, entry_shape, nca_entry. intros Hc. simpl.
  rewrite (extension_append _ _ Hc).
  destruct (decide (content_type c = NcmContentType_Meta)); split; reflexivity.
Qed.

Lemma ctx_entries_plain c :
  nca_named c -> Forall (fun e => plain_shape (entry_shape e)) (ctx_entries E c).
Proof.
  unfold nca_named, ctx_entries, plain_shape, entry_shape. intros Hc.
  destruct (content_type_ctx c) as [[p|n|l]|]; repeat constructor; simpl;
    rewrite ?(extension_append _ _ Hc); try reflexivity.
  apply Forall_app. split.
  - apply Forall_fmap, Forall_forall. intros icon _. simpl.
    rewrite (extension_append _ _ Hc). split; reflexivity.
  - repeat constructor; simpl; rewrite (extension_append _ _ Hc); reflexivity.
Qed.


Lemma layout_plain nca_ctx cnmt_ctx :
  nca_ctx <> [] -> Forall nca_named nca_ctx ->
  Forall (fun e => plain_shape (entry_shape e))
    ((nca_entry <$> nca_ctx)
     ++ [cnmt_xml_entry (nca_ctx !!! (length nca_ctx - 1)) cnmt_ctx]
     ++ flat_map (ctx_entries E) (take (length nca_ctx - 1) nca_ctx)).
Proof.
  intros Hne Hnamed.
  assert (Hpos : 0 < length nca_ctx) by (destruct nca_ctx; simpl; [tauto|lia]).
  assert (Hlast : nca_named (nca_ctx !!! (length nca_ctx - 1)))
    by (apply named_lookup_total; [exact Hnamed|lia]).
  repeat (apply Forall_app; split).
  - apply Forall_fmap. eapply Forall_impl; [exact Hnamed|].
    intros c Hc. apply nca_entry_plain. exact Hc.
  - repeat constructor; unfold entry_shape; simpl;
      rewrite (extension_append _ _ Hlast); reflexivity.
  - apply (Forall_take _ (length nca_ctx - 1)) in Hnamed.
    induction Hnamed as [|c l Hc Hl IH]; simpl; [constructor|].
    apply Forall_app. split; [apply ctx_entries_plain; exact Hc | exact IH].
Qed.

Lemma plain_entry e :
  plain_shape (entry_shape e) -> is_ticket_entry e = false /\ is_certificate_entry e = false.
Proof. unfold plain_shape, entry_shape, is_ticket_entry, is_certificate_entry. auto. Qed.

Lemma ends_with_tik_cert_layout nca_ctx cnmt_ctx cr :
  nca_ctx <> [] -> Forall nca_named nca_ctx -> retrieve_tik_cert cr = true ->
  ends_with_tik_cert (layout_entries E nca_ctx cnmt_ctx cr) cr.
Proof.
  intros Hne Hnamed Hretrieve. unfold ends_with_tik_cert, layout_entries, tik_cert_entries.
  rewrite Hretrieve.
  eexists _, _, _. split; [rewrite !app_assoc; reflexivity|].
  unfold rights_id_str. simpl. rewrite !(extension_append _ _ (length_hex_id _)).
  do 4 (split; [reflexivity|]).
  rewrite <- app_assoc.
  eapply Forall_impl; [apply layout_plain; assumption|].
  intros e He. apply plain_entry. exact He.
Qed.

Lemma ends_with_tik_cert_shape (es es' : list PartitionFileSystemEntry) cr :
  entry_shape <$> es' = entry_shape <$> es ->
  ends_with_tik_cert es cr -> ends_with_tik_cert es' cr.
Proof.
  intros Hs (rest & e1 & e2 & -> & Hx1 & Hs1 & Hx2 & Hs2 & Hrest).
  rewrite fmap_app in Hs. apply fmap_app_inv in Hs as (rest' & l2 & Hr & Hl2 & ->).
  destruct l2 as [|e1' [|e2' [|? ?]]]; simpl in Hl2; try discriminate.
  inversion Hl2 as [[H1 H2]]. unfold entry_shape in H1, H2.
  inversion H1 as [[Hl1 Hx1' Hz1]]. inversion H2 as [[Hl2' Hx2' Hz2]].
  exists rest', e1', e2'. split; [reflexivity|].
  split; [congruence|]. split; [congruence|]. split; [congruence|]. split; [congruence|].
  clear -Hr Hrest. revert rest Hr Hrest.
  induction rest' as [|e' rest' IH]; intros [|e rest] Hr Hrest; simpl in Hr;
    try discriminate; constructor.
  - inversion Hr as [[Hl Hx Hz Htl]]. inversion Hrest as [|? ? He _]; subst.
    unfold is_ticket_entry, is_certificate_entry in *.
    destruct He as [Ha Hb]. split; congruence.
  - inversion Hr as [[Hl Hx Hz Htl]]. inversion Hrest as [|? ? _ Hrest']; subst.
    apply (IH rest); [exact Htl|exact Hrest'].
Qed.


(** C6: when [nspDump] resolves ticket and certificate chain (a ticket
    came with the contexts and the title key crypto is kept), it asks for
    the common block of the ticket; with the removal of console data asked
    for and a personalized ticket it converts the ticket, and ticket and
    chain are those of the conversion; otherwise the ticket stays and the
    chain is retrieved from the gamecard by the rights id of the ticket,
    for a gamecard title, and generated by its signature issuer for any
    other.  These are the only calls of the kind.  Ticket and chain are
    the last two entries of the table, [<rights id>.tik] and
    [<rights id>.cert], they are the last two files sent, and for a title
    with one title-meta record no other entry is a ticket or a
    certificate chain, in the table laid out and in the final one. *)
Theorem C6_ticket_and_certificate_chain t o w d w' :
  nspDump E t o w = (Ok d, w') -> credentials_law E t o w d w'.
Proof.
  intros H. unfold credentials_law.
  pose proof (nspDump_calls _ _ _ _ _ H) as Htr.
  destruct Htr as [e_cx e_cr e_wait e_data e_tik units cnmt2 xml_name header Hcalls
                     HPcx HPcr HPwait HPdata HPtik Hlen Hok Hunits Hxml Hheader
                     pre cnmt0 polls Hcx_calls HPpre Hxml1 Hretrieve Hcred Hwait Htikcalls].
  split; [exact Hretrieve|]. intros Hr.
  pose proof Hr as Hwants. rewrite Hretrieve in Hwants. rewrite Hwants in Hcred.
  destruct Hcred as (cb & Hcb & Hfrom & ->).
  unfold tik_cert_calls in Htikcalls. rewrite Hr in Htikcalls.
  destruct Htikcalls as (e_tik1 & e_cert1 & Htik1 & Hcert1 & ->).
  pose proof (nspDump_Ok _ _ _ _ _ H) as Hph.
  destruct Hph as [w1 w2 w3 w4 w5 w6 w7 w8 w9 buf1 buf2 st1 st2 Hcc Hcx Hcr Hly Hh1 Hsize
                     Hwait' Hann Hannok Hncas Hxml' Hdata Htik Hh2 Hresend Hresendok
                     Hbuf Hnca Hcnmt].
  pose proof Hcx as Hcx'.
  apply nspDump_contexts_spec in Hcx' as (ci & a & _ & _ & Hlenc & _).
  apply nspDump_layout_spec in Hly as (_ & _ & _ & Hentries & _); auto.
  exists cb, e_cx,
    (e_wait
     ++ [Call_usbSendFileProperties (nsp_size d) (cx_path (d_contexts d))
           (u32 (d_provisional_header_size d))]
     ++ flat_map (unit_calls E) units
     ++ [Call_cnmtGenerateAuthoringToolXml (content_id_str <$> st_nca_ctx (d_stream d));
         Call_usbSendFilePropertiesCommon
           (authoring_tool_xml_size (st_cnmt_ctx (d_stream d))) xml_name;
         Call_usbSendFileData
           (take (Z.to_nat (authoring_tool_xml_size (st_cnmt_ctx (d_stream d))))
              (authoring_tool_xml (st_cnmt_ctx (d_stream d))))
           (authoring_tool_xml_size (st_cnmt_ctx (d_stream d)))]
     ++ e_data
     ++ [Call_usbSendFilePropertiesCommon (tik_size (cr_tik (d_credentials d)))
           (entry_name e_tik1);
         Call_usbSendFileData
           (take (Z.to_nat (tik_size (cr_tik (d_credentials d))))
              (tik_data (cr_tik (d_credentials d))))
           (tik_size (cr_tik (d_credentials d)));
         Call_usbSendFilePropertiesCommon (raw_cert_chain_size (d_credentials d))
           (entry_name e_cert1);
         Call_usbSendFileData
           (take (Z.to_nat (raw_cert_chain_size (d_credentials d)))
              (raw_cert_chain (d_credentials d)))
           (raw_cert_chain_size (d_credentials d))]
     ++ [Call_usbSendNspHeader (take (Z.to_nat (u32 (nsp_header_size d))) header)
           (u32 (nsp_header_size d))]).
  split; [exact Hcb|]. split; [exact Hfrom|]. split; [exact Hcalls|].
  split.
  { set (Q := fun c => negb (is_credential_call c)).
    assert (HQ : forall P, (forall c, P c = true -> Q c = true) ->
                 forall evs, forallb P evs = true -> forallb Q evs = true)
      by (intros P HP evs; apply forallb_weaken; exact HP).
    rewrite !forallb_app. simpl.
    rewrite (HQ contexts_call ltac:(intros []; simpl; auto; discriminate) _ HPcx).
    rewrite (HQ wait_call ltac:(intros []; simpl; auto; discriminate) _ HPwait).
    rewrite (HQ stream_call ltac:(intros []; simpl; auto; discriminate) _
               (units_calls_class _ Hok)).
    rewrite (HQ send_call ltac:(intros []; simpl; auto; discriminate) _ HPdata).
    reflexivity. }
  split.
  { rewrite Hentries. unfold layout_entries, tik_cert_entries. rewrite Hr.
    exists ((nca_entry <$> cx_nca_ctx (d_contexts d))
            ++ [cnmt_xml_entry
                  (cx_nca_ctx (d_contexts d) !!! (length (cx_nca_ctx (d_contexts d)) - 1))
                  (cx_cnmt_ctx (d_contexts d))]
            ++ flat_map (ctx_entries E)
                 (take (length (cx_nca_ctx (d_contexts d)) - 1)
                    (cx_nca_ctx (d_contexts d)))).
    rewrite <- !app_assoc. reflexivity. }
  split.
  { unfold sends_tik_cert_last.
    exists (credential_calls t o cb ++ e_wait
            ++ [Call_usbSendFileProperties (nsp_size d) (cx_path (d_contexts d))
                  (u32 (d_provisional_header_size d))]
            ++ flat_map (unit_calls E) units
            ++ [Call_cnmtGenerateAuthoringToolXml
                  (content_id_str <$> st_nca_ctx (d_stream d));
                Call_usbSendFilePropertiesCommon
                  (authoring_tool_xml_size (st_cnmt_ctx (d_stream d))) xml_name;
                Call_usbSendFileData
                  (take (Z.to_nat (authoring_tool_xml_size (st_cnmt_ctx (d_stream d))))
                     (authoring_tool_xml (st_cnmt_ctx (d_stream d))))
                  (authoring_tool_xml_size (st_cnmt_ctx (d_stream d)))]
            ++ e_data),
      e_tik1, e_cert1, (take (Z.to_nat (u32 (nsp_header_size d))) header),
      (u32 (nsp_header_size d)).
    split; [exact Htik1|]. split; [exact Hcert1|].
    rewrite <- !app_assoc. reflexivity. }
  intros Hone.
  pose proof (contexts_named _ _ _ _ _ Hcx Hone) as Hnamed.
  pose proof (stream_shape _ _ _ _ _ H Hone) as (Hshape & _ & _ & _).
  assert (Hlast : ends_with_tik_cert (entries (snd (d_layout d))) (d_credentials d)).
  { rewrite Hentries. apply ends_with_tik_cert_layout; [|exact Hnamed|exact Hr].
    intros Hnil. rewrite Hnil in Hlenc. simpl in Hlenc. auto. }
  split; [exact Hlast|].
  apply (ends_with_tik_cert_shape (entries (snd (d_layout d)))); [|exact Hlast].
  unfold pfs_shape in Hshape. inversion Hshape. reflexivity.
Qed.


(** ** The two generations of the title-meta XML *)

(** C8: a finished run generates the title-meta XML twice and no more.
    The first generation is the last call of the set-up of the contexts,
    before anything goes to the transport: it is made for the contexts as
    opened, and its size is the size of the XML entry of the table and so
    part of the payload size and of the package size announced.  The
    second comes after the calls of all the content archives, is made for
    the contexts with the identifiers printed from the hashes, and the
    file sent right after it is made of its bytes and its size. *)
Theorem C8_title_meta_xml_is_generated_twice t o w d w' :
  nspDump E t o w = (Ok d, w') -> cnmt_xml_twice E t w d w'.
Proof.
  intros H. unfold cnmt_xml_twice.
  pose proof (nspDump_calls _ _ _ _ _ H) as Htr.
  destruct Htr as [e_cx e_cr e_wait e_data e_tik units cnmt2 xml_name header Hcalls
                     HPcx HPcr HPwait HPdata HPtik Hlen Hok Hunits Hxml Hheader
                     pre cnmt0 polls Hcx_calls HPpre Hxml1 Hretrieve Hcred Hwait Htikcalls].
  pose proof (nspDump_Ok _ _ _ _ _ H) as Hph.
  destruct Hph as [w1 w2 w3 w4 w5 w6 w7 w8 w9 buf1 buf2 st1 st2 Hcc Hcx Hcr Hly Hh1 Hsize
                     Hwait' Hann Hannok Hncas Hxml' Hdata Htik Hh2 Hresend Hresendok
                     Hbuf Hnca Hcnmt].
  apply nspDump_contexts_spec in Hcx as (ci & a & _ & _ & Hlenc & _).
  apply nspDump_layout_spec in Hly as (_ & _ & _ & Hentries & Hcons); auto.
  exists pre,
    (e_cr ++ e_wait
     ++ [Call_usbSendFileProperties (nsp_size d) (cx_path (d_contexts d))
           (u32 (d_provisional_header_size d))]),
    units, xml_name,
    (e_data ++ e_tik
     ++ [Call_usbSendNspHeader (take (Z.to_nat (u32 (nsp_header_size d))) header)
           (u32 (nsp_header_size d))]),
    cnmt0, cnmt2.
  split; [rewrite Hcalls, Hcx_calls, <- !app_assoc; reflexivity|].
  split.
  { set (Q := fun c => negb (is_cnmt_xml_generation c)).
    assert (HQ : forall P, (forall c, P c = true -> Q c = true) ->
                 forall evs, forallb P evs = true -> forallb Q evs = true)
      by (intros P HP evs; apply forallb_weaken; exact HP).
    rewrite !forallb_app. simpl.
    rewrite (HQ prepare_call ltac:(intros []; simpl; auto; discriminate) _ HPpre).
    rewrite (HQ is_credential_call ltac:(intros []; simpl; auto; discriminate) _ HPcr).
    rewrite (HQ wait_call ltac:(intros []; simpl; auto; discriminate) _ HPwait).
    rewrite (HQ stream_call ltac:(intros []; simpl; auto; discriminate) _
               (units_calls_class _ Hok)).
    rewrite (HQ send_call ltac:(intros []; simpl; auto; discriminate) _ HPdata).
    rewrite (HQ send_call ltac:(intros []; simpl; auto; discriminate) _ HPtik).
    reflexivity. }
  split.
  { apply (forallb_weaken prepare_call); [|exact HPpre].
    intros []; simpl; auto; discriminate. }
  split; [exact Hxml1|]. split.
  { rewrite Hentries. unfold layout_entries. eexists. split.
    - rewrite lookup_app_r by (rewrite length_fmap; lia).
      rewrite length_fmap, Hlenc, Nat.sub_diag. reflexivity.
    - reflexivity. }
  split; [exact Hcons|]. split; [exact Hsize|]. split; [exact Hlen|].
  split; [|exact Hxml].
  intros k u Hk. destruct (Hunits k u Hk) as (_ & _ & _ & Hid & _). exact Hid.
Qed.


(** ** The units as they are opened *)

Lemma init_content_detail t o cnmt_ctx ci nca_ctx j tik w st w' :
  init_content E t o cnmt_ctx ci (nca_ctx, j, tik) w = (Ok st, w') ->
  ci_content_type ci <> NcmContentType_Meta ->
  exists a tik' c,
    nca_open E (storage_id t) (hfs_partition_type t) ci tik = Some (a, tik')
    /\ st = (<[j := c]> nca_ctx, S j, tik')
    /\ prepared_from E ci a c.
Proof.
  unfold init_content. intros H Hmeta.
  destruct (decide _) as [Hm|_]; [contradiction|].
  apply bind_Ok in H as (r & w1 & H1 & H). inv_run H1.
  apply bind_Ok in H as (ct & w2 & H2 & H). inv_run H2.
  destruct (nca_open E _ _ ci tik) as [[acc tik']|] eqn:Hopen; try discriminate.
  match goal with Hs : Some _ = Some ct |- _ => inversion Hs; subst ct; clear Hs end.
  cbn [fst snd] in H. exists acc, tik'.
  unfold prepared_from, nca_skipped.
  set (c0 := nca_context_of ci acc) in *.
  destruct (rights_id_available c0 && negb (titlekey_retrieved c0)) eqn:Hskip.
  { inv_run H. exists c0. auto. }
  apply bind_Ok in H as (c1 & w2 & H1 & H).
  assert (Hc1 : exists h, c1 = nca_set_header h c0).
  { destruct (set_download_type o); inv_run H1; [eauto|].
    exists (na_header acc). reflexivity. }
  destruct Hc1 as [h1 ->].
  apply bind_Ok in H as (c2 & w3 & H2 & H).
  assert (Hc2 : exists h, c2 = nca_set_header h c0).
  { destruct (remove_titlekey_crypto o); inv_run H2; inv_fmap; eauto. }
  destruct Hc2 as [h2 ->].
  apply bind_Ok in H as (c3 & w4 & H3 & H).
  pose proof H3 as H3'.
  apply init_content_type_ctx_spec in H3' as (Hcore3 & _ & _); auto.
  inv_run H. inv_fmap. eexists. split; [reflexivity|]. split; [reflexivity|].
  split; [exact Hcore3|].
  unfold init_content_type_ctx in H3.
  destruct (ci_content_type ci) eqn:Hty; try (inv_run H3; reflexivity).
  - apply bind_Ok in H3 as (r0 & w0 & H0 & H3). inv_run H0.
    apply bind_Ok in H3 as (pc0 & w5 & H5 & H3). inv_run H5. inv_fmap.
    apply bind_Ok in H3 as (pc1 & w6 & H6 & H3).
    inv_run H3. inv_fmap. simpl. eauto.
  - inv_run H3. inv_fmap. simpl. eexists h2, _, _. eauto.
  - inv_run H3. inv_fmap. simpl. eauto.
Qed.

Lemma init_contents_detail t o cnmt_ctx l :
  forall j0 nca_ctx j tik w st w',
    for_each_from l j0 (fun _ => init_content E t o cnmt_ctx) (nca_ctx, j, tik) w
    = (Ok st, w') ->
    j + nonmeta l <= length nca_ctx ->
    length (fst (opened E t l tik)) = nonmeta l
    /\ snd st = snd (opened E t l tik)
    /\ forall k ci a, fst (opened E t l tik) !! k = Some (ci, a) ->
         prepared_from E ci a (fst (fst st) !!! (j + k)).
Proof.
  induction l as [|ci l IH]; intros j0 nca_ctx j tik w st w' H Hlen; simpl in H.
  - inv_run H. simpl. unfold nonmeta. simpl. split; [reflexivity|].
    split; [reflexivity|]. intros k ci a Hk. discriminate.
  - apply bind_Ok in H as (st1 & w1 & H1 & H).
    pose proof (init_content_spec _ _ _ _ _ _ _ _ _ _ H1) as Hspec.
    pose proof (init_content_detail _ _ _ _ _ _ _ _ _ _ H1) as Hdetail.
    clear H1. rewrite nonmeta_cons in *. simpl.
    destruct (decide (ci_content_type ci = NcmContentType_Meta)) as [Hm|Hm].
    + subst st1. apply IH in H; [exact H|exact Hlen].
    + destruct (Hdetail Hm) as (a & tik' & c & Hopen & -> & Hprep).
      rewrite Hopen. simpl.
      pose proof H as Hframe.
      apply init_contents_spec in Hframe as (_ & _ & Hframe & _).
      apply IH in H as (Hl & Htik & Hslots); [|rewrite length_insert; lia].
      split; [lia|]. split; [exact Htik|].
      intros [|k] ci' a' Hk; simpl in Hk.
      * inversion Hk; subst ci' a'. rewrite Nat.add_0_r, Hframe by lia.
        rewrite list_lookup_total_insert_eq by lia. exact Hprep.
      * replace (j + S k) with (S j + k) by lia. apply Hslots. exact Hk.
Qed.

Lemma nspDump_contexts_detail t o w cx w' :
  nspDump_contexts E t o w = (Ok cx, w') -> contexts_from E t cx.
Proof.
  unfold nspDump_contexts, contexts_from. intros H.
  apply bind_Ok in H as (buf & w1 & H1 & H). inv_run H1.
  apply bind_Ok in H as (dump_name & w2 & H2 & H). inv_run H2.
  apply bind_Ok in H as (path & w3 & H3 & H). inv_run H3.
  apply bind_Ok in H as (u1 & w4 & H4 & H). inv_run H4.
  apply bind_Ok in H as (u2 & w5 & H5 & H). inv_run H5.
  apply bind_Ok in H as (u3 & w6 & H6 & H). inv_run H6.
  apply bind_Ok in H as (u4 & w7 & H7 & H). inv_run H7.
  apply bind_Ok in H as (r & w8 & H8 & H). inv_run H8.
  apply bind_Ok in H as (mt & w9 & H9 & H). inv_run H9.
  apply bind_Ok in H as (r2 & w10 & H10 & H). inv_run H10.
  apply bind_Ok in H as (cnmt_ctx & w11 & H11 & H). inv_run H11.
  apply bind_Ok in H as (st & w12 & Hloop & H).
  inv_run H. simpl.
  destruct (titleGetContentInfoByTypeAndIdOffset t NcmContentType_Meta 0)
    as [ci|] eqn:Hfind; [|discriminate].
  destruct (nca_open E _ _ ci tik_zero) as [[a tik']|] eqn:Hopen; [|discriminate].
  match goal with Hs : Some _ = Some mt |- _ => inversion Hs; subst mt; clear Hs end.
  cbn [fst snd] in *.
  apply nonmeta_lt_found in Hfind as [Hty Hlt].
  apply init_contents_detail in Hloop as (Hl & Htik & Hslots);
    [|rewrite length_insert, length_replicate; unfold content_count in *; lia].
  exists ci, a, tik'. split; [reflexivity|]. split; [exact Hopen|].
  split; [exact Htik|]. split; [exact Hl|]. exact Hslots.
Qed.


(** ** A unit without its rights material *)

Lemma init_content_skips t o cnmt_ctx ci a nca_ctx j tik tik' w :
  ci_content_type ci <> NcmContentType_Meta ->
  na_rights_id_available a = true -> na_titlekey_retrieved a = false ->
  nca_open E (storage_id t) (hfs_partition_type t) ci tik = Some (a, tik') ->
  init_content E t o cnmt_ctx ci (nca_ctx, j, tik) w
  = (Ok (<[j := nca_context_of ci a]> nca_ctx, S j, tik'),
     Build_World (calls w ++ [Call_ncaInitializeContext (Some ci)]) (clock w)).
Proof.
  intros Hm Hr Hk Hopen. unfold init_content.
  destruct (decide _) as [Hm'|_]; [contradiction|].
  unfold ncaInitializeContext, bind, call, ret, or_abort. rewrite Hopen. simpl.
  rewrite Hr, Hk. reflexivity.
Qed.

Lemma opened_lookup t l :
  forall tik k ci a,
    fst (opened E t l tik) !! k = Some (ci, a) ->
    In ci l /\ ci_content_type ci <> NcmContentType_Meta.
Proof.
  induction l as [|ci0 l IH]; intros tik k ci a Hk; simpl in Hk; [discriminate|].
  destruct (decide (ci_content_type ci0 = NcmContentType_Meta)) as [Hm|Hm].
  - destruct (IH _ _ _ _ Hk). split; [right|]; assumption.
  - destruct (nca_open E _ _ ci0 tik) as [[a0 tik']|]; [|discriminate].
    destruct k as [|k]; simpl in Hk.
    + inversion Hk; subst. split; [left; reflexivity|exact Hm].
    + destruct (IH _ _ _ _ Hk). split; [right|]; assumption.
Qed.

Lemma unit_in_calls (pre : list Call) units (post : list Call) k u :
  units !! k = Some u ->
  exists before after,
    pre ++ flat_map (unit_calls E) units ++ post = before ++ unit_calls E u ++ after.
Proof.
  intros Hu.
  exists (pre ++ flat_map (unit_calls E) (take k units)),
    (flat_map (unit_calls E) (drop (S k) units) ++ post).
  rewrite <- (take_drop_middle units k u Hu) at 1.
  rewrite flat_map_app. simpl. rewrite <- !app_assoc. reflexivity.
Qed.

(** The layout leaves a context without content type context as it was. *)
Lemma add_content_type_ctx_info_ctxless i nca_ctx pfs w st w' k :
  add_content_type_ctx_info E i (nca_ctx, pfs) w = (Ok st, w') ->
  content_type_ctx (nca_ctx !!! k) = None ->
  fst st !!! k = nca_ctx !!! k.
Proof.
  intros H Hctx. destruct (decide (k = i)) as [->|Hne].
  - unfold add_content_type_ctx_info in H. rewrite Hctx in H. inv_run H. reflexivity.
  - apply add_content_type_ctx_info_spec in H as (_ & H & _). exact (H k Hne).
Qed.

Lemma add_content_type_ctx_infos_ctxless n :
  forall i nca_ctx pfs w st w' k,
    for_loop n i (add_content_type_ctx_info E) (nca_ctx, pfs) w = (Ok st, w') ->
    content_type_ctx (nca_ctx !!! k) = None ->
    fst st !!! k = nca_ctx !!! k.
Proof.
  induction n as [|n IH]; intros i nca_ctx pfs w st w' k H Hctx; simpl in H.
  - inv_run H. reflexivity.
  - apply bind_Ok in H as ([nca1 pfs1] & w1 & H1 & H).
    apply (add_content_type_ctx_info_ctxless _ _ _ _ _ _ k) in H1; [|exact Hctx].
    cbn [fst] in H1. rewrite <- H1.
    apply (IH _ _ _ _ _ _ k) in H; [exact H|]. rewrite H1. exact Hctx.
Qed.

Lemma nspDump_layout_ctxless t cx cr w ly w' k :
  nspDump_layout E t cx cr w = (Ok ly, w') ->
  length (cx_nca_ctx cx) = content_count t ->
  k < content_count t - 1 ->
  content_type_ctx (cx_nca_ctx cx !!! k) = None ->
  fst ly !!! k = cx_nca_ctx cx !!! k.
Proof.
  intros H Hlen Hk Hctx. unfold nspDump_layout in H.
  apply bind_Ok in H as ([nca1 pfs1] & v1 & H1 & H).
  apply add_nca_infos in H1 as (H1 & _); [|lia]. cbn in H1. subst nca1.
  apply bind_Ok in H as ([nca2 pfs2] & v2 & H2 & H).
  unfold add_cnmt_xml_info in H2. inv_run H2.
  match goal with Heq : (_, _) = (nca2, pfs2) |- _ => injection Heq as <- <- end.
  apply bind_Ok in H as ([nca3 pfs3] & v3 & H3 & H).
  match type of H3 with
  | for_loop _ _ _ (?l, _) _ = _ =>
      assert (Hk2 : l !!! k = cx_nca_ctx cx !!! k)
        by (apply list_lookup_total_insert_ne; lia)
  end.
  apply (add_content_type_ctx_infos_ctxless _ _ _ _ _ _ _ k) in H3;
    [|rewrite Hk2; exact Hctx].
  cbn in H3. rewrite Hk2 in H3.
  unfold add_tik_cert_info in H.
  destruct (retrieve_tik_cert cr); inv_run H; exact H3.
Qed.

(** With a header that is not dirty the turns of the block loop write
    nothing into the blocks. *)
Lemma block_turns_as_read i meta_idx cnmt_ctx offset blksize bk evs bk' :
  block_turns E i meta_idx cnmt_ctx offset blksize bk evs bk' ->
  bk_dirty_header bk = false ->
  sent_as_read E (bk_nca_ctx bk !!! i) offset blksize (bk_buf bk) evs.
Proof.
  intros H. induction H as [|offset blksize bk evs bk1 evs' bk' Hlt Hturn _ IH];
    intros Hclean.
  - constructor. assumption.
  - destruct Hturn as (rd & Hread & Hevs & _ & Hbuf & Hnca & Hdirty).
    rewrite Hclean in *. cbn in Hevs, Hbuf, Hnca, Hdirty.
    rewrite Hnca, Hbuf in IH. specialize (IH Hdirty). subst evs.
    apply (sent_as_read_next E _ _ _ _ rd); assumption.
Qed.

(** C7: a unit of a finished run whose rights id is there and whose
    title key is not is left as [ncaInitializeContext] made it: the loop
    over the records goes on to the next record right after the call that
    opened it, so that nothing is set in its header, no context is made
    for it and its header is not encrypted again.  It keeps its slot: its
    archive is in the table under the identifier and size of its record,
    and in the second pass it is announced under that name and size and
    its bytes are streamed: block by block they are read from the content
    file of the unit as it was opened, hashed and sent, in blocks that
    add up to that size, and they are sent as they were read if the
    header of the untouched unit is not dirty. *)
Theorem C7_unit_without_rights_material_keeps_its_slot t o w d w' k :
  nspDump E t o w = (Ok d, w') ->
  k < content_count t - 1 ->
  nca_skipped (cx_nca_ctx (d_contexts d) !!! k) = true ->
  skipped_unit E t o w d w' k.
Proof.
  intros H Hk Hskip. unfold skipped_unit.
  pose proof (nspDump_calls _ _ _ _ _ H) as Htr.
  destruct Htr as [e_cx e_cr e_wait e_data e_tik units cnmt2 xml_name header Hcalls
                     HPcx HPcr HPwait HPdata HPtik Hlen Hok Hunits Hxml Hheader
                     pre cnmt0 polls Hcx_calls HPpre Hxml1 Hretrieve Hcred Hwait Htikcalls
                     Hturned].
  pose proof (nspDump_Ok _ _ _ _ _ H) as Hph.
  destruct Hph as [w1 w2 w3 w4 w5 w6 w7 w8 w9 buf1 buf2 st1 st2 Hcc Hcx Hcr Hly Hh1 Hsize
                     Hwait' Hann Hannok Hncas Hxml' Hdata Htik Hh2 Hresend Hresendok
                     Hbuf Hnca Hcnmt].
  pose proof (nspDump_contexts_detail _ _ _ _ _ Hcx)
    as (ci0 & a0 & tik1 & _ & _ & _ & Hops & Hslots).
  pose proof (nspDump_contexts_spec _ _ _ _ _ Hcx)
    as (ci1 & a1 & _ & _ & Hlenc & Hlt & _ & _ & Hzero).
  assert (Hknm : k < nonmeta (content_infos t)).
  { destruct (decide (k < nonmeta (content_infos t))) as [Hlt'|Hge]; [exact Hlt'|].
    rewrite Hzero in Hskip by lia. discriminate. }
  rewrite <- Hops in Hknm.
  destruct (lookup_lt_is_Some_2 _ k Hknm) as [[ci a] Hop].
  destruct (Hslots k ci a Hop) as [Hcore Hprep].
  destruct (opened_lookup _ _ _ _ _ _ Hop) as [Hin Hty].
  assert (Hflags : nca_skipped (nca_context_of ci a) = true).
  { unfold nca_skipped in *. unfold nca_core in Hcore.
    inversion Hcore as [[Hid Hstr Hsz Ht Hr Htk Hidx Hhw]].
    simpl. congruence. }
  rewrite Hflags in Hprep.
  unfold nca_skipped in Hflags. simpl in Hflags.
  apply andb_true_iff in Hflags as [Hr Htk]. apply negb_true_iff in Htk.
  pose proof (nspDump_layout_ctxless _ _ _ _ _ _ k Hly Hlenc Hk
                ltac:(rewrite Hprep; reflexivity)) as Hsame.
  apply nspDump_layout_spec in Hly as (_ & Hforget & _ & Hentries & _); auto.
  assert (Hku : k < length units) by lia.
  destruct (lookup_lt_is_Some_2 _ k Hku) as [u Hu].
  destruct (Hunits k u Hu) as (Hsz & Hold & (e & He & Hname) & _ & _).
  pose proof (fmap_lookup_total _ _ _ k Hforget) as Hfk.
  pose proof (f_equal content_size Hfk) as Hfsz. simpl in Hfsz.
  pose proof (f_equal content_id_str Hfk) as Hfid. simpl in Hfid.
  assert (Hsz' : content_size (fst (d_layout d) !!! k) = u64 (ci_size ci))
    by (rewrite Hfsz, Hprep; reflexivity).
  assert (Hid' : content_id_str (fst (d_layout d) !!! k)
                 = content_id_str (nca_context_of ci a))
    by (rewrite Hfid, Hprep; reflexivity).
  assert (Hentry : entries (snd (d_layout d)) !! k
                   = Some {| entry_name := content_id_str (nca_context_of ci a) +:+ ".nca";
                             entry_size := u64 (ci_size ci) |}).
  { rewrite Hentries. unfold layout_entries.
    rewrite lookup_app_l by (rewrite length_fmap; lia).
    rewrite list_lookup_fmap, (list_lookup_lookup_total_lt (cx_nca_ctx (d_contexts d)))
      by lia.
    rewrite Hprep. unfold nca_entry. simpl.
    destruct (decide _) as [Hm|_]; [contradiction|reflexivity]. }
  assert (Huok : unit_ok u).
  { rewrite Forall_forall in Hok. apply Hok, list_elem_of_lookup. eauto. }
  destruct (unit_in_calls
              (e_cx ++ e_cr ++ e_wait
               ++ [Call_usbSendFileProperties (nsp_size d) (cx_path (d_contexts d))
                     (u32 (d_provisional_header_size d))])
              units
              ([Call_cnmtGenerateAuthoringToolXml
                  (content_id_str <$> st_nca_ctx (d_stream d));
                Call_usbSendFilePropertiesCommon
                  (authoring_tool_xml_size (st_cnmt_ctx (d_stream d))) xml_name;
                Call_usbSendFileData
                  (take (Z.to_nat (authoring_tool_xml_size (st_cnmt_ctx (d_stream d))))
                     (authoring_tool_xml (st_cnmt_ctx (d_stream d))))
                  (authoring_tool_xml_size (st_cnmt_ctx (d_stream d)))]
               ++ e_data ++ e_tik
               ++ [Call_usbSendNspHeader (take (Z.to_nat (u32 (nsp_header_size d))) header)
                     (u32 (nsp_header_size d))])
              k u Hu) as (before & after & Heq).
  exists ci, a, u, before, after.
  split; [exact Hin|]. split; [exact Hty|]. split; [exact Hr|]. split; [exact Htk|].
  split.
  { intros cnmt_ctx nca_ctx j tik tik' w0 Hopen.
    apply init_content_skips; assumption. }
  split; [exact Hprep|]. split; [rewrite Hprep; reflexivity|]. split; [exact Hentry|].
  split; [rewrite Hcalls, <- Heq, <- !app_assoc; reflexivity|].
  split; [exact Huok|]. split; [congruence|].
  split; [rewrite Hentry in He; inversion He; subst e; symmetry; exact Hname|].
  split; [congruence|].
  split.
  { destruct Huok as (_ & _ & Hdecl). rewrite Hdecl; [congruence|].
    rewrite Hsz, Hsz'. unfold u64. apply Z.mod_pos_bound. lia. }
  destruct (Hturned k u Hu) as (cnmt_k & nca_k & buf_k & _ & Hsamek & Hturns).
  assert (Hopened : nca_k !!! k = nca_context_of ci a).
  { rewrite Hsamek; [rewrite Hsame; exact Hprep|].
    rewrite Hsame, Hprep. exact Hty. }
  exists cnmt_k, nca_k, buf_k. split; [exact Hopened|]. split; [exact Hturns|].
  intros Hclean. destruct Hturns as (bk' & Hturns & _).
  apply block_turns_as_read in Hturns; cbn [bk_dirty_header bk_nca_ctx bk_buf] in *.
  - rewrite Hopened in Hturns. exact Hturns.
  - rewrite Hopened. exact Hclean.
Qed.


(** ** Without the title key crypto *)







(** ** Renames, whatever the length of the names *)












(** ** A program unit and the title-meta unit *)

Lemma transfers_app e1 e2 : transfers (e1 ++ e2) = transfers e1 ++ transfers e2.
Proof. apply List.filter_app. Qed.

Lemma transfers_none (P : Call -> bool) evs :
  (forall c, P c = true -> is_usb_transfer c = false) ->
  forallb P evs = true -> transfers evs = [].
Proof.
  intros HP. induction evs as [|c evs IH]; simpl; [reflexivity|].
  intros H. apply andb_prop in H as [Hc H]. rewrite (HP c Hc). apply IH. exact H.
Qed.

Lemma transfers_blocks evs :
  forallb block_call evs = true ->
  forallb is_file_data (transfers evs) = true
  /\ declared_bytes (transfers evs) = declared_bytes evs.
Proof.
  induction evs as [|c evs IH]; simpl; [auto|].
  intros H. apply andb_prop in H as [Hc H]. destruct (IH H) as [H1 H2].
  destruct c; simpl in *; try discriminate; auto.
  rewrite H1, H2. auto.
Qed.

Lemma transfers_unit u :
  unit_ok u ->
  transfers (unit_calls E u)
  = Call_usbSendFilePropertiesCommon (u_size u) (u_name u) :: transfers (u_blocks u).
Proof.
  intros (Hprep & _ & _). unfold unit_calls, nca_calls.
  rewrite !transfers_app.
  rewrite (transfers_none meta_patch_call (u_prep u)); [|intros []; simpl; auto; discriminate|exact Hprep].
  simpl. rewrite app_nil_r. reflexivity.
Qed.

Lemma overwrite_name_id (new id ext : string) :
  String.length new = String.length id ->
  overwrite_name new (id +:+ ext) = new +:+ ext.
Proof.
  intros H. unfold overwrite_name. rewrite H, string_drop_append. reflexivity.
Qed.

Lemma add_program_info_idx i nca_ctx pfs w st w' p :
  add_content_type_ctx_info E i (nca_ctx, pfs) w = (Ok st, w') ->
  content_type_ctx (nca_ctx !!! i) = Some (ProgramCtx p) ->
  i < length nca_ctx ->
  content_type_ctx_data_idx (fst st !!! i) = length (entries pfs).
Proof.
  unfold add_content_type_ctx_info. intros H Hctx Hi. rewrite Hctx in H.
  destruct (content_type (nca_ctx !!! i)); inv_run H; inv_add.
  cbn [fst snd]. rewrite list_lookup_total_insert_eq by exact Hi. reflexivity.
Qed.

Lemma write_program_info_xml nca_ctx i pfs w pfs' w' p :
  write_content_type_ctx_data E nca_ctx i pfs w = (Ok pfs', w') ->
  content_type_ctx (nca_ctx !!! i) = Some (ProgramCtx p) ->
  content_type (nca_ctx !!! i) = NcmContentType_Program ->
  exists e,
    entries pfs !! content_type_ctx_data_idx (nca_ctx !!! i) = Some e
    /\ calls w' = calls w
                  ++ [Call_usbSendFilePropertiesCommon (pi_authoring_tool_xml_size p)
                        (entry_name e);
                      Call_usbSendFileData
                        (take (Z.to_nat (pi_authoring_tool_xml_size p))
                           (pi_authoring_tool_xml p))
                        (pi_authoring_tool_xml_size p)]
    /\ entries pfs'
       = <[content_type_ctx_data_idx (nca_ctx !!! i)
           := rename_entry (content_id_str (nca_ctx !!! i)) e]> (entries pfs)
    /\ fs_size pfs' = fs_size pfs.
Proof.
  unfold write_content_type_ctx_data. intros H Hctx Hty. rewrite Hctx, Hty in H.
  apply bind_Ok in H as (r & w1 & H1 & H). inv_run H1. cbn [fst snd] in H.
  apply bind_Ok in H as (ok & w2 & H2 & H).
  apply bind_Ok in H as (u & w3 & H3 & H). inv_run H3. inv_run H.
  apply send_file_Ok in H2 as (n & Hn & ->).
  match goal with
  | Hup : pfsUpdateEntryNameFromFileContext _ _ _ = Some _ |- _ =>
      apply pfsUpdateEntryName_entries in Hup as (e & He & Hentries & Hfs)
  end.
  unfold pfsGetEntryNameByIndexFromFileContext in Hn. rewrite He in Hn.
  simpl in Hn. inversion Hn; subst n.
  exists e. auto.
Qed.

Lemma program_and_meta_records t :
  content_count t = 2 -> one_meta t ->
  titleGetContentCountByType t NcmContentType_Program = 1 ->
  nonmeta (content_infos t) = 1
  /\ forall ci, In ci (content_infos t) ->
       ci_content_type ci <> NcmContentType_Meta ->
       ci_content_type ci = NcmContentType_Program.
Proof.
  unfold content_count, one_meta, titleGetContentCountByType. intros Hcc Hone Hprog.
  pose proof (nonmeta_count (content_infos t)) as Hnm.
  split; [lia|].
  destruct (content_infos t) as [|x [|y [|z l]]]; simpl in Hcc; try discriminate.
  rewrite !filter_cons, filter_nil in Hone, Hprog.
  intros ci [->|[->|[]]] Hty.
  - destruct (decide (ci_content_type ci = NcmContentType_Program)) as [|Hn]; [assumption|].
    destruct (decide (ci_content_type ci = NcmContentType_Meta)); [contradiction|].
    destruct (decide (ci_content_type y = NcmContentType_Program)) as [Hy|Hy];
      destruct (decide (ci_content_type y = NcmContentType_Meta)) as [Hy'|Hy'];
      simpl in *; try discriminate; congruence.
  - destruct (decide (ci_content_type ci = NcmContentType_Program)) as [|Hn]; [assumption|].
    destruct (decide (ci_content_type ci = NcmContentType_Meta)); [contradiction|].
    destruct (decide (ci_content_type x = NcmContentType_Program)) as [Hx|Hx];
      destruct (decide (ci_content_type x = NcmContentType_Meta)) as [Hx'|Hx'];
      simpl in *; try discriminate; congruence.
Qed.


Lemma nca_core_inv c c' :
  nca_core c = nca_core c' ->
  content_id c = content_id c' /\ content_id_str c = content_id_str c'
  /\ content_size c = content_size c' /\ content_type c = content_type c'
  /\ nca_skipped c = nca_skipped c'.
Proof.
  unfold nca_core, nca_skipped. intros H. injection H as H1 H2 H3 H4 H5 H6 H7 H8.
  repeat split; congruence.
Qed.

Lemma nca_fixed_inv (l l' : list NcaContext) k :
  nca_fixed <$> l = nca_fixed <$> l' ->
  content_size (l !!! k) = content_size (l' !!! k)
  /\ content_type (l !!! k) = content_type (l' !!! k)
  /\ content_type_ctx (l !!! k) = content_type_ctx (l' !!! k)
  /\ content_type_ctx_data_idx (l !!! k) = content_type_ctx_data_idx (l' !!! k).
Proof.
  intros H. pose proof (fmap_lookup_total _ _ _ k H) as Hk. unfold nca_fixed in Hk.
  injection Hk as H1 H2 H3 H4. auto.
Qed.

Lemma forget_inv (l l' : list NcaContext) k :
  forget_data_idx <$> l = forget_data_idx <$> l' ->
  content_id_str (l !!! k) = content_id_str (l' !!! k)
  /\ content_size (l !!! k) = content_size (l' !!! k)
  /\ content_type (l !!! k) = content_type (l' !!! k)
  /\ content_type_ctx (l !!! k) = content_type_ctx (l' !!! k).
Proof.
  intros H. pose proof (fmap_lookup_total _ _ _ k H) as Hk.
  split; [exact (f_equal content_id_str Hk)|].
  split; [exact (f_equal content_size Hk)|].
  split; [exact (f_equal content_type Hk)|exact (f_equal content_type_ctx Hk)].
Qed.

(** What the layout records for a program unit and the title-meta unit. *)
Lemma lone_program_layout t cx cr w ly w' c0 c1 prog :
  nspDump_layout E t cx cr w = (Ok ly, w') ->
  content_count t = 2 ->
  cx_nca_ctx cx = [c0; c1] ->
  content_type_ctx c0 = Some (ProgramCtx prog) ->
  content_type_ctx_data_idx (fst ly !!! 0) = 3
  /\ content_type_ctx_data_idx (fst ly !!! 1) = 2.
Proof.
  unfold nspDump_layout. intros H Hcc Hnca Hctx. rewrite Hcc, Hnca in H.
  apply bind_Ok in H as ([nca1 pfs1] & w1 & H1 & H).
  apply add_nca_infos in H1 as (Hn1 & He1 & _); [|simpl; lia].
  simpl in Hn1, He1. subst nca1.
  apply bind_Ok in H as ([nca2 pfs2] & w2 & H2 & H).
  unfold add_cnmt_xml_info in H2. inv_run H2. inv_add.
  match goal with Heq : (_, _) = (nca2, pfs2) |- _ => inversion Heq; subst; clear Heq end.
  apply bind_Ok in H as ([nca3 pfs3] & w3 & H3 & H).
  cbn [for_loop Nat.sub] in H3.
  apply bind_Ok in H3 as ([nca3' pfs3'] & w3' & H3 & Hret). inv_run Hret.
  match goal with Heq : (_, _) = (nca3, pfs3) |- _ => inversion Heq; subst; clear Heq end.
  pose proof (add_program_info_idx _ _ _ _ _ _ prog H3 Hctx ltac:(simpl; lia)) as Hidx.
  apply add_content_type_ctx_info_spec in H3 as (_ & Hframe & _).
  unfold add_tik_cert_info in H.
  assert (Hly : fst ly = nca3).
  { destruct (retrieve_tik_cert cr); inv_run H; inv_add; reflexivity. }
  rewrite Hly. cbn [fst snd] in *. split.
  - rewrite Hidx. simpl. rewrite length_app, He1. reflexivity.
  - rewrite (Hframe 1) by lia. simpl. unfold entry_count. rewrite He1. reflexivity.
Qed.


(** C5 as amended: a finished run on a title of one program unit and the
    title-meta unit, the program unit with its rights material and no
    ticket resolved, leaves a table of four entries, in this order: the
    program archive, the title-meta archive, the title-meta XML and the
    program info XML of the program unit, each under the final identifier
    of its unit.  The size announced is header plus payload.  The
    transport gets the announcement of the package, then each of the four
    files, in the order of the table, announced under the name its entry
    was laid out with and followed by its data, then the header once
    more, and nothing else. *)
Theorem C5_program_and_meta_package t o w d w' :
  nspDump E t o w = (Ok d, w') ->
  content_count t = 2 -> one_meta t ->
  titleGetContentCountByType t NcmContentType_Program = 1 ->
  nca_skipped (cx_nca_ctx (d_contexts d) !!! 0) = false ->
  retrieve_tik_cert (d_credentials d) = false ->
  lone_program_package E t w d w'.
Proof.
  intros H Hcc Hone Hprog Hskip Hnotik. unfold lone_program_package.
  pose proof (final_size_law _ _ _ _ _ H Hone) as Hsizelaw.
  pose proof (nspDump_Ok _ _ _ _ _ H) as Hph.
  destruct Hph as [w1 w2 w3 w4 w5 w6 w7 w8 w9 buf1 buf2 st1 st2 Hcc0 Hcx Hcr Hly Hh1 Hsize
                     Hwait Hann Hannok Hncas Hxml Hdata Htik Hh2 Hresend Hresendok
                     Hbuf Hnca Hcnmt].
  (* the contexts *)
  destruct (program_and_meta_records t Hcc Hone Hprog) as [Hnm Htypes].
  pose proof (nspDump_contexts_detail _ _ _ _ _ Hcx)
    as (ci0 & a0 & tik1 & _ & _ & _ & Hops & Hslots).
  pose proof (nspDump_contexts_spec _ _ _ _ _ Hcx)
    as (cim & am & _ & Htym & Hlenc & _ & Hmeta & _ & _).
  pose proof (contexts_named _ _ _ _ _ Hcx Hone) as Hnamed.
  rewrite Hnm in Hops.
  destruct (lookup_lt_is_Some_2 (fst (opened E t (content_infos t) tik1)) 0 ltac:(lia))
    as [[cip ap] Hop].
  destruct (Hslots 0 cip ap Hop) as [Hcore Hprep].
  destruct (opened_lookup _ _ _ _ _ _ Hop) as [Hin Hnotmeta].
  pose proof (Htypes cip Hin Hnotmeta) as Htyp.
  destruct (nca_core_inv _ _ Hcore) as (_ & Hcstr & Hcsz & Hcty & Hcskip).
  assert (Hskip0 : nca_skipped (nca_context_of cip ap) = false) by congruence.
  rewrite Hskip0, Htyp in Hprep. destruct Hprep as [prog Hctx].
  rewrite Hcc in Hmeta. change (2 - 1) with 1 in Hmeta.
  destruct (cx_nca_ctx (d_contexts d)) as [|c0 [|c1 [|c2 l]]] eqn:Hncaeq;
    simpl in Hlenc; try lia.
  simpl in Hmeta, Hctx, Hcstr, Hcsz, Hcty. subst c1.
  assert (Hn0 : String.length (content_id_str c0) = 32).
  { inversion Hnamed as [|? ? Hc0 _]. exact Hc0. }
  set (c1 := nca_context_of cim am) in *.
  assert (Hn1 : String.length (content_id_str c1) = 32) by apply length_hex_id.
  assert (Hty0 : content_type c0 = NcmContentType_Program) by congruence.
  assert (Hty1 : content_type c1 = NcmContentType_Meta) by exact Htym.
  (* the layout *)
  pose proof (lone_program_layout _ _ _ _ _ _ _ _ _ Hly Hcc Hncaeq Hctx) as [Hidx0 Hidx1].
  pose proof Hly as Hly'.
  apply nspDump_layout_spec in Hly as (_ & Hforget & _ & Hentries & _);
    [|rewrite Hncaeq; simpl; lia|lia].
  rewrite Hncaeq in Hforget, Hentries.
  pose proof (fmap_length_eq _ _ _ Hforget) as Hlenly. simpl in Hlenly.
  destruct (forget_inv _ _ 0 Hforget) as (Hfid0 & Hfsz0 & Hfty0 & Hfctx0).
  destruct (forget_inv _ _ 1 Hforget) as (Hfid1 & Hfsz1 & Hfty1 & Hfctx1).
  simpl in Hfid0, Hfsz0, Hfty0, Hfctx0, Hfid1, Hfsz1, Hfty1, Hfctx1.
  assert (Htable : entries (snd (d_layout d))
                   = [{| entry_name := content_id_str c0 +:+ ".nca";
                         entry_size := content_size c0 |};
                      {| entry_name := content_id_str c1 +:+ ".cnmt.nca";
                         entry_size := content_size c1 |};
                      {| entry_name := content_id_str c1 +:+ ".cnmt.xml";
                         entry_size := authoring_tool_xml_size (cx_cnmt_ctx (d_contexts d)) |};
                      {| entry_name := content_id_str c0 +:+ ".programinfo.xml";
                         entry_size := pi_authoring_tool_xml_size prog |}]).
  { rewrite Hentries. unfold layout_entries, tik_cert_entries, ctx_entries, nca_entry,
      cnmt_xml_entry.
    rewrite Hnotik. simpl. rewrite Hctx, Hty0, Htym. simpl. reflexivity. }
  (* the content archives *)
  apply write_ncas_spec in Hncas
    as (units & Hlenu & Hc6 & _ & Hok & Hunits & Hfixed & Hframe & _);
    [|simpl; lia].
  simpl in Hc6, Hunits, Hfixed, Hframe.
  rewrite Hcc in Hlenu.
  destruct units as [|u0 [|u1 [|u2 us]]]; simpl in Hlenu; try lia.
  assert (Hok0 : unit_ok u0) by (inversion Hok; assumption).
  assert (Hok1 : unit_ok u1)
    by (inversion Hok as [|? ? _ Hok']; inversion Hok'; assumption).
  destruct (Hunits 0 u0 eq_refl) as (Hsz0 & Hold0 & (e0 & He0 & Hname0 & Hre0) & Hid0 & _).
  destruct (Hunits 1 u1 eq_refl) as (Hsz1 & Hold1 & (e1 & He1 & Hname1 & Hre1) & Hid1 & _).
  simpl in Hsz0, Hold0, He0, Hre0, Hid0, Hsz1, Hold1, He1, Hre1, Hid1.
  rewrite Htable in He0, He1. simpl in He0, He1.
  injection He0 as <-. injection He1 as <-.
  destruct (nca_fixed_inv _ _ 0 Hfixed) as (Hxs0 & Hxt0 & Hxc0 & Hxi0).
  destruct (nca_fixed_inv _ _ 1 Hfixed) as (Hxs1 & Hxt1 & Hxc1 & Hxi1).
  assert (Hst1 : entries (st_pfs_file_ctx st1)
                 = [rename_entry (hash_id E (u_blocks u0))
                      {| entry_name := content_id_str c0 +:+ ".nca";
                         entry_size := content_size c0 |};
                    rename_entry (hash_id E (u_blocks u1))
                      {| entry_name := content_id_str c1 +:+ ".cnmt.nca";
                         entry_size := content_size c1 |};
                    {| entry_name := content_id_str c1 +:+ ".cnmt.xml";
                       entry_size := authoring_tool_xml_size (cx_cnmt_ctx (d_contexts d)) |};
                    {| entry_name := content_id_str c0 +:+ ".programinfo.xml";
                       entry_size := pi_authoring_tool_xml_size prog |}]).
  { apply list_eq. intros [|[|k]]; [exact Hre0|exact Hre1|].
    destruct (Hframe (S (S k))) as (_ & _ & Hk); [lia|].
    rewrite Hk, Htable. reflexivity. }
  (* the title-meta XML *)
  apply write_cnmt_xml_spec in Hxml
    as (xml & size & name & Hgen & Hname & Hc7 & _ & _ & Hnca2 & Hxml2 & Hsize2 & Hup).
  rewrite Hcc in Hname, Hup. change (2 - 1) with 1 in Hname, Hup.
  rewrite Hxi1, Hidx1 in Hname, Hup.
  unfold pfsGetEntryNameByIndexFromFileContext in Hname. rewrite Hst1 in Hname.
  simpl in Hname. injection Hname as <-.
  apply pfsUpdateEntryName_entries in Hup as (e2 & He2 & Hst2 & _).
  rewrite Hst1 in He2, Hst2. simpl in He2, Hst2. injection He2 as <-.
  (* the program info XML *)
  rewrite Hcc in Hdata. cbn [for_loop Nat.sub] in Hdata.
  apply bind_Ok in Hdata as (pfs3 & v8 & Hd & Hret). inv_run Hret.
  apply (write_program_info_xml _ _ _ _ _ _ prog) in Hd as (e3 & He3 & Hc8 & Hfinal & _);
    [|rewrite Hnca2, Hxc0, Hfctx0; exact Hctx|rewrite Hnca2, Hxt0, Hfty0; exact Hty0].
  rewrite Hnca2, Hxi0, Hidx0 in He3, Hfinal. rewrite Hst2 in He3, Hfinal.
  simpl in He3, Hfinal. injection He3 as <-.
  (* no ticket *)
  apply write_tik_cert_spec in Htik as (e9 & Hc9 & Htc).
  unfold tik_cert_calls in Htc. rewrite Hnotik in Htc. subst e9. rewrite app_nil_r in Hc9.
  (* the calls before the stream *)
  destruct (emits_calls _ _ _ _ _ (emits_nspDump_contexts t o) Hcx) as (e1 & He1 & HP1).
  destruct (emits_calls _ _ _ _ _ (emits_nspDump_credentials t o _) Hcr)
    as (e2 & He2 & HP2).
  pose proof (emits_no_call _ _ _ _ (emits_nspDump_layout t _ _) Hly') as Hw3.
  destruct (emits_calls _ _ _ _ _ emits_nspDump_wait_usb Hwait) as (e4 & He4 & HP4).
  assert (Hh0 : String.length (hash_id E (u_blocks u0)) = 32) by apply length_hex_id.
  assert (Hh1' : String.length (hash_id E (u_blocks u1)) = 32) by apply length_hex_id.
  assert (Hprogram : content_id_str (st_nca_ctx (d_stream d) !!! 0)
                     = hash_id E (u_blocks u0)) by (rewrite Hnca, Hnca2; exact Hid0).
  assert (Hmeta' : content_id_str (st_nca_ctx (d_stream d) !!! 1)
                   = hash_id E (u_blocks u1)) by (rewrite Hnca, Hnca2; exact Hid1).
  assert (Hsize0 : content_size (st_nca_ctx (d_stream d) !!! 0) = content_size c0)
    by (rewrite Hnca, Hnca2; congruence).
  assert (Hsize1 : content_size (st_nca_ctx (d_stream d) !!! 1) = content_size c1)
    by (rewrite Hnca, Hnca2, Hxs1, Hfsz1; reflexivity).
  destruct (transfers_blocks (u_blocks u0)) as [Hdata0 Hdecl0];
    [destruct Hok0 as (_ & Hb & _); exact Hb|].
  destruct (transfers_blocks (u_blocks u1)) as [Hdata1 Hdecl1];
    [destruct Hok1 as (_ & Hb & _); exact Hb|].
  exists prog, (transfers (u_blocks u0)), (transfers (u_blocks u1)), (st_buf (d_stream d)),
    (e1 ++ e2 ++ e4
     ++ [Call_usbSendFileProperties (nsp_size d) (cx_path (d_contexts d))
           (u32 (d_provisional_header_size d))]
     ++ unit_calls E u0 ++ unit_calls E u1
     ++ [Call_cnmtGenerateAuthoringToolXml (content_id_str <$> st_nca_ctx st1);
         Call_usbSendFilePropertiesCommon (authoring_tool_xml_size (st_cnmt_ctx st2))
           (content_id_str c1 +:+ ".cnmt.xml");
         Call_usbSendFileData
           (take (Z.to_nat (authoring_tool_xml_size (st_cnmt_ctx st2)))
              (authoring_tool_xml (st_cnmt_ctx st2)))
           (authoring_tool_xml_size (st_cnmt_ctx st2))]
     ++ [Call_usbSendFilePropertiesCommon (pi_authoring_tool_xml_size prog)
           (content_id_str c0 +:+ ".programinfo.xml");
         Call_usbSendFileData
           (take (Z.to_nat (pi_authoring_tool_xml_size prog)) (pi_authoring_tool_xml prog))
           (pi_authoring_tool_xml_size prog)]
     ++ [Call_usbSendNspHeader
           (take (Z.to_nat (u32 (nsp_header_size d))) (st_buf (d_stream d)))
           (u32 (nsp_header_size d))]).
  cbv zeta.
  split; [rewrite Hnca, Hnca2, Hxc0, Hfctx0; exact Hctx|].
  split.
  { rewrite Hfinal, Hprogram, Hmeta', Hsize0, Hsize1, Hid0, Hid1. unfold rename_entry.
    simpl.
    rewrite !overwrite_name_id by (rewrite ?Hh0, ?Hh1', ?Hn0, ?length_hex_id; reflexivity).
    reflexivity. }
  split; [exact Hsizelaw|].
  split.
  { rewrite Hc9, Hc8, Hc7, Hc6. simpl. rewrite He4, Hw3, He2, He1.
    rewrite app_nil_r, <- !app_assoc. reflexivity. }
  split.
  { rewrite !transfers_app.
    rewrite (transfers_none contexts_call e1 ltac:(intros []; simpl; auto; discriminate) HP1).
    rewrite (transfers_none is_credential_call e2
               ltac:(intros []; simpl; auto; discriminate) HP2).
    rewrite (transfers_none wait_call e4 ltac:(intros []; simpl; auto; discriminate) HP4).
    rewrite (transfers_unit u0 Hok0), (transfers_unit u1 Hok1).
    rewrite Hsz0, Hsz1, Hfsz0, Hfsz1, <- Hname0, <- Hname1, Hsize0, Hsize1, Hcnmt.
    simpl. rewrite <- ?app_assoc. reflexivity. }
  split; [exact Hdata0|]. split.
  { rewrite Hdecl0, Hsize0. destruct Hok0 as (_ & _ & Hd0). rewrite Hd0; [congruence|].
    rewrite Hsz0, Hfsz0, Hcsz. unfold u64. apply Z.mod_pos_bound. lia. }
  split; [exact Hdata1|].
  rewrite Hdecl1, Hsize1. destruct Hok1 as (_ & _ & Hd1). rewrite Hd1; [congruence|].
  rewrite Hsz1, Hfsz1. unfold c1, u64. simpl. apply Z.mod_pos_bound. lia.
Qed.


(** ** The run never gets stuck *)

Lemma patches_typed_insert nca_ctx i x :
  patch_has_ctx x -> patches_typed nca_ctx -> patches_typed (<[i := x]> nca_ctx).
Proof.
  intros Hx H k. destruct (decide (k = i)) as [->|Hne].
  - destruct (decide (i < length nca_ctx)) as [Hlt|Hge].
    + rewrite list_lookup_total_insert_eq by exact Hlt. exact Hx.
    + rewrite list_insert_ge by lia. apply H.
  - rewrite list_lookup_total_insert_ne by auto. apply H.
Qed.

Lemma patch_nca_block_typed i meta_idx cnmt_ctx offset blksize nca_ctx buf r w w' :
  patch_nca_block E i meta_idx cnmt_ctx offset blksize nca_ctx buf w = (Ok r, w') ->
  patches_typed nca_ctx ->
  content_type (nca_ctx !!! meta_idx) = NcmContentType_Meta ->
  patches_typed (fst (fst r)).
Proof.
  unfold patch_nca_block. intros H Htyped Hmeta.
  apply bind_Ok in H as (st1 & w1 & H1 & H).
  assert (Hst1 : patches_typed (fst st1)
                 /\ nca_static <$> fst st1 = nca_static <$> nca_ctx).
  { destruct (negb _); inv_run H1; simpl; auto.
    split; [|apply insert_static; reflexivity].
    apply patches_typed_insert; [|exact Htyped]. exact (Htyped i). }
  destruct Hst1 as [Htyped1 Hstatic1].
  assert (Hmeta1 : content_type (fst st1 !!! meta_idx) = NcmContentType_Meta).
  { pose proof (fmap_lookup_total _ _ _ meta_idx Hstatic1) as Hk.
    unfold nca_static in Hk. injection Hk as _ _ _ Hty _ _. congruence. }
  apply bind_Ok in H as (st2 & w2 & H2 & H). inv_run H. simpl.
  destruct (content_type_ctx_patch _) eqn:Hp; [|inv_run H2; auto].
  destruct (content_type (fst st1 !!! i)) eqn:Hty; inv_run H2; auto.
  - simpl. apply patches_typed_insert; [|exact Htyped1].
    intros _ Hprog. simpl in Hprog. congruence.
  - destruct (content_type_ctx _) as [[p|n|l]|] eqn:Hctx; inv_run H2.
    simpl. apply patches_typed_insert; [|exact Htyped1].
    intros _ _. simpl. eauto.
Qed.

Lemma settles_patch_nca_block i meta_idx cnmt_ctx offset blksize nca_ctx buf :
  patches_typed nca_ctx ->
  settles (patch_nca_block E i meta_idx cnmt_ctx offset blksize nca_ctx buf).
Proof.
  intros Htyped. unfold patch_nca_block.
  apply settles_bind_run; [destruct (negb _); solve_settles|].
  intros st1 w w1 H1.
  assert (Htyped1 : patches_typed (fst st1)).
  { destruct (negb _); inv_run H1; simpl; auto.
    apply patches_typed_insert; [|exact Htyped]. exact (Htyped i). }
  apply settles_bind; [|intros; apply settles_ret].
  destruct (content_type_ctx_patch _) eqn:Hp; [|apply settles_ret].
  destruct (content_type (fst st1 !!! i)) eqn:Hty.
  2:{ destruct (Htyped1 i Hp Hty) as [p Hctx]. rewrite Hctx. solve_settles. }
  all: solve_settles.
Qed.

Lemma write_nca_block_typed i meta_idx cnmt_ctx offset blksize bk w bk' w' :
  write_nca_block E i meta_idx cnmt_ctx offset blksize bk w = (Ok bk', w') ->
  patches_typed (bk_nca_ctx bk) ->
  content_type (bk_nca_ctx bk !!! meta_idx) = NcmContentType_Meta ->
  patches_typed (bk_nca_ctx bk').
Proof.
  unfold write_nca_block. intros H Htyped Hmeta.
  apply bind_Ok in H as (r & w1 & Hread & H).
  apply bind_Ok in H as (buf & w2 & Hbuf & H).
  apply bind_Ok in H as (st & w3 & Hpatch & H).
  inv_run H. simpl.
  destruct (bk_dirty_header bk).
  - eapply patch_nca_block_typed; eauto.
  - inv_run Hpatch. exact Htyped.
Qed.

Lemma settles_write_nca_block i meta_idx cnmt_ctx offset blksize bk :
  patches_typed (bk_nca_ctx bk) ->
  settles (write_nca_block E i meta_idx cnmt_ctx offset blksize bk).
Proof.
  intros Htyped. unfold write_nca_block.
  apply settles_bind; [solve_settles|]. intros r.
  apply settles_bind; [solve_settles|]. intros buf.
  apply settles_bind; [|intros st; solve_settles].
  destruct (bk_dirty_header bk); [|apply settles_ret].
  apply settles_patch_nca_block. exact Htyped.
Qed.

Lemma static_meta (l l' : list NcaContext) k :
  nca_static <$> l' = nca_static <$> l ->
  content_size (l' !!! k) = content_size (l !!! k)
  /\ content_type (l' !!! k) = content_type (l !!! k)
  /\ content_type_ctx (l' !!! k) = content_type_ctx (l !!! k).
Proof.
  intros H. pose proof (fmap_lookup_total _ _ _ k H) as Hk.
  unfold nca_static in Hk. injection Hk as _ _ Hs Ht Hc _. auto.
Qed.

(** [fuel] turns are enough for what is left of the content. *)
Lemma settles_write_nca_blocks fuel i meta_idx cnmt_ctx :
  forall offset blksize bk,
    patches_typed (bk_nca_ctx bk) ->
    content_type (bk_nca_ctx bk !!! meta_idx) = NcmContentType_Meta ->
    (0 <= offset)%Z -> (0 < blksize)%Z ->
    (content_size (bk_nca_ctx bk !!! i) < 2 ^ 64)%Z ->
    (content_size (bk_nca_ctx bk !!! i) - offset <= Z.of_nat fuel * blksize)%Z ->
    settles (write_nca_blocks E fuel i meta_idx cnmt_ctx offset blksize bk).
Proof.
  induction fuel as [|fuel IH]; intros offset blksize bk Htyped Hmeta Hoff Hblk Hsize Hfuel;
    simpl.
  - destruct (offset <? _)%Z eqn:Hlt; [|apply settles_ret].
    apply Z.ltb_lt in Hlt. lia.
  - destruct (offset <? _)%Z eqn:Hlt; [|apply settles_ret].
    apply Z.ltb_lt in Hlt.
    set (size := content_size (bk_nca_ctx bk !!! i)) in *.
    assert (Hrest : u64 (size - offset) = (size - offset)%Z)
      by (unfold u64; apply Z.mod_small; lia).
    rewrite Hrest.
    set (blk := if (size - offset <? blksize)%Z then (size - offset)%Z else blksize).
    assert (Hblk' : (0 < blk <= size - offset)%Z
                    /\ (size - (offset + blk) <= Z.of_nat fuel * blk)%Z).
    { unfold blk. destruct (size - offset <? blksize)%Z eqn:Hb.
      - split; [lia|]. replace (size - (offset + (size - offset)))%Z with 0%Z by lia.
        apply Z.mul_nonneg_nonneg; lia.
      - apply Z.ltb_ge in Hb. split; [lia|]. lia. }
    destruct Hblk' as [Hblk' Hfuel'].
    apply settles_bind_run; [apply settles_write_nca_block; exact Htyped|].
    intros bk1 w w1 Hblock.
    pose proof (write_nca_block_static _ _ _ _ _ _ _ _ _ Hblock) as Hst.
    destruct (static_meta _ _ i Hst) as (Hsz1 & _ & _).
    destruct (static_meta _ _ meta_idx Hst) as (_ & Hty1 & _).
    assert (Hnext : u64 (offset + blk) = (offset + blk)%Z)
      by (unfold u64; apply Z.mod_small; lia).
    rewrite Hnext.
    apply IH; [| |lia|lia| |].
    + eapply write_nca_block_typed; eauto.
    + congruence.
    + rewrite Hsz1. exact Hsize.
    + rewrite Hsz1. exact Hfuel'.
Qed.

Lemma write_nca_blocks_typed fuel i meta_idx cnmt_ctx :
  forall offset blksize bk w bk' w',
    write_nca_blocks E fuel i meta_idx cnmt_ctx offset blksize bk w = (Ok bk', w') ->
    patches_typed (bk_nca_ctx bk) ->
    content_type (bk_nca_ctx bk !!! meta_idx) = NcmContentType_Meta ->
    patches_typed (bk_nca_ctx bk').
Proof.
  induction fuel as [|fuel IH]; intros offset blksize bk w bk' w' H Htyped Hmeta; simpl in H.
  - destruct (offset <? _)%Z; inv_run H. exact Htyped.
  - destruct (offset <? _)%Z; [|inv_run H; exact Htyped].
    apply bind_Ok in H as (bk1 & w1 & Hblock & H).
    pose proof (write_nca_block_static _ _ _ _ _ _ _ _ _ Hblock) as Hst.
    destruct (static_meta _ _ meta_idx Hst) as (_ & Hty1 & _).
    apply IH in H; [exact H| |congruence].
    eapply write_nca_block_typed; eauto.
Qed.

Lemma block_count_enough size :
  (0 <= size)%Z -> (size - 0 <= Z.of_nat (block_count size) * BLOCK_SIZE)%Z.
Proof.
  intros Hsize. unfold block_count, BLOCK_SIZE.
  rewrite Z2Nat.id by (apply Z.div_pos; lia).
  pose proof (Z.div_mod (size + 8388608 - 1) 8388608 ltac:(lia)) as Hdm.
  pose proof (Z.mod_pos_bound (size + 8388608 - 1) 8388608 ltac:(lia)) as Hmod.
  lia.
Qed.


Lemma write_nca_prepare meta_idx i st cn w w1 :
  (if decide (content_type (st_nca_ctx st !!! i) = NcmContentType_Meta)
   then r <- cnmtGenerateNcaPatch E (st_cnmt_ctx st) (st_nca_ctx st !!! meta_idx) ;;
        x <- or_abort "cnmt generate patch failed" r ;;
        r <- ncaEncryptHeader E (<[meta_idx := snd x]> (st_nca_ctx st) !!! i) ;;
        c <- or_abort "cnmt generate patch failed" r ;;
        ret (fst x, <[i := c]> (<[meta_idx := snd x]> (st_nca_ctx st)))
   else ret (st_cnmt_ctx st, st_nca_ctx st)) w = (Ok cn, w1) ->
  patches_typed (st_nca_ctx st) ->
  content_type (st_nca_ctx st !!! meta_idx) = NcmContentType_Meta ->
  patches_typed (snd cn) /\ nca_static <$> snd cn = nca_static <$> st_nca_ctx st.
Proof.
  intros Hcn Htyped Hmeta.
  destruct (decide _); inv_run Hcn; inv_fmap; simpl; [|auto].
  match goal with
  | |- patches_typed (<[i := _]> ?l) /\ _ =>
      assert (Htyped' : patches_typed l)
  end.
  { apply patches_typed_insert; [|exact Htyped].
    intros _ Hprog. simpl in Hprog. congruence. }
  split.
  - apply patches_typed_insert; [|exact Htyped'].
    intros Hp Hty. exact (Htyped' i Hp Hty).
  - rewrite !insert_static; reflexivity.
Qed.

Lemma settles_write_nca meta_idx i st :
  stream_ready meta_idx (st_nca_ctx st) -> settles (write_nca E meta_idx i st).
Proof.
  intros (Htyped & Hmeta & Hall). unfold write_nca.
  apply settles_bind_run; [destruct (decide _); solve_settles|].
  intros cn w w1 Hcn.
  destruct (write_nca_prepare _ _ _ _ _ _ Hcn Htyped Hmeta) as [Htyped1 Hstatic1].
  destruct (static_meta _ _ i Hstatic1) as (Hsz & _ & _).
  destruct (static_meta _ _ meta_idx Hstatic1) as (_ & Hty & _).
  destruct (Hall i) as [Hrange _].
  apply settles_bind;
    [unfold usbSendFilePropertiesCommon; destruct (pfsGetEntryNameByIndexFromFileContext _ _);
     solve_settles|].
  intros ok. apply settles_bind; [apply settles_check|]. intros _.
  apply settles_bind; [|intros bk; solve_settles].
  apply settles_write_nca_blocks; simpl.
  - exact Htyped1.
  - congruence.
  - lia.
  - reflexivity.
  - rewrite Hsz. lia.
  - apply block_count_enough. rewrite Hsz. lia.
Qed.

Lemma write_nca_ready meta_idx i st w st' w' :
  write_nca E meta_idx i st w = (Ok st', w') ->
  stream_ready meta_idx (st_nca_ctx st) -> stream_ready meta_idx (st_nca_ctx st').
Proof.
  intros H (Htyped & Hmeta & Hall).
  assert (Hfixed : nca_fixed <$> st_nca_ctx st' = nca_fixed <$> st_nca_ctx st).
  { pose proof H as H'.
    apply write_nca_spec in H'
      as (prep & name & blocks & nca1 & _ & _ & _ & _ & _ & _ & Hst & Hnca & _).
    rewrite Hnca, insert_fmap_id by reflexivity. apply static_fixed. exact Hst. }
  assert (Htyped' : patches_typed (st_nca_ctx st')).
  { unfold write_nca in H.
    apply bind_Ok in H as (cn & w1 & Hcn & H).
    destruct (write_nca_prepare _ _ _ _ _ _ Hcn Htyped Hmeta) as [Htyped1 Hstatic1].
    destruct (static_meta _ _ meta_idx Hstatic1) as (_ & Hty & _).
    apply bind_Ok in H as (ok & w2 & Hann & H).
    apply bind_Ok in H as (u & w3 & Hchk & H).
    apply bind_Ok in H as (bk & w4 & Hblocks & H).
    apply write_nca_blocks_typed in Hblocks; [|exact Htyped1|simpl; congruence].
    inv_run H. simpl. apply patches_typed_insert; [|exact Hblocks].
    intros Hp Hty'. exact (Hblocks i Hp Hty'). }
  split; [exact Htyped'|]. split.
  - destruct (nca_fixed_inv _ _ meta_idx Hfixed) as (_ & Hty & _). congruence.
  - intros k. destruct (nca_fixed_inv _ _ k Hfixed) as (Hsz & Hty & Hctx & _).
    destruct (Hall k) as [Hrange Hmatch]. split; [rewrite Hsz; exact Hrange|].
    unfold ctx_matches in *. rewrite Hctx, Hty. exact Hmatch.
Qed.

Lemma settles_for_loop_inv {St} (I : St -> Prop) (body : nat -> St -> M St) :
  (forall i s, I s -> settles (body i s)) ->
  (forall i s w s' w', body i s w = (Ok s', w') -> I s -> I s') ->
  forall n i s, I s -> settles (for_loop n i body s).
Proof.
  intros Hs Hi. induction n as [|n IH]; intros i s HI; simpl.
  - apply settles_ret.
  - apply settles_bind_run; [apply Hs; exact HI|].
    intros s' w w1 Hrun. apply IH. exact (Hi _ _ _ _ _ Hrun HI).
Qed.

Lemma for_loop_inv {St} (I : St -> Prop) (body : nat -> St -> M St) :
  (forall i s w s' w', body i s w = (Ok s', w') -> I s -> I s') ->
  forall n i s w s' w', for_loop n i body s w = (Ok s', w') -> I s -> I s'.
Proof.
  intros Hi. induction n as [|n IH]; intros i s w s' w' H HI; simpl in H.
  - inv_run H. exact HI.
  - apply bind_Ok in H as (s1 & w1 & H1 & H).
    apply (IH _ _ _ _ _ H). exact (Hi _ _ _ _ _ H1 HI).
Qed.

Lemma settles_write_content_type_ctx_data nca_ctx i pfs :
  ctx_matches (nca_ctx !!! i) -> settles (write_content_type_ctx_data E nca_ctx i pfs).
Proof.
  unfold write_content_type_ctx_data, write_icon, send_file, usbSendFilePropertiesCommon,
    ctx_matches.
  intros Hm.
  destruct (content_type_ctx (nca_ctx !!! i)) as [[p|n|l]|]; try rewrite Hm; solve_settles.
Qed.

Lemma contexts_prepared t o w cx w' :
  nspDump_contexts E t o w = (Ok cx, w') ->
  length (cx_nca_ctx cx) = content_count t
  /\ content_type (cx_nca_ctx cx !!! (content_count t - 1)) = NcmContentType_Meta
  /\ forall k, nca_prepared (cx_nca_ctx cx !!! k).
Proof.
  intros H.
  apply nspDump_contexts_spec in H
    as (ci & a & _ & Hty & Hlen & Hlt & Hmeta & Hslots & Hzero).
  split; [exact Hlen|]. split; [rewrite Hmeta; exact Hty|]. intros k.
  destruct (decide (k < nonmeta (content_infos t))) as [Hk|Hk].
  { apply Hslots. exact Hk. }
  destruct (decide (k < content_count t - 1)) as [Hk1|Hk1].
  { rewrite Hzero by lia. apply nca_zero_prepared. }
  destruct (decide (k = content_count t - 1)) as [->|Hk2].
  { rewrite Hmeta. apply nca_context_of_prepared. }
  rewrite list_lookup_total_alt, lookup_ge_None_2 by lia.
  apply nca_zero_prepared.
Qed.

Lemma layout_ready t cx cr w ly w' :
  nspDump_layout E t cx cr w = (Ok ly, w') ->
  length (cx_nca_ctx cx) = content_count t -> content_count t <> 0 ->
  content_type (cx_nca_ctx cx !!! (content_count t - 1)) = NcmContentType_Meta ->
  (forall k, nca_prepared (cx_nca_ctx cx !!! k)) ->
  stream_ready (content_count t - 1) (fst ly).
Proof.
  intros H Hlen Hcc Hmeta Hprep.
  apply nspDump_layout_spec in H as (_ & Hforget & _); auto.
  assert (Hk : forall k,
             content_type_ctx_patch (fst ly !!! k)
             = content_type_ctx_patch (cx_nca_ctx cx !!! k)
             /\ content_type (fst ly !!! k) = content_type (cx_nca_ctx cx !!! k)
             /\ content_type_ctx (fst ly !!! k) = content_type_ctx (cx_nca_ctx cx !!! k)
             /\ content_size (fst ly !!! k) = content_size (cx_nca_ctx cx !!! k)).
  { intros k. pose proof (fmap_lookup_total _ _ _ k Hforget) as Hfk.
    split; [exact (f_equal content_type_ctx_patch Hfk)|].
    split; [exact (f_equal content_type Hfk)|].
    split; [exact (f_equal content_type_ctx Hfk)|exact (f_equal content_size Hfk)]. }
  split; [|split].
  - intros k. destruct (Hk k) as (Hp & Hty & Hctx & _).
    destruct (Hprep k) as (_ & Hpatch & _).
    unfold patch_has_ctx in *. rewrite Hp, Hty, Hctx. exact Hpatch.
  - destruct (Hk (content_count t - 1)) as (_ & Hty & _). congruence.
  - intros k. destruct (Hk k) as (_ & Hty & Hctx & Hsz).
    destruct (Hprep k) as (Hmatch & _ & _ & Hrange & _).
    split; [rewrite Hsz; exact Hrange|].
    unfold ctx_matches in *. rewrite Hctx, Hty. exact Hmatch.
Qed.

(** The model of [nspDump] never runs out of fuel and never reads a
    context at another kind than it was stored at: the block loop of a
    content is through after at most as many turns as the content has
    blocks of [BLOCK_SIZE] bytes, the wait for the host after its ten
    polls, and wherever [content_type_ctx] is read as a program, control
    or legal information context, the context stored there is of that
    kind.  The console output of lines 68-85 is not part of the model,
    and this says nothing about it. *)
Lemma nspDump_settles t o : settles (nspDump E t o).
Proof.
  unfold nspDump. destruct (bool_decide (content_count t = 0)) eqn:Hcc;
    [apply settles_abort|].
  apply bool_decide_eq_false in Hcc.
  apply settles_bind_run; [apply settles_nspDump_contexts|].
  intros cx w w1 Hcx.
  destruct (contexts_prepared _ _ _ _ _ Hcx) as (Hlen & Hmeta & Hprep).
  apply settles_bind; [apply settles_nspDump_credentials|]. intros cr.
  apply settles_bind_run.
  { apply settles_nspDump_layout; [exact Hlen|]. intros k. apply Hprep. }
  intros ly w2 w3 Hly.
  pose proof (layout_ready _ _ _ _ _ _ Hly Hlen Hcc Hmeta Hprep) as Hready.
  apply settles_bind; [unfold write_header; apply settles_or_abort|]. intros h1.
  apply settles_bind.
  { intros v v' Hv. destruct (nspDump_wait_usb_spec v) as (found & v1 & Hrun & _).
    rewrite Hrun in Hv. discriminate. }
  intros conn. apply settles_bind; [apply settles_check|]. intros _.
  apply settles_bind; [solve_settles|]. intros ok.
  apply settles_bind; [apply settles_check|]. intros _.
  apply settles_bind_run.
  { apply (settles_for_loop_inv
             (fun st => stream_ready (content_count t - 1) (st_nca_ctx st))).
    - intros i st Hst. apply settles_write_nca. exact Hst.
    - intros i st v st' v' Hrun Hst. exact (write_nca_ready _ _ _ _ _ _ Hrun Hst).
    - exact Hready. }
  intros st v5 v6 Hncas.
  assert (Hready1 : stream_ready (content_count t - 1) (st_nca_ctx st)).
  { apply (for_loop_inv
             (fun st => stream_ready (content_count t - 1) (st_nca_ctx st))) in Hncas;
      [exact Hncas| |exact Hready].
    intros i s v s' v' Hrun Hs. exact (write_nca_ready _ _ _ _ _ _ Hrun Hs). }
  apply settles_bind_run;
    [unfold write_cnmt_xml, send_file, usbSendFilePropertiesCommon; solve_settles|].
  intros st2 v7 v8 Hxml.
  apply write_cnmt_xml_spec in Hxml as (_ & _ & _ & _ & _ & _ & _ & _ & Hnca2 & _).
  apply settles_bind.
  { apply settles_for_loop. intros i pfs. apply settles_write_content_type_ctx_data.
    rewrite Hnca2. destruct Hready1 as (_ & _ & Hall). apply Hall. }
  intros pfs. apply settles_bind.
  { unfold write_tik_cert, send_file, usbSendFilePropertiesCommon. solve_settles. }
  intros _. apply settles_bind; [unfold write_header; apply settles_or_abort|].
  intros h2. apply settles_bind; [solve_settles|]. intros ok2.
  apply settles_bind; [apply settles_check|]. intros _. apply settles_ret.
Qed.

End Proofs.

(** * The menu *)

Lemma u32_small z : (0 <= z < 2 ^ 32)%Z -> u32 z = z.
Proof. intros H. unfold u32. apply Z.mod_small. exact H. Qed.

Lemma max_val_cases m :
  menu m = 0%Z /\ max_val m = app_count m
  \/ menu m = 1%Z /\ max_val m = 3%Z
  \/ menu m <> 0%Z /\ menu m <> 1%Z /\ max_val m = 5%Z.
Proof.
  unfold max_val.
  destruct (Z.eqb_spec (menu m) 0); [left; auto|].
  destruct (Z.eqb_spec (menu m) 1); [right; left; auto|].
  right. right. repeat split; auto.
Qed.

Lemma max_val_bound m : menu_ok m -> (0 < max_val m < 2 ^ 32)%Z.
Proof.
  intros H. destruct (max_val_cases m) as [[_ ->]|[[_ ->]|(_ & _ & ->)]];
    [exact (ok_table m H)|lia|lia].
Qed.

(** The cursor moves keep everything but cursor and window. *)
Ltac cursor_fields H :=
  constructor; cbn;
  [ exact (ok_table _ H) | exact (ok_menu _ H) | | | exact (ok_title _ H)
  | exact (ok_type _ H) | exact (ok_options _ H) | exact (ok_title_info _ H) ].

Lemma press_down_ok dpad m : menu_ok m -> menu_ok (press_down dpad m).
Proof.
  intros H. pose proof (max_val_bound m H) as Hmax.
  destruct (ok_cursor m H) as (Hc1 & Hc2 & Hc3). pose proof (ok_window m H) as Hw.
  unfold press_down.
  change (max_val (set_selected_idx (u32 (selected_idx m + 1)) m)) with (max_val m).
  cbn [selected_idx set_selected_idx scroll].
  unfold page_size in *. change (30 / 2)%Z with 15%Z.
  rewrite (u32_small (selected_idx m + 1)) by lia.
  destruct (Z.leb_spec (max_val m) (selected_idx m + 1)).
  - destruct dpad.
    + cursor_fields H; unfold page_size; change (max_val _) with (max_val m); lia.
    + rewrite u32_small by lia.
      cursor_fields H; unfold page_size; change (max_val _) with (max_val m); lia.
  - rewrite (u32_small (scroll m + 15)), (u32_small (scroll m + 30)) by lia.
    destruct (Z.leb_spec (scroll m + 15) (selected_idx m + 1));
      destruct (Z.ltb_spec (scroll m + 30) (max_val m)); cbn [andb];
      try rewrite u32_small by lia;
      cursor_fields H; unfold page_size; change (max_val _) with (max_val m); lia.
Qed.

Lemma press_up_ok dpad m : menu_ok m -> menu_ok (press_up dpad m).
Proof.
  intros H. pose proof (max_val_bound m H) as Hmax.
  destruct (ok_cursor m H) as (Hc1 & Hc2 & Hc3). pose proof (ok_window m H) as Hw.
  unfold press_up.
  change (max_val (set_selected_idx (u32 (selected_idx m - 1)) m)) with (max_val m).
  cbn [selected_idx set_selected_idx scroll].
  unfold page_size, UINT32_MAX in *. change (30 / 2)%Z with 15%Z.
  destruct (Z.eq_dec (selected_idx m) 0%Z) as [H0|H0].
  - rewrite H0. change (u32 (0 - 1)) with (2 ^ 32 - 1)%Z.
    rewrite Z.eqb_refl.
    destruct dpad.
    + rewrite (u32_small (max_val m - 1)) by lia.
      destruct (Z.leb_spec 30%Z (max_val m)); try rewrite u32_small by lia;
        cursor_fields H; unfold page_size; change (max_val _) with (max_val m); lia.
    + cursor_fields H; unfold page_size; change (max_val _) with (max_val m); lia.
  - rewrite (u32_small (selected_idx m - 1)) by lia.
    destruct (Z.eqb_spec (selected_idx m - 1) (2 ^ 32 - 1)); [lia|].
    rewrite (u32_small (scroll m + 15)) by lia.
    destruct (Z.ltb_spec (selected_idx m - 1) (scroll m + 15));
      destruct (Z.ltb_spec 0%Z (scroll m)); cbn [andb];
      try rewrite u32_small by lia;
      cursor_fields H; unfold page_size; change (max_val _) with (max_val m); lia.
Qed.

Ltac prj :=
  cbn [app_metadata user_app_data title_info menu selected_idx scroll title_idx
       title_scroll type_idx type_scroll list_count list_idx options
       set_menu set_selected_idx set_scroll set_title set_type set_user_app_data
       set_title_info set_list set_options menu_refresh menu_init] in *.

Lemma turn_calls_nil m : turn_calls m [].
Proof. right. reflexivity. Qed.

Lemma turn_ok_stay m log m' : menu_ok m' -> turn_ok m log (Turn_next m' log).
Proof.
  intros H. rewrite <- (app_nil_r log) at 2.
  apply turn_ok_next; [exact H|apply turn_calls_nil].
Qed.

Ltac facts H :=
  pose proof (ok_table _ H);
  pose proof (ok_menu _ H);
  destruct (ok_cursor _ H) as (? & ? & ?);
  pose proof (ok_window _ H);
  destruct (ok_title _ H) as (? & ? & ? & ?);
  destruct (ok_type _ H) as (? & ?);
  pose proof (ok_options _ H);
  unfold app_count, page_size, dump_type_strings_count in *;
  cbn [length dump_type_strings] in *;
  change (Z.of_nat 3) with 3%Z in *.

Ltac ok_fields :=
  constructor;
  unfold max_val, app_count, page_size, dump_type_strings_count, options_count;
  prj; try match goal with Hm : menu _ = _ |- _ => rewrite !Hm end;
  cbn [Z.eqb Pos.eqb length dump_type_strings options_str];
  change (Z.of_nat 3) with 3%Z; change (u32 (1 + Z.of_nat 4)) with 5%Z;
  try lia; try assumption; try (intros ?; exfalso; lia).

Lemma press_b_ok m log : menu_ok m -> turn_ok m log (press_b m log).
Proof.
  intros H. unfold press_b. prj. facts H.
  destruct (ok_menu m H) as [Hm|[Hm|Hm]]; rewrite Hm.
  - change (u32 (0 - 1)) with UINT32_MAX. rewrite Z.eqb_refl.
    apply turn_ok_break; [exact Hm|reflexivity].
  - change (u32 (1 - 1) =? UINT32_MAX)%Z with false.
    change (u32 (1 - 1)) with 0%Z. cbn [Z.eqb].
    apply turn_ok_stay. ok_fields.
  - change (u32 (2 - 1) =? UINT32_MAX)%Z with false.
    change (u32 (2 - 1)) with 1%Z. cbn [Z.eqb].
    apply turn_ok_stay. ok_fields.
Qed.

(** [max_val m] for the menu that [m] is known to be in. *)
Ltac maxval m :=
  let Hx := fresh "Hmax" in
  destruct (max_val_cases m) as [[? Hx]|[[? Hx]|(? & ? & Hx)]]; try lia;
  rewrite Hx in *.

Section MainProofs.

Context (K : HidControllerKeys) (C : Console).

Lemma lookup_Z {A} (l : list A) (i : Z) :
  (0 <= i < Z.of_nat (length l))%Z -> exists x, l !! Z.to_nat i = Some x.
Proof. intros H. apply lookup_lt_is_Some_2. lia. Qed.

Lemma press_a_ok m log : menu_ok m -> turn_ok m log (press_a C m log).
Proof.
  intros H. facts H. unfold press_a, enter_menu.
  destruct (ok_menu m H) as [Hm|[Hm|Hm]]; rewrite Hm; cbn [Z.eqb Pos.eqb]; prj;
    rewrite ?Hm.
  - change (u32 (0 + 1)) with 1%Z. cbn [Z.eqb Pos.eqb andb].
    destruct (lookup_Z (app_metadata m) (selected_idx m)) as [chosen Hch].
    { maxval m; unfold app_count in *; lia. }
    rewrite Hch.
    destruct (title_get_user_application_data C log (title_id chosen) (user_app_data m))
      as [ok d].
    destruct ok; cbn [fst snd orb]; prj.
    + change (3 <=? 1)%Z with false. cbv iota.
      apply turn_ok_next; [|right; reflexivity].
      maxval m; unfold app_count in *; ok_fields.
    + change (u32 (1 - 1)) with 0%Z. rewrite <- !app_assoc.
      apply turn_ok_next; [|right; reflexivity].
      maxval m; unfold app_count in *; ok_fields.
  - change (u32 (1 + 1)) with 2%Z. cbn [Z.eqb Pos.eqb andb].
    assert (Hsel : selected_idx m = 0%Z \/ selected_idx m = 1%Z \/ selected_idx m = 2%Z).
    { maxval m; lia. }
    assert (Hscr : scroll m = 0%Z).
    { maxval m; lia. }
    destruct Hsel as [Hs|[Hs|Hs]]; rewrite Hs; cbn [Z.eqb Pos.eqb andb orb].
    all: match goal with
         | |- context [bool_decide (?x = None)] => destruct x as [t|] eqn:Hblock
         end.
    all: try (rewrite bool_decide_eq_false_2 by discriminate);
      try (rewrite bool_decide_eq_true_2 by reflexivity); cbn [orb]; prj.
    all: try (change (3 <=? 2)%Z with false; cbv iota;
              apply turn_ok_next; [|right; reflexivity];
              ok_fields; intros _; exists t, t; unfold info_block; prj;
              cbn [Z.eqb Pos.eqb]; repeat split; try assumption;
              match goal with |- _ = u32 ?e => replace e with 1%Z by lia end;
              reflexivity).
    all: change (u32 (2 - 1)) with 1%Z; rewrite <- !app_assoc;
      apply turn_ok_next; [|right; reflexivity]; ok_fields.
  - change (u32 (2 + 1)) with 3%Z. cbn [Z.eqb Pos.eqb andb].
    destruct (Z.eqb_spec (selected_idx m) 0) as [Hs|Hs]; cbn [negb].
    + change (3 <=? 3)%Z with true. cbn [orb]. prj.
      change (u32 (3 - 1)) with 2%Z. rewrite <- !app_assoc.
      apply turn_ok_next; [|left; repeat split; assumption].
      maxval m; ok_fields; intros _; exact (ok_title_info m H Hm).
    + change (u32 (3 - 1)) with 2%Z.
      apply turn_ok_continue.
      maxval m; ok_fields; intros _; exact (ok_title_info m H Hm).
Qed.

Lemma u32_add_l a b : u32 (u32 a + b) = u32 (a + b).
Proof. unfold u32. apply Zplus_mod_idemp_l. Qed.

Lemma u32_sub_l a b : u32 (u32 a - b) = u32 (a - b).
Proof. unfold u32. apply Zminus_mod_idemp_l. Qed.

Lemma next_spec t q :
  next t = Some q ->
  title_list q = title_list t
  /\ length (ptr_previous q) = S (length (ptr_previous t)).
Proof.
  unfold next, title_list. destruct (ptr_next t) as [|x l] eqn:Hn; [discriminate|].
  intros Hq. inversion Hq; subst; clear Hq. cbn.
  rewrite <- app_assoc. auto.
Qed.

Lemma previous_spec t q :
  previous t = Some q ->
  title_list q = title_list t
  /\ length (ptr_previous t) = S (length (ptr_previous q)).
Proof.
  unfold previous, title_list. destruct (ptr_previous t) as [|x l] eqn:Hn; [discriminate|].
  intros Hq. inversion Hq; subst; clear Hq. cbn.
  rewrite <- app_assoc. auto.
Qed.

Lemma press_r_ok p m log : menu_ok m -> turn_ok m log (press_r K p m log).
Proof.
  intros H. unfold press_r.
  destruct (_ && (menu m =? 2)%Z) eqn:Hc; [|apply turn_ok_stay; exact H].
  apply andb_prop in Hc as [_ Hm]. apply Z.eqb_eq in Hm.
  destruct (ok_title_info m H Hm) as (chosen & t & Hb & Hti & Hl & Hidx).
  rewrite Hti. destruct (next t) as [q|] eqn:Hn; [|apply turn_ok_stay; exact H].
  destruct (next_spec t q Hn) as [Hq1 Hq2].
  apply turn_ok_stay. facts H. maxval m; ok_fields.
  intros _. exists chosen, q. repeat split; try assumption; try congruence.
  rewrite Hidx, u32_add_l, Hq2. f_equal. lia.
Qed.

Lemma handle_ok p m log : menu_ok m -> turn_ok m log (handle K C p m log).
Proof.
  intros H. unfold handle.
  destruct (pressed (btn_down p) (KEY_A K)); [apply press_a_ok; exact H|].
  destruct (_ || _); [apply turn_ok_stay, press_down_ok; exact H|].
  destruct (_ || _); [apply turn_ok_stay, press_up_ok; exact H|].
  destruct (pressed (btn_down p) (KEY_B K)); [apply press_b_ok; exact H|].
  destruct (_ && negb (selected_idx m =? 0)%Z) eqn:Hc.
  - apply andb_prop in Hc as [Hc Hs]. apply andb_prop in Hc as [_ Hm].
    apply Z.eqb_eq in Hm. apply negb_true_iff, Z.eqb_neq in Hs.
    facts H. maxval m.
    destruct (lookup_Z (options m) (u32 (selected_idx m - 1))) as [v Hv].
    { rewrite u32_small by lia. lia. }
    rewrite Hv. apply turn_ok_stay. ok_fields.
    + rewrite length_insert. assumption.
    + intros _. exact (ok_title_info m H Hm).
  - destruct ((pressed (btn_down p) (KEY_L K) || pressed (btn_down p) (KEY_ZL K))
              && (menu m =? 2)%Z) eqn:Hl; [|apply press_r_ok; exact H].
    apply andb_prop in Hl as [_ Hm]. apply Z.eqb_eq in Hm.
    destruct (ok_title_info m H Hm) as (chosen & t & Hb & Hti & Hlist & Hidx).
    rewrite Hti. destruct (previous t) as [q|] eqn:Hn; [|apply press_r_ok; exact H].
    destruct (previous_spec t q Hn) as [Hq1 Hq2].
    apply turn_ok_stay. facts H. maxval m; ok_fields.
    intros _. exists chosen, q. repeat split; try assumption; try congruence.
    rewrite Hidx, u32_sub_l, Hq2. f_equal. lia.
Qed.

(** *** The screen *)

Lemma draw_head_ok m : menu_ok m -> exists h, draw_head m = Some h.
Proof.
  intros H. facts H. unfold draw_head.
  destruct (Z.eqb_spec (menu m) 0) as [Hm|Hm].
  - destruct (lookup_Z (app_metadata m) (selected_idx m)) as [a Ha].
    { maxval m; unfold app_count in *; lia. }
    rewrite Ha. eauto.
  - destruct (lookup_Z (app_metadata m) (title_idx m)) as [a Ha]; [lia|].
    rewrite Ha. destruct (Z.eqb_spec (menu m) 2) as [Hm2|Hm2]; [|eauto].
    destruct (ok_title_info m H Hm2) as (chosen & t & _ & Hti & _). rewrite Hti. eauto.
Qed.

Lemma draw_line_ok m i :
  menu_ok m -> (0 <= i < max_val m)%Z -> exists l, draw_line m i = Some l.
Proof.
  intros H Hi. facts H. unfold draw_line.
  destruct (ok_menu m H) as [Hm|[Hm|Hm]]; rewrite Hm; cbn [Z.eqb Pos.eqb]; maxval m.
  - destruct (lookup_Z (app_metadata m) i) as [a Ha]; [unfold app_count in *; lia|].
    rewrite Ha. eauto.
  - destruct (lookup_Z dump_type_strings i) as [a Ha]; [cbn; lia|].
    rewrite Ha. eauto.
  - destruct (Z.eqb_spec i 0); [eauto|].
    rewrite (u32_small (i - 1)) by lia.
    destruct (lookup_Z options_str (i - 1)) as [a Ha]; [cbn; lia|].
    destruct (lookup_Z (options m) (i - 1)) as [b Hb]; [lia|].
    rewrite Ha, Hb. eauto.
Qed.

Lemma seq_indices (i0 : Z) n :
  (fun k : nat => (i0 + Z.of_nat k)%Z) <$> seq 0 (S n)
  = i0 :: ((fun k : nat => (i0 + 1 + Z.of_nat k)%Z) <$> seq 0 n).
Proof.
  cbn [seq fmap list_fmap]. f_equal; [lia|].
  rewrite <- seq_shift. rewrite <- list_fmap_compose.
  apply list_fmap_ext. intros _ k _. cbn. lia.
Qed.

(** The lines drawn for the indices from [i0] on: as many as fit the
    window, the arrow on the line of the cursor if it is among them. *)
Lemma draw_lines_ok m :
  menu_ok m ->
  forall n i0,
    (0 <= i0)%Z -> (i0 + Z.of_nat n <= max_val m)%Z ->
    exists ls,
      draw_lines m ((fun k : nat => (i0 + Z.of_nat k)%Z) <$> seq 0 n) = Some ls
      /\ Z.of_nat (length ls)
         = Z.max 0 (Z.min (Z.of_nat n) (scroll m + page_size - i0))
      /\ length (filter (fun l => fst l = true) ls)
         = if bool_decide (i0 <= selected_idx m
                           < i0 + Z.min (Z.of_nat n) (scroll m + page_size - i0))%Z
           then 1 else 0.
Proof.
  intros H. pose proof (max_val_bound m H) as Hmax.
  destruct (ok_cursor m H) as (Hc1 & Hc2 & Hc3). pose proof (ok_window m H) as Hw.
  unfold page_size in *.
  induction n as [|n IH]; intros i0 Hi0 Hn.
  - exists []. cbn. split; [reflexivity|]. split; [lia|].
    rewrite bool_decide_eq_false_2 by lia. reflexivity.
  - rewrite seq_indices. cbn [draw_lines]. unfold page_size.
    rewrite (u32_small (scroll m + 30)) by lia.
    destruct (Z.leb_spec (scroll m + 30) i0) as [Hb|Hb].
    + exists []. cbn [length filter]. split; [reflexivity|]. split; [lia|].
      rewrite bool_decide_eq_false_2 by lia. reflexivity.
    + destruct (draw_line_ok m i0 H) as [l Hl]; [lia|]. rewrite Hl.
      destruct (IH (i0 + 1)%Z) as (ls & Hls & Hlen & Harrow); [lia|lia|].
      rewrite Hls. eexists. split; [reflexivity|]. split.
      * cbn [length]. lia.
      * rewrite filter_cons. cbn [fst].
        destruct (Z.eqb_spec i0 (selected_idx m)) as [He|He].
        -- rewrite decide_True by reflexivity. cbn [length]. rewrite Harrow.
           rewrite bool_decide_eq_false_2 by lia.
           rewrite bool_decide_eq_true_2 by lia. reflexivity.
        -- rewrite decide_False by discriminate. rewrite Harrow.
           apply (f_equal (fun b : bool => if b then 1 else 0)).
           apply bool_decide_ext. lia.
Qed.

Lemma draw_ok m :
  menu_ok m ->
  exists s,
    draw m = Some s /\ screen_ok s
    /\ (menu m = 2%Z -> selected_idx m = 0%Z ->
        shows_dump s (ptr_info <$> title_info m) (options_read (options m))).
Proof.
  intros H. pose proof (max_val_bound m H) as Hmax.
  destruct (ok_cursor m H) as (Hc1 & Hc2 & Hc3). pose proof (ok_window m H) as Hw.
  destruct (draw_head_ok m H) as [h Hh].
  destruct (draw_lines_ok m H (Z.to_nat (max_val m - scroll m)) (scroll m))
    as (ls & Hls & Hlen & Harrow); [lia|lia|].
  unfold draw, line_indices. rewrite Hh, Hls.
  eexists. split; [reflexivity|]. split.
  - unfold screen_ok. cbn [scr_lines]. split.
    + rewrite Harrow. rewrite bool_decide_eq_true_2; [reflexivity|].
      unfold page_size in *. lia.
    + unfold page_size in *. lia.
  - intros Hm Hs. unfold shows_dump. cbn [scr_menu scr_head scr_lines].
    split; [exact Hm|]. split.
    + destruct (ok_title_info m H Hm) as (chosen & t & _ & Hti & _).
      unfold draw_head in Hh. rewrite Hm, Hti in Hh. cbn [Z.eqb] in Hh.
      destruct (app_metadata m !! Z.to_nat (title_idx m)); [|discriminate].
      inversion Hh; subst. rewrite Hti. cbn. eauto 10.
    + assert (Hscr : scroll m = 0%Z) by lia.
      assert (H5 : max_val m = 5%Z) by (maxval m; reflexivity).
      pose proof (ok_options m H) as Hopt.
      destruct (options m) as [|a [|b [|c [|d [|e l]]]]] eqn:Ho; try discriminate.
      rewrite H5, Hscr in Hls. change (Z.to_nat (5 - 0)) with 5 in Hls.
      cbn [seq fmap list_fmap] in Hls. cbn [draw_lines] in Hls. unfold draw_line in Hls.
      rewrite Hm, Hscr, Hs, Ho in Hls. cbn in Hls.
      inversion Hls; subst. reflexivity.
Qed.

(** *** Logs *)

Lemma screens_ok_app log evs :
  screens_ok log -> (forall s, In (Ui_draw s) evs -> screen_ok s) -> screens_ok (log ++ evs).
Proof. intros H1 H2 s Hs. apply in_app_iff in Hs as [Hs|Hs]; auto. Qed.

Lemma screens_ok_plain log evs :
  screens_ok log -> forallb (fun c => negb (is_draw_call c)) evs = true ->
  screens_ok (log ++ evs).
Proof.
  intros H1 H2. apply screens_ok_app; [exact H1|].
  intros s Hs. rewrite forallb_forall in H2. apply H2 in Hs. discriminate.
Qed.

Lemma dumps_as_shown_plain log evs :
  dumps_as_shown log -> forallb (fun c => negb (is_dump_call c)) evs = true ->
  dumps_as_shown (log ++ evs).
Proof.
  intros H1 H2 i t o Hi.
  destruct (decide (i < length log)) as [Hlt|Hge].
  - rewrite lookup_app_l in Hi by exact Hlt.
    destruct (H1 i t o Hi) as (s & H3 & Ha & Hb & Hc & Hd & He & Hf & Hg).
    exists s. split; [assumption|]. split; [apply lookup_app_l_Some; assumption|].
    split; [assumption|]. repeat split; apply lookup_app_l_Some; assumption.
  - rewrite lookup_app_r in Hi by lia.
    apply list_elem_of_lookup_2, list_elem_of_In in Hi.
    rewrite forallb_forall in H2. apply H2 in Hi. discriminate.
Qed.

Lemma dumps_as_shown_dump log0 s t o :
  dumps_as_shown (log0 ++ [Ui_draw s]) -> shows_dump s t o ->
  dumps_as_shown
    ((log0 ++ [Ui_draw s])
     ++ [Ui_consoleClear; Ui_utilsChangeHomeButtonBlockStatus true; Ui_nspDump t o;
         Ui_utilsChangeHomeButtonBlockStatus false;
         Ui_consolePrint "press any button to continue"; Ui_utilsWaitForButtonPress]).
Proof.
  intros H1 Hs i t' o' Hi.
  destruct (decide (i < length (log0 ++ [Ui_draw s]))) as [Hlt|Hge].
  - rewrite lookup_app_l in Hi by exact Hlt.
    destruct (H1 i t' o' Hi) as (s' & H3 & Ha & Hb & Hc & Hd & He & Hf & Hg).
    exists s'. split; [assumption|]. split; [apply lookup_app_l_Some; assumption|].
    split; [assumption|]. repeat split; apply lookup_app_l_Some; assumption.
  - rewrite length_app in Hge. cbn [length] in Hge.
    rewrite <- app_assoc in Hi |- *. cbn [app] in Hi |- *.
    rewrite lookup_app_r in Hi by lia.
    remember (i - length log0) as k eqn:Hk.
    assert (Hi3 : i = length log0 + k) by lia.
    assert (Hk3 : k = 3).
    { destruct k as [|[|[|[|[|[|[|k]]]]]]]; cbn in Hi; try discriminate Hi; reflexivity. }
    subst k. rewrite Hk3 in Hi, Hi3. cbn in Hi. inversion Hi; subst t' o'. subst i.
    exists s. split; [lia|].
    replace (length log0 + 3 - 3) with (length log0 + 0) by lia.
    replace (length log0 + 3 - 2) with (length log0 + 1) by lia.
    replace (length log0 + 3 - 1) with (length log0 + 2) by lia.
    replace (length log0 + 3 + 1) with (length log0 + 4) by lia.
    replace (length log0 + 3 + 2) with (length log0 + 5) by lia.
    replace (length log0 + 3 + 3) with (length log0 + 6) by lia.
    rewrite !lookup_app_r by lia.
    repeat match goal with
           | |- context [length log0 + ?n - length log0] =>
               replace (length log0 + n - length log0) with n by lia
           end.
    cbn. auto 10.
Qed.

Lemma log_ok_plain log evs :
  log_ok log -> forallb is_plain_call evs = true -> log_ok (log ++ evs).
Proof.
  intros [H1 H2] H. split.
  - apply screens_ok_plain; [exact H1|].
    rewrite forallb_forall in *. intros c Hc. apply H in Hc.
    apply andb_prop in Hc as [Hc _]. exact Hc.
  - apply dumps_as_shown_plain; [exact H2|].
    rewrite forallb_forall in *. intros c Hc. apply H in Hc.
    apply andb_prop in Hc as [_ Hc]. exact Hc.
Qed.

Lemma menu_call_plain evs :
  forallb is_menu_call evs = true -> forallb is_plain_call evs = true.
Proof.
  intros H. rewrite !forallb_forall in *.
  intros c Hc; apply H in Hc; destruct c; try discriminate; reflexivity.
Qed.

(** The log of a turn. *)
Lemma log_ok_turn m log evs :
  log_ok log -> at_screen m log -> menu_ok m -> turn_calls m evs -> log_ok (log ++ evs).
Proof.
  intros Hlog (s0 & log0 & Hs0 & ->) Hm [(-> & Hm2 & Hsel)|Hevs].
  - destruct Hlog as [Hscr Hdump]. split.
    + apply screens_ok_plain; [exact Hscr|reflexivity].
    + apply dumps_as_shown_dump; [exact Hdump|].
      destruct (draw_ok m Hm) as (s1 & Hs1 & _ & Hshow).
      rewrite Hs0 in Hs1. inversion Hs1; subst s1. auto.
  - apply log_ok_plain; [exact Hlog|]. apply menu_call_plain. exact Hevs.
Qed.

Lemma log_ok_draw log s : log_ok log -> screen_ok s -> log_ok (log ++ [Ui_draw s]).
Proof.
  intros [H1 H2] Hs. split.
  - apply screens_ok_app; [exact H1|].
    intros s' [Hs'|[]]. inversion Hs'; subst; exact Hs.
  - apply dumps_as_shown_plain; [exact H2|reflexivity].
Qed.

Lemma sleep_if_held_spec p log :
  exists tail, sleep_if_held K p log = log ++ tail /\ forallb is_plain_call tail = true.
Proof.
  unfold sleep_if_held. destruct (pressed _ _).
  - eexists. split; reflexivity.
  - exists []. rewrite app_nil_r. split; reflexivity.
Qed.

Lemma menu_refresh_ok l m :
  menu_ok m -> (0 < Z.of_nat (length l) < 2 ^ 32)%Z -> menu_ok (menu_refresh l m).
Proof.
  intros H Hl. facts H. constructor; unfold max_val, app_count, page_size,
    dump_type_strings_count; prj; cbn [Z.eqb length dump_type_strings];
    try lia; try assumption; try (intros ?; exfalso; lia).
Qed.

Lemma menu_init_ok l : (0 < Z.of_nat (length l) < 2 ^ 32)%Z -> menu_ok (menu_init l).
Proof.
  intros Hl. constructor; unfold max_val, app_count, page_size,
    dump_type_strings_count; prj; cbn [Z.eqb length dump_type_strings];
    try lia; try reflexivity; try (intros ?; exfalso; lia).
Qed.

(** What a script that fits makes of a menu that is in range. *)
Lemma poll_loop_ok script :
  script_fits script = true ->
  forall m log, menu_ok m -> at_screen m log -> log_ok log ->
    match poll_loop K C script m log with
    | Fault _ => False
    | Waiting m' log' => menu_ok m' /\ at_screen m' log' /\ log_ok log'
    | Returned ret log' => ret = 0%Z /\ log_ok log'
    end.
Proof.
  induction script as [|p script IH]; intros Hfit m log Hm Hat Hlog.
  - cbn. auto.
  - cbn [script_fits forallb] in Hfit. apply andb_prop in Hfit as [Hp Hfit].
    cbn [poll_loop].
    destruct (negb (btn_down p =? 0)%Z || negb (btn_held p =? 0)%Z) eqn:Hbtn.
    + destruct (handle_ok p m log Hm) as [m' evs Hm' Hevs | m' Hm' | m' Hm0 Hbreak].
      * destruct (sleep_if_held_spec p (log ++ evs)) as (tail & -> & Htail).
        destruct (draw_ok m' Hm') as (s & Hs & Hsok & _).
        unfold draw_screen. rewrite Hs.
        apply IH; [exact Hfit|exact Hm'|exists s; eauto|].
        apply log_ok_draw; [|exact Hsok].
        apply log_ok_plain; [|exact Htail].
        apply log_ok_turn with m; assumption.
      * destruct (draw_ok m' Hm') as (s & Hs & Hsok & _).
        unfold draw_screen. rewrite Hs.
        apply IH; [exact Hfit|exact Hm'|exists s; eauto|].
        apply log_ok_draw; assumption.
      * unfold out2, out. rewrite Hbreak, Z.eqb_refl. split; [reflexivity|].
        apply log_ok_plain; [exact Hlog|reflexivity].
    + destruct (gamecard_info_updated p) eqn:Hgc.
      * destruct (refreshed_entries p) as [l|] eqn:Hr.
        -- assert (Hl : (0 < Z.of_nat (length l) < 2 ^ 32)%Z).
           { unfold poll_fits, poll_refreshes, table_fits in Hp.
             rewrite Hgc, Hr in Hp. apply orb_false_elim in Hbtn as [Hd Hh].
             apply negb_false_iff in Hd, Hh. rewrite Hd, Hh in Hp. cbn in Hp.
             apply andb_prop in Hp as [Hp1 Hp2]. lia. }
           pose proof (menu_refresh_ok l m Hm Hl) as Hm'.
           destruct (draw_ok _ Hm') as (s & Hs & Hsok & _).
           unfold draw_screen. rewrite Hs.
           apply IH; [exact Hfit|exact Hm'|exists s; eauto|].
           apply log_ok_draw; [|exact Hsok].
           apply log_ok_plain; [exact Hlog|reflexivity].
        -- unfold out2, out.
           assert (Hne : (menu m =? UINT32_MAX)%Z = false).
           { apply Z.eqb_neq. unfold UINT32_MAX. destruct (ok_menu m Hm) as [Hx|[Hx|Hx]]; lia. }
           rewrite Hne. split; [reflexivity|].
           repeat (apply log_ok_plain; [|reflexivity]). exact Hlog.
      * apply IH; assumption.
Qed.

Lemma log_ok_nil : log_ok [].
Proof. split; [intros s []|intros i t o Hi; discriminate Hi]. Qed.

Lemma main_ok script :
  console_fits C = true -> script_fits script = true ->
  match main K C script with
  | Fault _ => False
  | Waiting m log => menu_ok m /\ at_screen m log /\ log_ok log
  | Returned ret log => log_ok log
  end.
Proof.
  intros HC Hfit. unfold main, console_fits in *.
  destruct (utils_initialize_resources C).
  - destruct (title_get_application_metadata_entries C) as [[|a l]|].
    + unfold out2, out. change (0 =? UINT32_MAX)%Z with false. cbv iota.
      refine (log_ok_plain [] _ log_ok_nil _). reflexivity.
    + assert (Hm : menu_ok (menu_init (a :: l))).
      { apply menu_init_ok. unfold table_fits in HC. apply Z.ltb_lt in HC.
        cbn [length] in *. lia. }
      unfold main_loop, draw_screen.
      destruct (draw_ok _ Hm) as (s & Hs & Hsok & _). rewrite Hs.
      pose proof (poll_loop_ok script Hfit (menu_init (a :: l))
                    (([Ui_consoleInit; Ui_consolePrint "initializing...";
                       Ui_utilsInitializeResources]
                      ++ [Ui_titleGetApplicationMetadataEntries])
                     ++ [Ui_consolePrint "app metadata succeeded"; Ui_utilsSleep 1]
                     ++ [Ui_draw s]) Hm) as Hloop.
      rewrite !app_assoc in Hloop.
      match type of Hloop with
      | _ -> _ -> match ?r with _ => _ end =>
          match goal with |- match ?r' with _ => _ end => change r' with r end;
          destruct r
      end.
      * apply Hloop; [exists s; eauto|].
        apply log_ok_draw; [|exact Hsok].
        refine (log_ok_plain [] _ log_ok_nil _). reflexivity.
      * apply Hloop; [exists s; eauto|].
        apply log_ok_draw; [|exact Hsok].
        refine (log_ok_plain [] _ log_ok_nil _). reflexivity.
      * apply Hloop; [exists s; eauto|].
        apply log_ok_draw; [|exact Hsok].
        refine (log_ok_plain [] _ log_ok_nil _). reflexivity.
    + unfold out2, out. change (0 =? UINT32_MAX)%Z with false. cbv iota.
      refine (log_ok_plain [] _ log_ok_nil _). reflexivity.
  - unfold out. refine (log_ok_plain [] _ log_ok_nil _). reflexivity.
Qed.

(** X1: with tables of application metadata that have entries, [main]
    never reads past the end of [app_metadata], [dump_type_strings] or
    [options], and never reads through a [title_info] that is [NULL],
    whatever buttons are pressed. *)
Theorem main_reads_in_bounds script :
  console_fits C = true -> script_fits script = true ->
  forall log, main K C script <> Fault log.
Proof.
  intros HC Hfit log Hrun. pose proof (main_ok script HC Hfit) as H.
  rewrite Hrun in H. exact H.
Qed.

(** X2: every screen [main] draws has the arrow on exactly one of its
    lines, and no more lines than a page has: the cursor never leaves the
    part of the list that is shown. *)
Theorem main_keeps_the_cursor_on_screen script :
  console_fits C = true -> script_fits script = true ->
  screens_ok (run_log (main K C script)).
Proof.
  intros HC Hfit. pose proof (main_ok script HC Hfit) as H.
  destruct (main K C script); cbn [run_log].
  - exact (proj1 H).
  - exact (proj1 (proj2 (proj2 H))).
  - destruct H.
Qed.

(** X3: [nspDump] is only ever called for the title and with the
    switches of the screen drawn just before it, the options screen with
    the arrow on the start of the dump; the home button is blocked right
    before the call and released right after it, and then [main] waits
    for a button. *)
Theorem main_dumps_what_the_screen_shows script :
  console_fits C = true -> script_fits script = true ->
  dumps_as_shown (run_log (main K C script)).
Proof.
  intros HC Hfit. pose proof (main_ok script HC Hfit) as H.
  destruct (main K C script); cbn [run_log].
  - exact (proj2 H).
  - exact (proj2 (proj2 (proj2 H))).
  - destruct H.
Qed.

(** X4: whenever [main] waits for a button on the options screen,
    [title_info] points into the list of the block of [user_app_data]
    that [type_idx] chose, and [list_idx] is 1 plus the number of steps
    [title_info] is away from that block along [next]. *)
Theorem main_counts_the_place_in_the_list script m log :
  console_fits C = true -> script_fits script = true ->
  main K C script = Waiting m log -> list_position_ok m.
Proof.
  intros HC Hfit Hrun. pose proof (main_ok script HC Hfit) as H.
  rewrite Hrun in H. destruct H as [H _]. exact (ok_title_info m H).
Qed.

(** *** The ways out *)

Lemma turn_calls_loop m evs : turn_calls m evs -> forallb is_loop_call evs = true.
Proof.
  intros [(-> & _)|H]; [reflexivity|].
  rewrite !forallb_forall in *. intros c Hc. apply H in Hc.
  destruct c; try discriminate; try reflexivity.
  cbn in Hc. unfold is_loop_call. cbn.
  apply orb_prop in Hc as [Hc|Hc]; [apply orb_prop in Hc as [Hc|Hc]|];
    apply String.eqb_eq in Hc; subst; reflexivity.
Qed.

Lemma existsb_loop_calls evs :
  forallb is_loop_call evs = true ->
  forallb (fun c => negb (is_exit_call c)) evs = true
  /\ existsb is_exit_prompt evs = false /\ existsb is_metadata_failure evs = false.
Proof.
  induction evs as [|c evs IH]; cbn; [auto|].
  intros H. apply andb_prop in H as [Hc H]. destruct (IH H) as (H1 & H2 & H3).
  unfold is_loop_call in Hc. apply andb_prop in Hc as [Hc Hc3].
  apply andb_prop in Hc as [Hc1 Hc2].
  rewrite Hc1, H1, H2, H3. apply negb_true_iff in Hc2, Hc3. rewrite Hc2, Hc3. auto.
Qed.

Lemma leaves_step log evs ret log' :
  forallb is_loop_call evs = true -> leaves (log ++ evs) ret log' -> leaves log ret log'.
Proof.
  intros Hevs (Hret & mid & -> & Hmid & Hiff).
  destruct (existsb_loop_calls evs Hevs) as (H1 & H2 & H3).
  split; [exact Hret|]. exists (evs ++ mid).
  rewrite <- !app_assoc. split; [reflexivity|].
  rewrite forallb_app, !existsb_app, H1, H2, H3, Hmid. auto.
Qed.

Lemma poll_loop_exit script :
  script_fits script = true ->
  forall m log ret log',
    menu_ok m ->
    poll_loop K C script m log = Returned ret log' -> leaves log ret log'.
Proof.
  induction script as [|p script IH]; intros Hfit m log ret log' Hm Hrun; [discriminate|].
  cbn [script_fits forallb] in Hfit. apply andb_prop in Hfit as [Hp Hfit].
  cbn [poll_loop] in Hrun.
  destruct (negb (btn_down p =? 0)%Z || negb (btn_held p =? 0)%Z) eqn:Hbtn.
  - destruct (handle_ok p m log Hm) as [m' evs Hm' Hevs | m' Hm' | m' Hm0 Hbreak].
    + apply turn_calls_loop in Hevs.
      destruct (sleep_if_held_spec p (log ++ evs)) as (tail & Htail & Hplain).
      assert (Hloop : forallb is_loop_call tail = true).
      { unfold sleep_if_held in Htail. destruct (pressed _ _).
        - apply app_inv_head in Htail. subst tail. reflexivity.
        - rewrite <- (app_nil_r (log ++ evs)) in Htail at 1.
          apply app_inv_head in Htail. subst tail. reflexivity. }
      rewrite Htail in Hrun. unfold draw_screen in Hrun.
      destruct (draw m') as [s|]; [|discriminate].
      apply IH in Hrun; [|assumption|assumption].
      apply leaves_step with evs; [exact Hevs|].
      apply leaves_step with tail; [exact Hloop|].
      apply leaves_step with [Ui_draw s]; [reflexivity|]. exact Hrun.
    + unfold draw_screen in Hrun. destruct (draw m') as [s|]; [|discriminate].
      apply IH in Hrun; [|assumption|assumption].
      apply leaves_step with [Ui_draw s]; [reflexivity|]. exact Hrun.
    + unfold out2, out in Hrun. rewrite Hbreak, Z.eqb_refl in Hrun.
      inversion Hrun; subst. split; [reflexivity|]. exists []. auto.
  - destruct (gamecard_info_updated p) eqn:Hgc.
    + destruct (refreshed_entries p) as [l|] eqn:Hr.
      * assert (Hl : (0 < Z.of_nat (length l) < 2 ^ 32)%Z).
        { unfold poll_fits, poll_refreshes, table_fits in Hp.
          rewrite Hgc, Hr in Hp. apply orb_false_elim in Hbtn as [Hd Hh].
          apply negb_false_iff in Hd, Hh. rewrite Hd, Hh in Hp. cbn in Hp.
          apply andb_prop in Hp as [Hp1 Hp2]. lia. }
        unfold draw_screen in Hrun. destruct (draw _) as [s|]; [|discriminate].
        apply IH in Hrun; [|assumption|apply menu_refresh_ok; assumption].
        apply leaves_step with [Ui_titleGetApplicationMetadataEntries]; [reflexivity|].
        apply leaves_step with [Ui_draw s]; [reflexivity|]. exact Hrun.
      * unfold out2, out in Hrun.
        assert (Hne : (menu m =? UINT32_MAX)%Z = false).
        { apply Z.eqb_neq. unfold UINT32_MAX.
          destruct (ok_menu m Hm) as [Hx|[Hx|Hx]]; lia. }
        rewrite Hne in Hrun. inversion Hrun; subst. split; [reflexivity|].
        exists [Ui_titleGetApplicationMetadataEntries;
                Ui_consolePrint "app metadata failed";
                Ui_consolePrint "press any button to exit"; Ui_utilsWaitForButtonPress].
        rewrite <- !app_assoc. split; [reflexivity|]. split; reflexivity.
    + apply IH in Hrun; assumption.
Qed.

(** X5: when [main] returns, [utilsCloseResources] and [consoleExit]
    were called, once each and as the last two calls; the value returned
    is -1 if [utilsInitializeResources] failed and 0 in every other case,
    also when the table of application metadata could not be read; and
    the user is asked for a button before the exit exactly when that
    table could not be read, not when the menu was left with the B
    button. *)
Theorem main_closes_what_it_opened script ret log :
  console_fits C = true -> script_fits script = true ->
  main K C script = Returned ret log -> exits_cleanly C ret log.
Proof.
  intros HC Hfit Hrun. unfold main, console_fits in *. unfold exits_cleanly.
  destruct (utils_initialize_resources C).
  - destruct (title_get_application_metadata_entries C) as [[|a l]|].
    + unfold out2, out in Hrun. change (0 =? UINT32_MAX)%Z with false in Hrun.
      injection Hrun as <- <-. split; [|split; reflexivity].
      exists [Ui_consoleInit; Ui_consolePrint "initializing...";
              Ui_utilsInitializeResources; Ui_titleGetApplicationMetadataEntries;
              Ui_consolePrint "app metadata failed";
              Ui_consolePrint "press any button to exit"; Ui_utilsWaitForButtonPress].
      split; reflexivity.
    + assert (Hm : menu_ok (menu_init (a :: l))).
      { apply menu_init_ok. unfold table_fits in HC. apply Z.ltb_lt in HC.
        cbn [length] in *. lia. }
      unfold main_loop, draw_screen in Hrun.
      destruct (draw _) as [s|]; [|discriminate].
      apply poll_loop_exit in Hrun; [|assumption|assumption].
      destruct Hrun as (-> & mid & -> & Hmid & Hiff).
      split; [|split; [reflexivity|]].
      * match goal with
        | |- exists _, ?X ++ ?Y ++ _ = _ /\ _ => exists (X ++ Y)
        end.
        split; [apply app_assoc|].
        rewrite !forallb_app, Hmid. reflexivity.
      * rewrite !existsb_app, Hiff. cbn. rewrite !orb_false_r. reflexivity.
    + unfold out2, out in Hrun. change (0 =? UINT32_MAX)%Z with false in Hrun.
      injection Hrun as <- <-. split; [|split; reflexivity].
      exists [Ui_consoleInit; Ui_consolePrint "initializing...";
              Ui_utilsInitializeResources; Ui_titleGetApplicationMetadataEntries;
              Ui_consolePrint "app metadata failed";
              Ui_consolePrint "press any button to exit"; Ui_utilsWaitForButtonPress].
      split; reflexivity.
  - unfold out in Hrun. injection Hrun as <- <-. split; [|split; reflexivity].
    exists [Ui_consoleInit; Ui_consolePrint "initializing..."; Ui_utilsInitializeResources].
    split; reflexivity.
Qed.

(** *** Single turns *)

Lemma menu_eta (m : Menu) :
  m = {| app_metadata := app_metadata m; user_app_data := user_app_data m;
         title_info := title_info m; menu := menu m; selected_idx := selected_idx m;
         scroll := scroll m; title_idx := title_idx m; title_scroll := title_scroll m;
         type_idx := type_idx m; type_scroll := type_scroll m;
         list_count := list_count m; list_idx := list_idx m; options := options m |}.
Proof. destruct m. reflexivity. Qed.

Lemma no_a_up_down_inv p :
  no_a_up_down K p = true ->
  pressed (btn_down p) (KEY_A K) = false
  /\ pressed (btn_down p) (KEY_DDOWN K)
     || pressed (btn_held p) (Z.lor (KEY_LSTICK_DOWN K) (KEY_RSTICK_DOWN K)) = false
  /\ pressed (btn_down p) (KEY_DUP K)
     || pressed (btn_held p) (Z.lor (KEY_LSTICK_UP K) (KEY_RSTICK_UP K)) = false.
Proof.
  unfold no_a_up_down. intros H.
  repeat match goal with
         | H : _ && _ = true |- _ => apply andb_prop in H as [? ?]
         | H : negb _ = true |- _ => apply negb_true_iff in H
         end.
  repeat split; try assumption;
    repeat match goal with H : _ = false |- _ => rewrite H; clear H end; reflexivity.
Qed.

(** X6: on the options screen, with the arrow on the line of a switch,
    the left or right button of the D-pad alone flips that switch and
    changes nothing else, neither in the menu nor in the log; pressing it
    again brings the menu back to what it was. *)
Theorem a_switch_is_flipped_and_flipped_back p m log k :
  pressed (btn_down p) (KEY_DLEFT K) || pressed (btn_down p) (KEY_DRIGHT K) = true ->
  no_a_up_down K p = true ->
  pressed (btn_down p) (KEY_B K) = false ->
  menu m = 2%Z -> selected_idx m = (Z.of_nat k + 1)%Z ->
  length (options m) = 4 -> k < 4 ->
  exists m',
    handle K C p m log = Turn_next m' log
    /\ m' = set_options (<[k := negb (options m !!! k)]> (options m)) m
    /\ handle K C p m' log = Turn_next m log.
Proof.
  intros Hlr Hp Hb Hm Hs Hlen Hk.
  destruct (no_a_up_down_inv p Hp) as (Ha & Hd & Hu).
  assert (Hidx : Z.to_nat (u32 (selected_idx m - 1)) = k).
  { rewrite Hs. rewrite u32_small by lia. lia. }
  destruct (lookup_lt_is_Some_2 (options m) k) as [v Hv]; [lia|].
  assert (Hstep : forall m0, menu m0 = 2%Z -> selected_idx m0 = (Z.of_nat k + 1)%Z ->
            forall v0, options m0 !! k = Some v0 ->
            handle K C p m0 log
            = Turn_next (set_options (<[k := negb v0]> (options m0)) m0) log).
  { intros m0 Hm0 Hs0 v0 Hv0. unfold handle.
    rewrite Ha, Hd, Hu, Hb, Hlr, Hm0.
    assert (Hidx0 : Z.to_nat (u32 (selected_idx m0 - 1)) = k).
    { rewrite Hs0. rewrite u32_small by lia. lia. }
    rewrite Hidx0, Hv0. rewrite Hs0.
    destruct (Z.eqb_spec (Z.of_nat k + 1) 0); [lia|]. cbn [Z.eqb Pos.eqb andb negb].
    destruct v0; reflexivity. }
  eexists. split; [apply (Hstep m Hm Hs v Hv)|].
  rewrite (list_lookup_total_correct _ _ _ Hv). split; [reflexivity|].
  rewrite (Hstep (set_options (<[k := negb v]> (options m)) m) Hm Hs (negb v)).
  - f_equal. unfold set_options. prj.
    rewrite list_insert_insert_eq, negb_involutive, list_insert_id by exact Hv.
    symmetry. apply menu_eta.
  - prj. apply list_lookup_insert_eq. lia.
Qed.

Lemma moves_keep mvs :
  forall m,
    menu (moves mvs m) = menu m
    /\ title_idx (moves mvs m) = title_idx m
    /\ title_scroll (moves mvs m) = title_scroll m
    /\ type_idx (moves mvs m) = type_idx m
    /\ type_scroll (moves mvs m) = type_scroll m.
Proof.
  induction mvs as [|mv mvs IH]; intros m; [cbn; auto|].
  cbn [moves fold_left]. fold (moves mvs (move mv m)).
  destruct (IH (move mv m)) as (-> & -> & -> & -> & ->).
  destruct mv as [dpad|dpad]; cbn [move]; unfold press_down, press_up;
    repeat case_match; prj; auto.
Qed.

(** X7: the B button brings back the line and the window that the
    cursor had when the A button opened the menu below, however the
    cursor was moved up and down in that menu. *)
Theorem b_returns_to_where_a_was_pressed pa pb m log m1 log1 mvs log2 :
  menu_ok m ->
  pressed (btn_down pa) (KEY_A K) = true ->
  no_a_up_down K pb = true -> pressed (btn_down pb) (KEY_B K) = true ->
  handle K C pa m log = Turn_next m1 log1 -> menu m1 = (menu m + 1)%Z ->
  exists m2,
    handle K C pb (moves mvs m1) log2 = Turn_next m2 log2 /\ cursor m2 = cursor m.
Proof.
  intros Hm Ha Hpb Hb Hturn Hmenu.
  destruct (no_a_up_down_inv pb Hpb) as (Ha' & Hd & Hu).
  destruct (moves_keep mvs m1) as (Hk1 & Hk2 & Hk3 & Hk4 & Hk5).
  assert (Hsaved :
            (menu m = 0%Z /\ title_idx m1 = selected_idx m /\ title_scroll m1 = scroll m)
            \/ (menu m = 1%Z /\ type_idx m1 = selected_idx m
                /\ type_scroll m1 = scroll m)).
  { unfold handle in Hturn. rewrite Ha in Hturn. unfold press_a, enter_menu in Hturn.
    destruct (ok_menu m Hm) as [H0|[H0|H0]]; rewrite H0 in Hturn, Hmenu;
      cbn [Z.eqb Pos.eqb] in Hturn; prj; rewrite ?H0 in Hturn.
    - left. split; [exact H0|].
      change (u32 (0 + 1)) with 1%Z in Hturn. cbn [Z.eqb Pos.eqb andb] in Hturn.
      destruct (app_metadata m !! Z.to_nat (selected_idx m)); [|discriminate].
      destruct (title_get_user_application_data C log (title_id t) (user_app_data m))
        as [ok d].
      destruct ok; cbn [fst snd orb] in Hturn; prj.
      + change (3 <=? 1)%Z with false in Hturn. cbv iota in Hturn.
        inversion Hturn; subst. prj. auto.
      + inversion Hturn; subst. prj. discriminate Hmenu.
    - right. split; [exact H0|].
      change (u32 (1 + 1)) with 2%Z in Hturn. cbn [Z.eqb Pos.eqb andb] in Hturn.
      destruct (_ || _) in Hturn; prj.
      + cbn [orb] in Hturn. inversion Hturn; subst. prj. discriminate Hmenu.
      + change (3 <=? 2)%Z with false in Hturn. cbn [orb] in Hturn.
        inversion Hturn; subst. prj. auto.
    - exfalso. change (u32 (2 + 1)) with 3%Z in Hturn.
      cbn [Z.eqb Pos.eqb andb] in Hturn.
      destruct (negb (selected_idx m =? 0)%Z); [discriminate|].
      change (3 <=? 3)%Z with true in Hturn. cbn [orb] in Hturn.
      inversion Hturn; subst. prj. discriminate Hmenu. }
  unfold handle. rewrite Ha', Hd, Hu, Hb. unfold press_b. prj. rewrite Hk1, Hmenu.
  unfold cursor.
  destruct Hsaved as [(H0 & H1 & H2)|(H0 & H1 & H2)]; rewrite H0.
  - change (u32 (0 + 1 - 1)) with 0%Z. change (0 =? UINT32_MAX)%Z with false.
    cbn [Z.eqb]. eexists. split; [reflexivity|]. prj. congruence.
  - change (u32 (1 + 1 - 1)) with 1%Z. change (1 =? UINT32_MAX)%Z with false.
    cbn [Z.eqb]. eexists. split; [reflexivity|]. prj. congruence.
Qed.

End MainProofs.

(** X8: the D-pad moves the cursor around the list, from the last line
    on to the first and from the first back to the last, so that up
    undoes down; a stick held stops at the ends of the list. *)
Theorem the_dpad_wraps_and_the_stick_stops m :
  menu_ok m ->
  selected_idx (press_down true m) = ((selected_idx m + 1) mod max_val m)%Z
  /\ selected_idx (press_up true m) = ((selected_idx m - 1) mod max_val m)%Z
  /\ selected_idx (press_up true (press_down true m)) = selected_idx m
  /\ selected_idx (press_down false m) = Z.min (selected_idx m + 1) (max_val m - 1)
  /\ selected_idx (press_up false m) = Z.max (selected_idx m - 1) 0.
Proof.
  intros H.
  assert (Hdown : forall m, menu_ok m -> forall dpad,
             selected_idx (press_down dpad m)
             = if dpad then ((selected_idx m + 1) mod max_val m)%Z
               else Z.min (selected_idx m + 1) (max_val m - 1)).
  { clear m H. intros m H dpad. pose proof (max_val_bound m H) as Hmax.
    destruct (ok_cursor m H) as (Hc1 & Hc2 & Hc3).
    unfold press_down.
    change (max_val (set_selected_idx (u32 (selected_idx m + 1)) m)) with (max_val m).
    cbn [selected_idx set_selected_idx scroll].
    rewrite (u32_small (selected_idx m + 1)) by lia.
    destruct (Z.leb_spec (max_val m) (selected_idx m + 1)).
    - destruct dpad; prj.
      + replace (selected_idx m + 1)%Z with (max_val m) by lia.
        rewrite Z_mod_same_full. reflexivity.
      + rewrite u32_small by lia. lia.
    - assert (Hsel : forall m', selected_idx m' = (selected_idx m + 1)%Z ->
                 selected_idx m'
                 = if dpad then ((selected_idx m + 1) mod max_val m)%Z
                   else Z.min (selected_idx m + 1) (max_val m - 1)).
      { intros m' ->. destruct dpad; [rewrite Z.mod_small by lia; reflexivity|lia]. }
      destruct (_ && _); apply Hsel; reflexivity. }
  assert (Hup : forall m, menu_ok m -> forall dpad,
             selected_idx (press_up dpad m)
             = if dpad then ((selected_idx m - 1) mod max_val m)%Z
               else Z.max (selected_idx m - 1) 0).
  { clear m H Hdown. intros m H dpad. pose proof (max_val_bound m H) as Hmax.
    destruct (ok_cursor m H) as (Hc1 & Hc2 & Hc3).
    unfold press_up.
    change (max_val (set_selected_idx (u32 (selected_idx m - 1)) m)) with (max_val m).
    cbn [selected_idx set_selected_idx scroll]. unfold UINT32_MAX.
    destruct (Z.eq_dec (selected_idx m) 0%Z) as [H0|H0].
    - rewrite H0. change (u32 (0 - 1)) with (2 ^ 32 - 1)%Z. rewrite Z.eqb_refl.
      destruct dpad; prj.
      + rewrite u32_small by lia.
        replace (0 - 1)%Z with (max_val m - 1 + (-1) * max_val m)%Z by lia.
        rewrite Z_mod_plus_full, Z.mod_small by lia. reflexivity.
      + lia.
    - rewrite (u32_small (selected_idx m - 1)) by lia.
      destruct (Z.eqb_spec (selected_idx m - 1) (2 ^ 32 - 1)); [lia|].
      assert (Hsel : forall m', selected_idx m' = (selected_idx m - 1)%Z ->
                 selected_idx m'
                 = if dpad then ((selected_idx m - 1) mod max_val m)%Z
                   else Z.max (selected_idx m - 1) 0).
      { intros m' ->. destruct dpad; [rewrite Z.mod_small by lia; reflexivity|lia]. }
      destruct (_ && _); apply Hsel; reflexivity. }
  pose proof (max_val_bound m H) as Hmax.
  destruct (ok_cursor m H) as (Hc1 & Hc2 & Hc3).
  assert (Hmv : max_val (press_down true m) = max_val m).
  { unfold press_down. repeat case_match; reflexivity. }
  rewrite (Hdown m H true), (Hdown m H false), (Hup m H true), (Hup m H false).
  repeat split.
  rewrite (Hup _ (press_down_ok true m H) true), (Hdown m H true), Hmv.
  rewrite Zminus_mod_idemp_l.
  replace (selected_idx m + 1 - 1)%Z with (selected_idx m) by lia.
  apply Z.mod_small. lia.
Qed.

(** X9: line 881 tests only the pointer that the second
    [titleGetApplicationMetadataEntries] returns, not the count as line
    785 does: if it returns a table without entries, the next screen
    reads [app_metadata[0]], which is past the end of the table,
    whatever the menu was and whatever is pressed afterwards. *)
Theorem a_refresh_to_an_empty_table_is_read_past_its_end K C p script m log :
  poll_refreshes p = true -> refreshed_entries p = Some [] ->
  poll_loop K C (p :: script) m log
  = Fault (log ++ [Ui_titleGetApplicationMetadataEntries]).
Proof.
  unfold poll_refreshes. intros Hp Hr.
  apply andb_prop in Hp as [Hp Hgc]. apply andb_prop in Hp as [Hd Hh].
  cbn [poll_loop]. rewrite Hd, Hh, Hgc, Hr. reflexivity.
Qed.

(** * More about [nspDump] *)

Section DumpProofs.

Context (E : Collaborators).

(** ** The switches *)

Lemma obeys_nspDump_contexts t o : emits (obeys_options o) (nspDump_contexts E t o).
Proof.
  destruct o as [dl rc tk ac]. unfold obeys_options. cbn [set_download_type
    remove_console_data remove_titlekey_crypto change_acid_rsa].
  unfold nspDump_contexts, init_content, init_content_type_ctx.
  cbn [set_download_type remove_console_data remove_titlekey_crypto change_acid_rsa].
  solve_emits.
Qed.

Lemma obeys_nspDump_credentials t o tik :
  emits (obeys_options o) (nspDump_credentials E t o tik).
Proof.
  destruct o as [dl rc tk ac]. unfold obeys_options. cbn [set_download_type
    remove_console_data remove_titlekey_crypto change_acid_rsa].
  unfold nspDump_credentials.
  cbn [set_download_type remove_console_data remove_titlekey_crypto change_acid_rsa].
  destruct tk, rc; cbn [negb andb]; solve_emits.
Qed.

(** X11: in every run of [nspDump], however it ends, a switch that is
    off keeps its collaborator from being called:
    [ncaSetDownloadDistributionType], [ncaRemoveTitlekeyCrypto] and
    [programInfoGenerateNcaPatch] are called only with their switches
    on, ticket and certificate chain are resolved only with the removal
    of the title key crypto off, and the ticket is converted only if the
    removal of the console data is on as well. *)
Theorem nspDump_obeys_its_options t o : emits (obeys_options o) (nspDump E t o).
Proof.
  unfold nspDump.
  destruct (bool_decide _); [apply emits_abort|].
  apply emits_bind; [apply obeys_nspDump_contexts|].
  intros cx. apply emits_bind; [apply obeys_nspDump_credentials|].
  intros cr. apply emits_bind.
  { apply (emits_weaken no_call); [|apply emits_nspDump_layout]. intros c; discriminate. }
  intros ly. apply emits_bind; [unfold write_header; apply emits_or_abort|].
  intros h1. apply emits_bind.
  { apply (emits_weaken wait_call); [|apply emits_nspDump_wait_usb].
    intros []; simpl; auto; discriminate. }
  intros conn. apply emits_bind; [apply emits_check|]. intros _.
  apply emits_bind; [solve_emits|]. intros ok.
  apply emits_bind; [apply emits_check|]. intros _.
  apply emits_bind.
  { apply emits_for_loop. intros i st.
    apply (emits_weaken stream_call); [|apply emits_write_nca].
    intros []; simpl; auto; discriminate. }
  intros st. apply emits_bind.
  { apply (emits_weaken cnmt_xml_call); [|apply emits_write_cnmt_xml].
    intros []; simpl; auto; discriminate. }
  intros st2. apply emits_bind.
  { apply emits_for_loop. intros i pfs.
    apply (emits_weaken send_call); [|apply emits_write_content_type_ctx_data].
    intros []; simpl; auto; discriminate. }
  intros pfs. apply emits_bind.
  { apply (emits_weaken send_call); [|apply emits_write_tik_cert].
    intros []; simpl; auto; discriminate. }
  intros _. apply emits_bind; [unfold write_header; apply emits_or_abort|].
  intros h2. apply emits_bind; [solve_emits|]. intros ok2.
  apply emits_bind; [apply emits_check|]. intros _. apply emits_ret.
Qed.

(** ** The dialogue with the transport *)

(** A phase that hands nothing to the transport, before the rest of the
    run. *)
Lemma dialogue_pre {A} (P : Call -> bool) (m : M A) (k : A -> M Dump) :
  emits P m ->
  (forall c, P c = true -> is_usb_transfer c = false) ->
  (forall a w1 r w', k a w1 = (r, w') ->
     exists evs, calls w' = calls w1 ++ evs /\ dialogue evs r) ->
  forall w r w', bind m k w = (r, w') ->
    exists evs, calls w' = calls w ++ evs /\ dialogue evs r.
Proof.
  intros Hm HP Hk w r w' H.
  assert (Hpre : forall e1, forallb P e1 = true ->
            forallb (fun c => negb (is_usb_transfer c)) e1 = true).
  { intros e1 He1. rewrite forallb_forall in *. intros c Hc.
    rewrite (HP c (He1 c Hc)). reflexivity. }
  apply bind_run in H as [(a & w1 & H1 & H2)|[(msg & H1 & ->)|[H1 ->]]].
  - apply Hm in H1 as (e1 & Hc1 & HP1 & _).
    apply Hk in H2 as (e2 & Hc2 & pre & rest & -> & Hpre2 & Hrest).
    exists (e1 ++ pre ++ rest). split; [rewrite Hc2, Hc1, <- app_assoc; reflexivity|].
    exists (e1 ++ pre), rest. split; [rewrite <- app_assoc; reflexivity|].
    split; [rewrite forallb_app, (Hpre e1 HP1), Hpre2; reflexivity|]. exact Hrest.
  - apply Hm in H1 as (e1 & Hc1 & HP1 & _).
    exists e1. split; [exact Hc1|]. exists e1, []. rewrite app_nil_r.
    split; [reflexivity|]. split; [exact (Hpre e1 HP1)|]. left. split; [reflexivity|].
    intros d; discriminate.
  - apply Hm in H1 as (e1 & Hc1 & HP1 & _).
    exists e1. split; [exact Hc1|]. exists e1, []. rewrite app_nil_r.
    split; [reflexivity|]. split; [exact (Hpre e1 HP1)|]. left. split; [reflexivity|].
    intros d; discriminate.
Qed.

(** A phase of the body, before the rest of the run. *)
Lemma after_announce_body {A} (P : Call -> bool) (m : M A) (k : A -> M Dump) :
  emits P m ->
  (forall c, P c = true -> body_call c = true) ->
  (forall a w1 r w', k a w1 = (r, w') ->
     exists evs, calls w' = calls w1 ++ evs /\ after_announce evs r) ->
  forall w r w', bind m k w = (r, w') ->
    exists evs, calls w' = calls w ++ evs /\ after_announce evs r.
Proof.
  intros Hm HP Hk w r w' H.
  assert (Hbody : forall e1, forallb P e1 = true -> forallb body_call e1 = true).
  { intros e1 He1. rewrite forallb_forall in *. intros c Hc. exact (HP c (He1 c Hc)). }
  apply bind_run in H as [(a & w1 & H1 & H2)|[(msg & H1 & ->)|[H1 ->]]].
  - apply Hm in H1 as (e1 & Hc1 & HP1 & _).
    apply Hk in H2 as (e2 & Hc2 & files & tail & -> & Hfiles & Htail).
    exists (e1 ++ files ++ tail). split; [rewrite Hc2, Hc1, <- app_assoc; reflexivity|].
    exists (e1 ++ files), tail. split; [rewrite <- app_assoc; reflexivity|].
    split; [rewrite forallb_app, (Hbody e1 HP1), Hfiles; reflexivity|]. exact Htail.
  - apply Hm in H1 as (e1 & Hc1 & HP1 & _).
    exists e1. split; [exact Hc1|]. exists e1, []. rewrite app_nil_r.
    split; [reflexivity|]. split; [exact (Hbody e1 HP1)|]. left. split; [reflexivity|].
    intros d; discriminate.
  - apply Hm in H1 as (e1 & Hc1 & HP1 & _).
    exists e1. split; [exact Hc1|]. exists e1, []. rewrite app_nil_r.
    split; [reflexivity|]. split; [exact (Hbody e1 HP1)|]. left. split; [reflexivity|].
    intros d; discriminate.
Qed.

Lemma usb_call_run c w r w' :
  usb_call E c w = (r, w') ->
  calls w' = calls w ++ [c] /\ exists ok, r = Ok ok.
Proof.
  unfold usb_call, bind, call, history, ret. cbn. intros H. inversion H; subst. cbn. eauto.
Qed.

Lemma check_run msg b w r w' :
  check msg b w = (r, w') -> w' = w /\ (r = Ok tt \/ r = Abort msg).
Proof. unfold check, ret, abort. destruct b; intros H; inversion H; auto. Qed.

(** X12: in every run of [nspDump], however it ends, nothing is handed
    to the transport before the package is announced with
    [usbSendFileProperties]; after the announcement the transport is not
    polled again and no second package is announced; [usbSendNspHeader]
    is called at most once, as the last call of the run, and only a run
    that reached it can finish: a run that fails earlier never sends the
    final header. *)
Theorem nspDump_announces_first_and_sends_the_header_last t o w r w' :
  nspDump E t o w = (r, w') ->
  exists evs, calls w' = calls w ++ evs /\ dialogue evs r.
Proof.
  unfold nspDump. destruct (bool_decide _).
  { intros H. inversion H; subst. exists []. rewrite app_nil_r. split; [reflexivity|].
    exists [], []. repeat split. left. split; [reflexivity|]. intros d; discriminate. }
  revert w r w'.
  apply (dialogue_pre contexts_call); [apply emits_nspDump_contexts
                                      |intros []; simpl; auto; discriminate|].
  intros cx.
  apply (dialogue_pre is_credential_call); [apply emits_nspDump_credentials
                                           |intros []; simpl; auto; discriminate|].
  intros cr.
  apply (dialogue_pre no_call); [apply emits_nspDump_layout|intros c; discriminate|].
  intros ly.
  apply (dialogue_pre no_call); [unfold write_header; apply emits_or_abort
                                |intros c; discriminate|].
  intros h1.
  apply (dialogue_pre wait_call); [apply emits_nspDump_wait_usb
                                  |intros []; simpl; auto; discriminate|].
  intros conn.
  apply (dialogue_pre no_call); [apply emits_check|intros c; discriminate|].
  intros _ w0 r w' H.
  (* the announcement *)
  apply bind_run in H as [(ok & w1 & H1 & H)|[(msg & H1 & ->)|[H1 ->]]];
    apply usb_call_run in H1 as [Hc1 [ok' Hok]]; try discriminate Hok.
  assert (Hrest : exists evs, calls w' = calls w1 ++ evs /\ after_announce evs r).
  { revert H. generalize w1 r w'. clear.
    apply (after_announce_body no_call); [apply emits_check|intros c; discriminate|].
    intros _.
    apply (after_announce_body stream_call).
    { apply emits_for_loop. intros i st. apply emits_write_nca. }
    { intros c Hc. unfold body_call. rewrite Hc. reflexivity. }
    intros st.
    apply (after_announce_body cnmt_xml_call); [apply emits_write_cnmt_xml| |].
    { intros c Hc. unfold body_call. rewrite Hc. apply orb_true_r. }
    intros st2.
    apply (after_announce_body send_call).
    { apply emits_for_loop. intros i pfs. apply emits_write_content_type_ctx_data. }
    { intros []; simpl; auto; discriminate. }
    intros pfs.
    apply (after_announce_body send_call); [apply emits_write_tik_cert| |].
    { intros []; simpl; auto; discriminate. }
    intros _.
    apply (after_announce_body no_call); [unfold write_header; apply emits_or_abort
                                         |intros c; discriminate|].
    intros h2 w r w' H.
    (* the header *)
    apply bind_run in H as [(sent & w1 & H1 & H)|[(msg & H1 & ->)|[H1 ->]]];
      apply usb_call_run in H1 as [Hc1 [sent' Hok]]; try discriminate Hok.
    apply bind_run in H as [(u & w2 & H2 & H)|[(msg & H2 & ->)|[H2 ->]]];
      apply check_run in H2 as [-> Hr].
    - inversion H; subst. eexists. split; [exact Hc1|].
      exists [], [Call_usbSendNspHeader (take (Z.to_nat (u32 (snd h2))) (fst h2))
                    (u32 (snd h2))].
      split; [reflexivity|]. split; [reflexivity|]. right. eauto 10.
    - destruct Hr as [Hr|Hr]; [discriminate|]. inversion Hr; subst.
      eexists. split; [exact Hc1|].
      exists [], [Call_usbSendNspHeader (take (Z.to_nat (u32 (snd h2))) (fst h2))
                    (u32 (snd h2))].
      split; [reflexivity|]. split; [reflexivity|]. right. eauto 10.
    - destruct Hr; discriminate. }
  destruct Hrest as (evs & Hc & Hafter).
  eexists. split; [rewrite Hc, Hc1, <- app_assoc; reflexivity|].
  exists [], ([Call_usbSendFileProperties
                 (u64 (snd h1 + fs_size (snd ly))) (cx_path cx) (u32 (snd h1))] ++ evs).
  split; [reflexivity|]. split; [reflexivity|]. right. cbn [app]. eauto 10.
Qed.

(** ** The bytes of the package *)

Lemma adds_refl w : adds w w 0.
Proof. exists []. rewrite app_nil_r. auto. Qed.

Lemma adds_trans w w1 w2 v1 v2 :
  adds w w1 v1 -> adds w1 w2 v2 -> adds w w2 (v1 + v2).
Proof.
  intros (e1 & Hc1 & <-) (e2 & Hc2 & <-). exists (e1 ++ e2).
  rewrite Hc2, Hc1, <- app_assoc, declared_bytes_app. auto.
Qed.

Lemma adds_emits {A} (P : Call -> bool) (m : M A) w r w' :
  emits P m -> (forall c, P c = true -> is_file_data c = false) ->
  m w = (r, w') -> adds w w' 0.
Proof.
  intros Hm HP H. apply Hm in H as (evs & Hc & Hevs & _).
  exists evs. split; [exact Hc|]. apply declared_bytes_no_file_data.
  rewrite forallb_forall in *. intros c Hc'. rewrite (HP c (Hevs c Hc')). reflexivity.
Qed.

Lemma adds_call w c :
  is_file_data c = false ->
  adds w {| calls := calls w ++ [c]; clock := clock w |} 0.
Proof. intros Hc. exists [c]. split; [reflexivity|]. destruct c; try discriminate; reflexivity. Qed.

Lemma unit_declared u :
  unit_ok u -> (0 <= u_size u < 2 ^ 64)%Z -> declared_bytes (unit_calls E u) = u_size u.
Proof.
  intros (Hprep & Hblocks & Hsize) Hrange. unfold unit_calls, nca_calls.
  rewrite !declared_bytes_app, (Hsize Hrange).
  rewrite (declared_bytes_no_file_data (u_prep u)); [cbn; lia|].
  rewrite forallb_forall in *. intros c Hc. apply Hprep in Hc.
  destruct c; try discriminate; reflexivity.
Qed.

Lemma units_declared units :
  Forall unit_ok units -> Forall (fun u => (0 <= u_size u < 2 ^ 64)%Z) units ->
  declared_bytes (flat_map (unit_calls E) units) = units_size units.
Proof.
  induction 1 as [|u units Hu _ IH]; intros Hr; [reflexivity|].
  inversion Hr; subst. cbn [flat_map units_size fold_right].
  rewrite declared_bytes_app, (unit_declared u Hu), IH by assumption. reflexivity.
Qed.

Lemma units_size_contexts units :
  forall nca_ctx : list NcaContext,
    length units = length nca_ctx ->
    (forall k u, units !! k = Some u -> u_size u = content_size (nca_ctx !!! k)) ->
    units_size units = payload_size (nca_entry <$> nca_ctx).
Proof.
  induction units as [|u units IH]; intros [|c l] Hlen Hk; try discriminate; [reflexivity|].
  cbn [units_size fold_right fmap list_fmap payload_size].
  fold (units_size units). fold (payload_size (nca_entry <$> l)).
  rewrite (Hk 0 u eq_refl). cbn [entry_size nca_entry]. f_equal.
  apply IH; [cbn in Hlen; lia|]. intros k u' Hu'. exact (Hk (S k) u' Hu').
Qed.

Lemma write_icons_declared cur icons :
  forall j idx pfs w st w',
    for_each_from icons j (write_icon E cur) (idx, pfs) w = (Ok st, w') ->
    adds w w' (payload_size (icon_entry E cur <$> icons)).
Proof.
  induction icons as [|icon icons IH]; intros j idx pfs w st w' H; cbn in H.
  - inv_run H. apply adds_refl.
  - apply bind_Ok in H as ([idx1 pfs1] & w1 & H1 & H).
    apply IH in H. cbn [fmap list_fmap payload_size].
    fold (payload_size (icon_entry E cur <$> icons)). cbn [entry_size icon_entry].
    apply adds_trans with w1; [|exact H].
    unfold write_icon in H1.
    apply bind_Ok in H1 as (ok & w2 & Hs & H1). inv_run H1.
    apply send_file_Ok in Hs as (n & _ & ->).
    eexists. split; [reflexivity|]. cbn. lia.
Qed.

Lemma write_content_type_ctx_data_declared nca_ctx i pfs w pfs' w' :
  write_content_type_ctx_data E nca_ctx i pfs w = (Ok pfs', w') ->
  ctx_matches (nca_ctx !!! i) ->
  adds w w' (payload_size (ctx_entries E (nca_ctx !!! i))).
Proof.
  unfold write_content_type_ctx_data, ctx_matches, ctx_entries. intros H Hm.
  destruct (content_type_ctx (nca_ctx !!! i)) as [[p|n|l]|]; [| | |inv_run H; apply adds_refl];
    rewrite Hm in H.
  - apply bind_Ok in H as (r & w1 & Hr & H). inv_run Hr.
    apply bind_Ok in H as (ok & w2 & Hs & H). inv_run H. cbn in Hs.
    apply send_file_Ok in Hs as (name & _ & ->).
    eexists. split; [reflexivity|]. cbn. lia.
  - apply bind_Ok in H as (r & w1 & Hr & H).
    apply bind_Ok in Hr as ([idx1 pfs1] & w0 & Hicons & Hr). inv_run Hr.
    apply write_icons_declared in Hicons.
    apply bind_Ok in H as (ok & w2 & Hs & H). inv_run H. cbn in Hs.
    apply send_file_Ok in Hs as (name & _ & ->).
    rewrite payload_size_app. apply adds_trans with w1; [exact Hicons|].
    eexists. split; [reflexivity|]. cbn. lia.
  - apply bind_Ok in H as (r & w1 & Hr & H). inv_run Hr.
    apply bind_Ok in H as (ok & w2 & Hs & H). inv_run H. cbn in Hs.
    apply send_file_Ok in Hs as (name & _ & ->).
    eexists. split; [reflexivity|]. cbn. lia.
Qed.

Lemma write_content_type_ctx_datas_declared nca_ctx n :
  forall i pfs w pfs' w',
    for_loop n i (write_content_type_ctx_data E nca_ctx) pfs w = (Ok pfs', w') ->
    (forall k, ctx_matches (nca_ctx !!! k)) ->
    i + n <= length nca_ctx ->
    adds w w' (payload_size (flat_map (ctx_entries E) (take n (drop i nca_ctx)))).
Proof.
  induction n as [|n IH]; intros i pfs w pfs' w' H Hm Hlen; cbn in H.
  - inv_run H. rewrite take_0. apply adds_refl.
  - apply bind_Ok in H as (pfs1 & w1 & H1 & H).
    destruct (lookup_lt_is_Some_2 nca_ctx i) as [c Hc]; [lia|].
    rewrite (drop_S _ _ _ Hc). cbn [take flat_map]. rewrite payload_size_app.
    apply adds_trans with w1.
    + rewrite <- (list_lookup_total_correct _ _ _ Hc).
      apply (write_content_type_ctx_data_declared _ _ _ _ _ _ H1), Hm.
    + apply (IH _ _ _ _ _ H); [exact Hm|lia].
Qed.

Lemma tik_cert_declared table cr w w' evs :
  calls w' = calls w ++ evs -> tik_cert_calls table cr evs ->
  adds w w' (payload_size (tik_cert_entries cr)).
Proof.
  unfold tik_cert_calls, tik_cert_entries. intros Hc H. exists evs. split; [exact Hc|].
  destruct (retrieve_tik_cert cr).
  - destruct H as (e1 & e2 & _ & _ & ->). cbn. lia.
  - subst evs. reflexivity.
Qed.

Lemma payload_flat_map_lookup (l l' : list NcaContext) n :
  (forall k, k < n ->
     payload_size (ctx_entries E (l !!! k)) = payload_size (ctx_entries E (l' !!! k))) ->
  n <= length l -> n <= length l' ->
  payload_size (flat_map (ctx_entries E) (take n l))
  = payload_size (flat_map (ctx_entries E) (take n l')).
Proof.
  revert l l'. induction n as [|n IH]; intros l l' Hk Hl Hl'.
  - rewrite !take_0. reflexivity.
  - destruct l as [|c l]; [simpl in Hl; lia|]. destruct l' as [|c' l']; [simpl in Hl'; lia|].
    cbn [take flat_map]. rewrite !payload_size_app. f_equal.
    + exact (Hk 0 ltac:(lia)).
    + apply IH; [|simpl in Hl; lia|simpl in Hl'; lia].
      intros k Hlt. exact (Hk (S k) ltac:(lia)).
Qed.

Lemma payload_ctx_entries c c' :
  content_type_ctx c = content_type_ctx c' ->
  payload_size (ctx_entries E c) = payload_size (ctx_entries E c').
Proof.
  unfold ctx_entries. intros <-.
  destruct (content_type_ctx c) as [[p|n|l]|]; try reflexivity.
  rewrite !payload_size_app. f_equal.
  induction (icon_ctx n) as [|icon icons IH]; [reflexivity|].
  rewrite !fmap_cons. unfold payload_size in *.
  cbn [fold_right entry_size icon_entry]. rewrite IH. reflexivity.
Qed.

Lemma forget_size (l l' : list NcaContext) k :
  forget_data_idx <$> l = forget_data_idx <$> l' ->
  content_size (l !!! k) = content_size (l' !!! k).
Proof.
  intros H. apply (fmap_lookup_total _ _ _ k) in H.
  apply (f_equal content_size) in H. exact H.
Qed.

(** X13: in a finished run of [nspDump] the sizes of the data handed to
    [usbSendFileData] add up to the sizes that the entry table declares,
    but for the title-meta XML, which is declared with the size of its
    first generation and sent with the size of its second; when the two
    generations have the same size, the size announced for the package
    with [usbSendFileProperties] is the size of the header and of the
    data sent, provided their sum fits 64 bits. *)
Theorem nspDump_sends_the_bytes_it_declares t o w d w' :
  nspDump E t o w = (Ok d, w') -> bytes_as_declared w d w'.
Proof.
  intros H.
  pose proof (fun k => stream_fixed E t o w d w' k H) as Hfixed.
  pose proof (nspDump_Ok E _ _ _ _ _ H) as Hph.
  destruct Hph as [w1 w2 w3 w4 w5 w6 w7 w8 w9 buf1 buf2 st1 st2 Hcc Hcx Hcr Hly Hh1 Hsize
                     Hwait Hann Hannok Hncas Hxml Hdata Htik Hh2 Hresend Hresendok
                     Hbuf Hnca Hcnmt].
  destruct (contexts_prepared E _ _ _ _ _ Hcx) as (Hlen & Hmeta & Hprep).
  pose proof (layout_ready E _ _ _ _ _ _ Hly Hlen Hcc Hmeta Hprep) as (_ & _ & Hready).
  pose proof (nspDump_layout_spec E _ _ _ _ _ _ Hly Hlen Hcc)
    as (-> & Hforget & _ & Hentries & Hcons).
  assert (Hlenly : length (fst (d_layout d)) = content_count t).
  { rewrite (fmap_length_eq _ _ _ Hforget). exact Hlen. }
  (* what is sent, phase by phase *)
  pose proof (adds_emits contexts_call _ _ _ _ (emits_nspDump_contexts E t o)
                ltac:(intros []; simpl; auto; discriminate) Hcx) as A1.
  pose proof (adds_emits is_credential_call _ _ _ _ (emits_nspDump_credentials E t o _)
                ltac:(intros []; simpl; auto; discriminate) Hcr) as A2.
  pose proof (adds_emits wait_call _ _ _ _ (emits_nspDump_wait_usb E)
                ltac:(intros []; simpl; auto; discriminate) Hwait) as A4.
  assert (A5 : adds w4 w5 0) by (subst w5; apply adds_call; reflexivity).
  assert (A6 : adds w5 w6 (payload_size (nca_entry <$> cx_nca_ctx (d_contexts d)))).
  { apply write_ncas_spec in Hncas
      as (units & Hlenu & Hcalls & _ & Hok & Hspec & _); [|cbn; lia].
    cbn [st_nca_ctx] in Hspec.
    exists (flat_map (unit_calls E) units). split; [exact Hcalls|].
    rewrite units_declared; [|exact Hok|].
    - apply units_size_contexts; [lia|].
      intros k u Hu. destruct (Hspec k u Hu) as (Hu1 & _).
      rewrite Hu1. cbn [Nat.add]. apply forget_size. exact Hforget.
    - apply Forall_lookup. intros k u Hu. destruct (Hspec k u Hu) as (Hu1 & _).
      rewrite Hu1. apply Hready. }
  assert (Hlen1 : length (st_nca_ctx st1) = content_count t).
  { apply write_ncas_spec in Hncas as (_ & _ & _ & _ & _ & _ & Hfix & _); [|cbn; lia].
    rewrite (fmap_length_eq _ _ _ Hfix). exact Hlenly. }
  apply write_cnmt_xml_spec in Hxml
    as (xml & size & name & _ & _ & Hcalls7 & _ & _ & Hnca2 & _ & Hsize2 & _).
  assert (A7 : adds w6 w7 (authoring_tool_xml_size (st_cnmt_ctx (d_stream d)))).
  { eexists. split; [exact Hcalls7|]. rewrite Hcnmt, Hsize2. cbn. lia. }
  assert (A8 : adds w7 w8
                 (payload_size
                    (flat_map (ctx_entries E)
                       (take (content_count t - 1) (cx_nca_ctx (d_contexts d)))))).
  { apply write_content_type_ctx_datas_declared in Hdata.
    - rewrite drop_0 in Hdata.
      rewrite (payload_flat_map_lookup _ (cx_nca_ctx (d_contexts d))) in Hdata;
        [exact Hdata| |rewrite Hnca2; lia|lia].
      intros k _. apply payload_ctx_entries.
      rewrite <- Hnca. apply Hfixed.
    - intros k. unfold ctx_matches. rewrite <- Hnca.
      destruct (Hfixed k) as (_ & -> & ->). apply (contexts_match E _ _ _ _ _ Hcx).
    - rewrite Hnca2. lia. }
  apply write_tik_cert_spec in Htik as (e9 & Hc9 & Htik).
  pose proof (tik_cert_declared _ _ _ _ _ Hc9 Htik) as A9.
  assert (A10 : adds w9 w' 0) by (subst w'; apply adds_call; reflexivity).
  pose proof (adds_trans _ _ _ _ _ A1
               (adds_trans _ _ _ _ _ A2
                 (adds_trans _ _ _ _ _ A4
                   (adds_trans _ _ _ _ _ A5
                     (adds_trans _ _ _ _ _ A6
                       (adds_trans _ _ _ _ _ A7
                         (adds_trans _ _ _ _ _ A8
                           (adds_trans _ _ _ _ _ A9 A10)))))))) as (evs & Hcalls & Hbytes).
  assert (Hpayload :
            payload_size (entries (snd (d_layout d)))
            = (payload_size (nca_entry <$> cx_nca_ctx (d_contexts d))
               + (authoring_tool_xml_size (cx_cnmt_ctx (d_contexts d))
                  + (payload_size
                       (flat_map (ctx_entries E)
                          (take (content_count t - 1) (cx_nca_ctx (d_contexts d))))
                     + payload_size (tik_cert_entries (d_credentials d)))))%Z).
  { rewrite Hentries. unfold layout_entries. rewrite !payload_size_app, Hlen.
    cbn [payload_size fold_right entry_size cnmt_xml_entry]. lia. }
  exists evs. split; [exact Hcalls|]. cbv zeta. split; [lia|].
  intros Hxml12 Hfit.
  rewrite Hsize, Hcons, Z.add_comm, u64_add_l.
  unfold u64. rewrite Z.mod_small by lia. lia.
Qed.

(** ** A control unit without icons *)

Lemma extends_trans w w1 w2 : extends w w1 -> extends w1 w2 -> extends w w2.
Proof.
  intros (e1 & H1) (e2 & H2). exists (e1 ++ e2). rewrite H2, H1, app_assoc. reflexivity.
Qed.

Lemma extends_emits {A} (P : Call -> bool) (m : M A) w r w' :
  emits P m -> m w = (r, w') -> extends w w'.
Proof. intros Hm H. apply Hm in H as (evs & Hc & _). exists evs. exact Hc. Qed.

Lemma extends_call w c : extends w {| calls := calls w ++ [c]; clock := clock w |}.
Proof. exists [c]. reflexivity. Qed.

(** The turn [k] of a loop that ran through. *)
Lemma for_loop_at {St} (body : nat -> St -> M St) n :
  forall i s w s' w' k,
    for_loop n i body s w = (Ok s', w') -> i <= k < i + n ->
    exists s1 w1 s2 w2,
      for_loop (k - i) i body s w = (Ok s1, w1)
      /\ body k s1 w1 = (Ok s2, w2)
      /\ for_loop (i + n - S k) (S k) body s2 w2 = (Ok s', w').
Proof.
  induction n as [|n IH]; intros i s w s' w' k H Hk; [lia|].
  cbn in H. apply bind_Ok in H as (s0 & w0 & H0 & H).
  destruct (decide (k = i)) as [->|Hne].
  - exists s, w, s0, w0. replace (i - i) with 0 by lia. split; [reflexivity|].
    split; [exact H0|]. replace (i + S n - S i) with n by lia. exact H.
  - destruct (IH (S i) s0 w0 s' w' k H ltac:(lia)) as (s1 & w1 & s2 & w2 & Ha & Hb & Hc).
    exists s1, w1, s2, w2. replace (k - i) with (S (k - S i)) by lia.
    split; [|split; [exact Hb|]].
    + cbn [for_loop]. unfold bind. rewrite H0. exact Ha.
    + replace (i + S n - S k) with (S i + n - S k) by lia. exact Hc.
Qed.

(** Lines 380-397 for a NACP without icons: the entry of the XML is
    added, its index is not kept. *)
Lemma add_content_type_ctx_info_iconless i nca_ctx pfs w st w' nacp :
  add_content_type_ctx_info E i (nca_ctx, pfs) w = (Ok st, w') ->
  content_type_ctx (nca_ctx !!! i) = Some (ControlCtx nacp) -> icon_ctx nacp = [] ->
  fst st = nca_ctx.
Proof.
  unfold add_content_type_ctx_info. intros H Hctx Hicons. rewrite Hctx, Hicons in H.
  destruct (content_type (nca_ctx !!! i)); inv_run H; try reflexivity.
  cbn in Hrun. inv_run Hrun. reflexivity.
Qed.

Lemma iconless_idx n :
  forall i nca_ctx pfs w st w' k nacp,
    for_loop n i (add_content_type_ctx_info E) (nca_ctx, pfs) w = (Ok st, w') ->
    content_type_ctx (nca_ctx !!! k) = Some (ControlCtx nacp) -> icon_ctx nacp = [] ->
    fst st !!! k = nca_ctx !!! k.
Proof.
  induction n as [|n IH]; intros i nca_ctx pfs w st w' k nacp H Hctx Hicons; cbn in H.
  - inv_run H. reflexivity.
  - apply bind_Ok in H as ([nca1 pfs1] & w1 & H1 & H).
    assert (Hk : nca1 !!! k = nca_ctx !!! k).
    { destruct (decide (k = i)) as [->|Hne].
      - apply add_content_type_ctx_info_iconless with (nacp := nacp) in H1;
          [|assumption|assumption]. cbn in H1. rewrite H1. reflexivity.
      - apply add_content_type_ctx_info_spec in H1 as (_ & H1 & _). exact (H1 k Hne). }
    rewrite <- Hk. apply (IH _ _ _ _ _ _ _ nacp H); [rewrite Hk; exact Hctx|exact Hicons].
Qed.

Lemma fixed_lookup (l l' : list NcaContext) k :
  nca_fixed <$> l = nca_fixed <$> l' ->
  content_type (l !!! k) = content_type (l' !!! k)
  /\ content_type_ctx (l !!! k) = content_type_ctx (l' !!! k)
  /\ content_type_ctx_data_idx (l !!! k) = content_type_ctx_data_idx (l' !!! k).
Proof.
  intros H. apply (fmap_lookup_total _ _ _ k) in H. unfold nca_fixed in H.
  inversion H. auto.
Qed.

(** X14: a control unit whose NACP has no icons gets the entry of its
    XML added to the table without its index being kept (line 396 passes
    [NULL]), so that [content_type_ctx_data_idx] is still 0 when the XML
    is sent: in a finished run the XML of such a unit is announced to the
    transport under the name of entry 0 of the table, the name of a
    content archive, and not under the name of its own entry. *)
Theorem nspDump_sends_an_iconless_nacp_xml_under_an_archive_name t o w d w' k nacp :
  nspDump E t o w = (Ok d, w') ->
  one_meta t ->
  k < content_count t - 1 ->
  content_type_ctx (cx_nca_ctx (d_contexts d) !!! k) = Some (ControlCtx nacp) ->
  icon_ctx nacp = [] ->
  content_type_ctx_data_idx (fst (d_layout d) !!! k) = 0
  /\ nacp_xml_under_archive_name w nacp w'.
Proof.
  intros H Hone Hk Hctx Hicons.
  pose proof (nspDump_Ok E _ _ _ _ _ H) as Hph.
  destruct Hph as [w1 w2 w3 w4 w5 w6 w7 w8 w9 buf1 buf2 st1 st2 Hcc Hcx Hcr Hly Hh1 Hsize
                     Hwait Hann Hannok Hncas Hxml Hdata Htik Hh2 Hresend Hresendok
                     Hbuf Hnca Hcnmt].
  destruct (contexts_prepared E _ _ _ _ _ Hcx) as (Hlen & Hmeta & Hprep).
  pose proof (contexts_named E _ _ _ _ _ Hcx Hone) as Hnamed.
  pose proof (contexts_match E _ _ _ _ _ Hcx) as [_ Hmatch].
  pose proof (nspDump_layout_spec E _ _ _ _ _ _ Hly Hlen Hcc)
    as (Hw3 & Hforget & _ & Hentries & _).
  assert (Hlenly : length (fst (d_layout d)) = content_count t).
  { rewrite (fmap_length_eq _ _ _ Hforget). exact Hlen. }
  (* the index the layout leaves *)
  assert (Hidx : fst (d_layout d) !!! k = cx_nca_ctx (d_contexts d) !!! k).
  { clear Hw3. unfold nspDump_layout in Hly.
    apply bind_Ok in Hly as ([nca1 pfs1] & v1 & Hl1 & Hly).
    apply add_nca_infos in Hl1 as (Hl1 & _); [|lia]. cbn in Hl1. subst nca1.
    apply bind_Ok in Hly as ([nca2 pfs2] & v2 & Hl2 & Hly).
    unfold add_cnmt_xml_info in Hl2. inv_run Hl2.
    match goal with Heq : (_, _) = (nca2, pfs2) |- _ => injection Heq as <- <- end.
    apply bind_Ok in Hly as ([nca3 pfs3] & v3 & Hl3 & Hly).
    match type of Hl3 with
    | for_loop _ _ _ (?l, _) _ = _ =>
        assert (Hk2 : l !!! k = cx_nca_ctx (d_contexts d) !!! k)
          by (apply list_lookup_total_insert_ne; lia)
    end.
    apply (iconless_idx _ _ _ _ _ _ _ k nacp) in Hl3;
      [|rewrite Hk2; exact Hctx|exact Hicons].
    cbn in Hl3. rewrite Hk2 in Hl3.
    unfold add_tik_cert_info in Hly.
    destruct (retrieve_tik_cert (d_credentials d)); inv_run Hly;
      match goal with Heq : _ = d_layout d |- _ => rewrite <- Heq end; exact Hl3. }
  split.
  { rewrite Hidx. destruct (Hprep k) as (_ & _ & H0 & _). exact H0. }
  (* the table keeps its shape up to the turn of the unit *)
  assert (Hlong : Forall long_name (entries (snd (d_layout d)))).
  { rewrite Hentries. apply layout_entries_long; [|exact Hnamed].
    intros Hnil. rewrite Hnil in Hlen. cbn in Hlen. lia. }
  pose proof (stream_named E _ _ _ _ _ _ Hncas ltac:(cbn; lia)) as Hnamed1.
  pose proof Hncas as Hncas'.
  apply write_ncas_spec in Hncas'
    as (units & _ & _ & _ & _ & _ & Hfix1 & _ & Hshape1 & _); [|cbn; lia].
  cbn [st_nca_ctx st_pfs_file_ctx] in Hfix1, Hshape1.
  destruct (Hshape1 Hlong) as [Hshape1' Hlong1].
  pose proof Hxml as Hxml'.
  apply write_cnmt_xml_spec in Hxml'
    as (xml & size & name & _ & _ & _ & _ & _ & Hnca2 & _ & _ & Hren).
  assert (Hlen1 : length (st_nca_ctx st1) = content_count t).
  { rewrite (fmap_length_eq _ _ _ Hfix1). exact Hlenly. }
  apply pfsUpdateEntryName_shape in Hren as [Hshape2 Hlong2];
    [|apply (named_lookup_total _ _ Hnamed1); lia|exact Hlong1].
  destruct (for_loop_at _ _ _ _ _ _ _ k Hdata ltac:(lia))
    as (pfsa & wa & pfsb & wb & Hpre & Hturn & Hpost).
  rewrite Nat.sub_0_r in Hpre. pose proof Hpre as Hpre0.
  apply write_content_type_ctx_datas_shape in Hpre as [Hshape3 _];
    [|intros j Hj; rewrite Hnca2; apply (named_lookup_total _ _ Hnamed1); lia
     |exact Hlong2].
  (* the turn of the unit *)
  destruct (fixed_lookup _ _ k Hfix1) as (Hty & Hcx1 & Hdi).
  cbn [st_nca_ctx] in Hty, Hcx1, Hdi.
  rewrite <- Hnca2, Hidx in Hty, Hcx1, Hdi.
  pose proof (Hmatch k) as Hcontrol. unfold ctx_matches in Hcontrol.
  rewrite Hctx in Hcontrol.
  destruct (Hprep k) as (_ & _ & Hzero & _).
  unfold write_content_type_ctx_data in Hturn.
  rewrite Hcx1, Hctx, Hty, Hcontrol, Hdi, Hzero, Hicons in Hturn.
  apply bind_Ok in Hturn as (r & wr & Hr & Hturn).
  cbn in Hr. inv_run Hr.
  apply bind_Ok in Hturn as (ok & ws & Hs & Hturn). inv_run Hturn. cbn in Hs.
  apply send_file_Ok in Hs as (nm & Hnm & ->).
  unfold pfsGetEntryNameByIndexFromFileContext in Hnm.
  apply fmap_Some in Hnm as (e & He & ->).
  (* entry 0 is the entry of a content archive *)
  assert (Harch : is_archive_entry e = true).
  { assert (He0 : entries (snd (d_layout d)) !! 0
                  = Some (nca_entry (cx_nca_ctx (d_contexts d) !!! 0))).
    { rewrite Hentries. unfold layout_entries.
      destruct (cx_nca_ctx (d_contexts d)) as [|c l]; [cbn in Hlen; lia|]. reflexivity. }
    assert (Hsh : entry_shape <$> entries pfsa = entry_shape <$> entries (snd (d_layout d))).
    { unfold pfs_shape in *. congruence. }
    destruct (shape_lookup _ _ _ _ Hsh He0) as (e' & He' & Hshape).
    rewrite He in He'. inversion He'; subst e'.
    rewrite (archive_shape _ _ Hshape). apply nca_entry_archive.
    apply (named_lookup_total _ _ Hnamed). lia. }
  (* the calls before and after *)
  assert (Hbefore : extends w wr).
  { apply extends_trans with w1;
      [exact (extends_emits _ _ _ _ _ (emits_nspDump_contexts E t o) Hcx)|].
    apply extends_trans with w2;
      [exact (extends_emits _ _ _ _ _ (emits_nspDump_credentials E t o _) Hcr)|].
    apply extends_trans with w4;
      [exact (extends_emits _ _ _ _ _ (emits_nspDump_wait_usb E) Hwait)|].
    eapply extends_trans; [apply extends_call|].
    apply extends_trans with w6;
      [exact (extends_emits _ _ _ _ _
                (emits_for_loop stream_call _ _
                   (fun i st => emits_write_nca E _ i st) _ _) Hncas)|].
    apply extends_trans with w7;
      [exact (extends_emits _ _ _ _ _ (emits_write_cnmt_xml E t st1) Hxml)|].
    exact (extends_emits _ _ _ _ _
             (emits_for_loop send_call _ _
                (fun i st => emits_write_content_type_ctx_data E _ i st) _ _) Hpre0). }
  assert (Hafter : extends w8 {| calls := calls w9 ++ [Call_usbSendNspHeader
                     (take (Z.to_nat (u32 (nsp_header_size d))) (st_buf (d_stream d)))
                     (u32 (nsp_header_size d))]; clock := clock w9 |}).
  { apply extends_trans with w9;
      [exact (extends_emits _ _ _ _ _ (emits_write_tik_cert E _ _) Htik)|].
    apply extends_call. }
  apply (extends_emits _ _ _ _ _
           (emits_for_loop send_call _ _
              (fun i st => emits_write_content_type_ctx_data E _ i st) _ _)) in Hpost.
  destruct Hbefore as (before & Hb), Hpost as (mid & Hm), Hafter as (aft & Ha).
  exists before, e, (mid ++ aft). split; [|exact Harch].
  rewrite Ha, Hm. cbn [calls]. rewrite Hb, <- !app_assoc. reflexivity.
Qed.

End DumpProofs.
(** * The theorems at work on the toy console *)









(** The scenario of one program unit and the title-meta unit, default
    options, no ticket: the table has a fourth entry, the program info XML
    of the program unit. *)
Lemma C5_counterexample :
  exists d w',
    nspDump bare_console small_title default_options world0 = (Ok d, w')
    /\ content_count small_title = 2
    /\ one_meta small_title
    /\ titleGetContentCountByType small_title NcmContentType_Program = 1
    /\ (fun e => entry_extension (entry_name e))
         <$> entries (st_pfs_file_ctx (d_stream d))
       = [".nca"; ".cnmt.nca"; ".cnmt.xml"; ".programinfo.xml"]
    /\ ~ three_entry_table d.
Proof.
  eexists _, _. split; [vm_compute; reflexivity|].
  split; [reflexivity|]. split; [reflexivity|]. split; [reflexivity|].
  split; [vm_compute; reflexivity|].
  unfold three_entry_table. vm_compute. discriminate.
Qed.

Lemma C5_witness :
  exists d w',
    nspDump bare_console small_title default_options world0 = (Ok d, w')
    /\ content_count small_title = 2
    /\ one_meta small_title
    /\ titleGetContentCountByType small_title NcmContentType_Program = 1
    /\ nca_skipped (cx_nca_ctx (d_contexts d) !!! 0) = false
    /\ retrieve_tik_cert (d_credentials d) = false
    /\ lone_program_package bare_console small_title world0 d w'.
Proof.
  eexists _, _. split; [vm_compute; reflexivity|].
  split; [reflexivity|]. split; [reflexivity|]. split; [reflexivity|].
  split; [vm_compute; reflexivity|]. split; [vm_compute; reflexivity|].
  apply (C5_program_and_meta_package bare_console small_title default_options world0);
    [vm_compute; reflexivity | reflexivity | reflexivity | reflexivity
    | vm_compute; reflexivity | vm_compute; reflexivity].
Defined.

Lemma C6_witness :
  exists d w',
    nspDump personal_console full_title (options_with false true false false) world0
    = (Ok d, w')
    /\ credentials_law personal_console full_title (options_with false true false false)
         world0 d w'.
Proof.
  eexists _, _. split; [vm_compute; reflexivity|].
  apply (C6_ticket_and_certificate_chain personal_console full_title
           (options_with false true false false) world0).
  vm_compute; reflexivity.
Defined.

Lemma C7_witness :
  exists d w',
    nspDump locked_console full_title default_options world0 = (Ok d, w')
    /\ 0 < content_count full_title - 1
    /\ nca_skipped (cx_nca_ctx (d_contexts d) !!! 0) = true
    /\ skipped_unit locked_console full_title default_options world0 d w' 0.
Proof.
  eexists _, _. split; [vm_compute; reflexivity|].
  split; [unfold content_count; simpl; lia|]. split; [vm_compute; reflexivity|].
  apply (C7_unit_without_rights_material_keeps_its_slot locked_console full_title
           default_options world0);
    [vm_compute; reflexivity | unfold content_count; simpl; lia | vm_compute; reflexivity].
Defined.

Lemma C8_witness :
  exists d w',
    nspDump retail_console full_title default_options world0 = (Ok d, w')
    /\ cnmt_xml_twice retail_console full_title world0 d w'.
Proof.
  eexists _, _. split; [vm_compute; reflexivity|].
  apply (C8_title_meta_xml_is_generated_twice retail_console full_title default_options
           world0).
  vm_compute; reflexivity.
Defined.

Lemma C9_witness :
  no_host offline_console world0
  /\ fails_closed offline_console full_title default_options world0.
Proof.
  assert (Hno : no_host offline_console world0) by (intros j Hj; reflexivity).
  split; [exact Hno|].
  exact (proj2 (C9_connection_wait_is_bounded_and_fails_closed offline_console)
           full_title default_options world0 Hno).
Defined.

Lemma C10_witness :
  exists d w',
    nspDump retail_console full_title default_options world0 = (Ok d, w')
    /\ meta_unit_is_last retail_console full_title d.
Proof.
  eexists _, _. split; [vm_compute; reflexivity|].
  eapply (C10_meta_unit_is_in_the_last_slot retail_console full_title default_options
            world0).
  vm_compute; reflexivity.
Defined.

(** ** The menu at work *)

Lemma X1_witness :
  console_fits toy_menu_console = true
  /\ script_fits gamecard_taken_out = true
  /\ forall log, main toy_keys toy_menu_console gamecard_taken_out <> Fault log.
Proof.
  split; [reflexivity|]. split; [reflexivity|].
  apply (main_reads_in_bounds toy_keys toy_menu_console gamecard_taken_out); reflexivity.
Defined.

Lemma X2_witness :
  console_fits toy_menu_console = true
  /\ script_fits two_dumps_and_out = true
  /\ screens_ok (run_log (main toy_keys toy_menu_console two_dumps_and_out)).
Proof.
  split; [reflexivity|]. split; [reflexivity|].
  apply (main_keeps_the_cursor_on_screen toy_keys toy_menu_console two_dumps_and_out);
    reflexivity.
Defined.

Lemma X3_witness :
  run_log (main toy_keys toy_menu_console two_dumps_and_out) !! 19
  = Some (Ui_nspDump (Some full_title) (options_with false false true false))
  /\ run_log (main toy_keys toy_menu_console two_dumps_and_out) !! 27
     = Some (Ui_nspDump (Some small_title) (options_with false false true false))
  /\ dumps_as_shown (run_log (main toy_keys toy_menu_console two_dumps_and_out)).
Proof.
  split; [vm_compute; reflexivity|]. split; [vm_compute; reflexivity|].
  apply (main_dumps_what_the_screen_shows toy_keys toy_menu_console two_dumps_and_out);
    reflexivity.
Defined.

Lemma X4_witness :
  exists m log,
    main toy_keys toy_menu_console two_dumps = Waiting m log
    /\ list_idx m = 2%Z /\ ptr_info <$> title_info m = Some small_title
    /\ list_position_ok m.
Proof.
  eexists _, _. split; [vm_compute; reflexivity|].
  split; [reflexivity|]. split; [reflexivity|].
  eapply (main_counts_the_place_in_the_list toy_keys toy_menu_console two_dumps);
    [reflexivity|reflexivity|vm_compute; reflexivity].
Defined.

Lemma X5_witness :
  exists log,
    main toy_keys toy_menu_console two_dumps_and_out = Returned 0 log
    /\ exits_cleanly toy_menu_console 0 log.
Proof.
  eexists. split; [vm_compute; reflexivity|].
  eapply (main_closes_what_it_opened toy_keys toy_menu_console two_dumps_and_out);
    [reflexivity|reflexivity|vm_compute; reflexivity].
Defined.

Lemma X6_witness :
  exists m',
    handle toy_keys toy_menu_console (press (KEY_DRIGHT toy_keys)) options_menu []
    = Turn_next m' []
    /\ m' = set_options (<[2 := negb (options options_menu !!! 2)]> (options options_menu))
              options_menu
    /\ handle toy_keys toy_menu_console (press (KEY_DRIGHT toy_keys)) m' []
       = Turn_next options_menu [].
Proof.
  apply (a_switch_is_flipped_and_flipped_back toy_keys toy_menu_console
           (press (KEY_DRIGHT toy_keys)) options_menu [] 2);
    try reflexivity.
  vm_compute. lia.
Defined.

Lemma X7_witness :
  exists m1 log1,
    handle toy_keys toy_menu_console (press (KEY_A toy_keys))
      (press_down true (menu_init toy_table)) [] = Turn_next m1 log1
    /\ exists m2,
        handle toy_keys toy_menu_console (press (KEY_B toy_keys))
          (moves [Move_down true; Move_down true; Move_up false] m1) []
        = Turn_next m2 []
        /\ cursor m2 = cursor (press_down true (menu_init toy_table)).
Proof.
  eexists _, _. split; [vm_compute; reflexivity|].
  eapply (b_returns_to_where_a_was_pressed toy_keys toy_menu_console
            (press (KEY_A toy_keys)) (press (KEY_B toy_keys))
            (press_down true (menu_init toy_table)) []);
    try reflexivity.
  apply press_down_ok, menu_init_ok. vm_compute. split; reflexivity.
Defined.

Lemma X8_witness :
  selected_idx (press_down true (menu_init toy_table)) = 1%Z
  /\ selected_idx (press_up true (menu_init toy_table)) = 1%Z
  /\ selected_idx (press_down true (menu_init toy_table))
     = ((selected_idx (menu_init toy_table) + 1) mod max_val (menu_init toy_table))%Z
  /\ selected_idx (press_up true (menu_init toy_table))
     = ((selected_idx (menu_init toy_table) - 1) mod max_val (menu_init toy_table))%Z
  /\ selected_idx (press_up true (press_down true (menu_init toy_table)))
     = selected_idx (menu_init toy_table)
  /\ selected_idx (press_down false (menu_init toy_table))
     = Z.min (selected_idx (menu_init toy_table) + 1) (max_val (menu_init toy_table) - 1)
  /\ selected_idx (press_up false (menu_init toy_table))
     = Z.max (selected_idx (menu_init toy_table) - 1) 0.
Proof.
  split; [reflexivity|]. split; [reflexivity|].
  apply (the_dpad_wraps_and_the_stick_stops (menu_init toy_table)).
  apply menu_init_ok. vm_compute. split; reflexivity.
Defined.

Lemma X9_witness :
  poll_loop toy_keys toy_menu_console (gamecard (Some []) :: two_dumps) options_menu []
  = Fault [Ui_titleGetApplicationMetadataEntries].
Proof.
  apply (a_refresh_to_an_empty_table_is_read_past_its_end toy_keys toy_menu_console
           (gamecard (Some [])) two_dumps options_menu []); reflexivity.
Defined.

Lemma X12_witness :
  exists r w',
    nspDump retail_console full_title (options_with false false false true) world0 = (r, w')
    /\ exists evs, calls w' = calls world0 ++ evs /\ dialogue evs r.
Proof.
  eexists _, _. split; [vm_compute; reflexivity|].
  eapply (nspDump_announces_first_and_sends_the_header_last retail_console full_title
            (options_with false false false true) world0).
  vm_compute; reflexivity.
Defined.

Lemma X13_witness :
  exists d w',
    nspDump personal_console full_title (options_with true true false true) world0
    = (Ok d, w')
    /\ bytes_as_declared world0 d w'.
Proof.
  eexists _, _. split; [vm_compute; reflexivity|].
  eapply (nspDump_sends_the_bytes_it_declares personal_console full_title
            (options_with true true false true) world0).
  vm_compute; reflexivity.
Defined.

Lemma X14_witness :
  exists d w' nacp,
    nspDump iconless_console full_title (options_with false false false true) world0
    = (Ok d, w')
    /\ one_meta full_title
    /\ 1 < content_count full_title - 1
    /\ content_type_ctx (cx_nca_ctx (d_contexts d) !!! 1) = Some (ControlCtx nacp)
    /\ icon_ctx nacp = []
    /\ content_type_ctx_data_idx (fst (d_layout d) !!! 1) = 0
    /\ nacp_xml_under_archive_name world0 nacp w'.
Proof.
  eexists _, _, _. split; [vm_compute; reflexivity|]. split; [reflexivity|].
  split; [vm_compute; lia|]. split; [vm_compute; reflexivity|]. split; [reflexivity|].
  eapply (nspDump_sends_an_iconless_nacp_xml_under_an_archive_name iconless_console
            full_title (options_with false false false true) world0);
    [vm_compute; reflexivity | reflexivity | vm_compute; lia
    | vm_compute; reflexivity | reflexivity].
Defined.
